(** * Uniswap v4 indexer: accounting engine

    A shallow embedding of the event handlers of the indexer
    (src/handlers/swap.ts, src/handlers/modifyLiquidity.ts, the Donate
    handler, src/utils/liquidityUtils.ts, src/utils/intervalUpdates.ts and
    src/utils/transaction.ts) together with the properties that the
    specification states about them.

    Conventions of the embedding:
    - a JavaScript [bigint] is a [Z]; [a / b] and [a % b] on bigints
      truncate toward zero ([Z.quot], [Z.rem]) and throw a RangeError on a
      zero divisor;
    - a JavaScript [number] that holds a block number or timestamp is a
      [Z]; where the code computes on such numbers (the bucket updates),
      the arithmetic on [Z] is the arithmetic on doubles for timestamps up
      to [Number.MAX_SAFE_INTEGER] (module [Double]);
    - the entity store ([context.X.get] / [context.X.set]) is a record of
      finite maps from entity ids (strings) to records; [set] stores a
      record under its own [id] field;
    - a handler is a state-passing computation over the store which may
      throw; [None] stands for an uncaught exception (or a loop that does
      not stop, where fuel is involved);
    - the [await]s of a handler are run in program order. *)

From stdpp Require Import gmap strings pretty list fin_maps.
From Stdlib Require Import ZArith Lia Ascii String Sorted.
From Stdlib Require SpecFloat.

Local Open Scope Z_scope.

(** ** JavaScript bigint and JSBI arithmetic *)

Module BigInt.

(** [a / b]: truncating division, RangeError on [b = 0n]. *)
Definition div (a b : Z) : option Z :=
  if decide (b = 0) then None else Some (a ÷ b).

(** [a % b]: remainder with the sign of the dividend, RangeError on [0n]. *)
Definition rem (a b : Z) : option Z :=
  if decide (b = 0) then None else Some (Z.rem a b).

End BigInt.

(** The parts of [@uniswap/v3-sdk] that liquidityUtils.ts calls on numbers
    held as JSBI values.  The package is a dependency of the repository;
    [SqrtPriceMath] and [FullMath] are transcribed from it. *)
Module FullMath.

Definition mulDivRoundingUp (a b denominator : Z) : option Z :=
  let product := a * b in
  result ← BigInt.div product denominator;
  r ← BigInt.rem product denominator;
  Some (if decide (r = 0) then result else result + 1).

End FullMath.

Module SqrtPriceMath.

Definition Q96 : Z := 2 ^ 96.

Definition sortRatios (sqrtRatioAX96 sqrtRatioBX96 : Z) : Z * Z :=
  if sqrtRatioBX96 <? sqrtRatioAX96
  then (sqrtRatioBX96, sqrtRatioAX96)
  else (sqrtRatioAX96, sqrtRatioBX96).

Definition getAmount0Delta
    (sqrtRatioAX96 sqrtRatioBX96 liquidity : Z) (roundUp : bool) : option Z :=
  let '(sqrtRatioAX96, sqrtRatioBX96) := sortRatios sqrtRatioAX96 sqrtRatioBX96 in
  let numerator1 := Z.shiftl liquidity 96 in
  let numerator2 := sqrtRatioBX96 - sqrtRatioAX96 in
  if roundUp
  then
    q ← FullMath.mulDivRoundingUp numerator1 numerator2 sqrtRatioBX96;
    FullMath.mulDivRoundingUp q 1 sqrtRatioAX96
  else
    q ← BigInt.div (numerator1 * numerator2) sqrtRatioBX96;
    BigInt.div q sqrtRatioAX96.

Definition getAmount1Delta
    (sqrtRatioAX96 sqrtRatioBX96 liquidity : Z) (roundUp : bool) : option Z :=
  let '(sqrtRatioAX96, sqrtRatioBX96) := sortRatios sqrtRatioAX96 sqrtRatioBX96 in
  if roundUp
  then FullMath.mulDivRoundingUp liquidity (sqrtRatioBX96 - sqrtRatioAX96) Q96
  else BigInt.div (liquidity * (sqrtRatioBX96 - sqrtRatioAX96)) Q96.

End SqrtPriceMath.

(** An instance of the SDK's tick to price table, [TickMath.getSqrtRatioAtTick],
    used to run the handlers on concrete events.  The development itself is
    stated for an arbitrary such function (see [Section LiquidityUtils]). *)
Module TickMath.

Definition MIN_TICK : Z := -887272.
Definition MAX_TICK : Z := 887272.
Definition Q32 : Z := 2 ^ 32.
Definition MaxUint256 : Z := 2 ^ 256 - 1.

Definition mulShift (val mulBy : Z) : Z := Z.shiftr (val * mulBy) 128.

Definition magic : list (Z * Z) :=
  [ (0x2, 0xfff97272373d413259a46990580e213a);
    (0x4, 0xfff2e50f5f656932ef12357cf3c7fdcc);
    (0x8, 0xffe5caca7e10e4e61c3624eaa0941cd0);
    (0x10, 0xffcb9843d60f6159c9db58835c926644);
    (0x20, 0xff973b41fa98c081472e6896dfb254c0);
    (0x40, 0xff2ea16466c96a3843ec78b326b52861);
    (0x80, 0xfe5dee046a99a2a811c461f1969c3053);
    (0x100, 0xfcbe86c7900a88aedcffc83b479aa3a4);
    (0x200, 0xf987a7253ac413176f2b074cf7815e54);
    (0x400, 0xf3392b0822b70005940c7a398e4b70f3);
    (0x800, 0xe7159475a2c29b7443b29c7fa6e889d9);
    (0x1000, 0xd097f3bdfd2022b8845ad8f792aa5825);
    (0x2000, 0xa9f746462d870fdf8a65dc1f90e061e5);
    (0x4000, 0x70d869a156d2a1b890bb3df62baf32f7);
    (0x8000, 0x31be135f97d08fd981231505542fcfa6);
    (0x10000, 0x9aa508b5b7a84e1c677de54f3e99bc9);
    (0x20000, 0x5d6af8dedb81196699c329225ee604);
    (0x40000, 0x2216e584f5fa1ea926041bedfe98);
    (0x80000, 0x48a170391f7dc42444e8fa2) ].

Definition getSqrtRatioAtTick (tick : Z) : option Z :=
  if decide (MIN_TICK <= tick <= MAX_TICK) then
    let absTick := if tick <? 0 then tick * -1 else tick in
    let ratio0 :=
      if decide (Z.land absTick 0x1 ≠ 0)
      then 0xfffcb933bd6fad37aa2d162d1a594001
      else 0x100000000000000000000000000000000 in
    let ratio1 :=
      fold_left
        (fun ratio '(bit, mulBy) =>
           if decide (Z.land absTick bit ≠ 0) then mulShift ratio mulBy else ratio)
        magic ratio0 in
    ratio2 ← (if 0 <? tick then BigInt.div MaxUint256 ratio1 else Some ratio1);
    Some (if 0 <? Z.rem ratio2 Q32 then ratio2 ÷ Q32 + 1 else ratio2 ÷ Q32)
  else None.

End TickMath.

(** ** src/utils/liquidityUtils.ts *)

(** Fee growth inside a position's tick range. *)
Definition getFeeGrowthInside
    (feeGrowthGlobal feeGrowthOutsideLower feeGrowthOutsideUpper
     tickLower tickUpper currentTick : Z) : Z :=
  let feeGrowthBelow :=
    if tickLower <=? currentTick
    then feeGrowthOutsideLower
    else feeGrowthGlobal - feeGrowthOutsideLower in
  let feeGrowthAbove :=
    if currentTick <? tickUpper
    then feeGrowthOutsideUpper
    else feeGrowthGlobal - feeGrowthOutsideUpper in
  feeGrowthGlobal - feeGrowthBelow - feeGrowthAbove.

(** Accrued (uncollected) fees; the divisor [2n ** 128n] is never zero. *)
Definition calculateAccruedFees (liquidity feeGrowthInside feeGrowthInsideLast : Z) : Z :=
  (liquidity * (feeGrowthInside - feeGrowthInsideLast)) ÷ 2 ^ 128.

Module TokenAmounts.
Record t : Type := mk {
  amount0 : Z;
  amount1 : Z;
  amount0Abs : Z;
  amount1Abs : Z
}.
End TokenAmounts.

Section LiquidityUtils.

(** [TickMath.getSqrtRatioAtTick (Number tick)] of the SDK, as a function
    of the bigint tick: [None] when the SDK's range invariant throws. *)
Variable getSqrtRatioAtTick : Z -> option Z.

Definition calculateTokenAmounts
    (liquidityDelta tickLower tickUpper sqrtPriceX96 : Z) : option TokenAmounts.t :=
  let isAddingLiquidity := 0 <? liquidityDelta in
  let liquidityAbs := if liquidityDelta <? 0 then - liquidityDelta else liquidityDelta in
  sqrtPriceLowerX96 ← getSqrtRatioAtTick tickLower;
  sqrtPriceUpperX96 ← getSqrtRatioAtTick tickUpper;
  '(amount0Calculated, amount1Calculated) ←
    (if sqrtPriceX96 <=? sqrtPriceLowerX96 then
       a0 ← SqrtPriceMath.getAmount0Delta
              sqrtPriceLowerX96 sqrtPriceUpperX96 liquidityAbs false;
       Some (a0, 0)
     else if sqrtPriceUpperX96 <=? sqrtPriceX96 then
       a1 ← SqrtPriceMath.getAmount1Delta
              sqrtPriceLowerX96 sqrtPriceUpperX96 liquidityAbs false;
       Some (0, a1)
     else
       a0 ← SqrtPriceMath.getAmount0Delta
              sqrtPriceX96 sqrtPriceUpperX96 liquidityAbs false;
       a1 ← SqrtPriceMath.getAmount1Delta
              sqrtPriceLowerX96 sqrtPriceX96 liquidityAbs false;
       Some (a0, a1));
  let amount0 := if isAddingLiquidity then amount0Calculated else - amount0Calculated in
  let amount1 := if isAddingLiquidity then amount1Calculated else - amount1Calculated in
  Some (TokenAmounts.mk amount0 amount1 amount0Calculated amount1Calculated).

End LiquidityUtils.

(** ** Helpers of src/handlers/swap.ts *)

Definition Q128 : Z := 2 ^ 128.

Definition calculateFees (amount feeTier : Z) : Z :=
  (amount * feeTier) ÷ 1000000.

Definition abs (value : Z) : Z :=
  if value <? 0 then - value else value.

Definition updateFeeGrowth (currentFeeGrowth fees liquidity : Z) : option Z :=
  if decide (liquidity = 0) then Some currentFeeGrowth
  else q ← BigInt.div (fees * Q128) liquidity; Some (currentFeeGrowth + q).

Definition flipFeeGrowthOutside (feeGrowthGlobal feeGrowthOutside : Z) : Z :=
  feeGrowthGlobal - feeGrowthOutside.

(** ** Entities

    One module per entity type of the generated schema.  [set_f v r] is the
    assignment [r.f = v] on a mutable copy [{...rRO}] of a stored record. *)

(** Pool entity (created by the Initialize handler). *)
Module Pool.
Record t : Type := mk {
  id : string;
  chainId : Z;
  poolId : string;
  name : string;
  createdAtTimestamp : Z;
  createdAtBlockNumber : Z;
  token0_id : string;
  token1_id : string;
  feeTier : Z;
  tickSpacing : Z;
  hooks : string;
  liquidity : Z;
  sqrtPrice : Z;
  sqrtPriceX96 : Z;
  tick : option Z;
  observationIndex : Z;
  feeGrowthGlobal0X128 : Z;
  feeGrowthGlobal1X128 : Z;
  volume0 : Z;
  volume1 : Z;
  fees0 : Z;
  fees1 : Z;
  tvl0 : Z;
  tvl1 : Z;
  txCount : Z;
  swapCount : Z;
  modifyLiquidityCount : Z;
  positionCount : Z;
  activePositionCount : Z;
  lpCount : Z
}.
Definition set_tvl0 (v : Z) (r : t) : t :=
  {| id := id r; chainId := chainId r; poolId := poolId r; name := name r;
     createdAtTimestamp := createdAtTimestamp r; createdAtBlockNumber :=
     createdAtBlockNumber r; token0_id := token0_id r; token1_id := token1_id r; feeTier
     := feeTier r; tickSpacing := tickSpacing r; hooks := hooks r; liquidity :=
     liquidity r; sqrtPrice := sqrtPrice r; sqrtPriceX96 := sqrtPriceX96 r; tick := tick
     r; observationIndex := observationIndex r; feeGrowthGlobal0X128 :=
     feeGrowthGlobal0X128 r; feeGrowthGlobal1X128 := feeGrowthGlobal1X128 r; volume0 :=
     volume0 r; volume1 := volume1 r; fees0 := fees0 r; fees1 := fees1 r; tvl0 := v;
     tvl1 := tvl1 r; txCount := txCount r; swapCount := swapCount r;
     modifyLiquidityCount := modifyLiquidityCount r; positionCount := positionCount r;
     activePositionCount := activePositionCount r; lpCount := lpCount r |}.
Definition set_tvl1 (v : Z) (r : t) : t :=
  {| id := id r; chainId := chainId r; poolId := poolId r; name := name r;
     createdAtTimestamp := createdAtTimestamp r; createdAtBlockNumber :=
     createdAtBlockNumber r; token0_id := token0_id r; token1_id := token1_id r; feeTier
     := feeTier r; tickSpacing := tickSpacing r; hooks := hooks r; liquidity :=
     liquidity r; sqrtPrice := sqrtPrice r; sqrtPriceX96 := sqrtPriceX96 r; tick := tick
     r; observationIndex := observationIndex r; feeGrowthGlobal0X128 :=
     feeGrowthGlobal0X128 r; feeGrowthGlobal1X128 := feeGrowthGlobal1X128 r; volume0 :=
     volume0 r; volume1 := volume1 r; fees0 := fees0 r; fees1 := fees1 r; tvl0 := tvl0
     r; tvl1 := v; txCount := txCount r; swapCount := swapCount r; modifyLiquidityCount
     := modifyLiquidityCount r; positionCount := positionCount r; activePositionCount :=
     activePositionCount r; lpCount := lpCount r |}.
Definition set_txCount (v : Z) (r : t) : t :=
  {| id := id r; chainId := chainId r; poolId := poolId r; name := name r;
     createdAtTimestamp := createdAtTimestamp r; createdAtBlockNumber :=
     createdAtBlockNumber r; token0_id := token0_id r; token1_id := token1_id r; feeTier
     := feeTier r; tickSpacing := tickSpacing r; hooks := hooks r; liquidity :=
     liquidity r; sqrtPrice := sqrtPrice r; sqrtPriceX96 := sqrtPriceX96 r; tick := tick
     r; observationIndex := observationIndex r; feeGrowthGlobal0X128 :=
     feeGrowthGlobal0X128 r; feeGrowthGlobal1X128 := feeGrowthGlobal1X128 r; volume0 :=
     volume0 r; volume1 := volume1 r; fees0 := fees0 r; fees1 := fees1 r; tvl0 := tvl0
     r; tvl1 := tvl1 r; txCount := v; swapCount := swapCount r; modifyLiquidityCount :=
     modifyLiquidityCount r; positionCount := positionCount r; activePositionCount :=
     activePositionCount r; lpCount := lpCount r |}.
Definition set_feeGrowthGlobal0X128 (v : Z) (r : t) : t :=
  {| id := id r; chainId := chainId r; poolId := poolId r; name := name r;
     createdAtTimestamp := createdAtTimestamp r; createdAtBlockNumber :=
     createdAtBlockNumber r; token0_id := token0_id r; token1_id := token1_id r; feeTier
     := feeTier r; tickSpacing := tickSpacing r; hooks := hooks r; liquidity :=
     liquidity r; sqrtPrice := sqrtPrice r; sqrtPriceX96 := sqrtPriceX96 r; tick := tick
     r; observationIndex := observationIndex r; feeGrowthGlobal0X128 := v;
     feeGrowthGlobal1X128 := feeGrowthGlobal1X128 r; volume0 := volume0 r; volume1 :=
     volume1 r; fees0 := fees0 r; fees1 := fees1 r; tvl0 := tvl0 r; tvl1 := tvl1 r;
     txCount := txCount r; swapCount := swapCount r; modifyLiquidityCount :=
     modifyLiquidityCount r; positionCount := positionCount r; activePositionCount :=
     activePositionCount r; lpCount := lpCount r |}.
Definition set_feeGrowthGlobal1X128 (v : Z) (r : t) : t :=
  {| id := id r; chainId := chainId r; poolId := poolId r; name := name r;
     createdAtTimestamp := createdAtTimestamp r; createdAtBlockNumber :=
     createdAtBlockNumber r; token0_id := token0_id r; token1_id := token1_id r; feeTier
     := feeTier r; tickSpacing := tickSpacing r; hooks := hooks r; liquidity :=
     liquidity r; sqrtPrice := sqrtPrice r; sqrtPriceX96 := sqrtPriceX96 r; tick := tick
     r; observationIndex := observationIndex r; feeGrowthGlobal0X128 :=
     feeGrowthGlobal0X128 r; feeGrowthGlobal1X128 := v; volume0 := volume0 r; volume1 :=
     volume1 r; fees0 := fees0 r; fees1 := fees1 r; tvl0 := tvl0 r; tvl1 := tvl1 r;
     txCount := txCount r; swapCount := swapCount r; modifyLiquidityCount :=
     modifyLiquidityCount r; positionCount := positionCount r; activePositionCount :=
     activePositionCount r; lpCount := lpCount r |}.
Definition set_fees0 (v : Z) (r : t) : t :=
  {| id := id r; chainId := chainId r; poolId := poolId r; name := name r;
     createdAtTimestamp := createdAtTimestamp r; createdAtBlockNumber :=
     createdAtBlockNumber r; token0_id := token0_id r; token1_id := token1_id r; feeTier
     := feeTier r; tickSpacing := tickSpacing r; hooks := hooks r; liquidity :=
     liquidity r; sqrtPrice := sqrtPrice r; sqrtPriceX96 := sqrtPriceX96 r; tick := tick
     r; observationIndex := observationIndex r; feeGrowthGlobal0X128 :=
     feeGrowthGlobal0X128 r; feeGrowthGlobal1X128 := feeGrowthGlobal1X128 r; volume0 :=
     volume0 r; volume1 := volume1 r; fees0 := v; fees1 := fees1 r; tvl0 := tvl0 r; tvl1
     := tvl1 r; txCount := txCount r; swapCount := swapCount r; modifyLiquidityCount :=
     modifyLiquidityCount r; positionCount := positionCount r; activePositionCount :=
     activePositionCount r; lpCount := lpCount r |}.
Definition set_fees1 (v : Z) (r : t) : t :=
  {| id := id r; chainId := chainId r; poolId := poolId r; name := name r;
     createdAtTimestamp := createdAtTimestamp r; createdAtBlockNumber :=
     createdAtBlockNumber r; token0_id := token0_id r; token1_id := token1_id r; feeTier
     := feeTier r; tickSpacing := tickSpacing r; hooks := hooks r; liquidity :=
     liquidity r; sqrtPrice := sqrtPrice r; sqrtPriceX96 := sqrtPriceX96 r; tick := tick
     r; observationIndex := observationIndex r; feeGrowthGlobal0X128 :=
     feeGrowthGlobal0X128 r; feeGrowthGlobal1X128 := feeGrowthGlobal1X128 r; volume0 :=
     volume0 r; volume1 := volume1 r; fees0 := fees0 r; fees1 := v; tvl0 := tvl0 r; tvl1
     := tvl1 r; txCount := txCount r; swapCount := swapCount r; modifyLiquidityCount :=
     modifyLiquidityCount r; positionCount := positionCount r; activePositionCount :=
     activePositionCount r; lpCount := lpCount r |}.
Definition set_volume0 (v : Z) (r : t) : t :=
  {| id := id r; chainId := chainId r; poolId := poolId r; name := name r;
     createdAtTimestamp := createdAtTimestamp r; createdAtBlockNumber :=
     createdAtBlockNumber r; token0_id := token0_id r; token1_id := token1_id r; feeTier
     := feeTier r; tickSpacing := tickSpacing r; hooks := hooks r; liquidity :=
     liquidity r; sqrtPrice := sqrtPrice r; sqrtPriceX96 := sqrtPriceX96 r; tick := tick
     r; observationIndex := observationIndex r; feeGrowthGlobal0X128 :=
     feeGrowthGlobal0X128 r; feeGrowthGlobal1X128 := feeGrowthGlobal1X128 r; volume0 :=
     v; volume1 := volume1 r; fees0 := fees0 r; fees1 := fees1 r; tvl0 := tvl0 r; tvl1
     := tvl1 r; txCount := txCount r; swapCount := swapCount r; modifyLiquidityCount :=
     modifyLiquidityCount r; positionCount := positionCount r; activePositionCount :=
     activePositionCount r; lpCount := lpCount r |}.
Definition set_volume1 (v : Z) (r : t) : t :=
  {| id := id r; chainId := chainId r; poolId := poolId r; name := name r;
     createdAtTimestamp := createdAtTimestamp r; createdAtBlockNumber :=
     createdAtBlockNumber r; token0_id := token0_id r; token1_id := token1_id r; feeTier
     := feeTier r; tickSpacing := tickSpacing r; hooks := hooks r; liquidity :=
     liquidity r; sqrtPrice := sqrtPrice r; sqrtPriceX96 := sqrtPriceX96 r; tick := tick
     r; observationIndex := observationIndex r; feeGrowthGlobal0X128 :=
     feeGrowthGlobal0X128 r; feeGrowthGlobal1X128 := feeGrowthGlobal1X128 r; volume0 :=
     volume0 r; volume1 := v; fees0 := fees0 r; fees1 := fees1 r; tvl0 := tvl0 r; tvl1
     := tvl1 r; txCount := txCount r; swapCount := swapCount r; modifyLiquidityCount :=
     modifyLiquidityCount r; positionCount := positionCount r; activePositionCount :=
     activePositionCount r; lpCount := lpCount r |}.
Definition set_swapCount (v : Z) (r : t) : t :=
  {| id := id r; chainId := chainId r; poolId := poolId r; name := name r;
     createdAtTimestamp := createdAtTimestamp r; createdAtBlockNumber :=
     createdAtBlockNumber r; token0_id := token0_id r; token1_id := token1_id r; feeTier
     := feeTier r; tickSpacing := tickSpacing r; hooks := hooks r; liquidity :=
     liquidity r; sqrtPrice := sqrtPrice r; sqrtPriceX96 := sqrtPriceX96 r; tick := tick
     r; observationIndex := observationIndex r; feeGrowthGlobal0X128 :=
     feeGrowthGlobal0X128 r; feeGrowthGlobal1X128 := feeGrowthGlobal1X128 r; volume0 :=
     volume0 r; volume1 := volume1 r; fees0 := fees0 r; fees1 := fees1 r; tvl0 := tvl0
     r; tvl1 := tvl1 r; txCount := txCount r; swapCount := v; modifyLiquidityCount :=
     modifyLiquidityCount r; positionCount := positionCount r; activePositionCount :=
     activePositionCount r; lpCount := lpCount r |}.
Definition set_liquidity (v : Z) (r : t) : t :=
  {| id := id r; chainId := chainId r; poolId := poolId r; name := name r;
     createdAtTimestamp := createdAtTimestamp r; createdAtBlockNumber :=
     createdAtBlockNumber r; token0_id := token0_id r; token1_id := token1_id r; feeTier
     := feeTier r; tickSpacing := tickSpacing r; hooks := hooks r; liquidity := v;
     sqrtPrice := sqrtPrice r; sqrtPriceX96 := sqrtPriceX96 r; tick := tick r;
     observationIndex := observationIndex r; feeGrowthGlobal0X128 :=
     feeGrowthGlobal0X128 r; feeGrowthGlobal1X128 := feeGrowthGlobal1X128 r; volume0 :=
     volume0 r; volume1 := volume1 r; fees0 := fees0 r; fees1 := fees1 r; tvl0 := tvl0
     r; tvl1 := tvl1 r; txCount := txCount r; swapCount := swapCount r;
     modifyLiquidityCount := modifyLiquidityCount r; positionCount := positionCount r;
     activePositionCount := activePositionCount r; lpCount := lpCount r |}.
Definition set_tick (v : option Z) (r : t) : t :=
  {| id := id r; chainId := chainId r; poolId := poolId r; name := name r;
     createdAtTimestamp := createdAtTimestamp r; createdAtBlockNumber :=
     createdAtBlockNumber r; token0_id := token0_id r; token1_id := token1_id r; feeTier
     := feeTier r; tickSpacing := tickSpacing r; hooks := hooks r; liquidity :=
     liquidity r; sqrtPrice := sqrtPrice r; sqrtPriceX96 := sqrtPriceX96 r; tick := v;
     observationIndex := observationIndex r; feeGrowthGlobal0X128 :=
     feeGrowthGlobal0X128 r; feeGrowthGlobal1X128 := feeGrowthGlobal1X128 r; volume0 :=
     volume0 r; volume1 := volume1 r; fees0 := fees0 r; fees1 := fees1 r; tvl0 := tvl0
     r; tvl1 := tvl1 r; txCount := txCount r; swapCount := swapCount r;
     modifyLiquidityCount := modifyLiquidityCount r; positionCount := positionCount r;
     activePositionCount := activePositionCount r; lpCount := lpCount r |}.
Definition set_sqrtPrice (v : Z) (r : t) : t :=
  {| id := id r; chainId := chainId r; poolId := poolId r; name := name r;
     createdAtTimestamp := createdAtTimestamp r; createdAtBlockNumber :=
     createdAtBlockNumber r; token0_id := token0_id r; token1_id := token1_id r; feeTier
     := feeTier r; tickSpacing := tickSpacing r; hooks := hooks r; liquidity :=
     liquidity r; sqrtPrice := v; sqrtPriceX96 := sqrtPriceX96 r; tick := tick r;
     observationIndex := observationIndex r; feeGrowthGlobal0X128 :=
     feeGrowthGlobal0X128 r; feeGrowthGlobal1X128 := feeGrowthGlobal1X128 r; volume0 :=
     volume0 r; volume1 := volume1 r; fees0 := fees0 r; fees1 := fees1 r; tvl0 := tvl0
     r; tvl1 := tvl1 r; txCount := txCount r; swapCount := swapCount r;
     modifyLiquidityCount := modifyLiquidityCount r; positionCount := positionCount r;
     activePositionCount := activePositionCount r; lpCount := lpCount r |}.
Definition set_sqrtPriceX96 (v : Z) (r : t) : t :=
  {| id := id r; chainId := chainId r; poolId := poolId r; name := name r;
     createdAtTimestamp := createdAtTimestamp r; createdAtBlockNumber :=
     createdAtBlockNumber r; token0_id := token0_id r; token1_id := token1_id r; feeTier
     := feeTier r; tickSpacing := tickSpacing r; hooks := hooks r; liquidity :=
     liquidity r; sqrtPrice := sqrtPrice r; sqrtPriceX96 := v; tick := tick r;
     observationIndex := observationIndex r; feeGrowthGlobal0X128 :=
     feeGrowthGlobal0X128 r; feeGrowthGlobal1X128 := feeGrowthGlobal1X128 r; volume0 :=
     volume0 r; volume1 := volume1 r; fees0 := fees0 r; fees1 := fees1 r; tvl0 := tvl0
     r; tvl1 := tvl1 r; txCount := txCount r; swapCount := swapCount r;
     modifyLiquidityCount := modifyLiquidityCount r; positionCount := positionCount r;
     activePositionCount := activePositionCount r; lpCount := lpCount r |}.
Definition set_modifyLiquidityCount (v : Z) (r : t) : t :=
  {| id := id r; chainId := chainId r; poolId := poolId r; name := name r;
     createdAtTimestamp := createdAtTimestamp r; createdAtBlockNumber :=
     createdAtBlockNumber r; token0_id := token0_id r; token1_id := token1_id r; feeTier
     := feeTier r; tickSpacing := tickSpacing r; hooks := hooks r; liquidity :=
     liquidity r; sqrtPrice := sqrtPrice r; sqrtPriceX96 := sqrtPriceX96 r; tick := tick
     r; observationIndex := observationIndex r; feeGrowthGlobal0X128 :=
     feeGrowthGlobal0X128 r; feeGrowthGlobal1X128 := feeGrowthGlobal1X128 r; volume0 :=
     volume0 r; volume1 := volume1 r; fees0 := fees0 r; fees1 := fees1 r; tvl0 := tvl0
     r; tvl1 := tvl1 r; txCount := txCount r; swapCount := swapCount r;
     modifyLiquidityCount := v; positionCount := positionCount r; activePositionCount :=
     activePositionCount r; lpCount := lpCount r |}.
Definition set_positionCount (v : Z) (r : t) : t :=
  {| id := id r; chainId := chainId r; poolId := poolId r; name := name r;
     createdAtTimestamp := createdAtTimestamp r; createdAtBlockNumber :=
     createdAtBlockNumber r; token0_id := token0_id r; token1_id := token1_id r; feeTier
     := feeTier r; tickSpacing := tickSpacing r; hooks := hooks r; liquidity :=
     liquidity r; sqrtPrice := sqrtPrice r; sqrtPriceX96 := sqrtPriceX96 r; tick := tick
     r; observationIndex := observationIndex r; feeGrowthGlobal0X128 :=
     feeGrowthGlobal0X128 r; feeGrowthGlobal1X128 := feeGrowthGlobal1X128 r; volume0 :=
     volume0 r; volume1 := volume1 r; fees0 := fees0 r; fees1 := fees1 r; tvl0 := tvl0
     r; tvl1 := tvl1 r; txCount := txCount r; swapCount := swapCount r;
     modifyLiquidityCount := modifyLiquidityCount r; positionCount := v;
     activePositionCount := activePositionCount r; lpCount := lpCount r |}.
Definition set_activePositionCount (v : Z) (r : t) : t :=
  {| id := id r; chainId := chainId r; poolId := poolId r; name := name r;
     createdAtTimestamp := createdAtTimestamp r; createdAtBlockNumber :=
     createdAtBlockNumber r; token0_id := token0_id r; token1_id := token1_id r; feeTier
     := feeTier r; tickSpacing := tickSpacing r; hooks := hooks r; liquidity :=
     liquidity r; sqrtPrice := sqrtPrice r; sqrtPriceX96 := sqrtPriceX96 r; tick := tick
     r; observationIndex := observationIndex r; feeGrowthGlobal0X128 :=
     feeGrowthGlobal0X128 r; feeGrowthGlobal1X128 := feeGrowthGlobal1X128 r; volume0 :=
     volume0 r; volume1 := volume1 r; fees0 := fees0 r; fees1 := fees1 r; tvl0 := tvl0
     r; tvl1 := tvl1 r; txCount := txCount r; swapCount := swapCount r;
     modifyLiquidityCount := modifyLiquidityCount r; positionCount := positionCount r;
     activePositionCount := v; lpCount := lpCount r |}.
End Pool.

(** Token entity. *)
Module Token.
Record t : Type := mk {
  id : string;
  chainId : Z;
  symbol : string;
  name : string;
  decimals : Z;
  totalSupply : Z;
  volume : Z;
  txCount : Z;
  poolCount : Z;
  swapCount : Z;
  modifyLiquidityCount : Z;
  positionCount : Z;
  lpCount : Z;
  tvl : Z;
  whitelistPools : list string
}.
Definition set_volume (v : Z) (r : t) : t :=
  {| id := id r; chainId := chainId r; symbol := symbol r; name := name r; decimals :=
     decimals r; totalSupply := totalSupply r; volume := v; txCount := txCount r;
     poolCount := poolCount r; swapCount := swapCount r; modifyLiquidityCount :=
     modifyLiquidityCount r; positionCount := positionCount r; lpCount := lpCount r; tvl
     := tvl r; whitelistPools := whitelistPools r |}.
Definition set_txCount (v : Z) (r : t) : t :=
  {| id := id r; chainId := chainId r; symbol := symbol r; name := name r; decimals :=
     decimals r; totalSupply := totalSupply r; volume := volume r; txCount := v;
     poolCount := poolCount r; swapCount := swapCount r; modifyLiquidityCount :=
     modifyLiquidityCount r; positionCount := positionCount r; lpCount := lpCount r; tvl
     := tvl r; whitelistPools := whitelistPools r |}.
Definition set_swapCount (v : Z) (r : t) : t :=
  {| id := id r; chainId := chainId r; symbol := symbol r; name := name r; decimals :=
     decimals r; totalSupply := totalSupply r; volume := volume r; txCount := txCount r;
     poolCount := poolCount r; swapCount := v; modifyLiquidityCount :=
     modifyLiquidityCount r; positionCount := positionCount r; lpCount := lpCount r; tvl
     := tvl r; whitelistPools := whitelistPools r |}.
Definition set_modifyLiquidityCount (v : Z) (r : t) : t :=
  {| id := id r; chainId := chainId r; symbol := symbol r; name := name r; decimals :=
     decimals r; totalSupply := totalSupply r; volume := volume r; txCount := txCount r;
     poolCount := poolCount r; swapCount := swapCount r; modifyLiquidityCount := v;
     positionCount := positionCount r; lpCount := lpCount r; tvl := tvl r;
     whitelistPools := whitelistPools r |}.
Definition set_positionCount (v : Z) (r : t) : t :=
  {| id := id r; chainId := chainId r; symbol := symbol r; name := name r; decimals :=
     decimals r; totalSupply := totalSupply r; volume := volume r; txCount := txCount r;
     poolCount := poolCount r; swapCount := swapCount r; modifyLiquidityCount :=
     modifyLiquidityCount r; positionCount := v; lpCount := lpCount r; tvl := tvl r;
     whitelistPools := whitelistPools r |}.
Definition set_tvl (v : Z) (r : t) : t :=
  {| id := id r; chainId := chainId r; symbol := symbol r; name := name r; decimals :=
     decimals r; totalSupply := totalSupply r; volume := volume r; txCount := txCount r;
     poolCount := poolCount r; swapCount := swapCount r; modifyLiquidityCount :=
     modifyLiquidityCount r; positionCount := positionCount r; lpCount := lpCount r; tvl
     := v; whitelistPools := whitelistPools r |}.
End Token.

(** Tick entity (see [createTick]); a tick is initialized when its record exists. *)
Module Tick.
Record t : Type := mk {
  id : string;
  chainId : Z;
  poolId : string;
  tickIdx : Z;
  pool_id : string;
  liquidityGross : Z;
  liquidityNet : Z;
  price0 : Z;
  price1 : Z;
  feeGrowthOutside0X128 : Z;
  feeGrowthOutside1X128 : Z;
  positionCount : Z;
  createdAtTimestamp : Z;
  createdAtBlockNumber : Z
}.
Definition set_liquidityGross (v : Z) (r : t) : t :=
  {| id := id r; chainId := chainId r; poolId := poolId r; tickIdx := tickIdx r; pool_id
     := pool_id r; liquidityGross := v; liquidityNet := liquidityNet r; price0 := price0
     r; price1 := price1 r; feeGrowthOutside0X128 := feeGrowthOutside0X128 r;
     feeGrowthOutside1X128 := feeGrowthOutside1X128 r; positionCount := positionCount r;
     createdAtTimestamp := createdAtTimestamp r; createdAtBlockNumber :=
     createdAtBlockNumber r |}.
Definition set_liquidityNet (v : Z) (r : t) : t :=
  {| id := id r; chainId := chainId r; poolId := poolId r; tickIdx := tickIdx r; pool_id
     := pool_id r; liquidityGross := liquidityGross r; liquidityNet := v; price0 :=
     price0 r; price1 := price1 r; feeGrowthOutside0X128 := feeGrowthOutside0X128 r;
     feeGrowthOutside1X128 := feeGrowthOutside1X128 r; positionCount := positionCount r;
     createdAtTimestamp := createdAtTimestamp r; createdAtBlockNumber :=
     createdAtBlockNumber r |}.
Definition set_feeGrowthOutside0X128 (v : Z) (r : t) : t :=
  {| id := id r; chainId := chainId r; poolId := poolId r; tickIdx := tickIdx r; pool_id
     := pool_id r; liquidityGross := liquidityGross r; liquidityNet := liquidityNet r;
     price0 := price0 r; price1 := price1 r; feeGrowthOutside0X128 := v;
     feeGrowthOutside1X128 := feeGrowthOutside1X128 r; positionCount := positionCount r;
     createdAtTimestamp := createdAtTimestamp r; createdAtBlockNumber :=
     createdAtBlockNumber r |}.
Definition set_feeGrowthOutside1X128 (v : Z) (r : t) : t :=
  {| id := id r; chainId := chainId r; poolId := poolId r; tickIdx := tickIdx r; pool_id
     := pool_id r; liquidityGross := liquidityGross r; liquidityNet := liquidityNet r;
     price0 := price0 r; price1 := price1 r; feeGrowthOutside0X128 :=
     feeGrowthOutside0X128 r; feeGrowthOutside1X128 := v; positionCount := positionCount
     r; createdAtTimestamp := createdAtTimestamp r; createdAtBlockNumber :=
     createdAtBlockNumber r |}.
Definition set_positionCount (v : Z) (r : t) : t :=
  {| id := id r; chainId := chainId r; poolId := poolId r; tickIdx := tickIdx r; pool_id
     := pool_id r; liquidityGross := liquidityGross r; liquidityNet := liquidityNet r;
     price0 := price0 r; price1 := price1 r; feeGrowthOutside0X128 :=
     feeGrowthOutside0X128 r; feeGrowthOutside1X128 := feeGrowthOutside1X128 r;
     positionCount := v; createdAtTimestamp := createdAtTimestamp r;
     createdAtBlockNumber := createdAtBlockNumber r |}.
End Tick.

(** Position entity (see [createPosition]). *)
Module Position.
Record t : Type := mk {
  id : string;
  chainId : Z;
  owner : string;
  liquidityProvider_id : string;
  pool_id : string;
  token0_id : string;
  token1_id : string;
  tickLower : Z;
  tickUpper : Z;
  liquidity : Z;
  deposited0 : Z;
  deposited1 : Z;
  withdrawn0 : Z;
  withdrawn1 : Z;
  fees0 : Z;
  fees1 : Z;
  feeGrowthInside0LastX128 : Z;
  feeGrowthInside1LastX128 : Z;
  modifyLiquidityCount : Z;
  transaction_id : string;
  createdAtTimestamp : Z;
  createdAtBlockNumber : Z
}.
Definition set_liquidity (v : Z) (r : t) : t :=
  {| id := id r; chainId := chainId r; owner := owner r; liquidityProvider_id :=
     liquidityProvider_id r; pool_id := pool_id r; token0_id := token0_id r; token1_id
     := token1_id r; tickLower := tickLower r; tickUpper := tickUpper r; liquidity := v;
     deposited0 := deposited0 r; deposited1 := deposited1 r; withdrawn0 := withdrawn0 r;
     withdrawn1 := withdrawn1 r; fees0 := fees0 r; fees1 := fees1 r;
     feeGrowthInside0LastX128 := feeGrowthInside0LastX128 r; feeGrowthInside1LastX128 :=
     feeGrowthInside1LastX128 r; modifyLiquidityCount := modifyLiquidityCount r;
     transaction_id := transaction_id r; createdAtTimestamp := createdAtTimestamp r;
     createdAtBlockNumber := createdAtBlockNumber r |}.
Definition set_deposited0 (v : Z) (r : t) : t :=
  {| id := id r; chainId := chainId r; owner := owner r; liquidityProvider_id :=
     liquidityProvider_id r; pool_id := pool_id r; token0_id := token0_id r; token1_id
     := token1_id r; tickLower := tickLower r; tickUpper := tickUpper r; liquidity :=
     liquidity r; deposited0 := v; deposited1 := deposited1 r; withdrawn0 := withdrawn0
     r; withdrawn1 := withdrawn1 r; fees0 := fees0 r; fees1 := fees1 r;
     feeGrowthInside0LastX128 := feeGrowthInside0LastX128 r; feeGrowthInside1LastX128 :=
     feeGrowthInside1LastX128 r; modifyLiquidityCount := modifyLiquidityCount r;
     transaction_id := transaction_id r; createdAtTimestamp := createdAtTimestamp r;
     createdAtBlockNumber := createdAtBlockNumber r |}.
Definition set_deposited1 (v : Z) (r : t) : t :=
  {| id := id r; chainId := chainId r; owner := owner r; liquidityProvider_id :=
     liquidityProvider_id r; pool_id := pool_id r; token0_id := token0_id r; token1_id
     := token1_id r; tickLower := tickLower r; tickUpper := tickUpper r; liquidity :=
     liquidity r; deposited0 := deposited0 r; deposited1 := v; withdrawn0 := withdrawn0
     r; withdrawn1 := withdrawn1 r; fees0 := fees0 r; fees1 := fees1 r;
     feeGrowthInside0LastX128 := feeGrowthInside0LastX128 r; feeGrowthInside1LastX128 :=
     feeGrowthInside1LastX128 r; modifyLiquidityCount := modifyLiquidityCount r;
     transaction_id := transaction_id r; createdAtTimestamp := createdAtTimestamp r;
     createdAtBlockNumber := createdAtBlockNumber r |}.
Definition set_withdrawn0 (v : Z) (r : t) : t :=
  {| id := id r; chainId := chainId r; owner := owner r; liquidityProvider_id :=
     liquidityProvider_id r; pool_id := pool_id r; token0_id := token0_id r; token1_id
     := token1_id r; tickLower := tickLower r; tickUpper := tickUpper r; liquidity :=
     liquidity r; deposited0 := deposited0 r; deposited1 := deposited1 r; withdrawn0 :=
     v; withdrawn1 := withdrawn1 r; fees0 := fees0 r; fees1 := fees1 r;
     feeGrowthInside0LastX128 := feeGrowthInside0LastX128 r; feeGrowthInside1LastX128 :=
     feeGrowthInside1LastX128 r; modifyLiquidityCount := modifyLiquidityCount r;
     transaction_id := transaction_id r; createdAtTimestamp := createdAtTimestamp r;
     createdAtBlockNumber := createdAtBlockNumber r |}.
Definition set_withdrawn1 (v : Z) (r : t) : t :=
  {| id := id r; chainId := chainId r; owner := owner r; liquidityProvider_id :=
     liquidityProvider_id r; pool_id := pool_id r; token0_id := token0_id r; token1_id
     := token1_id r; tickLower := tickLower r; tickUpper := tickUpper r; liquidity :=
     liquidity r; deposited0 := deposited0 r; deposited1 := deposited1 r; withdrawn0 :=
     withdrawn0 r; withdrawn1 := v; fees0 := fees0 r; fees1 := fees1 r;
     feeGrowthInside0LastX128 := feeGrowthInside0LastX128 r; feeGrowthInside1LastX128 :=
     feeGrowthInside1LastX128 r; modifyLiquidityCount := modifyLiquidityCount r;
     transaction_id := transaction_id r; createdAtTimestamp := createdAtTimestamp r;
     createdAtBlockNumber := createdAtBlockNumber r |}.
Definition set_fees0 (v : Z) (r : t) : t :=
  {| id := id r; chainId := chainId r; owner := owner r; liquidityProvider_id :=
     liquidityProvider_id r; pool_id := pool_id r; token0_id := token0_id r; token1_id
     := token1_id r; tickLower := tickLower r; tickUpper := tickUpper r; liquidity :=
     liquidity r; deposited0 := deposited0 r; deposited1 := deposited1 r; withdrawn0 :=
     withdrawn0 r; withdrawn1 := withdrawn1 r; fees0 := v; fees1 := fees1 r;
     feeGrowthInside0LastX128 := feeGrowthInside0LastX128 r; feeGrowthInside1LastX128 :=
     feeGrowthInside1LastX128 r; modifyLiquidityCount := modifyLiquidityCount r;
     transaction_id := transaction_id r; createdAtTimestamp := createdAtTimestamp r;
     createdAtBlockNumber := createdAtBlockNumber r |}.
Definition set_fees1 (v : Z) (r : t) : t :=
  {| id := id r; chainId := chainId r; owner := owner r; liquidityProvider_id :=
     liquidityProvider_id r; pool_id := pool_id r; token0_id := token0_id r; token1_id
     := token1_id r; tickLower := tickLower r; tickUpper := tickUpper r; liquidity :=
     liquidity r; deposited0 := deposited0 r; deposited1 := deposited1 r; withdrawn0 :=
     withdrawn0 r; withdrawn1 := withdrawn1 r; fees0 := fees0 r; fees1 := v;
     feeGrowthInside0LastX128 := feeGrowthInside0LastX128 r; feeGrowthInside1LastX128 :=
     feeGrowthInside1LastX128 r; modifyLiquidityCount := modifyLiquidityCount r;
     transaction_id := transaction_id r; createdAtTimestamp := createdAtTimestamp r;
     createdAtBlockNumber := createdAtBlockNumber r |}.
Definition set_feeGrowthInside0LastX128 (v : Z) (r : t) : t :=
  {| id := id r; chainId := chainId r; owner := owner r; liquidityProvider_id :=
     liquidityProvider_id r; pool_id := pool_id r; token0_id := token0_id r; token1_id
     := token1_id r; tickLower := tickLower r; tickUpper := tickUpper r; liquidity :=
     liquidity r; deposited0 := deposited0 r; deposited1 := deposited1 r; withdrawn0 :=
     withdrawn0 r; withdrawn1 := withdrawn1 r; fees0 := fees0 r; fees1 := fees1 r;
     feeGrowthInside0LastX128 := v; feeGrowthInside1LastX128 := feeGrowthInside1LastX128
     r; modifyLiquidityCount := modifyLiquidityCount r; transaction_id := transaction_id
     r; createdAtTimestamp := createdAtTimestamp r; createdAtBlockNumber :=
     createdAtBlockNumber r |}.
Definition set_feeGrowthInside1LastX128 (v : Z) (r : t) : t :=
  {| id := id r; chainId := chainId r; owner := owner r; liquidityProvider_id :=
     liquidityProvider_id r; pool_id := pool_id r; token0_id := token0_id r; token1_id
     := token1_id r; tickLower := tickLower r; tickUpper := tickUpper r; liquidity :=
     liquidity r; deposited0 := deposited0 r; deposited1 := deposited1 r; withdrawn0 :=
     withdrawn0 r; withdrawn1 := withdrawn1 r; fees0 := fees0 r; fees1 := fees1 r;
     feeGrowthInside0LastX128 := feeGrowthInside0LastX128 r; feeGrowthInside1LastX128 :=
     v; modifyLiquidityCount := modifyLiquidityCount r; transaction_id := transaction_id
     r; createdAtTimestamp := createdAtTimestamp r; createdAtBlockNumber :=
     createdAtBlockNumber r |}.
Definition set_modifyLiquidityCount (v : Z) (r : t) : t :=
  {| id := id r; chainId := chainId r; owner := owner r; liquidityProvider_id :=
     liquidityProvider_id r; pool_id := pool_id r; token0_id := token0_id r; token1_id
     := token1_id r; tickLower := tickLower r; tickUpper := tickUpper r; liquidity :=
     liquidity r; deposited0 := deposited0 r; deposited1 := deposited1 r; withdrawn0 :=
     withdrawn0 r; withdrawn1 := withdrawn1 r; fees0 := fees0 r; fees1 := fees1 r;
     feeGrowthInside0LastX128 := feeGrowthInside0LastX128 r; feeGrowthInside1LastX128 :=
     feeGrowthInside1LastX128 r; modifyLiquidityCount := v; transaction_id :=
     transaction_id r; createdAtTimestamp := createdAtTimestamp r; createdAtBlockNumber
     := createdAtBlockNumber r |}.
End Position.

(** LiquidityProvider entity, one per (pool, sender). *)
Module LiquidityProvider.
Record t : Type := mk {
  id : string;
  chainId : Z;
  address : string;
  deposited0 : Z;
  deposited1 : Z;
  withdrawn0 : Z;
  withdrawn1 : Z;
  fees0 : Z;
  fees1 : Z;
  positionCount : Z;
  modifyLiquidityCount : Z;
  createdAtTimestamp : Z;
  createdAtBlockNumber : Z
}.
Definition set_deposited0 (v : Z) (r : t) : t :=
  {| id := id r; chainId := chainId r; address := address r; deposited0 := v; deposited1
     := deposited1 r; withdrawn0 := withdrawn0 r; withdrawn1 := withdrawn1 r; fees0 :=
     fees0 r; fees1 := fees1 r; positionCount := positionCount r; modifyLiquidityCount
     := modifyLiquidityCount r; createdAtTimestamp := createdAtTimestamp r;
     createdAtBlockNumber := createdAtBlockNumber r |}.
Definition set_deposited1 (v : Z) (r : t) : t :=
  {| id := id r; chainId := chainId r; address := address r; deposited0 := deposited0 r;
     deposited1 := v; withdrawn0 := withdrawn0 r; withdrawn1 := withdrawn1 r; fees0 :=
     fees0 r; fees1 := fees1 r; positionCount := positionCount r; modifyLiquidityCount
     := modifyLiquidityCount r; createdAtTimestamp := createdAtTimestamp r;
     createdAtBlockNumber := createdAtBlockNumber r |}.
Definition set_withdrawn0 (v : Z) (r : t) : t :=
  {| id := id r; chainId := chainId r; address := address r; deposited0 := deposited0 r;
     deposited1 := deposited1 r; withdrawn0 := v; withdrawn1 := withdrawn1 r; fees0 :=
     fees0 r; fees1 := fees1 r; positionCount := positionCount r; modifyLiquidityCount
     := modifyLiquidityCount r; createdAtTimestamp := createdAtTimestamp r;
     createdAtBlockNumber := createdAtBlockNumber r |}.
Definition set_withdrawn1 (v : Z) (r : t) : t :=
  {| id := id r; chainId := chainId r; address := address r; deposited0 := deposited0 r;
     deposited1 := deposited1 r; withdrawn0 := withdrawn0 r; withdrawn1 := v; fees0 :=
     fees0 r; fees1 := fees1 r; positionCount := positionCount r; modifyLiquidityCount
     := modifyLiquidityCount r; createdAtTimestamp := createdAtTimestamp r;
     createdAtBlockNumber := createdAtBlockNumber r |}.
Definition set_fees0 (v : Z) (r : t) : t :=
  {| id := id r; chainId := chainId r; address := address r; deposited0 := deposited0 r;
     deposited1 := deposited1 r; withdrawn0 := withdrawn0 r; withdrawn1 := withdrawn1 r;
     fees0 := v; fees1 := fees1 r; positionCount := positionCount r;
     modifyLiquidityCount := modifyLiquidityCount r; createdAtTimestamp :=
     createdAtTimestamp r; createdAtBlockNumber := createdAtBlockNumber r |}.
Definition set_fees1 (v : Z) (r : t) : t :=
  {| id := id r; chainId := chainId r; address := address r; deposited0 := deposited0 r;
     deposited1 := deposited1 r; withdrawn0 := withdrawn0 r; withdrawn1 := withdrawn1 r;
     fees0 := fees0 r; fees1 := v; positionCount := positionCount r;
     modifyLiquidityCount := modifyLiquidityCount r; createdAtTimestamp :=
     createdAtTimestamp r; createdAtBlockNumber := createdAtBlockNumber r |}.
Definition set_positionCount (v : Z) (r : t) : t :=
  {| id := id r; chainId := chainId r; address := address r; deposited0 := deposited0 r;
     deposited1 := deposited1 r; withdrawn0 := withdrawn0 r; withdrawn1 := withdrawn1 r;
     fees0 := fees0 r; fees1 := fees1 r; positionCount := v; modifyLiquidityCount :=
     modifyLiquidityCount r; createdAtTimestamp := createdAtTimestamp r;
     createdAtBlockNumber := createdAtBlockNumber r |}.
Definition set_modifyLiquidityCount (v : Z) (r : t) : t :=
  {| id := id r; chainId := chainId r; address := address r; deposited0 := deposited0 r;
     deposited1 := deposited1 r; withdrawn0 := withdrawn0 r; withdrawn1 := withdrawn1 r;
     fees0 := fees0 r; fees1 := fees1 r; positionCount := positionCount r;
     modifyLiquidityCount := v; createdAtTimestamp := createdAtTimestamp r;
     createdAtBlockNumber := createdAtBlockNumber r |}.
End LiquidityProvider.

(** Transaction entity. *)
Module Transaction.
Record t : Type := mk {
  id : string;
  chainId : Z;
  blockNumber : Z;
  timestamp : Z;
  gasUsed : Z;
  gasPrice : Z
}.
Definition set_blockNumber (v : Z) (r : t) : t :=
  {| id := id r; chainId := chainId r; blockNumber := v; timestamp := timestamp r;
     gasUsed := gasUsed r; gasPrice := gasPrice r |}.
Definition set_timestamp (v : Z) (r : t) : t :=
  {| id := id r; chainId := chainId r; blockNumber := blockNumber r; timestamp := v;
     gasUsed := gasUsed r; gasPrice := gasPrice r |}.
Definition set_gasUsed (v : Z) (r : t) : t :=
  {| id := id r; chainId := chainId r; blockNumber := blockNumber r; timestamp :=
     timestamp r; gasUsed := v; gasPrice := gasPrice r |}.
Definition set_gasPrice (v : Z) (r : t) : t :=
  {| id := id r; chainId := chainId r; blockNumber := blockNumber r; timestamp :=
     timestamp r; gasUsed := gasUsed r; gasPrice := v |}.
End Transaction.

(** HookStats entity, one per (chain, hook address). *)
Module HookStats.
Record t : Type := mk {
  id : string;
  chainId : Z;
  poolCount : Z;
  swapCount : Z;
  firstPoolCreatedAt : Z;
  volume0 : Z;
  volume1 : Z;
  fees0 : Z;
  fees1 : Z;
  tvl0 : Z;
  tvl1 : Z
}.
Definition set_swapCount (v : Z) (r : t) : t :=
  {| id := id r; chainId := chainId r; poolCount := poolCount r; swapCount := v;
     firstPoolCreatedAt := firstPoolCreatedAt r; volume0 := volume0 r; volume1 :=
     volume1 r; fees0 := fees0 r; fees1 := fees1 r; tvl0 := tvl0 r; tvl1 := tvl1 r |}.
Definition set_volume0 (v : Z) (r : t) : t :=
  {| id := id r; chainId := chainId r; poolCount := poolCount r; swapCount := swapCount
     r; firstPoolCreatedAt := firstPoolCreatedAt r; volume0 := v; volume1 := volume1 r;
     fees0 := fees0 r; fees1 := fees1 r; tvl0 := tvl0 r; tvl1 := tvl1 r |}.
Definition set_volume1 (v : Z) (r : t) : t :=
  {| id := id r; chainId := chainId r; poolCount := poolCount r; swapCount := swapCount
     r; firstPoolCreatedAt := firstPoolCreatedAt r; volume0 := volume0 r; volume1 := v;
     fees0 := fees0 r; fees1 := fees1 r; tvl0 := tvl0 r; tvl1 := tvl1 r |}.
Definition set_fees0 (v : Z) (r : t) : t :=
  {| id := id r; chainId := chainId r; poolCount := poolCount r; swapCount := swapCount
     r; firstPoolCreatedAt := firstPoolCreatedAt r; volume0 := volume0 r; volume1 :=
     volume1 r; fees0 := v; fees1 := fees1 r; tvl0 := tvl0 r; tvl1 := tvl1 r |}.
Definition set_fees1 (v : Z) (r : t) : t :=
  {| id := id r; chainId := chainId r; poolCount := poolCount r; swapCount := swapCount
     r; firstPoolCreatedAt := firstPoolCreatedAt r; volume0 := volume0 r; volume1 :=
     volume1 r; fees0 := fees0 r; fees1 := v; tvl0 := tvl0 r; tvl1 := tvl1 r |}.
Definition set_tvl0 (v : Z) (r : t) : t :=
  {| id := id r; chainId := chainId r; poolCount := poolCount r; swapCount := swapCount
     r; firstPoolCreatedAt := firstPoolCreatedAt r; volume0 := volume0 r; volume1 :=
     volume1 r; fees0 := fees0 r; fees1 := fees1 r; tvl0 := v; tvl1 := tvl1 r |}.
Definition set_tvl1 (v : Z) (r : t) : t :=
  {| id := id r; chainId := chainId r; poolCount := poolCount r; swapCount := swapCount
     r; firstPoolCreatedAt := firstPoolCreatedAt r; volume0 := volume0 r; volume1 :=
     volume1 r; fees0 := fees0 r; fees1 := fees1 r; tvl0 := tvl0 r; tvl1 := v |}.
End HookStats.

(** The shape shared by PoolDayData, PoolHourData and Pool5MinuteData. *)
Module PoolIntervalData.
Record t : Type := mk {
  id : string;
  chainId : Z;
  startTimestamp : Z;
  pool_id : string;
  volume0 : Z;
  volume1 : Z;
  fees0 : Z;
  fees1 : Z;
  tvl0 : Z;
  tvl1 : Z;
  txCount : Z;
  swapCount : Z;
  modifyLiquidityCount : Z;
  open_ : Z;
  high : Z;
  low : Z;
  close : Z;
  liquidity : Z;
  sqrtPriceX96 : Z;
  tick : Z
}.
Definition set_volume0 (v : Z) (r : t) : t :=
  {| id := id r; chainId := chainId r; startTimestamp := startTimestamp r; pool_id :=
     pool_id r; volume0 := v; volume1 := volume1 r; fees0 := fees0 r; fees1 := fees1 r;
     tvl0 := tvl0 r; tvl1 := tvl1 r; txCount := txCount r; swapCount := swapCount r;
     modifyLiquidityCount := modifyLiquidityCount r; open_ := open_ r; high := high r;
     low := low r; close := close r; liquidity := liquidity r; sqrtPriceX96 :=
     sqrtPriceX96 r; tick := tick r |}.
Definition set_volume1 (v : Z) (r : t) : t :=
  {| id := id r; chainId := chainId r; startTimestamp := startTimestamp r; pool_id :=
     pool_id r; volume0 := volume0 r; volume1 := v; fees0 := fees0 r; fees1 := fees1 r;
     tvl0 := tvl0 r; tvl1 := tvl1 r; txCount := txCount r; swapCount := swapCount r;
     modifyLiquidityCount := modifyLiquidityCount r; open_ := open_ r; high := high r;
     low := low r; close := close r; liquidity := liquidity r; sqrtPriceX96 :=
     sqrtPriceX96 r; tick := tick r |}.
Definition set_fees0 (v : Z) (r : t) : t :=
  {| id := id r; chainId := chainId r; startTimestamp := startTimestamp r; pool_id :=
     pool_id r; volume0 := volume0 r; volume1 := volume1 r; fees0 := v; fees1 := fees1
     r; tvl0 := tvl0 r; tvl1 := tvl1 r; txCount := txCount r; swapCount := swapCount r;
     modifyLiquidityCount := modifyLiquidityCount r; open_ := open_ r; high := high r;
     low := low r; close := close r; liquidity := liquidity r; sqrtPriceX96 :=
     sqrtPriceX96 r; tick := tick r |}.
Definition set_fees1 (v : Z) (r : t) : t :=
  {| id := id r; chainId := chainId r; startTimestamp := startTimestamp r; pool_id :=
     pool_id r; volume0 := volume0 r; volume1 := volume1 r; fees0 := fees0 r; fees1 :=
     v; tvl0 := tvl0 r; tvl1 := tvl1 r; txCount := txCount r; swapCount := swapCount r;
     modifyLiquidityCount := modifyLiquidityCount r; open_ := open_ r; high := high r;
     low := low r; close := close r; liquidity := liquidity r; sqrtPriceX96 :=
     sqrtPriceX96 r; tick := tick r |}.
Definition set_tvl0 (v : Z) (r : t) : t :=
  {| id := id r; chainId := chainId r; startTimestamp := startTimestamp r; pool_id :=
     pool_id r; volume0 := volume0 r; volume1 := volume1 r; fees0 := fees0 r; fees1 :=
     fees1 r; tvl0 := v; tvl1 := tvl1 r; txCount := txCount r; swapCount := swapCount r;
     modifyLiquidityCount := modifyLiquidityCount r; open_ := open_ r; high := high r;
     low := low r; close := close r; liquidity := liquidity r; sqrtPriceX96 :=
     sqrtPriceX96 r; tick := tick r |}.
Definition set_tvl1 (v : Z) (r : t) : t :=
  {| id := id r; chainId := chainId r; startTimestamp := startTimestamp r; pool_id :=
     pool_id r; volume0 := volume0 r; volume1 := volume1 r; fees0 := fees0 r; fees1 :=
     fees1 r; tvl0 := tvl0 r; tvl1 := v; txCount := txCount r; swapCount := swapCount r;
     modifyLiquidityCount := modifyLiquidityCount r; open_ := open_ r; high := high r;
     low := low r; close := close r; liquidity := liquidity r; sqrtPriceX96 :=
     sqrtPriceX96 r; tick := tick r |}.
Definition set_txCount (v : Z) (r : t) : t :=
  {| id := id r; chainId := chainId r; startTimestamp := startTimestamp r; pool_id :=
     pool_id r; volume0 := volume0 r; volume1 := volume1 r; fees0 := fees0 r; fees1 :=
     fees1 r; tvl0 := tvl0 r; tvl1 := tvl1 r; txCount := v; swapCount := swapCount r;
     modifyLiquidityCount := modifyLiquidityCount r; open_ := open_ r; high := high r;
     low := low r; close := close r; liquidity := liquidity r; sqrtPriceX96 :=
     sqrtPriceX96 r; tick := tick r |}.
Definition set_swapCount (v : Z) (r : t) : t :=
  {| id := id r; chainId := chainId r; startTimestamp := startTimestamp r; pool_id :=
     pool_id r; volume0 := volume0 r; volume1 := volume1 r; fees0 := fees0 r; fees1 :=
     fees1 r; tvl0 := tvl0 r; tvl1 := tvl1 r; txCount := txCount r; swapCount := v;
     modifyLiquidityCount := modifyLiquidityCount r; open_ := open_ r; high := high r;
     low := low r; close := close r; liquidity := liquidity r; sqrtPriceX96 :=
     sqrtPriceX96 r; tick := tick r |}.
Definition set_modifyLiquidityCount (v : Z) (r : t) : t :=
  {| id := id r; chainId := chainId r; startTimestamp := startTimestamp r; pool_id :=
     pool_id r; volume0 := volume0 r; volume1 := volume1 r; fees0 := fees0 r; fees1 :=
     fees1 r; tvl0 := tvl0 r; tvl1 := tvl1 r; txCount := txCount r; swapCount :=
     swapCount r; modifyLiquidityCount := v; open_ := open_ r; high := high r; low :=
     low r; close := close r; liquidity := liquidity r; sqrtPriceX96 := sqrtPriceX96 r;
     tick := tick r |}.
Definition set_high (v : Z) (r : t) : t :=
  {| id := id r; chainId := chainId r; startTimestamp := startTimestamp r; pool_id :=
     pool_id r; volume0 := volume0 r; volume1 := volume1 r; fees0 := fees0 r; fees1 :=
     fees1 r; tvl0 := tvl0 r; tvl1 := tvl1 r; txCount := txCount r; swapCount :=
     swapCount r; modifyLiquidityCount := modifyLiquidityCount r; open_ := open_ r; high
     := v; low := low r; close := close r; liquidity := liquidity r; sqrtPriceX96 :=
     sqrtPriceX96 r; tick := tick r |}.
Definition set_low (v : Z) (r : t) : t :=
  {| id := id r; chainId := chainId r; startTimestamp := startTimestamp r; pool_id :=
     pool_id r; volume0 := volume0 r; volume1 := volume1 r; fees0 := fees0 r; fees1 :=
     fees1 r; tvl0 := tvl0 r; tvl1 := tvl1 r; txCount := txCount r; swapCount :=
     swapCount r; modifyLiquidityCount := modifyLiquidityCount r; open_ := open_ r; high
     := high r; low := v; close := close r; liquidity := liquidity r; sqrtPriceX96 :=
     sqrtPriceX96 r; tick := tick r |}.
Definition set_close (v : Z) (r : t) : t :=
  {| id := id r; chainId := chainId r; startTimestamp := startTimestamp r; pool_id :=
     pool_id r; volume0 := volume0 r; volume1 := volume1 r; fees0 := fees0 r; fees1 :=
     fees1 r; tvl0 := tvl0 r; tvl1 := tvl1 r; txCount := txCount r; swapCount :=
     swapCount r; modifyLiquidityCount := modifyLiquidityCount r; open_ := open_ r; high
     := high r; low := low r; close := v; liquidity := liquidity r; sqrtPriceX96 :=
     sqrtPriceX96 r; tick := tick r |}.
Definition set_liquidity (v : Z) (r : t) : t :=
  {| id := id r; chainId := chainId r; startTimestamp := startTimestamp r; pool_id :=
     pool_id r; volume0 := volume0 r; volume1 := volume1 r; fees0 := fees0 r; fees1 :=
     fees1 r; tvl0 := tvl0 r; tvl1 := tvl1 r; txCount := txCount r; swapCount :=
     swapCount r; modifyLiquidityCount := modifyLiquidityCount r; open_ := open_ r; high
     := high r; low := low r; close := close r; liquidity := v; sqrtPriceX96 :=
     sqrtPriceX96 r; tick := tick r |}.
Definition set_sqrtPriceX96 (v : Z) (r : t) : t :=
  {| id := id r; chainId := chainId r; startTimestamp := startTimestamp r; pool_id :=
     pool_id r; volume0 := volume0 r; volume1 := volume1 r; fees0 := fees0 r; fees1 :=
     fees1 r; tvl0 := tvl0 r; tvl1 := tvl1 r; txCount := txCount r; swapCount :=
     swapCount r; modifyLiquidityCount := modifyLiquidityCount r; open_ := open_ r; high
     := high r; low := low r; close := close r; liquidity := liquidity r; sqrtPriceX96
     := v; tick := tick r |}.
Definition set_tick (v : Z) (r : t) : t :=
  {| id := id r; chainId := chainId r; startTimestamp := startTimestamp r; pool_id :=
     pool_id r; volume0 := volume0 r; volume1 := volume1 r; fees0 := fees0 r; fees1 :=
     fees1 r; tvl0 := tvl0 r; tvl1 := tvl1 r; txCount := txCount r; swapCount :=
     swapCount r; modifyLiquidityCount := modifyLiquidityCount r; open_ := open_ r; high
     := high r; low := low r; close := close r; liquidity := liquidity r; sqrtPriceX96
     := sqrtPriceX96 r; tick := v |}.
End PoolIntervalData.

(** The shape shared by TokenDayData and TokenHourData. *)
Module TokenIntervalData.
Record t : Type := mk {
  id : string;
  chainId : Z;
  startTimestamp : Z;
  token_id : string;
  volume : Z;
  txCount : Z;
  swapCount : Z;
  modifyLiquidityCount : Z
}.
Definition set_volume (v : Z) (r : t) : t :=
  {| id := id r; chainId := chainId r; startTimestamp := startTimestamp r; token_id :=
     token_id r; volume := v; txCount := txCount r; swapCount := swapCount r;
     modifyLiquidityCount := modifyLiquidityCount r |}.
Definition set_txCount (v : Z) (r : t) : t :=
  {| id := id r; chainId := chainId r; startTimestamp := startTimestamp r; token_id :=
     token_id r; volume := volume r; txCount := v; swapCount := swapCount r;
     modifyLiquidityCount := modifyLiquidityCount r |}.
Definition set_swapCount (v : Z) (r : t) : t :=
  {| id := id r; chainId := chainId r; startTimestamp := startTimestamp r; token_id :=
     token_id r; volume := volume r; txCount := txCount r; swapCount := v;
     modifyLiquidityCount := modifyLiquidityCount r |}.
Definition set_modifyLiquidityCount (v : Z) (r : t) : t :=
  {| id := id r; chainId := chainId r; startTimestamp := startTimestamp r; token_id :=
     token_id r; volume := volume r; txCount := txCount r; swapCount := swapCount r;
     modifyLiquidityCount := v |}.
End TokenIntervalData.

(** Swap event-log row. *)
Module SwapEntity.
Record t : Type := mk {
  id : string;
  chainId : Z;
  transaction_id : string;
  timestamp : Z;
  pool_id : string;
  token0_id : string;
  token1_id : string;
  sender : string;
  recipient : string;
  origin : string;
  amount0 : Z;
  amount1 : Z;
  tick : Z;
  sqrtPriceX96 : Z;
  logIndex : Z
}.
End SwapEntity.

(** ModifyLiquidity event-log row. *)
Module ModifyLiquidityEntity.
Record t : Type := mk {
  id : string;
  chainId : Z;
  transaction_id : string;
  timestamp : Z;
  pool_id : string;
  token0_id : string;
  token1_id : string;
  sender : string;
  origin : string;
  amount : Z;
  amount0 : Z;
  amount1 : Z;
  tickLower : Z;
  tickUpper : Z;
  logIndex : Z
}.
End ModifyLiquidityEntity.

(** ** The entity store

    [handlerContext]: one table per entity type.  [Context.X ctx !! k] is
    [context.X.get(k)]; [Context.set_X r ctx] is [context.X.set(r)], which
    files the record under [r.id]. *)
Module Context.
Record t : Type := mk {
  Pool : gmap string Pool.t;
  Token : gmap string Token.t;
  Tick : gmap string Tick.t;
  Position : gmap string Position.t;
  LiquidityProvider : gmap string LiquidityProvider.t;
  Transaction : gmap string Transaction.t;
  HookStats : gmap string HookStats.t;
  PoolDayData : gmap string PoolIntervalData.t;
  PoolHourData : gmap string PoolIntervalData.t;
  Pool5MinuteData : gmap string PoolIntervalData.t;
  TokenDayData : gmap string TokenIntervalData.t;
  TokenHourData : gmap string TokenIntervalData.t;
  Swap : gmap string SwapEntity.t;
  ModifyLiquidity : gmap string ModifyLiquidityEntity.t
}.
Definition empty : t :=
  {| Pool := ∅; Token := ∅; Tick := ∅; Position := ∅; LiquidityProvider := ∅; Transaction := ∅; HookStats := ∅;
     PoolDayData := ∅; PoolHourData := ∅; Pool5MinuteData := ∅; TokenDayData := ∅; TokenHourData := ∅; Swap := ∅; ModifyLiquidity := ∅ |}.
Definition set_Pool (r : Pool.t) (ctx : t) : t :=
  {| Pool := <[Pool.id r := r]> (Pool ctx); Token := Token ctx; Tick := Tick ctx;
     Position := Position ctx; LiquidityProvider := LiquidityProvider ctx; Transaction
     := Transaction ctx; HookStats := HookStats ctx; PoolDayData := PoolDayData ctx;
     PoolHourData := PoolHourData ctx; Pool5MinuteData := Pool5MinuteData ctx;
     TokenDayData := TokenDayData ctx; TokenHourData := TokenHourData ctx; Swap := Swap
     ctx; ModifyLiquidity := ModifyLiquidity ctx |}.
Definition set_Token (r : Token.t) (ctx : t) : t :=
  {| Pool := Pool ctx; Token := <[Token.id r := r]> (Token ctx); Tick := Tick ctx;
     Position := Position ctx; LiquidityProvider := LiquidityProvider ctx; Transaction
     := Transaction ctx; HookStats := HookStats ctx; PoolDayData := PoolDayData ctx;
     PoolHourData := PoolHourData ctx; Pool5MinuteData := Pool5MinuteData ctx;
     TokenDayData := TokenDayData ctx; TokenHourData := TokenHourData ctx; Swap := Swap
     ctx; ModifyLiquidity := ModifyLiquidity ctx |}.
Definition set_Tick (r : Tick.t) (ctx : t) : t :=
  {| Pool := Pool ctx; Token := Token ctx; Tick := <[Tick.id r := r]> (Tick ctx);
     Position := Position ctx; LiquidityProvider := LiquidityProvider ctx; Transaction
     := Transaction ctx; HookStats := HookStats ctx; PoolDayData := PoolDayData ctx;
     PoolHourData := PoolHourData ctx; Pool5MinuteData := Pool5MinuteData ctx;
     TokenDayData := TokenDayData ctx; TokenHourData := TokenHourData ctx; Swap := Swap
     ctx; ModifyLiquidity := ModifyLiquidity ctx |}.
Definition set_Position (r : Position.t) (ctx : t) : t :=
  {| Pool := Pool ctx; Token := Token ctx; Tick := Tick ctx; Position := <[Position.id r
     := r]> (Position ctx); LiquidityProvider := LiquidityProvider ctx; Transaction :=
     Transaction ctx; HookStats := HookStats ctx; PoolDayData := PoolDayData ctx;
     PoolHourData := PoolHourData ctx; Pool5MinuteData := Pool5MinuteData ctx;
     TokenDayData := TokenDayData ctx; TokenHourData := TokenHourData ctx; Swap := Swap
     ctx; ModifyLiquidity := ModifyLiquidity ctx |}.
Definition set_LiquidityProvider (r : LiquidityProvider.t) (ctx : t) : t :=
  {| Pool := Pool ctx; Token := Token ctx; Tick := Tick ctx; Position := Position ctx;
     LiquidityProvider := <[LiquidityProvider.id r := r]> (LiquidityProvider ctx);
     Transaction := Transaction ctx; HookStats := HookStats ctx; PoolDayData :=
     PoolDayData ctx; PoolHourData := PoolHourData ctx; Pool5MinuteData :=
     Pool5MinuteData ctx; TokenDayData := TokenDayData ctx; TokenHourData :=
     TokenHourData ctx; Swap := Swap ctx; ModifyLiquidity := ModifyLiquidity ctx |}.
Definition set_Transaction (r : Transaction.t) (ctx : t) : t :=
  {| Pool := Pool ctx; Token := Token ctx; Tick := Tick ctx; Position := Position ctx;
     LiquidityProvider := LiquidityProvider ctx; Transaction := <[Transaction.id r :=
     r]> (Transaction ctx); HookStats := HookStats ctx; PoolDayData := PoolDayData ctx;
     PoolHourData := PoolHourData ctx; Pool5MinuteData := Pool5MinuteData ctx;
     TokenDayData := TokenDayData ctx; TokenHourData := TokenHourData ctx; Swap := Swap
     ctx; ModifyLiquidity := ModifyLiquidity ctx |}.
Definition set_HookStats (r : HookStats.t) (ctx : t) : t :=
  {| Pool := Pool ctx; Token := Token ctx; Tick := Tick ctx; Position := Position ctx;
     LiquidityProvider := LiquidityProvider ctx; Transaction := Transaction ctx;
     HookStats := <[HookStats.id r := r]> (HookStats ctx); PoolDayData := PoolDayData
     ctx; PoolHourData := PoolHourData ctx; Pool5MinuteData := Pool5MinuteData ctx;
     TokenDayData := TokenDayData ctx; TokenHourData := TokenHourData ctx; Swap := Swap
     ctx; ModifyLiquidity := ModifyLiquidity ctx |}.
Definition set_PoolDayData (r : PoolIntervalData.t) (ctx : t) : t :=
  {| Pool := Pool ctx; Token := Token ctx; Tick := Tick ctx; Position := Position ctx;
     LiquidityProvider := LiquidityProvider ctx; Transaction := Transaction ctx;
     HookStats := HookStats ctx; PoolDayData := <[PoolIntervalData.id r := r]>
     (PoolDayData ctx); PoolHourData := PoolHourData ctx; Pool5MinuteData :=
     Pool5MinuteData ctx; TokenDayData := TokenDayData ctx; TokenHourData :=
     TokenHourData ctx; Swap := Swap ctx; ModifyLiquidity := ModifyLiquidity ctx |}.
Definition set_PoolHourData (r : PoolIntervalData.t) (ctx : t) : t :=
  {| Pool := Pool ctx; Token := Token ctx; Tick := Tick ctx; Position := Position ctx;
     LiquidityProvider := LiquidityProvider ctx; Transaction := Transaction ctx;
     HookStats := HookStats ctx; PoolDayData := PoolDayData ctx; PoolHourData :=
     <[PoolIntervalData.id r := r]> (PoolHourData ctx); Pool5MinuteData :=
     Pool5MinuteData ctx; TokenDayData := TokenDayData ctx; TokenHourData :=
     TokenHourData ctx; Swap := Swap ctx; ModifyLiquidity := ModifyLiquidity ctx |}.
Definition set_Pool5MinuteData (r : PoolIntervalData.t) (ctx : t) : t :=
  {| Pool := Pool ctx; Token := Token ctx; Tick := Tick ctx; Position := Position ctx;
     LiquidityProvider := LiquidityProvider ctx; Transaction := Transaction ctx;
     HookStats := HookStats ctx; PoolDayData := PoolDayData ctx; PoolHourData :=
     PoolHourData ctx; Pool5MinuteData := <[PoolIntervalData.id r := r]>
     (Pool5MinuteData ctx); TokenDayData := TokenDayData ctx; TokenHourData :=
     TokenHourData ctx; Swap := Swap ctx; ModifyLiquidity := ModifyLiquidity ctx |}.
Definition set_TokenDayData (r : TokenIntervalData.t) (ctx : t) : t :=
  {| Pool := Pool ctx; Token := Token ctx; Tick := Tick ctx; Position := Position ctx;
     LiquidityProvider := LiquidityProvider ctx; Transaction := Transaction ctx;
     HookStats := HookStats ctx; PoolDayData := PoolDayData ctx; PoolHourData :=
     PoolHourData ctx; Pool5MinuteData := Pool5MinuteData ctx; TokenDayData :=
     <[TokenIntervalData.id r := r]> (TokenDayData ctx); TokenHourData := TokenHourData
     ctx; Swap := Swap ctx; ModifyLiquidity := ModifyLiquidity ctx |}.
Definition set_TokenHourData (r : TokenIntervalData.t) (ctx : t) : t :=
  {| Pool := Pool ctx; Token := Token ctx; Tick := Tick ctx; Position := Position ctx;
     LiquidityProvider := LiquidityProvider ctx; Transaction := Transaction ctx;
     HookStats := HookStats ctx; PoolDayData := PoolDayData ctx; PoolHourData :=
     PoolHourData ctx; Pool5MinuteData := Pool5MinuteData ctx; TokenDayData :=
     TokenDayData ctx; TokenHourData := <[TokenIntervalData.id r := r]> (TokenHourData
     ctx); Swap := Swap ctx; ModifyLiquidity := ModifyLiquidity ctx |}.
Definition set_Swap (r : SwapEntity.t) (ctx : t) : t :=
  {| Pool := Pool ctx; Token := Token ctx; Tick := Tick ctx; Position := Position ctx;
     LiquidityProvider := LiquidityProvider ctx; Transaction := Transaction ctx;
     HookStats := HookStats ctx; PoolDayData := PoolDayData ctx; PoolHourData :=
     PoolHourData ctx; Pool5MinuteData := Pool5MinuteData ctx; TokenDayData :=
     TokenDayData ctx; TokenHourData := TokenHourData ctx; Swap := <[SwapEntity.id r :=
     r]> (Swap ctx); ModifyLiquidity := ModifyLiquidity ctx |}.
Definition set_ModifyLiquidity (r : ModifyLiquidityEntity.t) (ctx : t) : t :=
  {| Pool := Pool ctx; Token := Token ctx; Tick := Tick ctx; Position := Position ctx;
     LiquidityProvider := LiquidityProvider ctx; Transaction := Transaction ctx;
     HookStats := HookStats ctx; PoolDayData := PoolDayData ctx; PoolHourData :=
     PoolHourData ctx; Pool5MinuteData := Pool5MinuteData ctx; TokenDayData :=
     TokenDayData ctx; TokenHourData := TokenHourData ctx; Swap := Swap ctx;
     ModifyLiquidity := <[ModifyLiquidityEntity.id r := r]> (ModifyLiquidity ctx) |}.
End Context.
(** ** Handler computations

    A handler reads and writes the store and may throw. *)

Definition Handler (A : Type) : Type := Context.t -> option (A * Context.t).

#[global] Instance Handler_ret : MRet Handler :=
  fun A (a : A) ctx => Some (a, ctx).

#[global] Instance Handler_bind : MBind Handler :=
  fun A B (k : A -> Handler B) (m : Handler A) ctx =>
    match m ctx with
    | Some (a, ctx') => k a ctx'
    | None => None
    end.

(** [context.X.get(k)] for the table [X]. *)
Definition get {V : Type} (table : Context.t -> gmap string V) (k : string)
  : Handler (option V) :=
  fun ctx => Some (table ctx !! k, ctx).

(** [context.X.set(r)], given as the store update [Context.set_X r]. *)
Definition set (update : Context.t -> Context.t) : Handler unit :=
  fun ctx => Some (tt, update ctx).

(** A pure computation that may throw. *)
Definition throws {A : Type} (o : option A) : Handler A :=
  fun ctx => match o with Some a => Some (a, ctx) | None => None end.

(** A [const] binding in a handler.  [dlet x := v in k] is [k v]; unlike a
    native [let] it stays in place until a proof steps over it. *)
Definition Let_In {A B : Type} (v : A) (k : A -> B) : B := k v.

Notation "'dlet' x := v 'in' k" := (Let_In v (fun x => k))
  (at level 10, x name, v at level 200, k at level 200,
   format "'[v' 'dlet'  x  :=  v  'in' '/' k ']'").

(** A computation that reads the store and may throw. *)
Definition reads {A : Type} (f : Context.t -> option A) : Handler A :=
  fun ctx => match f ctx with Some a => Some (a, ctx) | None => None end.

(** [await Promise.all(l.map(f))] for its effects, in list order.  The
    handlers use it on calls that touch distinct records. *)
Fixpoint forEach {A : Type} (f : A -> Handler unit) (l : list A) : Handler unit :=
  match l with
  | [] => mret tt
  | a :: l' => _ ← f a; forEach f l'
  end.

(** The store a handler leaves behind; [None] if it throws. *)
Definition exec {A : Type} (h : Handler A) (ctx : Context.t) : option Context.t :=
  match h ctx with Some (_, ctx') => Some ctx' | None => None end.

(** ** Events *)

(** [s.toLowerCase()] on the ASCII letters; addresses and hashes are
    hexadecimal strings. *)
Definition toLowerCaseAscii (c : ascii) : ascii :=
  let n := nat_of_ascii c in
  if (Nat.leb 65 n && Nat.leb n 90)%bool then ascii_of_nat (n + 32) else c.

Fixpoint toLowerCase (s : string) : string :=
  match s with
  | EmptyString => EmptyString
  | String c s' => String (toLowerCaseAscii c) (toLowerCase s')
  end.

(** The fields every event carries: [event.chainId], [event.block],
    [event.transaction] and [event.logIndex].  [chainId], [number],
    [timestamp] and [logIndex] are JavaScript numbers holding integers. *)
Module EventMeta.
Record t : Type := mk {
  chainId : Z;
  block_number : Z;
  block_timestamp : Z;
  transaction_hash : string;
  transaction_from : option string;
  logIndex : Z
}.
End EventMeta.

Module ModifyLiquidityEvent.
Record t : Type := mk {
  meta : EventMeta.t;
  id : string;
  sender : string;
  tickLower : Z;
  tickUpper : Z;
  liquidityDelta : Z
}.
End ModifyLiquidityEvent.

Module SwapEvent.
Record t : Type := mk {
  meta : EventMeta.t;
  id : string;
  sender : string;
  amount0 : Z;
  amount1 : Z;
  sqrtPriceX96 : Z;
  liquidity : Z;
  tick : Z
}.
End SwapEvent.

Module DonateEvent.
Record t : Type := mk {
  meta : EventMeta.t;
  id : string;
  amount0 : Z;
  amount1 : Z
}.
End DonateEvent.

(** [`${event.chainId}_${event.params.id}`] *)
Definition poolIdOf (chainId : Z) (id : string) : string :=
  pretty chainId +:+ "_" +:+ id.

(** [`${poolId}#${tickIdx}`] *)
Definition tickIdOf (poolId : string) (tickIdx : Z) : string :=
  poolId +:+ "#" +:+ pretty tickIdx.

(** [event.transaction.from?.toLowerCase() || ''] *)
Definition originOf (from : option string) : string :=
  match from with
  | Some a => toLowerCase a
  | None => ""
  end.

(** [pool.tick ?? 0n] *)
Definition tickOrZero (tick : option Z) : Z :=
  match tick with
  | Some t => t
  | None => 0
  end.

(** ** src/utils/transaction.ts *)

Definition getOrCreateTransaction (event : EventMeta.t) : Handler Transaction.t :=
  dlet txHash := EventMeta.transaction_hash event in
  dlet blockNumber := EventMeta.block_number event in
  dlet timestamp := EventMeta.block_timestamp event in
  dlet gasPrice := 0 in
  dlet chainId := EventMeta.chainId event in
  dlet txId := pretty chainId +:+ "_" +:+ txHash in
  txRO ← get Context.Transaction txId;
  dlet transaction :=
    match txRO with
    | Some tx => tx
    | None =>
        {| Transaction.id := txId; Transaction.chainId := chainId;
           Transaction.blockNumber := 0; Transaction.timestamp := 0;
           Transaction.gasUsed := 0; Transaction.gasPrice := 0 |}
    end in
  dlet transaction := Transaction.set_blockNumber blockNumber transaction in
  dlet transaction := Transaction.set_timestamp timestamp transaction in
  dlet transaction := Transaction.set_gasUsed 0 transaction in
  dlet transaction := Transaction.set_gasPrice gasPrice transaction in
  _ ← set (Context.set_Transaction transaction);
  mret transaction.

(** ** src/utils/intervalUpdates.ts

    The timestamp is a [number] that holds an integer. For a timestamp
    from 0 to [Number.MAX_SAFE_INTEGER], [Math.floor(timestamp / p)] is
    the floor division [timestamp / p] of [Z] and the product with [p] is
    exact ([periodIndex_safe], [periodStart_safe]); the definitions below
    compute on [Z] and stand for the code on such timestamps. *)

Definition updatePoolDayData (timestamp : Z) (pool : Pool.t)
  : Handler PoolIntervalData.t :=
  dlet dayId := timestamp / 86400 in
  dlet dayStartTimestamp := dayId * 86400 in
  dlet dayPoolId := Pool.id pool +:+ "-" +:+ pretty dayId in
  poolDayDataRO ← get Context.PoolDayData dayPoolId;
  dlet poolDayData :=
    match poolDayDataRO with
    | Some d => d
    | None =>
        {| PoolIntervalData.id := dayPoolId;
           PoolIntervalData.chainId := Pool.chainId pool;
           PoolIntervalData.startTimestamp := dayStartTimestamp;
           PoolIntervalData.pool_id := Pool.id pool;
           PoolIntervalData.volume0 := 0; PoolIntervalData.volume1 := 0;
           PoolIntervalData.fees0 := 0; PoolIntervalData.fees1 := 0;
           PoolIntervalData.tvl0 := 0; PoolIntervalData.tvl1 := 0;
           PoolIntervalData.txCount := 0; PoolIntervalData.swapCount := 0;
           PoolIntervalData.modifyLiquidityCount := 0;
           PoolIntervalData.open_ := Pool.sqrtPriceX96 pool;
           PoolIntervalData.high := Pool.sqrtPriceX96 pool;
           PoolIntervalData.low := Pool.sqrtPriceX96 pool;
           PoolIntervalData.close := Pool.sqrtPriceX96 pool;
           PoolIntervalData.liquidity := Pool.liquidity pool;
           PoolIntervalData.sqrtPriceX96 := Pool.sqrtPriceX96 pool;
           PoolIntervalData.tick := tickOrZero (Pool.tick pool) |}
    end in
  dlet poolDayData :=
    if PoolIntervalData.high poolDayData <? Pool.sqrtPriceX96 pool
    then PoolIntervalData.set_high (Pool.sqrtPriceX96 pool) poolDayData
    else poolDayData in
  dlet poolDayData :=
    if Pool.sqrtPriceX96 pool <? PoolIntervalData.low poolDayData
    then PoolIntervalData.set_low (Pool.sqrtPriceX96 pool) poolDayData
    else poolDayData in
  dlet poolDayData := PoolIntervalData.set_liquidity (Pool.liquidity pool) poolDayData in
  dlet poolDayData := PoolIntervalData.set_sqrtPriceX96 (Pool.sqrtPriceX96 pool) poolDayData in
  dlet poolDayData := PoolIntervalData.set_close (Pool.sqrtPriceX96 pool) poolDayData in
  dlet poolDayData := PoolIntervalData.set_tick (tickOrZero (Pool.tick pool)) poolDayData in
  dlet poolDayData := PoolIntervalData.set_tvl0 (Pool.tvl0 pool) poolDayData in
  dlet poolDayData := PoolIntervalData.set_tvl1 (Pool.tvl1 pool) poolDayData in
  dlet poolDayData :=
    PoolIntervalData.set_txCount (PoolIntervalData.txCount poolDayData + 1) poolDayData in
  _ ← set (Context.set_PoolDayData poolDayData);
  mret poolDayData.

Definition updatePool5MinuteData (timestamp : Z) (pool : Pool.t)
  : Handler PoolIntervalData.t :=
  dlet fiveMinuteIndex := timestamp / 300 in
  dlet fiveMinuteStartUnix := fiveMinuteIndex * 300 in
  dlet fiveMinutePoolId := Pool.id pool +:+ "-" +:+ pretty fiveMinuteIndex in
  pool5MinuteDataRO ← get Context.Pool5MinuteData fiveMinutePoolId;
  dlet pool5MinuteData :=
    match pool5MinuteDataRO with
    | Some d => d
    | None =>
        {| PoolIntervalData.id := fiveMinutePoolId;
           PoolIntervalData.chainId := Pool.chainId pool;
           PoolIntervalData.startTimestamp := fiveMinuteStartUnix;
           PoolIntervalData.pool_id := Pool.id pool;
           PoolIntervalData.volume0 := 0; PoolIntervalData.volume1 := 0;
           PoolIntervalData.fees0 := 0; PoolIntervalData.fees1 := 0;
           PoolIntervalData.tvl0 := 0; PoolIntervalData.tvl1 := 0;
           PoolIntervalData.txCount := 0; PoolIntervalData.swapCount := 0;
           PoolIntervalData.modifyLiquidityCount := 0;
           PoolIntervalData.open_ := Pool.sqrtPriceX96 pool;
           PoolIntervalData.high := Pool.sqrtPriceX96 pool;
           PoolIntervalData.low := Pool.sqrtPriceX96 pool;
           PoolIntervalData.close := Pool.sqrtPriceX96 pool;
           PoolIntervalData.liquidity := 0;
           PoolIntervalData.sqrtPriceX96 := 0;
           PoolIntervalData.tick := tickOrZero (Pool.tick pool) |}
    end in
  dlet pool5MinuteData :=
    if PoolIntervalData.high pool5MinuteData <? Pool.sqrtPriceX96 pool
    then PoolIntervalData.set_high (Pool.sqrtPriceX96 pool) pool5MinuteData
    else pool5MinuteData in
  dlet pool5MinuteData :=
    if Pool.sqrtPriceX96 pool <? PoolIntervalData.low pool5MinuteData
    then PoolIntervalData.set_low (Pool.sqrtPriceX96 pool) pool5MinuteData
    else pool5MinuteData in
  dlet pool5MinuteData := PoolIntervalData.set_liquidity (Pool.liquidity pool) pool5MinuteData in
  dlet pool5MinuteData :=
    PoolIntervalData.set_sqrtPriceX96 (Pool.sqrtPriceX96 pool) pool5MinuteData in
  dlet pool5MinuteData := PoolIntervalData.set_close (Pool.sqrtPriceX96 pool) pool5MinuteData in
  dlet pool5MinuteData :=
    PoolIntervalData.set_tick (tickOrZero (Pool.tick pool)) pool5MinuteData in
  dlet pool5MinuteData := PoolIntervalData.set_tvl0 (Pool.tvl0 pool) pool5MinuteData in
  dlet pool5MinuteData := PoolIntervalData.set_tvl1 (Pool.tvl1 pool) pool5MinuteData in
  dlet pool5MinuteData :=
    PoolIntervalData.set_txCount
      (PoolIntervalData.txCount pool5MinuteData + 1) pool5MinuteData in
  _ ← set (Context.set_Pool5MinuteData pool5MinuteData);
  mret pool5MinuteData.

Definition updatePoolHourData (timestamp : Z) (pool : Pool.t)
  : Handler PoolIntervalData.t :=
  dlet hourIndex := timestamp / 3600 in
  dlet hourStartUnix := hourIndex * 3600 in
  dlet hourPoolId := Pool.id pool +:+ "-" +:+ pretty hourIndex in
  poolHourDataRO ← get Context.PoolHourData hourPoolId;
  dlet poolHourData :=
    match poolHourDataRO with
    | Some d => d
    | None =>
        {| PoolIntervalData.id := hourPoolId;
           PoolIntervalData.chainId := Pool.chainId pool;
           PoolIntervalData.startTimestamp := hourStartUnix;
           PoolIntervalData.pool_id := Pool.id pool;
           PoolIntervalData.volume0 := 0; PoolIntervalData.volume1 := 0;
           PoolIntervalData.fees0 := 0; PoolIntervalData.fees1 := 0;
           PoolIntervalData.tvl0 := 0; PoolIntervalData.tvl1 := 0;
           PoolIntervalData.txCount := 0; PoolIntervalData.swapCount := 0;
           PoolIntervalData.modifyLiquidityCount := 0;
           PoolIntervalData.open_ := Pool.sqrtPriceX96 pool;
           PoolIntervalData.high := Pool.sqrtPriceX96 pool;
           PoolIntervalData.low := Pool.sqrtPriceX96 pool;
           PoolIntervalData.close := Pool.sqrtPriceX96 pool;
           PoolIntervalData.liquidity := 0;
           PoolIntervalData.sqrtPriceX96 := 0;
           PoolIntervalData.tick := tickOrZero (Pool.tick pool) |}
    end in
  dlet poolHourData :=
    if PoolIntervalData.high poolHourData <? Pool.sqrtPriceX96 pool
    then PoolIntervalData.set_high (Pool.sqrtPriceX96 pool) poolHourData
    else poolHourData in
  dlet poolHourData :=
    if Pool.sqrtPriceX96 pool <? PoolIntervalData.low poolHourData
    then PoolIntervalData.set_low (Pool.sqrtPriceX96 pool) poolHourData
    else poolHourData in
  dlet poolHourData := PoolIntervalData.set_liquidity (Pool.liquidity pool) poolHourData in
  dlet poolHourData := PoolIntervalData.set_sqrtPriceX96 (Pool.sqrtPriceX96 pool) poolHourData in
  dlet poolHourData := PoolIntervalData.set_close (Pool.sqrtPriceX96 pool) poolHourData in
  dlet poolHourData := PoolIntervalData.set_tick (tickOrZero (Pool.tick pool)) poolHourData in
  dlet poolHourData := PoolIntervalData.set_tvl0 (Pool.tvl0 pool) poolHourData in
  dlet poolHourData := PoolIntervalData.set_tvl1 (Pool.tvl1 pool) poolHourData in
  dlet poolHourData :=
    PoolIntervalData.set_txCount (PoolIntervalData.txCount poolHourData + 1) poolHourData in
  _ ← set (Context.set_PoolHourData poolHourData);
  mret poolHourData.

Definition updateTokenDayData (timestamp : Z) (token : Token.t)
  : Handler TokenIntervalData.t :=
  dlet dayId := timestamp / 86400 in
  dlet dayStartTimestamp := dayId * 86400 in
  dlet tokenDayId := Token.id token +:+ "-" +:+ pretty dayId in
  tokenDayDataRO ← get Context.TokenDayData tokenDayId;
  dlet tokenDayData :=
    match tokenDayDataRO with
    | Some d => d
    | None =>
        {| TokenIntervalData.id := tokenDayId;
           TokenIntervalData.chainId := Token.chainId token;
           TokenIntervalData.startTimestamp := dayStartTimestamp;
           TokenIntervalData.token_id := Token.id token;
           TokenIntervalData.volume := 0; TokenIntervalData.txCount := 0;
           TokenIntervalData.swapCount := 0;
           TokenIntervalData.modifyLiquidityCount := 0 |}
    end in
  dlet tokenDayData :=
    TokenIntervalData.set_txCount (TokenIntervalData.txCount tokenDayData + 1) tokenDayData in
  _ ← set (Context.set_TokenDayData tokenDayData);
  mret tokenDayData.

Definition updateTokenHourData (timestamp : Z) (token : Token.t)
  : Handler TokenIntervalData.t :=
  dlet hourIndex := timestamp / 3600 in
  dlet hourStartTimestamp := hourIndex * 3600 in
  dlet tokenHourID := Token.id token +:+ "-" +:+ pretty hourIndex in
  tokenHourDataRO ← get Context.TokenHourData tokenHourID;
  dlet tokenHourData :=
    match tokenHourDataRO with
    | Some d => d
    | None =>
        {| TokenIntervalData.id := tokenHourID;
           TokenIntervalData.chainId := Token.chainId token;
           TokenIntervalData.startTimestamp := hourStartTimestamp;
           TokenIntervalData.token_id := Token.id token;
           TokenIntervalData.volume := 0; TokenIntervalData.txCount := 0;
           TokenIntervalData.swapCount := 0;
           TokenIntervalData.modifyLiquidityCount := 0 |}
    end in
  dlet tokenHourData :=
    TokenIntervalData.set_txCount
      (TokenIntervalData.txCount tokenHourData + 1) tokenHourData in
  _ ← set (Context.set_TokenHourData tokenHourData);
  mret tokenHourData.

(** ** src/handlers/swap.ts *)

(** [for (let tick = currentTick; tick <= endTick; tick += tickSpacing)
       ticksToCheck.push(tick)].
    [fuel] bounds the number of times the loop condition is tested; [None]
    means that the loop was still running when the fuel ran out. *)
Fixpoint ticksAscending (fuel : nat) (tick endTick tickSpacing : Z) : option (list Z) :=
  match fuel with
  | O => None
  | S fuel' =>
      if tick <=? endTick
      then rest ← ticksAscending fuel' (tick + tickSpacing) endTick tickSpacing;
           Some (tick :: rest)
      else Some []
  end.

(** [for (let tick = currentTick; tick >= endTick; tick -= tickSpacing)
       ticksToCheck.push(tick)]. *)
Fixpoint ticksDescending (fuel : nat) (tick endTick tickSpacing : Z) : option (list Z) :=
  match fuel with
  | O => None
  | S fuel' =>
      if endTick <=? tick
      then rest ← ticksDescending fuel' (tick - tickSpacing) endTick tickSpacing;
           Some (tick :: rest)
      else Some []
  end.

(** The candidates that have a Tick record, in the order of the scan:
    [context.Tick.get] on each, the [null]s filtered out. *)
Definition initializedOnly (poolId : string) (ctx : Context.t) (ticksToCheck : list Z)
  : list Z :=
  List.filter
    (fun tickIdx =>
       match Context.Tick ctx !! tickIdOf poolId tickIdx with
       | Some _ => true
       | None => false
       end)
    ticksToCheck.

(** The scan only reads the store. *)
Definition getInitializedTicksCrossed
    (fuel : nat) (poolId : string) (oldTick newTick tickSpacing : Z) (ctx : Context.t)
  : option (list Z) :=
  if decide (newTick = oldTick) then Some []
  else
    let ascending := oldTick <? newTick in
    let startTick := if ascending then oldTick + 1 else oldTick in
    let endTick := if ascending then newTick else newTick + 1 in
    remainder ← BigInt.rem startTick tickSpacing;
    let currentTick :=
      if decide (remainder ≠ 0)
      then if ascending
           then startTick + (tickSpacing - remainder)
           else startTick - remainder
      else startTick in
    ticksToCheck ←
      (if ascending
       then ticksAscending fuel currentTick endTick tickSpacing
       else ticksDescending fuel currentTick endTick tickSpacing);
    Some (initializedOnly poolId ctx ticksToCheck).

Definition updateTickCrossed
    (tickId : string) (feeGrowthGlobal0X128 feeGrowthGlobal1X128 : Z) : Handler unit :=
  tickRO ← get Context.Tick tickId;
  match tickRO with
  | Some tick =>
      dlet tick :=
        Tick.set_feeGrowthOutside0X128
          (flipFeeGrowthOutside feeGrowthGlobal0X128 (Tick.feeGrowthOutside0X128 tick))
          tick in
      dlet tick :=
        Tick.set_feeGrowthOutside1X128
          (flipFeeGrowthOutside feeGrowthGlobal1X128 (Tick.feeGrowthOutside1X128 tick))
          tick in
      set (Context.set_Tick tick)
  | None => mret tt
  end.

Definition zeroAddress : string := "0x0000000000000000000000000000000000000000".

(** [PoolManager.Swap.handler]; the [eventFilters] option is applied by the
    framework before the handler is called. *)
Definition swapHandler (fuel : nat) (event : SwapEvent.t) : Handler unit :=
  dlet meta := SwapEvent.meta event in
  dlet poolId := poolIdOf (EventMeta.chainId meta) (SwapEvent.id event) in
  poolRO ← get Context.Pool poolId;
  match poolRO with
  | None => mret tt
  | Some poolRO =>
  token0RO ← get Context.Token (Pool.token0_id poolRO);
  token1RO ← get Context.Token (Pool.token1_id poolRO);
  match token0RO, token1RO with
  | Some token0, Some token1 =>
  dlet pool := poolRO in
  dlet timestamp := EventMeta.block_timestamp meta in
  dlet amount0 := - SwapEvent.amount0 event in
  dlet amount1 := - SwapEvent.amount1 event in
  dlet amount0Abs := abs amount0 in
  dlet amount1Abs := abs amount1 in
  dlet fees0 := calculateFees amount0Abs (Pool.feeTier pool) in
  dlet fees1 := calculateFees amount1Abs (Pool.feeTier pool) in
  feeGrowthGlobal0X128 ←
    throws (updateFeeGrowth (Pool.feeGrowthGlobal0X128 pool) fees0 (Pool.liquidity poolRO));
  dlet pool := Pool.set_feeGrowthGlobal0X128 feeGrowthGlobal0X128 pool in
  feeGrowthGlobal1X128 ←
    throws (updateFeeGrowth (Pool.feeGrowthGlobal1X128 pool) fees1 (Pool.liquidity poolRO));
  dlet pool := Pool.set_feeGrowthGlobal1X128 feeGrowthGlobal1X128 pool in
  dlet oldTick := tickOrZero (Pool.tick poolRO) in
  dlet newTick := SwapEvent.tick event in
  _ ← (if decide (oldTick ≠ newTick) then
         ticksCrossed ←
           reads (getInitializedTicksCrossed
                    fuel poolId oldTick newTick (Pool.tickSpacing pool));
         forEach
           (fun tickIdx =>
              updateTickCrossed (tickIdOf poolId tickIdx)
                (Pool.feeGrowthGlobal0X128 pool) (Pool.feeGrowthGlobal1X128 pool))
           ticksCrossed
       else mret tt);
  dlet pool := Pool.set_volume0 (Pool.volume0 pool + amount0Abs) pool in
  dlet pool := Pool.set_volume1 (Pool.volume1 pool + amount1Abs) pool in
  dlet pool := Pool.set_fees0 (Pool.fees0 pool + fees0) pool in
  dlet pool := Pool.set_fees1 (Pool.fees1 pool + fees1) pool in
  dlet pool := Pool.set_txCount (Pool.txCount pool + 1) pool in
  dlet pool := Pool.set_swapCount (Pool.swapCount pool + 1) pool in
  dlet pool := Pool.set_liquidity (SwapEvent.liquidity event) pool in
  dlet pool := Pool.set_tick (Some (SwapEvent.tick event)) pool in
  dlet pool := Pool.set_sqrtPrice (SwapEvent.sqrtPriceX96 event) pool in
  dlet pool := Pool.set_sqrtPriceX96 (SwapEvent.sqrtPriceX96 event) pool in
  dlet pool := Pool.set_tvl0 (Pool.tvl0 pool + amount0) pool in
  dlet pool := Pool.set_tvl1 (Pool.tvl1 pool + amount1) pool in
  dlet token0 := Token.set_volume (Token.volume token0 + amount0Abs) token0 in
  dlet token0 := Token.set_tvl (Token.tvl token0 + amount0) token0 in
  dlet token0 := Token.set_txCount (Token.txCount token0 + 1) token0 in
  dlet token0 := Token.set_swapCount (Token.swapCount token0 + 1) token0 in
  dlet token1 := Token.set_volume (Token.volume token1 + amount1Abs) token1 in
  dlet token1 := Token.set_tvl (Token.tvl token1 + amount1) token1 in
  dlet token1 := Token.set_txCount (Token.txCount token1 + 1) token1 in
  dlet token1 := Token.set_swapCount (Token.swapCount token1 + 1) token1 in
  _ ← (if decide (Pool.hooks pool ≠ zeroAddress) then
         dlet hookStatsId := pretty (EventMeta.chainId meta) +:+ "_" +:+ Pool.hooks pool in
         hookStatsRO ← get Context.HookStats hookStatsId;
         match hookStatsRO with
         | Some hookStats =>
             dlet hookStats :=
               HookStats.set_swapCount (HookStats.swapCount hookStats + 1) hookStats in
             dlet hookStats :=
               HookStats.set_volume0 (HookStats.volume0 hookStats + amount0Abs) hookStats in
             dlet hookStats :=
               HookStats.set_volume1 (HookStats.volume1 hookStats + amount1Abs) hookStats in
             dlet hookStats := HookStats.set_fees0 (HookStats.fees0 hookStats + fees0) hookStats in
             dlet hookStats := HookStats.set_fees1 (HookStats.fees1 hookStats + fees1) hookStats in
             dlet hookStats := HookStats.set_tvl0 (HookStats.tvl0 hookStats + amount0) hookStats in
             dlet hookStats := HookStats.set_tvl1 (HookStats.tvl1 hookStats + amount1) hookStats in
             set (Context.set_HookStats hookStats)
         | None => mret tt
         end
       else mret tt);
  transaction ← getOrCreateTransaction meta;
  dlet swap :=
    {| SwapEntity.id :=
         pretty (EventMeta.chainId meta) +:+ "_" +:+ EventMeta.transaction_hash meta
           +:+ "_" +:+ pretty (EventMeta.logIndex meta);
       SwapEntity.chainId := EventMeta.chainId meta;
       SwapEntity.transaction_id := Transaction.id transaction;
       SwapEntity.timestamp := timestamp;
       SwapEntity.pool_id := Pool.id pool;
       SwapEntity.token0_id := Pool.token0_id poolRO;
       SwapEntity.token1_id := Pool.token1_id poolRO;
       SwapEntity.sender := SwapEvent.sender event;
       SwapEntity.recipient := SwapEvent.sender event;
       SwapEntity.origin := originOf (EventMeta.transaction_from meta);
       SwapEntity.amount0 := amount0;
       SwapEntity.amount1 := amount1;
       SwapEntity.tick := SwapEvent.tick event;
       SwapEntity.sqrtPriceX96 := SwapEvent.sqrtPriceX96 event;
       SwapEntity.logIndex := EventMeta.logIndex meta |} in
  poolDayData ← updatePoolDayData timestamp pool;
  poolHourData ← updatePoolHourData timestamp pool;
  pool5MinuteData ← updatePool5MinuteData timestamp pool;
  token0DayData ← updateTokenDayData timestamp token0;
  token1DayData ← updateTokenDayData timestamp token1;
  token0HourData ← updateTokenHourData timestamp token0;
  token1HourData ← updateTokenHourData timestamp token1;
  dlet poolDayData :=
    PoolIntervalData.set_volume0 (PoolIntervalData.volume0 poolDayData + amount0Abs) poolDayData in
  dlet poolDayData :=
    PoolIntervalData.set_volume1 (PoolIntervalData.volume1 poolDayData + amount1Abs) poolDayData in
  dlet poolDayData :=
    PoolIntervalData.set_fees0 (PoolIntervalData.fees0 poolDayData + fees0) poolDayData in
  dlet poolDayData :=
    PoolIntervalData.set_fees1 (PoolIntervalData.fees1 poolDayData + fees1) poolDayData in
  dlet poolDayData :=
    PoolIntervalData.set_swapCount (PoolIntervalData.swapCount poolDayData + 1) poolDayData in
  dlet poolHourData :=
    PoolIntervalData.set_volume0 (PoolIntervalData.volume0 poolHourData + amount0Abs) poolHourData in
  dlet poolHourData :=
    PoolIntervalData.set_volume1 (PoolIntervalData.volume1 poolHourData + amount1Abs) poolHourData in
  dlet poolHourData :=
    PoolIntervalData.set_fees0 (PoolIntervalData.fees0 poolHourData + fees0) poolHourData in
  dlet poolHourData :=
    PoolIntervalData.set_fees1 (PoolIntervalData.fees1 poolHourData + fees1) poolHourData in
  dlet poolHourData :=
    PoolIntervalData.set_swapCount (PoolIntervalData.swapCount poolHourData + 1) poolHourData in
  dlet pool5MinuteData :=
    PoolIntervalData.set_volume0
      (PoolIntervalData.volume0 pool5MinuteData + amount0Abs) pool5MinuteData in
  dlet pool5MinuteData :=
    PoolIntervalData.set_volume1
      (PoolIntervalData.volume1 pool5MinuteData + amount1Abs) pool5MinuteData in
  dlet pool5MinuteData :=
    PoolIntervalData.set_fees0 (PoolIntervalData.fees0 pool5MinuteData + fees0) pool5MinuteData in
  dlet pool5MinuteData :=
    PoolIntervalData.set_fees1 (PoolIntervalData.fees1 pool5MinuteData + fees1) pool5MinuteData in
  dlet pool5MinuteData :=
    PoolIntervalData.set_swapCount
      (PoolIntervalData.swapCount pool5MinuteData + 1) pool5MinuteData in
  dlet token0DayData :=
    TokenIntervalData.set_volume (TokenIntervalData.volume token0DayData + amount0Abs) token0DayData in
  dlet token0DayData :=
    TokenIntervalData.set_swapCount (TokenIntervalData.swapCount token0DayData + 1) token0DayData in
  dlet token0HourData :=
    TokenIntervalData.set_volume
      (TokenIntervalData.volume token0HourData + amount0Abs) token0HourData in
  dlet token0HourData :=
    TokenIntervalData.set_swapCount
      (TokenIntervalData.swapCount token0HourData + 1) token0HourData in
  dlet token1DayData :=
    TokenIntervalData.set_volume (TokenIntervalData.volume token1DayData + amount1Abs) token1DayData in
  dlet token1DayData :=
    TokenIntervalData.set_swapCount (TokenIntervalData.swapCount token1DayData + 1) token1DayData in
  dlet token1HourData :=
    TokenIntervalData.set_volume
      (TokenIntervalData.volume token1HourData + amount1Abs) token1HourData in
  dlet token1HourData :=
    TokenIntervalData.set_swapCount
      (TokenIntervalData.swapCount token1HourData + 1) token1HourData in
  _ ← set (Context.set_Swap swap);
  _ ← set (Context.set_TokenDayData token0DayData);
  _ ← set (Context.set_TokenDayData token1DayData);
  _ ← set (Context.set_PoolDayData poolDayData);
  _ ← set (Context.set_PoolHourData poolHourData);
  _ ← set (Context.set_Pool5MinuteData pool5MinuteData);
  _ ← set (Context.set_TokenHourData token0HourData);
  _ ← set (Context.set_TokenHourData token1HourData);
  _ ← set (Context.set_Pool pool);
  _ ← set (Context.set_Token token0);
  set (Context.set_Token token1)
  | _, _ => mret tt
  end
  end.

(** ** The Donate handler *)

Definition ADDRESS_ZERO : string := "0x0000000000000000000000000000000000000000".

Definition donateHandler (event : DonateEvent.t) : Handler unit :=
  dlet meta := DonateEvent.meta event in
  dlet poolId := poolIdOf (EventMeta.chainId meta) (DonateEvent.id event) in
  poolRO ← get Context.Pool poolId;
  match poolRO with
  | None => mret tt
  | Some poolRO =>
  token0RO ← get Context.Token (Pool.token0_id poolRO);
  token1RO ← get Context.Token (Pool.token1_id poolRO);
  match token0RO, token1RO with
  | Some token0, Some token1 =>
  dlet pool := poolRO in
  dlet timestamp := EventMeta.block_timestamp meta in
  dlet amount0 := DonateEvent.amount0 event in
  dlet amount1 := DonateEvent.amount1 event in
  dlet pool := Pool.set_tvl0 (Pool.tvl0 pool + amount0) pool in
  dlet pool := Pool.set_tvl1 (Pool.tvl1 pool + amount1) pool in
  dlet pool := Pool.set_txCount (Pool.txCount pool + 1) pool in
  pool ←
    (if 0 <? Pool.liquidity pool then
       q0 ← throws (BigInt.div (amount0 * 2 ^ 128) (Pool.liquidity pool));
       dlet pool :=
         Pool.set_feeGrowthGlobal0X128 (Pool.feeGrowthGlobal0X128 pool + q0) pool in
       q1 ← throws (BigInt.div (amount1 * 2 ^ 128) (Pool.liquidity pool));
       dlet pool :=
         Pool.set_feeGrowthGlobal1X128 (Pool.feeGrowthGlobal1X128 pool + q1) pool in
       dlet pool := Pool.set_fees0 (Pool.fees0 pool + amount0) pool in
       dlet pool := Pool.set_fees1 (Pool.fees1 pool + amount1) pool in
       mret pool
     else mret pool);
  dlet token0 := Token.set_tvl (Token.tvl token0 + amount0) token0 in
  dlet token0 := Token.set_txCount (Token.txCount token0 + 1) token0 in
  dlet token1 := Token.set_tvl (Token.tvl token1 + amount1) token1 in
  dlet token1 := Token.set_txCount (Token.txCount token1 + 1) token1 in
  _ ← (if decide (Pool.hooks pool ≠ ADDRESS_ZERO) then
         dlet hookStatsId := pretty (EventMeta.chainId meta) +:+ "_" +:+ Pool.hooks pool in
         hookStatsRO ← get Context.HookStats hookStatsId;
         match hookStatsRO with
         | Some hookStats =>
             dlet hookStats := HookStats.set_fees0 (HookStats.fees0 hookStats + amount0) hookStats in
             dlet hookStats := HookStats.set_fees1 (HookStats.fees1 hookStats + amount1) hookStats in
             dlet hookStats := HookStats.set_tvl0 (HookStats.tvl0 hookStats + amount0) hookStats in
             dlet hookStats := HookStats.set_tvl1 (HookStats.tvl1 hookStats + amount1) hookStats in
             set (Context.set_HookStats hookStats)
         | None => mret tt
         end
       else mret tt);
  _ ← getOrCreateTransaction meta;
  poolDayData ← updatePoolDayData timestamp pool;
  poolHourData ← updatePoolHourData timestamp pool;
  pool5MinuteData ← updatePool5MinuteData timestamp pool;
  token0DayData ← updateTokenDayData timestamp token0;
  token1DayData ← updateTokenDayData timestamp token1;
  token0HourData ← updateTokenHourData timestamp token0;
  token1HourData ← updateTokenHourData timestamp token1;
  dlet poolDayData :=
    PoolIntervalData.set_fees0 (PoolIntervalData.fees0 poolDayData + amount0) poolDayData in
  dlet poolDayData :=
    PoolIntervalData.set_fees1 (PoolIntervalData.fees1 poolDayData + amount1) poolDayData in
  dlet poolHourData :=
    PoolIntervalData.set_fees0 (PoolIntervalData.fees0 poolHourData + amount0) poolHourData in
  dlet poolHourData :=
    PoolIntervalData.set_fees1 (PoolIntervalData.fees1 poolHourData + amount1) poolHourData in
  dlet pool5MinuteData :=
    PoolIntervalData.set_fees0
      (PoolIntervalData.fees0 pool5MinuteData + amount0) pool5MinuteData in
  dlet pool5MinuteData :=
    PoolIntervalData.set_fees1
      (PoolIntervalData.fees1 pool5MinuteData + amount1) pool5MinuteData in
  _ ← set (Context.set_PoolDayData poolDayData);
  _ ← set (Context.set_PoolHourData poolHourData);
  _ ← set (Context.set_Pool5MinuteData pool5MinuteData);
  _ ← set (Context.set_TokenDayData token0DayData);
  _ ← set (Context.set_TokenDayData token1DayData);
  _ ← set (Context.set_TokenHourData token0HourData);
  _ ← set (Context.set_TokenHourData token1HourData);
  _ ← set (Context.set_Pool pool);
  _ ← set (Context.set_Token token0);
  set (Context.set_Token token1)
  | _, _ => mret tt
  end
  end.

(** ** src/handlers/modifyLiquidity.ts *)

Definition createTick
    (tickId : string) (tickIdx : Z) (poolId poolIdString : string)
    (chainId timestamp blockNumber : Z) : Tick.t :=
  {| Tick.id := tickId;
     Tick.chainId := chainId;
     Tick.poolId := poolIdString;
     Tick.tickIdx := tickIdx;
     Tick.pool_id := poolId;
     Tick.liquidityGross := 0;
     Tick.liquidityNet := 0;
     Tick.price0 := 0;
     Tick.price1 := 0;
     Tick.feeGrowthOutside0X128 := 0;
     Tick.feeGrowthOutside1X128 := 0;
     Tick.positionCount := 0;
     Tick.createdAtTimestamp := timestamp;
     Tick.createdAtBlockNumber := blockNumber |}.

Definition createPosition
    (positionId owner poolId token0Id token1Id : string) (tickLower tickUpper : Z)
    (transactionId : string) (timestamp blockNumber : Z)
    (liquidityProviderId : string) (chainId : Z) : Position.t :=
  {| Position.id := positionId;
     Position.chainId := chainId;
     Position.owner := toLowerCase owner;
     Position.liquidityProvider_id := liquidityProviderId;
     Position.pool_id := poolId;
     Position.token0_id := token0Id;
     Position.token1_id := token1Id;
     Position.tickLower := tickLower;
     Position.tickUpper := tickUpper;
     Position.liquidity := 0;
     Position.deposited0 := 0;
     Position.deposited1 := 0;
     Position.withdrawn0 := 0;
     Position.withdrawn1 := 0;
     Position.fees0 := 0;
     Position.fees1 := 0;
     Position.feeGrowthInside0LastX128 := 0;
     Position.feeGrowthInside1LastX128 := 0;
     Position.modifyLiquidityCount := 0;
     Position.transaction_id := transactionId;
     Position.createdAtTimestamp := timestamp;
     Position.createdAtBlockNumber := blockNumber |}.

Definition getOrCreateLiquidityProvider (poolId : string) (event : ModifyLiquidityEvent.t)
  : Handler LiquidityProvider.t :=
  dlet meta := ModifyLiquidityEvent.meta event in
  dlet chainId := EventMeta.chainId meta in
  dlet address := ModifyLiquidityEvent.sender event in
  dlet timestamp := EventMeta.block_timestamp meta in
  dlet blockNumber := EventMeta.block_number meta in
  dlet lpId := pretty chainId +:+ "_" +:+ poolId +:+ "-" +:+ toLowerCase address in
  lpRO ← get Context.LiquidityProvider lpId;
  match lpRO with
  | Some lp => mret lp
  | None =>
      dlet newLP :=
        {| LiquidityProvider.id := lpId;
           LiquidityProvider.chainId := chainId;
           LiquidityProvider.address := toLowerCase address;
           LiquidityProvider.deposited0 := 0;
           LiquidityProvider.deposited1 := 0;
           LiquidityProvider.withdrawn0 := 0;
           LiquidityProvider.withdrawn1 := 0;
           LiquidityProvider.fees0 := 0;
           LiquidityProvider.fees1 := 0;
           LiquidityProvider.positionCount := 0;
           LiquidityProvider.modifyLiquidityCount := 0;
           LiquidityProvider.createdAtTimestamp := timestamp;
           LiquidityProvider.createdAtBlockNumber := blockNumber |} in
      _ ← set (Context.set_LiquidityProvider newLP);
      mret newLP
  end.

(** [`${poolId}#${sender.toLowerCase()}#${tickLower}#${tickUpper}`] *)
Definition positionIdOf (poolId sender : string) (tickLower tickUpper : Z) : string :=
  poolId +:+ "#" +:+ toLowerCase sender +:+ "#" +:+ pretty tickLower
    +:+ "#" +:+ pretty tickUpper.

(** [tickLower <= pool.tick && tickUpper > pool.tick]; a comparison with an
    [undefined] tick is false. *)
Definition rangeContainsTick (tickLower tickUpper : Z) (tick : option Z) : bool :=
  match tick with
  | Some t => (tickLower <=? t) && (t <? tickUpper)
  | None => false
  end.

Section ModifyLiquidity.

(** The SDK's tick to price function (see [Section LiquidityUtils]). *)
Variable getSqrtRatioAtTick : Z -> option Z.

(** [PoolManager.ModifyLiquidity.handler]; the [eventFilters] option is
    applied by the framework before the handler is called. *)
Definition modifyLiquidityHandler (event : ModifyLiquidityEvent.t) : Handler unit :=
  dlet meta := ModifyLiquidityEvent.meta event in
  dlet tickLower := ModifyLiquidityEvent.tickLower event in
  dlet tickUpper := ModifyLiquidityEvent.tickUpper event in
  dlet sender := ModifyLiquidityEvent.sender event in
  dlet poolId := poolIdOf (EventMeta.chainId meta) (ModifyLiquidityEvent.id event) in
  poolRO ← get Context.Pool poolId;
  match poolRO with
  | None => mret tt
  | Some poolRO =>
  dlet lowerTickId := tickIdOf poolId tickLower in
  dlet upperTickId := tickIdOf poolId tickUpper in
  dlet positionId := positionIdOf poolId sender tickLower tickUpper in
  token0RO ← get Context.Token (Pool.token0_id poolRO);
  token1RO ← get Context.Token (Pool.token1_id poolRO);
  lowerTickRO ← get Context.Tick lowerTickId;
  upperTickRO ← get Context.Tick upperTickId;
  positionRO ← get Context.Position positionId;
  liquidityProviderRO ← getOrCreateLiquidityProvider poolId event;
  match token0RO, token1RO with
  | Some token0, Some token1 =>
  dlet pool := poolRO in
  dlet liquidityProvider := liquidityProviderRO in
  dlet timestamp := EventMeta.block_timestamp meta in
  dlet liquidityDelta := ModifyLiquidityEvent.liquidityDelta event in
  dlet isAddingLiquidity := 0 <? liquidityDelta in
  amounts ←
    throws (calculateTokenAmounts getSqrtRatioAtTick
              liquidityDelta tickLower tickUpper (Pool.sqrtPriceX96 pool));
  dlet amount0 := TokenAmounts.amount0 amounts in
  dlet amount1 := TokenAmounts.amount1 amounts in
  dlet amount0Abs := TokenAmounts.amount0Abs amounts in
  dlet amount1Abs := TokenAmounts.amount1Abs amounts in
  dlet token0 := Token.set_txCount (Token.txCount token0 + 1) token0 in
  dlet token0 :=
    Token.set_modifyLiquidityCount (Token.modifyLiquidityCount token0 + 1) token0 in
  dlet token1 := Token.set_txCount (Token.txCount token1 + 1) token1 in
  dlet token1 :=
    Token.set_modifyLiquidityCount (Token.modifyLiquidityCount token1 + 1) token1 in
  dlet pool := Pool.set_txCount (Pool.txCount pool + 1) pool in
  dlet pool := Pool.set_modifyLiquidityCount (Pool.modifyLiquidityCount pool + 1) pool in
  dlet pool := Pool.set_tvl0 (Pool.tvl0 pool + amount0) pool in
  dlet pool := Pool.set_tvl1 (Pool.tvl1 pool + amount1) pool in
  dlet pool :=
    if rangeContainsTick tickLower tickUpper (Pool.tick pool)
    then Pool.set_liquidity (Pool.liquidity pool + liquidityDelta) pool
    else pool in
  transaction ← getOrCreateTransaction meta;
  dlet modifyLiquidity :=
    {| ModifyLiquidityEntity.id :=
         Transaction.id transaction +:+ "-" +:+ pretty (EventMeta.logIndex meta);
       ModifyLiquidityEntity.chainId := EventMeta.chainId meta;
       ModifyLiquidityEntity.transaction_id := Transaction.id transaction;
       ModifyLiquidityEntity.timestamp := timestamp;
       ModifyLiquidityEntity.pool_id := Pool.id pool;
       ModifyLiquidityEntity.token0_id := Pool.token0_id poolRO;
       ModifyLiquidityEntity.token1_id := Pool.token1_id poolRO;
       ModifyLiquidityEntity.sender := sender;
       ModifyLiquidityEntity.origin := originOf (EventMeta.transaction_from meta);
       ModifyLiquidityEntity.amount := liquidityDelta;
       ModifyLiquidityEntity.amount0 := amount0;
       ModifyLiquidityEntity.amount1 := amount1;
       ModifyLiquidityEntity.tickLower := tickLower;
       ModifyLiquidityEntity.tickUpper := tickUpper;
       ModifyLiquidityEntity.logIndex := EventMeta.logIndex meta |} in
  dlet lowerTickIdx := tickLower in
  dlet upperTickIdx := tickUpper in
  dlet ltId := tickIdOf (Pool.id pool) lowerTickIdx in
  dlet utId := tickIdOf (Pool.id pool) upperTickIdx in
  dlet lowerTick :=
    match lowerTickRO with
    | Some tick => tick
    | None =>
        createTick ltId lowerTickIdx (Pool.id pool) (Pool.poolId pool) (Pool.chainId pool)
          timestamp (EventMeta.block_number meta)
    end in
  dlet upperTick :=
    match upperTickRO with
    | Some tick => tick
    | None =>
        createTick utId upperTickIdx (Pool.id pool) (Pool.poolId pool) (Pool.chainId pool)
          timestamp (EventMeta.block_number meta)
    end in
  dlet lowerTick :=
    Tick.set_liquidityGross (Tick.liquidityGross lowerTick + liquidityDelta) lowerTick in
  dlet lowerTick :=
    Tick.set_liquidityNet (Tick.liquidityNet lowerTick + liquidityDelta) lowerTick in
  dlet upperTick :=
    Tick.set_liquidityGross (Tick.liquidityGross upperTick + liquidityDelta) upperTick in
  dlet upperTick :=
    Tick.set_liquidityNet (Tick.liquidityNet upperTick - liquidityDelta) upperTick in
  dlet newPositionAdding :=
    match positionRO with
    | None => isAddingLiquidity
    | Some _ => false
    end in
  dlet lowerTick :=
    if newPositionAdding
    then Tick.set_positionCount (Tick.positionCount lowerTick + 1) lowerTick
    else lowerTick in
  dlet upperTick :=
    if newPositionAdding
    then Tick.set_positionCount (Tick.positionCount upperTick + 1) upperTick
    else upperTick in
  _ ← set (Context.set_Tick lowerTick);
  _ ← set (Context.set_Tick upperTick);
  dlet feeGrowthInside0X128 :=
    getFeeGrowthInside
      (Pool.feeGrowthGlobal0X128 pool)
      (Tick.feeGrowthOutside0X128 lowerTick)
      (Tick.feeGrowthOutside0X128 upperTick)
      tickLower tickUpper (tickOrZero (Pool.tick pool)) in
  dlet feeGrowthInside1X128 :=
    getFeeGrowthInside
      (Pool.feeGrowthGlobal1X128 pool)
      (Tick.feeGrowthOutside1X128 lowerTick)
      (Tick.feeGrowthOutside1X128 upperTick)
      tickLower tickUpper (tickOrZero (Pool.tick pool)) in
  dlet position :=
    match positionRO with
    | Some position => position
    | None =>
        createPosition positionId sender (Pool.id pool)
          (Pool.token0_id poolRO) (Pool.token1_id poolRO) tickLower tickUpper
          (Transaction.id transaction) timestamp (EventMeta.block_number meta)
          (LiquidityProvider.id liquidityProvider) (Pool.chainId pool)
    end in
  let '(position, liquidityProvider) :=
    match positionRO with
    | Some positionRO =>
        if 0 <? Position.liquidity positionRO then
          let accruedFees0 :=
            calculateAccruedFees (Position.liquidity positionRO) feeGrowthInside0X128
              (Position.feeGrowthInside0LastX128 positionRO) in
          let accruedFees1 :=
            calculateAccruedFees (Position.liquidity positionRO) feeGrowthInside1X128
              (Position.feeGrowthInside1LastX128 positionRO) in
          let position := Position.set_fees0 (Position.fees0 position + accruedFees0) position in
          let position := Position.set_fees1 (Position.fees1 position + accruedFees1) position in
          let liquidityProvider :=
            LiquidityProvider.set_fees0
              (LiquidityProvider.fees0 liquidityProvider + accruedFees0) liquidityProvider in
          let liquidityProvider :=
            LiquidityProvider.set_fees1
              (LiquidityProvider.fees1 liquidityProvider + accruedFees1) liquidityProvider in
          (position, liquidityProvider)
        else (position, liquidityProvider)
    | None => (position, liquidityProvider)
    end in
  dlet position := Position.set_liquidity (Position.liquidity position + liquidityDelta) position in
  dlet position := Position.set_feeGrowthInside0LastX128 feeGrowthInside0X128 position in
  dlet position := Position.set_feeGrowthInside1LastX128 feeGrowthInside1X128 position in
  dlet position :=
    Position.set_modifyLiquidityCount (Position.modifyLiquidityCount position + 1) position in
  dlet position :=
    if isAddingLiquidity then
      dlet position := Position.set_deposited0 (Position.deposited0 position + amount0Abs) position in
      Position.set_deposited1 (Position.deposited1 position + amount1Abs) position
    else
      dlet position := Position.set_withdrawn0 (Position.withdrawn0 position + amount0Abs) position in
      Position.set_withdrawn1 (Position.withdrawn1 position + amount1Abs) position in
  dlet liquidityProvider :=
    if isAddingLiquidity then
      dlet liquidityProvider :=
        LiquidityProvider.set_deposited0
          (LiquidityProvider.deposited0 liquidityProvider + amount0Abs) liquidityProvider in
      LiquidityProvider.set_deposited1
        (LiquidityProvider.deposited1 liquidityProvider + amount1Abs) liquidityProvider
    else
      dlet liquidityProvider :=
        LiquidityProvider.set_withdrawn0
          (LiquidityProvider.withdrawn0 liquidityProvider + amount0Abs) liquidityProvider in
      LiquidityProvider.set_withdrawn1
        (LiquidityProvider.withdrawn1 liquidityProvider + amount1Abs) liquidityProvider in
  dlet liquidityProvider :=
    LiquidityProvider.set_modifyLiquidityCount
      (LiquidityProvider.modifyLiquidityCount liquidityProvider + 1) liquidityProvider in
  let '(liquidityProvider, pool, token0, token1) :=
    match positionRO with
    | None =>
        (LiquidityProvider.set_positionCount
           (LiquidityProvider.positionCount liquidityProvider + 1) liquidityProvider,
         Pool.set_positionCount (Pool.positionCount pool + 1) pool,
         Token.set_positionCount (Token.positionCount token0 + 1) token0,
         Token.set_positionCount (Token.positionCount token1 + 1) token1)
    | Some _ => (liquidityProvider, pool, token0, token1)
    end in
  dlet wasEmpty :=
    match positionRO with
    | None => true
    | Some positionRO => bool_decide (Position.liquidity positionRO = 0)
    end in
  dlet wasActive :=
    match positionRO with
    | None => false
    | Some positionRO => 0 <? Position.liquidity positionRO
    end in
  dlet pool :=
    if (0 <? Position.liquidity position) && wasEmpty
    then Pool.set_activePositionCount (Pool.activePositionCount pool + 1) pool
    else if bool_decide (Position.liquidity position = 0) && wasActive
    then Pool.set_activePositionCount (Pool.activePositionCount pool - 1) pool
    else pool in
  _ ← set (Context.set_Position position);
  _ ← set (Context.set_LiquidityProvider liquidityProvider);
  poolDayData ← updatePoolDayData timestamp pool;
  poolHourData ← updatePoolHourData timestamp pool;
  pool5MinuteData ← updatePool5MinuteData timestamp pool;
  token0DayData ← updateTokenDayData timestamp token0;
  token1DayData ← updateTokenDayData timestamp token1;
  token0HourData ← updateTokenHourData timestamp token0;
  token1HourData ← updateTokenHourData timestamp token1;
  dlet poolDayData :=
    PoolIntervalData.set_modifyLiquidityCount
      (PoolIntervalData.modifyLiquidityCount poolDayData + 1) poolDayData in
  dlet poolHourData :=
    PoolIntervalData.set_modifyLiquidityCount
      (PoolIntervalData.modifyLiquidityCount poolHourData + 1) poolHourData in
  dlet pool5MinuteData :=
    PoolIntervalData.set_modifyLiquidityCount
      (PoolIntervalData.modifyLiquidityCount pool5MinuteData + 1) pool5MinuteData in
  dlet token0DayData :=
    TokenIntervalData.set_modifyLiquidityCount
      (TokenIntervalData.modifyLiquidityCount token0DayData + 1) token0DayData in
  dlet token1DayData :=
    TokenIntervalData.set_modifyLiquidityCount
      (TokenIntervalData.modifyLiquidityCount token1DayData + 1) token1DayData in
  dlet token0HourData :=
    TokenIntervalData.set_modifyLiquidityCount
      (TokenIntervalData.modifyLiquidityCount token0HourData + 1) token0HourData in
  dlet token1HourData :=
    TokenIntervalData.set_modifyLiquidityCount
      (TokenIntervalData.modifyLiquidityCount token1HourData + 1) token1HourData in
  _ ← set (Context.set_PoolDayData poolDayData);
  _ ← set (Context.set_PoolHourData poolHourData);
  _ ← set (Context.set_Pool5MinuteData pool5MinuteData);
  _ ← set (Context.set_TokenDayData token0DayData);
  _ ← set (Context.set_TokenDayData token1DayData);
  _ ← set (Context.set_TokenHourData token0HourData);
  _ ← set (Context.set_TokenHourData token1HourData);
  _ ← set (Context.set_Token token0);
  _ ← set (Context.set_Token token1);
  _ ← set (Context.set_Pool pool);
  set (Context.set_ModifyLiquidity modifyLiquidity)
  | _, _ => mret tt
  end
  end.

End ModifyLiquidity.

(** ** src/utils/rpc.ts and the token metadata effect

    The chain table of [viem/chains], the process environment and the
    ERC-20 reads of a contract are outside the repository; they are the
    variables of this section.  A read that rejects is [None]. *)

Module NativeCurrency.
Record t : Type := mk {
  name : string;
  symbol : string;
  decimals : Z
}.
End NativeCurrency.

(** A chain of [viem/chains]: the fields the indexer reads. *)
Module Chain.
Record t : Type := mk {
  id : Z;
  nativeCurrency : NativeCurrency.t;
  rpcUrls_default_http : list string
}.
End Chain.

(** What [createPublicClient({chain, transport: http(rpcUrl)})] is built from. *)
Module PublicClient.
Record t : Type := mk {
  chain : option Chain.t;
  transport : option string
}.
End PublicClient.

(** The output of the effect: [{name, symbol, decimals}]. *)
Module TokenMetadata.
Record t : Type := mk {
  name : string;
  symbol : string;
  decimals : Z
}.
End TokenMetadata.

(** The Initialize event of the pool manager. *)
Module InitializeEvent.
Record t : Type := mk {
  meta : EventMeta.t;
  id : string;
  currency0 : string;
  currency1 : string;
  fee : Z;
  tickSpacing : Z;
  hooks : string;
  sqrtPriceX96 : Z;
  tick : Z
}.
End InitializeEvent.

Section Initialize.

(** [Object.values(chains)] *)
Variable chains : list Chain.t.

(** [process.env] *)
Variable env : gmap string string.

(** [contract.read.name()], [contract.read.symbol()] and
    [contract.read.decimals()] of the ERC-20 contract at an address, read
    through a client. *)
Variable readName : PublicClient.t -> string -> option string.
Variable readSymbol : PublicClient.t -> string -> option string.
Variable readDecimals : PublicClient.t -> string -> option Z.

Definition getChain (chainId : Z) : option Chain.t :=
  List.find (fun chain => bool_decide (Chain.id chain = chainId)) chains.

(** [if (envRpcUrl) return envRpcUrl]: an unset variable and the empty
    string are both falsy. *)
Definition getRpcUrl (chainId : Z) : option string :=
  let envRpcUrl := env !! ("RPC_URL_" +:+ pretty chainId) in
  match envRpcUrl with
  | Some (String _ _ as url) => Some url
  | _ =>
      chain ← getChain chainId;
      head (Chain.rpcUrls_default_http chain)
  end.

Definition getPublicClient (chainId : Z) : PublicClient.t :=
  let rpcUrl := getRpcUrl chainId in
  let chain := getChain chainId in
  {| PublicClient.chain := chain; PublicClient.transport := rpcUrl |}.

Definition getNativeTokenMetadata (chainId : Z) : TokenMetadata.t :=
  match getChain chainId with
  | None =>
      {| TokenMetadata.name := "Ether"; TokenMetadata.symbol := "ETH";
         TokenMetadata.decimals := 18 |}
  | Some chain =>
      {| TokenMetadata.name := NativeCurrency.name (Chain.nativeCurrency chain);
         TokenMetadata.symbol := NativeCurrency.symbol (Chain.nativeCurrency chain);
         TokenMetadata.decimals := NativeCurrency.decimals (Chain.nativeCurrency chain) |}
  end.

(** The handler of [getTokenMetadataEffect]; [p.catch(() => d)] is
    [default d p]. *)
Definition getTokenMetadataEffect (address : string) (chainId : Z) : TokenMetadata.t :=
  let normalizedAddress := toLowerCase address in
  if decide (normalizedAddress = toLowerCase zeroAddress)
  then getNativeTokenMetadata chainId
  else
    let client := getPublicClient chainId in
    let name := default "unknown" (readName client address) in
    let symbol := default "UNKNOWN" (readSymbol client address) in
    let decimals := default 0 (readDecimals client address) in
    {| TokenMetadata.name := name; TokenMetadata.symbol := symbol;
       TokenMetadata.decimals := decimals |}.

(** ** The Initialize handler *)

Definition getOrCreateToken (tokenId tokenAddress : string) (chainId : Z)
  : Handler Token.t :=
  token ← get Context.Token tokenId;
  match token with
  | Some token => mret token
  | None =>
      dlet metadata := getTokenMetadataEffect tokenAddress chainId in
      dlet token :=
        {| Token.id := tokenId;
           Token.chainId := chainId;
           Token.symbol := TokenMetadata.symbol metadata;
           Token.name := TokenMetadata.name metadata;
           Token.decimals := TokenMetadata.decimals metadata;
           Token.totalSupply := 0;
           Token.volume := 0;
           Token.txCount := 0;
           Token.poolCount := 0;
           Token.swapCount := 0;
           Token.modifyLiquidityCount := 0;
           Token.positionCount := 0;
           Token.lpCount := 0;
           Token.tvl := 0;
           Token.whitelistPools := [] |} in
      _ ← set (Context.set_Token token);
      mret token
  end.

(** [{...token, poolCount: token.poolCount + 1n}] *)
Definition withPoolCount (poolCount : Z) (token : Token.t) : Token.t :=
  {| Token.id := Token.id token;
     Token.chainId := Token.chainId token;
     Token.symbol := Token.symbol token;
     Token.name := Token.name token;
     Token.decimals := Token.decimals token;
     Token.totalSupply := Token.totalSupply token;
     Token.volume := Token.volume token;
     Token.txCount := Token.txCount token;
     Token.poolCount := poolCount;
     Token.swapCount := Token.swapCount token;
     Token.modifyLiquidityCount := Token.modifyLiquidityCount token;
     Token.positionCount := Token.positionCount token;
     Token.lpCount := Token.lpCount token;
     Token.tvl := Token.tvl token;
     Token.whitelistPools := Token.whitelistPools token |}.

(** [PoolManager.Initialize.handler] *)
Definition initializeHandler (event : InitializeEvent.t) : Handler unit :=
  dlet meta := InitializeEvent.meta event in
  dlet chainId := EventMeta.chainId meta in
  dlet poolId := poolIdOf chainId (InitializeEvent.id event) in
  dlet token0Id := pretty chainId +:+ "_" +:+ toLowerCase (InitializeEvent.currency0 event) in
  dlet token1Id := pretty chainId +:+ "_" +:+ toLowerCase (InitializeEvent.currency1 event) in
  token0 ← getOrCreateToken token0Id (InitializeEvent.currency0 event) chainId;
  token1 ← getOrCreateToken token1Id (InitializeEvent.currency1 event) chainId;
  dlet updatedToken0 := withPoolCount (Token.poolCount token0 + 1) token0 in
  dlet updatedToken1 := withPoolCount (Token.poolCount token1 + 1) token1 in
  _ ← set (Context.set_Token updatedToken0);
  _ ← set (Context.set_Token updatedToken1);
  _ ← (if decide (InitializeEvent.hooks event ≠ ADDRESS_ZERO) then
         dlet hookStatsId := pretty chainId +:+ "_" +:+ InitializeEvent.hooks event in
         hookStats ← get Context.HookStats hookStatsId;
         dlet hookStats :=
           match hookStats with
           | Some hookStats => hookStats
           | None =>
               {| HookStats.id := hookStatsId;
                  HookStats.chainId := chainId;
                  HookStats.poolCount := 0;
                  HookStats.swapCount := 0;
                  HookStats.firstPoolCreatedAt := EventMeta.block_timestamp meta;
                  HookStats.volume0 := 0;
                  HookStats.volume1 := 0;
                  HookStats.fees0 := 0;
                  HookStats.fees1 := 0;
                  HookStats.tvl0 := 0;
                  HookStats.tvl1 := 0 |}
           end in
         dlet hookStats :=
           {| HookStats.id := HookStats.id hookStats;
              HookStats.chainId := HookStats.chainId hookStats;
              HookStats.poolCount := HookStats.poolCount hookStats + 1;
              HookStats.swapCount := HookStats.swapCount hookStats;
              HookStats.firstPoolCreatedAt := HookStats.firstPoolCreatedAt hookStats;
              HookStats.volume0 := HookStats.volume0 hookStats;
              HookStats.volume1 := HookStats.volume1 hookStats;
              HookStats.fees0 := HookStats.fees0 hookStats;
              HookStats.fees1 := HookStats.fees1 hookStats;
              HookStats.tvl0 := HookStats.tvl0 hookStats;
              HookStats.tvl1 := HookStats.tvl1 hookStats |} in
         set (Context.set_HookStats hookStats)
       else mret tt);
  dlet pool :=
    {| Pool.id := poolId;
       Pool.chainId := chainId;
       Pool.poolId := InitializeEvent.id event;
       Pool.name := Token.symbol token0 +:+ "/" +:+ Token.symbol token1;
       Pool.createdAtTimestamp := EventMeta.block_timestamp meta;
       Pool.createdAtBlockNumber := EventMeta.block_number meta;
       Pool.token0_id := token0Id;
       Pool.token1_id := token1Id;
       Pool.feeTier := InitializeEvent.fee event;
       Pool.tickSpacing := InitializeEvent.tickSpacing event;
       Pool.hooks := InitializeEvent.hooks event;
       Pool.liquidity := 0;
       Pool.sqrtPrice := InitializeEvent.sqrtPriceX96 event;
       Pool.sqrtPriceX96 := InitializeEvent.sqrtPriceX96 event;
       Pool.tick := Some (InitializeEvent.tick event);
       Pool.observationIndex := 0;
       Pool.feeGrowthGlobal0X128 := 0;
       Pool.feeGrowthGlobal1X128 := 0;
       Pool.volume0 := 0;
       Pool.volume1 := 0;
       Pool.fees0 := 0;
       Pool.fees1 := 0;
       Pool.tvl0 := 0;
       Pool.tvl1 := 0;
       Pool.txCount := 0;
       Pool.swapCount := 0;
       Pool.modifyLiquidityCount := 0;
       Pool.positionCount := 0;
       Pool.activePositionCount := 0;
       Pool.lpCount := 0 |} in
  _ ← set (Context.set_Pool pool);
  _ ← updatePoolDayData (EventMeta.block_timestamp meta) pool;
  _ ← updatePoolHourData (EventMeta.block_timestamp meta) pool;
  _ ← updatePool5MinuteData (EventMeta.block_timestamp meta) pool;
  mret tt.

End Initialize.

(** ** Notions used to state the properties *)

(** A table files every record under the record's own id, as
    [context.X.set] does. *)
Definition keyedById {V : Type} (id : V -> string) (m : gmap string V) : Prop :=
  map_Forall (fun k v => id v = k) m.

#[global] Instance keyedById_dec {V : Type} (id : V -> string) (m : gmap string V)
  : Decision (keyedById id m) :=
  map_Forall_dec (fun k v => id v = k) (H7 := fun k v => decide (id v = k)) m.

(** Weakest precondition of a handler computation: it returns, and its
    result and final store satisfy [Q]. *)
Definition wp {A : Type} (h : Handler A) (ctx : Context.t) (Q : A -> Context.t -> Prop)
  : Prop :=
  exists a ctx', h ctx = Some (a, ctx') /\ Q a ctx'.

(** A tick of a pool is initialized when its Tick record exists. *)
Definition initialized (ctx : Context.t) (poolId : string) (tickIdx : Z) : Prop :=
  is_Some (Context.Tick ctx !! tickIdOf poolId tickIdx).

#[global] Instance initialized_dec (ctx : Context.t) (poolId : string) (tickIdx : Z)
  : Decision (initialized ctx poolId tickIdx) :=
  is_Some_dec (Context.Tick ctx !! tickIdOf poolId tickIdx).

(** Fuel that lets the scan between two ticks run to its end. *)
Definition scanFuel (oldTick newTick : Z) : nat :=
  Z.to_nat (Z.abs (newTick - oldTick) + 3).

(** The magnitudes [calculateTokenAmounts] picks in its three price cases,
    for boundary prices [a < b]. *)
Definition magnitudes (a b p liquidityAbs : Z) : Z * Z :=
  if p <=? a then (((Z.shiftl liquidityAbs 96 * (b - a)) ÷ b) ÷ a, 0)
  else if b <=? p then (0, (liquidityAbs * (b - a)) ÷ SqrtPriceMath.Q96)
  else (((Z.shiftl liquidityAbs 96 * (b - p)) ÷ b) ÷ p,
        (liquidityAbs * (p - a)) ÷ SqrtPriceMath.Q96).



(** [`${pool.id}-${Math.floor(timestamp / period)}`] *)
Definition bucketIdOf (pool : Pool.t) (timestamp period : Z) : string :=
  Pool.id pool +:+ "-" +:+ pretty (timestamp / period).

(** Liquidity of a position; a position that does not exist yet has none. *)
Definition positionLiquidity (position : option Position.t) : Z :=
  match position with
  | Some p => Position.liquidity p
  | None => 0
  end.

(** [`${chainId}_${poolId}-${address.toLowerCase()}`] *)
Definition liquidityProviderIdOf (chainId : Z) (poolId address : string) : string :=
  pretty chainId +:+ "_" +:+ poolId +:+ "-" +:+ toLowerCase address.

(** The ModifyLiquidity handler applied to a sequence of events, in order. *)
Fixpoint runModifyLiquidity (getSqrtRatioAtTick : Z -> option Z)
    (events : list ModifyLiquidityEvent.t) (ctx : Context.t) : option Context.t :=
  match events with
  | [] => Some ctx
  | event :: events' =>
      ctx' ← exec (modifyLiquidityHandler getSqrtRatioAtTick event) ctx;
      runModifyLiquidity getSqrtRatioAtTick events' ctx'
  end.

(** The events of a sequence that touch one position: same chain, pool,
    owner (up to letter case) and range. *)
Definition targetsPosition (chainId : Z) (id sender : string) (tickLower tickUpper : Z)
    (event : ModifyLiquidityEvent.t) : Prop :=
  EventMeta.chainId (ModifyLiquidityEvent.meta event) = chainId
  /\ ModifyLiquidityEvent.id event = id
  /\ toLowerCase (ModifyLiquidityEvent.sender event) = toLowerCase sender
  /\ ModifyLiquidityEvent.tickLower event = tickLower
  /\ ModifyLiquidityEvent.tickUpper event = tickUpper.

(** Sum of the liquidity deltas of a sequence of events. *)
Definition totalLiquidityDelta (events : list ModifyLiquidityEvent.t) : Z :=
  fold_right (fun event acc => ModifyLiquidityEvent.liquidityDelta event + acc) 0 events.

(** ** Notions used to state further properties *)

(** The ticks that a move of the price from [oldTick] to [newTick] passes:
    those of [(oldTick, newTick]] on the way up, those of
    [(newTick, oldTick]] on the way down. *)
Definition crossedBy (oldTick newTick t : Z) : bool :=
  (Z.min oldTick newTick <? t) && (t <=? Z.max oldTick newTick).

(** The first candidate of the scan, [oldTick + 1] on the way up and
    [oldTick] on the way down, is not negative or is a multiple of the
    spacing: the case in which the remainder of [%] rounds it to the next
    aligned tick in the direction of the move. *)
Definition scanStartsAligned (oldTick newTick tickSpacing : Z) : Prop :=
  let startTick := if oldTick <? newTick then oldTick + 1 else oldTick in
  0 <= startTick \/ (tickSpacing | startTick).

(** ** JavaScript numbers

    The bucket updates of src/utils/intervalUpdates.ts take the block
    timestamp as a [number], an IEEE 754 double, and compute
    [Math.floor(timestamp / period) * period] on doubles. The result of an
    operation on doubles is the double nearest to the exact result, the one
    with an even mantissa of two that are equally near. A finite double is
    written here as a pair [(m, e)] that stands for [m * 2 ^ e], with a
    mantissa [m] of 53 bits; the quotients and products of the bucket
    updates are far from the smallest and largest doubles, which are left
    out. *)
Module Double.

(** The integer nearest to [n / d], for [0 < d]; the even one of two that
    are equally near. *)
Definition roundHalfEven (n d : Z) : Z :=
  let q := n / d in
  match 2 * (n mod d) ?= d with
  | Lt => q
  | Gt => q + 1
  | Eq => if Z.even q then q else q + 1
  end.

(** [n / d] divided by [2 ^ e], as a fraction of two integers. *)
Definition scaled (n d e : Z) : Z * Z :=
  if 0 <=? e then (n, d * 2 ^ e) else (n * 2 ^ (- e), d).

(** The exponent of the doubles around [n / d], for [0 < n] and [0 < d]:
    the [e] with [2 ^ 52 <= (n / d) / 2 ^ e < 2 ^ 53]. *)
Definition exponent (n d : Z) : Z :=
  let e := Z.log2 n - Z.log2 d - 52 in
  let '(n', d') := scaled n d e in
  if n' <? d' * 2 ^ 52 then e - 1 else e.

(** The double nearest to [n / d], for [0 <= n] and [0 < d]. *)
Definition nearest (n d : Z) : Z * Z :=
  if n =? 0 then (0, 0)
  else
    let e := exponent n d in
    let '(n', d') := scaled n d e in
    (roundHalfEven n' d', e).

(** [Math.floor(x)]; also [BigInt(x)] for an [x] that is an integer. *)
Definition floor (x : Z * Z) : Z :=
  let '(m, e) := x in
  if 0 <=? e then m * 2 ^ e else m / 2 ^ (- e).

(** The same double in the representation of the Standard Library's
    specification of IEEE 754 arithmetic. *)
Definition toSpecFloat (x : Z * Z) : SpecFloat.spec_float :=
  match x with
  | (Z.pos m, e) => SpecFloat.S754_finite false m e
  | _ => SpecFloat.S754_zero false
  end.

(** Whether [x] is the same number as the double [y] of the Standard
    Library, which may write it with another mantissa and exponent. *)
Definition sameAs (x : Z * Z) (y : SpecFloat.spec_float) : bool :=
  match y with
  | SpecFloat.S754_finite false m e =>
      let e0 := Z.min (snd x) e in
      fst x * 2 ^ (snd x - e0) =? Z.pos m * 2 ^ (e - e0)
  | SpecFloat.S754_zero _ => fst x =? 0
  | _ => false
  end.

(** A [number] that holds the integer [z], and the operators [/] and [*]
    of binary64 in the Standard Library's specification. *)
Definition ofInteger (z : Z) : SpecFloat.spec_float :=
  SpecFloat.binary_normalize 53 1024 z 0 false.

Definition divide (x y : SpecFloat.spec_float) : SpecFloat.spec_float :=
  SpecFloat.SFdiv 53 1024 x y.

Definition multiply (x y : SpecFloat.spec_float) : SpecFloat.spec_float :=
  SpecFloat.SFmul 53 1024 x y.

End Double.

(** [Number.MAX_SAFE_INTEGER] *)
Definition MAX_SAFE_INTEGER : Z := 2 ^ 53 - 1.

(** [Math.floor(timestamp / period)] for a timestamp and a period that
    hold integers, [0 <= timestamp] and [0 < period]. *)
Definition periodIndex (timestamp period : Z) : Z :=
  Double.floor (Double.nearest timestamp period).

(** [BigInt(Math.floor(timestamp / period) * period)] *)
Definition periodStart (timestamp period : Z) : Z :=
  Double.floor (Double.nearest (periodIndex timestamp period * period) 1).

(** What one call of a pool bucket update does to the bucket of the
    timestamp's period, for the bucket table [table] written by [setTable]
    and the period [period] in seconds: the bucket it returns is the one it
    stores, nothing else in the store changes, and the bucket is a
    candlestick of the pool's price. The bucket is the one of the period
    index that the arithmetic on doubles gives, and a new bucket starts
    where that arithmetic puts it. *)
Definition candlestickUpdate
    (update : Z -> Pool.t -> Handler PoolIntervalData.t)
    (table : Context.t -> gmap string PoolIntervalData.t)
    (setTable : PoolIntervalData.t -> Context.t -> Context.t)
    (period : Z) (timestamp : Z) (pool : Pool.t) (ctx : Context.t) : Prop :=
  exists bucket,
    update timestamp pool ctx = Some (bucket, setTable bucket ctx)
    /\ bucketIdOf pool timestamp period
       = Pool.id pool +:+ "-" +:+ pretty (periodIndex timestamp period)
    /\ PoolIntervalData.low bucket <= PoolIntervalData.close bucket
       <= PoolIntervalData.high bucket
    /\ PoolIntervalData.close bucket = Pool.sqrtPriceX96 pool
    /\ PoolIntervalData.sqrtPriceX96 bucket = Pool.sqrtPriceX96 pool
    /\ PoolIntervalData.liquidity bucket = Pool.liquidity pool
    /\ PoolIntervalData.tvl0 bucket = Pool.tvl0 pool
    /\ PoolIntervalData.tvl1 bucket = Pool.tvl1 pool
    /\ match table ctx !! bucketIdOf pool timestamp period with
       | Some old =>
           PoolIntervalData.id bucket = PoolIntervalData.id old
           /\ PoolIntervalData.startTimestamp bucket = PoolIntervalData.startTimestamp old
           /\ PoolIntervalData.open_ bucket = PoolIntervalData.open_ old
           /\ PoolIntervalData.high bucket
              = Z.max (PoolIntervalData.high old) (Pool.sqrtPriceX96 pool)
           /\ PoolIntervalData.low bucket
              = Z.min (PoolIntervalData.low old) (Pool.sqrtPriceX96 pool)
           /\ PoolIntervalData.txCount bucket = PoolIntervalData.txCount old + 1
       | None =>
           PoolIntervalData.id bucket = bucketIdOf pool timestamp period
           /\ PoolIntervalData.startTimestamp bucket = periodStart timestamp period
           /\ (period | PoolIntervalData.startTimestamp bucket)
           /\ PoolIntervalData.startTimestamp bucket <= timestamp
              < PoolIntervalData.startTimestamp bucket + period
           /\ PoolIntervalData.open_ bucket = Pool.sqrtPriceX96 pool
           /\ PoolIntervalData.high bucket = Pool.sqrtPriceX96 pool
           /\ PoolIntervalData.low bucket = Pool.sqrtPriceX96 pool
           /\ PoolIntervalData.txCount bucket = 1
       end.

(** [`${token.id}-${Math.floor(timestamp / period)}`] *)
Definition tokenBucketIdOf (token : Token.t) (timestamp period : Z) : string :=
  Token.id token +:+ "-" +:+ pretty (timestamp / period).

(** The same for a token bucket update: a counter of transactions per
    period. *)
Definition counterUpdate
    (update : Z -> Token.t -> Handler TokenIntervalData.t)
    (table : Context.t -> gmap string TokenIntervalData.t)
    (setTable : TokenIntervalData.t -> Context.t -> Context.t)
    (period : Z) (timestamp : Z) (token : Token.t) (ctx : Context.t) : Prop :=
  exists bucket,
    update timestamp token ctx = Some (bucket, setTable bucket ctx)
    /\ tokenBucketIdOf token timestamp period
       = Token.id token +:+ "-" +:+ pretty (periodIndex timestamp period)
    /\ match table ctx !! tokenBucketIdOf token timestamp period with
       | Some old =>
           TokenIntervalData.id bucket = TokenIntervalData.id old
           /\ TokenIntervalData.startTimestamp bucket = TokenIntervalData.startTimestamp old
           /\ TokenIntervalData.txCount bucket = TokenIntervalData.txCount old + 1
           /\ TokenIntervalData.volume bucket = TokenIntervalData.volume old
           /\ TokenIntervalData.swapCount bucket = TokenIntervalData.swapCount old
           /\ TokenIntervalData.modifyLiquidityCount bucket
              = TokenIntervalData.modifyLiquidityCount old
       | None =>
           TokenIntervalData.id bucket = tokenBucketIdOf token timestamp period
           /\ TokenIntervalData.token_id bucket = Token.id token
           /\ TokenIntervalData.startTimestamp bucket = periodStart timestamp period
           /\ (period | TokenIntervalData.startTimestamp bucket)
           /\ TokenIntervalData.startTimestamp bucket <= timestamp
              < TokenIntervalData.startTimestamp bucket + period
           /\ TokenIntervalData.txCount bucket = 1
           /\ TokenIntervalData.volume bucket = 0
           /\ TokenIntervalData.swapCount bucket = 0
           /\ TokenIntervalData.modifyLiquidityCount bucket = 0
       end.

(** Weakest liberal precondition of a handler computation: if it returns,
    its result and final store satisfy [Q]. *)
Definition wlp {A : Type} (h : Handler A) (ctx : Context.t) (Q : A -> Context.t -> Prop)
  : Prop :=
  forall a ctx', h ctx = Some (a, ctx') -> Q a ctx'.

(** The computation throws. *)
Definition fails {A : Type} (h : Handler A) (ctx : Context.t) : Prop :=
  h ctx = None.

(** The store [ctx] with another Tick table. *)
Definition withTicks (ticks : gmap string Tick.t) (ctx : Context.t) : Context.t :=
  {| Context.Pool := Context.Pool ctx;
     Context.Token := Context.Token ctx;
     Context.Tick := ticks;
     Context.Position := Context.Position ctx;
     Context.LiquidityProvider := Context.LiquidityProvider ctx;
     Context.Transaction := Context.Transaction ctx;
     Context.HookStats := Context.HookStats ctx;
     Context.PoolDayData := Context.PoolDayData ctx;
     Context.PoolHourData := Context.PoolHourData ctx;
     Context.Pool5MinuteData := Context.Pool5MinuteData ctx;
     Context.TokenDayData := Context.TokenDayData ctx;
     Context.TokenHourData := Context.TokenHourData ctx;
     Context.Swap := Context.Swap ctx;
     Context.ModifyLiquidity := Context.ModifyLiquidity ctx |}.

(** The statistics record a handler finds for the hook of a pool on the
    chain of an event: none for a pool without hook.
    [`${event.chainId}_${pool.hooks}`] *)
Definition hookStatsOf (ctx : Context.t) (chainId : Z) (pool : Pool.t)
  : option HookStats.t :=
  if decide (Pool.hooks pool = ADDRESS_ZERO) then None
  else Context.HookStats ctx !! (pretty chainId +:+ "_" +:+ Pool.hooks pool).

(** A field of a record that may not exist yet; the records the handlers
    create start with their counters and totals at zero. *)
Definition fieldOrZero {A : Type} (field : A -> Z) (record : option A) : Z :=
  match record with
  | Some r => field r
  | None => 0
  end.

(** 1 if the record does not exist yet. *)
Definition oneIfNew {A : Type} (record : option A) : Z :=
  match record with
  | Some _ => 0
  | None => 1
  end.

(** The Token record [getOrCreateToken] creates from the metadata of a
    token that is not in the store yet. *)
Definition newToken (metadata : TokenMetadata.t) (tokenId : string) (chainId : Z) : Token.t :=
  {| Token.id := tokenId;
     Token.chainId := chainId;
     Token.symbol := TokenMetadata.symbol metadata;
     Token.name := TokenMetadata.name metadata;
     Token.decimals := TokenMetadata.decimals metadata;
     Token.totalSupply := 0;
     Token.volume := 0;
     Token.txCount := 0;
     Token.poolCount := 0;
     Token.swapCount := 0;
     Token.modifyLiquidityCount := 0;
     Token.positionCount := 0;
     Token.lpCount := 0;
     Token.tvl := 0;
     Token.whitelistPools := [] |}.

(** [`${event.chainId}_${currency.toLowerCase()}`] *)
Definition tokenIdOf (chainId : Z) (currency : string) : string :=
  pretty chainId +:+ "_" +:+ toLowerCase currency.

(** [`${event.chainId}_${hooks}`] *)
Definition hookStatsIdOf (chainId : Z) (hooks : string) : string :=
  pretty chainId +:+ "_" +:+ hooks.

(** ** The indexer as a whole

    The events of the pool manager that have a handler, and the handlers
    applied to a sequence of events in order; an event whose handler
    throws stops the run. *)
Inductive Event : Type :=
| OnInitialize (event : InitializeEvent.t)
| OnModifyLiquidity (event : ModifyLiquidityEvent.t)
| OnSwap (event : SwapEvent.t)
| OnDonate (event : DonateEvent.t).

Section Indexer.

Variable chains : list Chain.t.
Variable env : gmap string string.
Variable readName : PublicClient.t -> string -> option string.
Variable readSymbol : PublicClient.t -> string -> option string.
Variable readDecimals : PublicClient.t -> string -> option Z.
Variable getSqrtRatioAtTick : Z -> option Z.

(** The bound on the iterations of the tick scan of a swap. *)
Variable fuel : nat.

Definition handleEvent (event : Event) (ctx : Context.t) : option Context.t :=
  match event with
  | OnInitialize event =>
      exec (initializeHandler chains env readName readSymbol readDecimals event) ctx
  | OnModifyLiquidity event => exec (modifyLiquidityHandler getSqrtRatioAtTick event) ctx
  | OnSwap event => exec (swapHandler fuel event) ctx
  | OnDonate event => exec (donateHandler event) ctx
  end.

Fixpoint runIndexer (events : list Event) (ctx : Context.t) : option Context.t :=
  match events with
  | [] => Some ctx
  | event :: events => ctx' ← handleEvent event ctx; runIndexer events ctx'
  end.

End Indexer.

(** What the handlers keep true of a pool filed under [key], given the
    Token table: the pool is filed under its id, both of its tokens are in
    the store, its transaction counter covers its swaps and liquidity
    changes, and its counter of liquidity providers is still zero. *)
Definition poolConsistent (tokens : gmap string Token.t) (key : string) (pool : Pool.t)
  : Prop :=
  Pool.id pool = key
  /\ is_Some (tokens !! Pool.token0_id pool)
  /\ is_Some (tokens !! Pool.token1_id pool)
  /\ 0 <= Pool.swapCount pool
  /\ 0 <= Pool.modifyLiquidityCount pool
  /\ Pool.swapCount pool + Pool.modifyLiquidityCount pool <= Pool.txCount pool
  /\ Pool.lpCount pool = 0.

Definition storeConsistent (ctx : Context.t) : Prop :=
  keyedById Token.id (Context.Token ctx)
  /\ map_Forall (poolConsistent (Context.Token ctx)) (Context.Pool ctx).


(** ** A small store and some events

    A pool as the Initialize handler leaves it (fee 0.3%, tick spacing 60,
    price 1, tick 0, no liquidity, no hook), with its two tokens. *)

Definition exampleToken (id symbol : string) : Token.t :=
  {| Token.id := id; Token.chainId := 1; Token.symbol := symbol; Token.name := symbol;
     Token.decimals := 18; Token.totalSupply := 0; Token.volume := 0; Token.txCount := 0;
     Token.poolCount := 1; Token.swapCount := 0; Token.modifyLiquidityCount := 0;
     Token.positionCount := 0; Token.lpCount := 0; Token.tvl := 0;
     Token.whitelistPools := [] |}.

Definition examplePool : Pool.t :=
  {| Pool.id := "1_0xpool"; Pool.chainId := 1; Pool.poolId := "0xpool";
     Pool.name := "AAA/BBB"; Pool.createdAtTimestamp := 1700000000;
     Pool.createdAtBlockNumber := 100;
     Pool.token0_id := "1_0xaaa"; Pool.token1_id := "1_0xbbb";
     Pool.feeTier := 3000; Pool.tickSpacing := 60; Pool.hooks := ADDRESS_ZERO;
     Pool.liquidity := 0; Pool.sqrtPrice := 2 ^ 96; Pool.sqrtPriceX96 := 2 ^ 96;
     Pool.tick := Some 0; Pool.observationIndex := 0;
     Pool.feeGrowthGlobal0X128 := 0; Pool.feeGrowthGlobal1X128 := 0;
     Pool.volume0 := 0; Pool.volume1 := 0; Pool.fees0 := 0; Pool.fees1 := 0;
     Pool.tvl0 := 0; Pool.tvl1 := 0; Pool.txCount := 0; Pool.swapCount := 0;
     Pool.modifyLiquidityCount := 0; Pool.positionCount := 0;
     Pool.activePositionCount := 0; Pool.lpCount := 0 |}.

Definition exampleStore : Context.t :=
  Context.set_Pool examplePool
    (Context.set_Token (exampleToken "1_0xbbb" "BBB")
       (Context.set_Token (exampleToken "1_0xaaa" "AAA") Context.empty)).

(** The same pool indexed without its tokens. *)
Definition storeWithoutTokens : Context.t :=
  Context.set_Pool examplePool Context.empty.

Definition exampleMeta (logIndex : Z) : EventMeta.t :=
  {| EventMeta.chainId := 1; EventMeta.block_number := 101;
     EventMeta.block_timestamp := 1700000012;
     EventMeta.transaction_hash := "0xhash";
     EventMeta.transaction_from := Some "0xFROM";
     EventMeta.logIndex := logIndex |}.

Definition exampleModify (liquidityDelta : Z) : ModifyLiquidityEvent.t :=
  {| ModifyLiquidityEvent.meta := exampleMeta 0;
     ModifyLiquidityEvent.id := "0xpool";
     ModifyLiquidityEvent.sender := "0xSender";
     ModifyLiquidityEvent.tickLower := -60;
     ModifyLiquidityEvent.tickUpper := 60;
     ModifyLiquidityEvent.liquidityDelta := liquidityDelta |}.

Definition exampleDonate : DonateEvent.t :=
  {| DonateEvent.meta := exampleMeta 1;
     DonateEvent.id := "0xpool";
     DonateEvent.amount0 := 100;
     DonateEvent.amount1 := 0 |}.

(** A swap that moves the price from tick 0 to tick 120. *)
Definition exampleSwap : SwapEvent.t :=
  {| SwapEvent.meta := exampleMeta 2;
     SwapEvent.id := "0xpool";
     SwapEvent.sender := "0xSender";
     SwapEvent.amount0 := 5000000;
     SwapEvent.amount1 := -4000000;
     SwapEvent.sqrtPriceX96 := 79704936542881920863903188246;
     SwapEvent.liquidity := 0;
     SwapEvent.tick := 120 |}.

(** A store that holds nothing but initialized ticks of the example pool. *)
Definition storeWithTicks (ticks : list Z) : Context.t :=
  fold_right
    (fun tickIdx ctx =>
       Context.set_Tick
         (createTick (tickIdOf "1_0xpool" tickIdx) tickIdx "1_0xpool" "0xpool" 1 0 0) ctx)
    Context.empty ticks.

(** The example store after liquidity 1000 was added over [-60, 60]. *)
Definition storeWithPosition : option Context.t :=
  exec (modifyLiquidityHandler TickMath.getSqrtRatioAtTick (exampleModify 1000)) exampleStore.

(** The example pool with active liquidity 1000 and the two boundary ticks
    of the range [-60, 60] initialized. *)
Definition activePool : Pool.t := Pool.set_liquidity 1000 examplePool.

Definition exampleTick (tickIdx : Z) : Tick.t :=
  createTick (tickIdOf "1_0xpool" tickIdx) tickIdx "1_0xpool" "0xpool" 1 1700000012 101.

Definition swapStore : Context.t :=
  Context.set_Tick (exampleTick 60)
    (Context.set_Tick (exampleTick (-60))
       (Context.set_Pool activePool
          (Context.set_Token (exampleToken "1_0xbbb" "BBB")
             (Context.set_Token (exampleToken "1_0xaaa" "AAA") Context.empty)))).

(** ** More stores and events *)

(** A range whose upper boundary lies above the largest tick of the SDK. *)
Definition exampleModifyOutOfRange : ModifyLiquidityEvent.t :=
  {| ModifyLiquidityEvent.meta := exampleMeta 0;
     ModifyLiquidityEvent.id := "0xpool";
     ModifyLiquidityEvent.sender := "0xSender";
     ModifyLiquidityEvent.tickLower := -60;
     ModifyLiquidityEvent.tickUpper := 887273;
     ModifyLiquidityEvent.liquidityDelta := 1000 |}.

(** The example pool with another tick spacing, hook and liquidity. *)
Definition examplePoolWith (tickSpacing : Z) (hooks : string) (liquidity : Z) : Pool.t :=
  {| Pool.id := "1_0xpool"; Pool.chainId := 1; Pool.poolId := "0xpool";
     Pool.name := "AAA/BBB"; Pool.createdAtTimestamp := 1700000000;
     Pool.createdAtBlockNumber := 100;
     Pool.token0_id := "1_0xaaa"; Pool.token1_id := "1_0xbbb";
     Pool.feeTier := 3000; Pool.tickSpacing := tickSpacing; Pool.hooks := hooks;
     Pool.liquidity := liquidity; Pool.sqrtPrice := 2 ^ 96; Pool.sqrtPriceX96 := 2 ^ 96;
     Pool.tick := Some 0; Pool.observationIndex := 0;
     Pool.feeGrowthGlobal0X128 := 0; Pool.feeGrowthGlobal1X128 := 0;
     Pool.volume0 := 0; Pool.volume1 := 0; Pool.fees0 := 0; Pool.fees1 := 0;
     Pool.tvl0 := 0; Pool.tvl1 := 0; Pool.txCount := 0; Pool.swapCount := 0;
     Pool.modifyLiquidityCount := 0; Pool.positionCount := 0;
     Pool.activePositionCount := 0; Pool.lpCount := 0 |}.

Definition zeroSpacingPool : Pool.t := examplePoolWith 0 ADDRESS_ZERO 0.

Definition zeroSpacingStore : Context.t := Context.set_Pool zeroSpacingPool exampleStore.

Definition exampleHook : string := "0x00000000000000000000000000000000000000C0".

Definition hookedPool : Pool.t := examplePoolWith 60 exampleHook 1000.

(** The statistics of the hook after the pool was created. *)
Definition exampleHookStats : HookStats.t :=
  {| HookStats.id := "1_0x00000000000000000000000000000000000000C0";
     HookStats.chainId := 1;
     HookStats.poolCount := 1;
     HookStats.swapCount := 0;
     HookStats.firstPoolCreatedAt := 1700000000;
     HookStats.volume0 := 0; HookStats.volume1 := 0;
     HookStats.fees0 := 0; HookStats.fees1 := 0;
     HookStats.tvl0 := 0; HookStats.tvl1 := 0 |}.

Definition hookedStore : Context.t :=
  Context.set_HookStats exampleHookStats (Context.set_Pool hookedPool exampleStore).

(** One chain, no environment variable, and an ERC-20 contract at
    [0xBBB] that has no [name]. *)
Definition exampleChains : list Chain.t :=
  [ {| Chain.id := 1;
       Chain.nativeCurrency := NativeCurrency.mk "Ether" "ETH" 18;
       Chain.rpcUrls_default_http := ["https://eth.example"] |} ].

Definition exampleReadName (client : PublicClient.t) (address : string) : option string :=
  None.

Definition exampleReadSymbol (client : PublicClient.t) (address : string) : option string :=
  if decide (address = "0xBBB") then Some "BBB" else None.

Definition exampleReadDecimals (client : PublicClient.t) (address : string) : option Z :=
  if decide (address = "0xBBB") then Some 6 else None.

(** The creation of a pool of the native currency and the token at
    [0xBBB], with a hook. *)
Definition exampleInitialize : InitializeEvent.t :=
  {| InitializeEvent.meta := exampleMeta 0;
     InitializeEvent.id := "0xpool";
     InitializeEvent.currency0 := "0x0000000000000000000000000000000000000000";
     InitializeEvent.currency1 := "0xBBB";
     InitializeEvent.fee := 3000;
     InitializeEvent.tickSpacing := 60;
     InitializeEvent.hooks := exampleHook;
     InitializeEvent.sqrtPriceX96 := 2 ^ 96;
     InitializeEvent.tick := 0 |}.

Definition exampleIndexer : list Event -> Context.t -> option Context.t :=
  runIndexer exampleChains ∅ exampleReadName exampleReadSymbol exampleReadDecimals
    TickMath.getSqrtRatioAtTick 400.

(** The creation of the example pool followed by a liquidity change, a swap
    and a donation, and the store the indexer builds from them. *)
Definition exampleEvents : list Event :=
  [ OnInitialize exampleInitialize;
    OnModifyLiquidity (exampleModify 1000);
    OnSwap exampleSwap;
    OnDonate exampleDonate ].

Definition exampleIndexed : Context.t :=
  default Context.empty (exampleIndexer exampleEvents Context.empty).

(** A pool created at tick -125 with tick spacing 60, as the indexer has
    it after liquidity 1000 was added over [-180, 60] and liquidity 500
    over [-120, 60]; and a swap that moves its price up to tick -10. *)
Definition initializeBelowZero : InitializeEvent.t :=
  {| InitializeEvent.meta := exampleMeta 0;
     InitializeEvent.id := "0xpool";
     InitializeEvent.currency0 := "0x0000000000000000000000000000000000000000";
     InitializeEvent.currency1 := "0xBBB";
     InitializeEvent.fee := 3000;
     InitializeEvent.tickSpacing := 60;
     InitializeEvent.hooks := ADDRESS_ZERO;
     InitializeEvent.sqrtPriceX96 := 78734555307732517045291440409;
     InitializeEvent.tick := -125 |}.

Definition modifyOver (tickLower tickUpper liquidityDelta : Z) : ModifyLiquidityEvent.t :=
  {| ModifyLiquidityEvent.meta := exampleMeta 1;
     ModifyLiquidityEvent.id := "0xpool";
     ModifyLiquidityEvent.sender := "0xSender";
     ModifyLiquidityEvent.tickLower := tickLower;
     ModifyLiquidityEvent.tickUpper := tickUpper;
     ModifyLiquidityEvent.liquidityDelta := liquidityDelta |}.

Definition eventsBelowZero : list Event :=
  [ OnInitialize initializeBelowZero;
    OnModifyLiquidity (modifyOver (-180) 60 1000);
    OnModifyLiquidity (modifyOver (-120) 60 500) ].

Definition storeBelowZero : Context.t :=
  default Context.empty (exampleIndexer eventsBelowZero Context.empty).

Definition swapUpBelowZero : SwapEvent.t :=
  {| SwapEvent.meta := exampleMeta 2;
     SwapEvent.id := "0xpool";
     SwapEvent.sender := "0xSender";
     SwapEvent.amount0 := 4000000;
     SwapEvent.amount1 := -5000000;
     SwapEvent.sqrtPriceX96 := 79188560314459151373725315960;
     SwapEvent.liquidity := 1500;
     SwapEvent.tick := -10 |}.

(** * Properties *)

(** ** Reasoning about handler computations *)

Lemma wp_ret {A : Type} (a : A) (ctx : Context.t) (Q : A -> Context.t -> Prop) :
  Q a ctx -> wp (mret a) ctx Q.
Proof. intros H. exists a, ctx. split; [reflexivity | assumption]. Qed.

Lemma wp_bind {A B : Type} (m : Handler A) (k : A -> Handler B) (ctx : Context.t)
    (Q : B -> Context.t -> Prop) :
  wp m ctx (fun a ctx' => wp (k a) ctx' Q) -> wp (m ≫= k) ctx Q.
Proof.
  intros (a & ctx1 & Hm & b & ctx2 & Hk & HQ). exists b, ctx2.
  split; [| assumption].
  unfold mbind, Handler_bind. rewrite Hm. assumption.
Qed.

Lemma wp_get {V : Type} (table : Context.t -> gmap string V) (k : string)
    (ctx : Context.t) (Q : option V -> Context.t -> Prop) :
  Q (table ctx !! k) ctx -> wp (get table k) ctx Q.
Proof. intros H. eexists _, ctx. split; [reflexivity | assumption]. Qed.

Lemma wp_set (update : Context.t -> Context.t) (ctx : Context.t)
    (Q : unit -> Context.t -> Prop) :
  Q tt (update ctx) -> wp (set update) ctx Q.
Proof. intros H. exists tt, (update ctx). split; [reflexivity | assumption]. Qed.

Lemma wp_throws {A : Type} (o : option A) (a : A) (ctx : Context.t)
    (Q : A -> Context.t -> Prop) :
  o = Some a -> Q a ctx -> wp (throws o) ctx Q.
Proof. intros -> H. exists a, ctx. split; [reflexivity | assumption]. Qed.

Lemma wp_reads {A : Type} (f : Context.t -> option A) (a : A) (ctx : Context.t)
    (Q : A -> Context.t -> Prop) :
  f ctx = Some a -> Q a ctx -> wp (reads f) ctx Q.
Proof.
  intros Hf H. exists a, ctx. split; [| assumption].
  unfold reads. rewrite Hf. reflexivity.
Qed.

Lemma wp_exec {A : Type} (h : Handler A) (ctx : Context.t) (P : Context.t -> Prop) :
  wp h ctx (fun _ ctx' => P ctx') -> exists ctx', exec h ctx = Some ctx' /\ P ctx'.
Proof.
  intros (a & ctx' & Hh & HP). exists ctx'. split; [| assumption].
  unfold exec. rewrite Hh. reflexivity.
Qed.

Lemma wp_exec_eq {A : Type} (h : Handler A) (ctx ctx0 : Context.t) :
  wp h ctx (fun _ ctx' => ctx' = ctx0) -> exec h ctx = Some ctx0.
Proof.
  intros (a & ctx' & Hh & ->). unfold exec. rewrite Hh. reflexivity.
Qed.

Lemma wp_is_Some {A : Type} (h : Handler A) (ctx : Context.t) :
  wp h ctx (fun _ _ => True) -> is_Some (exec h ctx).
Proof.
  intros (a & ctx' & Hh & _). exists ctx'. unfold exec. rewrite Hh. reflexivity.
Qed.

Lemma wp_dlet {A B : Type} (v : A) (k : A -> Handler B) (ctx : Context.t)
    (Q : B -> Context.t -> Prop) :
  (let x := v in wp (k x) ctx Q) -> wp (Let_In v k) ctx Q.
Proof. exact id. Qed.

(** Name the value of a leading [dlet] instead of substituting it. *)
Ltac wp_let :=
  lazymatch goal with
  | |- wp (Let_In _ (fun x => _)) _ _ =>
      let y := fresh x in
      apply wp_dlet; intro y; cbv beta
  end.

(** Substitute the named values again. *)
Ltac subst_lets := repeat match goal with x := _ |- _ => subst x end.

Ltac wp_step :=
  lazymatch goal with
  | |- wp (Let_In _ _) _ _ => wp_let
  | |- wp (mbind _ (get _ _)) _ _ => apply wp_bind, wp_get; cbv beta
  | |- wp (mbind _ (set _)) _ _ => apply wp_bind, wp_set; cbv beta
  | |- wp (set _) _ _ => apply wp_set
  | |- wp (mret _) _ _ => apply wp_ret
  end.

Lemma BigInt_div_nonzero (a b : Z) : b <> 0 -> BigInt.div a b = Some (a ÷ b).
Proof.
  intros H. unfold BigInt.div. destruct (decide (b = 0)); [contradiction | reflexivity].
Qed.

(** *** The interval buckets and the transaction record *)

Lemma wp_getOrCreateTransaction (event : EventMeta.t) (ctx : Context.t)
    (Q : Transaction.t -> Context.t -> Prop) :
  (forall tx, Q tx (Context.set_Transaction tx ctx)) ->
  wp (getOrCreateTransaction event) ctx Q.
Proof.
  intros H. cbv delta [getOrCreateTransaction]; cbv beta. repeat wp_step. apply H.
Qed.




(** The bucket updates return whatever the tables hold; without an
    assumption on the tables the bucket written is some record. *)
Lemma wp_updatePoolDayData_any (timestamp : Z) (pool : Pool.t) (ctx : Context.t)
    (Q : PoolIntervalData.t -> Context.t -> Prop) :
  (forall d, Q d (Context.set_PoolDayData d ctx)) ->
  wp (updatePoolDayData timestamp pool) ctx Q.
Proof. intros H. cbv delta [updatePoolDayData]; cbv beta. repeat wp_step. apply H. Qed.

Lemma wp_updatePoolHourData_any (timestamp : Z) (pool : Pool.t) (ctx : Context.t)
    (Q : PoolIntervalData.t -> Context.t -> Prop) :
  (forall d, Q d (Context.set_PoolHourData d ctx)) ->
  wp (updatePoolHourData timestamp pool) ctx Q.
Proof. intros H. cbv delta [updatePoolHourData]; cbv beta. repeat wp_step. apply H. Qed.

Lemma wp_updatePool5MinuteData_any (timestamp : Z) (pool : Pool.t) (ctx : Context.t)
    (Q : PoolIntervalData.t -> Context.t -> Prop) :
  (forall d, Q d (Context.set_Pool5MinuteData d ctx)) ->
  wp (updatePool5MinuteData timestamp pool) ctx Q.
Proof. intros H. cbv delta [updatePool5MinuteData]; cbv beta. repeat wp_step. apply H. Qed.

Lemma wp_updateTokenDayData (timestamp : Z) (token : Token.t) (ctx : Context.t)
    (Q : TokenIntervalData.t -> Context.t -> Prop) :
  (forall d, Q d (Context.set_TokenDayData d ctx)) ->
  wp (updateTokenDayData timestamp token) ctx Q.
Proof. intros H. cbv delta [updateTokenDayData]; cbv beta. repeat wp_step. apply H. Qed.

Lemma wp_updateTokenHourData (timestamp : Z) (token : Token.t) (ctx : Context.t)
    (Q : TokenIntervalData.t -> Context.t -> Prop) :
  (forall d, Q d (Context.set_TokenHourData d ctx)) ->
  wp (updateTokenHourData timestamp token) ctx Q.
Proof. intros H. cbv delta [updateTokenHourData]; cbv beta. repeat wp_step. apply H. Qed.

(** Steps through a handler whose bucket tables are not constrained. *)
Ltac wp_auto :=
  lazymatch goal with
  | |- wp (mbind _ (getOrCreateTransaction _)) _ _ =>
      apply wp_bind, wp_getOrCreateTransaction; intros ?tx
  | |- wp (mbind _ (updatePoolDayData _ _)) _ _ =>
      apply wp_bind, wp_updatePoolDayData_any; intros ?d
  | |- wp (mbind _ (updatePoolHourData _ _)) _ _ =>
      apply wp_bind, wp_updatePoolHourData_any; intros ?d
  | |- wp (mbind _ (updatePool5MinuteData _ _)) _ _ =>
      apply wp_bind, wp_updatePool5MinuteData_any; intros ?d
  | |- wp (mbind _ (updateTokenDayData _ _)) _ _ =>
      apply wp_bind, wp_updateTokenDayData; intros ?d
  | |- wp (mbind _ (updateTokenHourData _ _)) _ _ =>
      apply wp_bind, wp_updateTokenHourData; intros ?d
  | _ => wp_step
  end.

(** The optional HookStats update of the Swap and Donate handlers: three
    cases, no hook, a hook without statistics, a hook with statistics. *)
Ltac wp_hooks :=
  lazymatch goal with
  | |- wp (mbind _ (if decide (_ ≠ _) then _ else _)) _ _ =>
      apply wp_bind;
      match goal with
      | |- context [decide (?h ≠ ?z)] => destruct (decide (h ≠ z))
      end;
      [ apply wp_bind, wp_get; cbv beta;
        match goal with
        | |- context [Context.HookStats ?c !! ?k] => destruct (Context.HookStats c !! k)
        end;
        repeat wp_step
      | wp_step ]
  end.

Lemma keyedById_insert {V : Type} (id : V -> string) (m : gmap string V) (v : V) :
  keyedById id m -> keyedById id (<[id v := v]> m).
Proof.
  intros Hm k v' Hk. destruct (decide (id v = k)) as [<- | Hne].
  - rewrite lookup_insert_eq in Hk. congruence.
  - rewrite lookup_insert_ne in Hk by assumption. apply (Hm _ _ Hk).
Qed.

Lemma keyedById_empty {V : Type} (id : V -> string) : keyedById id (∅ : gmap string V).
Proof. intros k v Hk. rewrite lookup_empty in Hk. discriminate. Qed.

Lemma lookup_insert_key {V : Type} (m : gmap string V) (k k' : string) (v : V) :
  k = k' -> <[k := v]> m !! k' = Some v.
Proof. intros ->. apply lookup_insert_eq. Qed.

Ltac simpl_tables :=
  cbn beta iota delta
      [Context.Pool Context.Token Context.Tick Context.Position Context.LiquidityProvider
       Context.Transaction Context.HookStats Context.PoolDayData Context.PoolHourData
       Context.Pool5MinuteData Context.TokenDayData Context.TokenHourData Context.Swap
       Context.ModifyLiquidity
       Context.set_Pool Context.set_Token Context.set_Tick Context.set_Position
       Context.set_LiquidityProvider Context.set_Transaction Context.set_HookStats
       Context.set_PoolDayData Context.set_PoolHourData Context.set_Pool5MinuteData
       Context.set_TokenDayData Context.set_TokenHourData Context.set_Swap
       Context.set_ModifyLiquidity].



(** ** Properties of the arithmetic helpers *)

Lemma quot_nonneg_div (a b : Z) : 0 <= a -> 0 < b -> a ÷ b = a / b.
Proof. intros Ha Hb. apply Z.quot_div_nonneg; lia. Qed.

Lemma quot_neg_div (a b : Z) : a <= 0 -> 0 < b -> a ÷ b = - ((- a) / b).
Proof.
  intros Ha Hb.
  replace a with (- (- a)) at 1 by lia.
  rewrite Z.quot_opp_l by lia.
  rewrite Z.quot_div_nonneg by lia. reflexivity.
Qed.

(** C6.  [getFeeGrowthInside] returns [global - below - above], where
    [below] is [outsideLower] when [currentTick >= tickLower] and
    [global - outsideLower] otherwise, and [above] is [outsideUpper] when
    [currentTick < tickUpper] and [global - outsideUpper] otherwise; the
    second equation spells out the four combinations. *)
Theorem getFeeGrowthInside_quadrants (g oL oU tl tu cur : Z) :
  getFeeGrowthInside g oL oU tl tu cur
    = g - (if bool_decide (cur >= tl) then oL else g - oL)
        - (if bool_decide (cur < tu) then oU else g - oU)
  /\ getFeeGrowthInside g oL oU tl tu cur
    = match bool_decide (cur >= tl), bool_decide (cur < tu) with
      | true, true => g - oL - oU
      | false, true => oL - oU
      | true, false => oU - oL
      | false, false => oL + oU - g
      end.
Proof.
  unfold getFeeGrowthInside.
  repeat case_bool_decide;
    destruct (Z.leb_spec tl cur); destruct (Z.ltb_spec cur tu); try lia; split; lia.
Qed.

(** With one unit of liquidity and fee growth inside that went from 1 to
    0, the code yields 0 where the floor of [-1 / 2^128] is [-1]. *)
Lemma accruedFees_not_floor :
  calculateAccruedFees 1 0 1 <> (1 * (0 - 1)) / 2 ^ 128.
Proof. vm_compute. discriminate. Qed.

(** C4 (amended).  For [liquidity >= 0] the accrued fees are
    [liquidity * (now - last) / 2^128] rounded toward zero: the floor when
    [now >= last], and minus the floor of the magnitude when [now < last]. *)
Theorem accruedFees_truncates (liquidity now last : Z) :
  0 <= liquidity ->
  (last <= now ->
     calculateAccruedFees liquidity now last = (liquidity * (now - last)) / 2 ^ 128)
  /\ (now < last ->
     calculateAccruedFees liquidity now last = - ((liquidity * (last - now)) / 2 ^ 128)).
Proof.
  intros Hl. unfold calculateAccruedFees. split; intros H.
  - apply quot_nonneg_div; [nia | lia].
  - rewrite quot_neg_div by (try nia; lia).
    do 2 f_equal. lia.
Qed.

Lemma accruedFees_truncates_witness :
  (0 <= 2 ^ 127 ->
     calculateAccruedFees 5 (2 ^ 127) 0 = (5 * (2 ^ 127 - 0)) / 2 ^ 128)
  /\ (2 ^ 127 < 0 ->
     calculateAccruedFees 5 (2 ^ 127) 0 = - ((5 * (0 - 2 ^ 127)) / 2 ^ 128)).
Proof. apply (accruedFees_truncates 5 (2 ^ 127) 0). lia. Defined.

Example accruedFees_rounds_toward_zero :
  calculateAccruedFees 5 (2 ^ 127) 0 = 2 /\ calculateAccruedFees 5 0 (2 ^ 127) = -2.
Proof. split; reflexivity. Qed.

Lemma updateFeeGrowth_zero (g fees : Z) : updateFeeGrowth g fees 0 = Some g.
Proof. reflexivity. Qed.

Lemma updateFeeGrowth_nonzero (g fees liquidity : Z) :
  liquidity <> 0 -> updateFeeGrowth g fees liquidity = Some (g + (fees * Q128) ÷ liquidity).
Proof.
  intros H. unfold updateFeeGrowth, BigInt.div.
  destruct (decide (liquidity = 0)); [contradiction | reflexivity].
Qed.

Lemma getAmount0Delta_floor (a b liquidity : Z) :
  0 < a -> a <= b ->
  SqrtPriceMath.getAmount0Delta a b liquidity false
    = Some (((Z.shiftl liquidity 96 * (b - a)) ÷ b) ÷ a).
Proof.
  intros Ha Hab. unfold SqrtPriceMath.getAmount0Delta, SqrtPriceMath.sortRatios.
  destruct (Z.ltb_spec b a); [lia |].
  rewrite BigInt_div_nonzero by lia. simpl.
  rewrite BigInt_div_nonzero by lia. reflexivity.
Qed.

Lemma getAmount1Delta_floor (a b liquidity : Z) :
  a <= b ->
  SqrtPriceMath.getAmount1Delta a b liquidity false
    = Some ((liquidity * (b - a)) ÷ SqrtPriceMath.Q96).
Proof.
  intros Hab. unfold SqrtPriceMath.getAmount1Delta, SqrtPriceMath.sortRatios.
  destruct (Z.ltb_spec b a); [lia |].
  apply BigInt_div_nonzero. unfold SqrtPriceMath.Q96. lia.
Qed.

Section TokenAmounts.

Variable getSqrtRatioAtTick : Z -> option Z.

Lemma magnitudes_zero (a b p : Z) : magnitudes a b p 0 = (0, 0).
Proof.
  unfold magnitudes. rewrite Z.shiftl_0_l. simpl.
  destruct (p <=? a); [reflexivity |]. destruct (b <=? p); reflexivity.
Qed.

Lemma calculateTokenAmounts_eq (liquidityDelta tickLower tickUpper p a b : Z) :
  getSqrtRatioAtTick tickLower = Some a ->
  getSqrtRatioAtTick tickUpper = Some b ->
  0 < a < b ->
  calculateTokenAmounts getSqrtRatioAtTick liquidityDelta tickLower tickUpper p
    = let m := magnitudes a b p (Z.abs liquidityDelta) in
      Some (TokenAmounts.mk
              (if 0 <? liquidityDelta then m.1 else - m.1)
              (if 0 <? liquidityDelta then m.2 else - m.2)
              m.1 m.2).
Proof.
  intros Ha Hb Hab. unfold calculateTokenAmounts, magnitudes.
  rewrite Ha, Hb. simpl.
  replace (if liquidityDelta <? 0 then - liquidityDelta else liquidityDelta)
    with (Z.abs liquidityDelta)
    by (destruct (Z.ltb_spec liquidityDelta 0); lia).
  destruct (Z.leb_spec p a).
  - rewrite getAmount0Delta_floor by lia. reflexivity.
  - destruct (Z.leb_spec b p).
    + rewrite getAmount1Delta_floor by lia. reflexivity.
    + rewrite getAmount0Delta_floor by lia. simpl.
      rewrite getAmount1Delta_floor by lia. reflexivity.
Qed.

(** C9.  When the boundary prices of the range are [0 < lower < upper] (the
    SDK's tick to price function is positive and increasing, so this is
    what [tickLower < tickUpper] gives), [calculateTokenAmounts] returns for
    [liquidityDelta] and for [- liquidityDelta]; [amount1] is 0 when the
    price is at or below [lower], [amount0] is 0 when it is at or above
    [upper], and negating [liquidityDelta] negates [amount0] and [amount1]
    and leaves [amount0Abs] and [amount1Abs] unchanged. *)
Theorem calculateTokenAmounts_sides_and_negation
    (liquidityDelta tickLower tickUpper sqrtPriceX96 lower upper : Z) :
  getSqrtRatioAtTick tickLower = Some lower ->
  getSqrtRatioAtTick tickUpper = Some upper ->
  0 < lower < upper ->
  exists r r',
    calculateTokenAmounts getSqrtRatioAtTick
      liquidityDelta tickLower tickUpper sqrtPriceX96 = Some r
    /\ calculateTokenAmounts getSqrtRatioAtTick
      (- liquidityDelta) tickLower tickUpper sqrtPriceX96 = Some r'
    /\ (sqrtPriceX96 <= lower -> TokenAmounts.amount1 r = 0)
    /\ (upper <= sqrtPriceX96 -> TokenAmounts.amount0 r = 0)
    /\ TokenAmounts.amount0 r' = - TokenAmounts.amount0 r
    /\ TokenAmounts.amount1 r' = - TokenAmounts.amount1 r
    /\ TokenAmounts.amount0Abs r' = TokenAmounts.amount0Abs r
    /\ TokenAmounts.amount1Abs r' = TokenAmounts.amount1Abs r.
Proof.
  intros Ha Hb Hab.
  do 2 eexists.
  split; [apply (calculateTokenAmounts_eq _ _ _ _ _ _ Ha Hb Hab) |].
  split; [apply (calculateTokenAmounts_eq _ _ _ _ _ _ Ha Hb Hab) |].
  cbn [TokenAmounts.amount0 TokenAmounts.amount1
       TokenAmounts.amount0Abs TokenAmounts.amount1Abs].
  rewrite Z.abs_opp.
  split; [| split].
  - intros Hp. unfold magnitudes.
    destruct (Z.leb_spec sqrtPriceX96 lower); [| lia].
    simpl. destruct (0 <? liquidityDelta); reflexivity.
  - intros Hp. unfold magnitudes.
    destruct (Z.leb_spec sqrtPriceX96 lower); [lia |].
    destruct (Z.leb_spec upper sqrtPriceX96); [| lia].
    simpl. destruct (0 <? liquidityDelta); reflexivity.
  - destruct (Z.ltb_spec 0 liquidityDelta); destruct (Z.ltb_spec 0 (- liquidityDelta));
      try lia; repeat split; try lia.
    + assert (liquidityDelta = 0) as -> by lia.
      simpl. rewrite magnitudes_zero. reflexivity.
    + assert (liquidityDelta = 0) as -> by lia.
      simpl. rewrite magnitudes_zero. reflexivity.
Qed.

End TokenAmounts.

(** The instance of the SDK's table agrees with the SDK's constants
    [MIN_SQRT_RATIO] and [MAX_SQRT_RATIO] and throws outside the range. *)
Example getSqrtRatioAtTick_range :
  TickMath.getSqrtRatioAtTick TickMath.MIN_TICK = Some 4295128739
  /\ TickMath.getSqrtRatioAtTick 0 = Some (2 ^ 96)
  /\ TickMath.getSqrtRatioAtTick TickMath.MAX_TICK
     = Some 1461446703485210103287273052203988822378723970342
  /\ TickMath.getSqrtRatioAtTick (TickMath.MAX_TICK + 1) = None.
Proof. repeat split; vm_compute; reflexivity. Qed.

Lemma calculateTokenAmounts_sides_and_negation_witness :
  exists r r',
    calculateTokenAmounts TickMath.getSqrtRatioAtTick 1000 (-60) 60 (2 ^ 96) = Some r
    /\ calculateTokenAmounts TickMath.getSqrtRatioAtTick (- 1000) (-60) 60 (2 ^ 96) = Some r'
    /\ (2 ^ 96 <= 78990846045029531151608375686 -> TokenAmounts.amount1 r = 0)
    /\ (79466191966197645195421774833 <= 2 ^ 96 -> TokenAmounts.amount0 r = 0)
    /\ TokenAmounts.amount0 r' = - TokenAmounts.amount0 r
    /\ TokenAmounts.amount1 r' = - TokenAmounts.amount1 r
    /\ TokenAmounts.amount0Abs r' = TokenAmounts.amount0Abs r
    /\ TokenAmounts.amount1Abs r' = TokenAmounts.amount1Abs r.
Proof.
  apply (calculateTokenAmounts_sides_and_negation
           TickMath.getSqrtRatioAtTick 1000 (-60) 60 (2 ^ 96)
           78990846045029531151608375686 79466191966197645195421774833).
  - vm_compute. reflexivity.
  - vm_compute. reflexivity.
  - lia.
Defined.

(** ** The tick scan *)

(** *** The two loops *)

Lemma ticksAscending_spec (fuel : nat) : forall tick endTick s,
  0 < s ->
  Z.max 0 ((endTick - tick) / s + 1) < Z.of_nat fuel ->
  exists l,
    ticksAscending fuel tick endTick s = Some l
    /\ StronglySorted Z.lt l
    /\ (forall t, In t l <-> tick <= t <= endTick /\ (s | t - tick)).
Proof.
  induction fuel as [| fuel IH]; intros tick endTick s Hs Hfuel; [lia |].
  simpl. destruct (Z.leb_spec tick endTick) as [Hle | Hgt].
  - assert (Z.max 0 ((endTick - (tick + s)) / s + 1) < Z.of_nat fuel) as Hfuel'.
    { replace (endTick - (tick + s)) with (endTick - tick + (-1) * s) by lia.
      rewrite Z.div_add by lia.
      pose proof (Z.div_pos (endTick - tick) s ltac:(lia) Hs). lia. }
    destruct (IH (tick + s) endTick s Hs Hfuel') as (l & -> & Hsorted & Hin).
    exists (tick :: l). split; [reflexivity |]. split.
    + constructor; [assumption |].
      apply List.Forall_forall. intros t Ht. apply Hin in Ht. lia.
    + intros t. simpl. rewrite Hin. split.
      * intros [<- | [Hrange Hdiv]].
        -- split; [lia |]. rewrite Z.sub_diag. apply Z.divide_0_r.
        -- split; [lia |].
           replace (t - tick) with ((t - (tick + s)) + s) by lia.
           apply Z.divide_add_r; [assumption | apply Z.divide_refl].
      * intros [Hrange [k Hk]].
        destruct (Z.eq_dec t tick) as [-> | Hne]; [left; reflexivity | right].
        assert (0 < k) by nia.
        split; [nia |]. exists (k - 1). lia.
  - exists []. split; [reflexivity |]. split; [constructor |].
    intros t. simpl. lia.
Qed.

Lemma ticksDescending_spec (fuel : nat) : forall tick endTick s,
  0 < s ->
  Z.max 0 ((tick - endTick) / s + 1) < Z.of_nat fuel ->
  exists l,
    ticksDescending fuel tick endTick s = Some l
    /\ StronglySorted Z.gt l
    /\ (forall t, In t l <-> endTick <= t <= tick /\ (s | tick - t)).
Proof.
  induction fuel as [| fuel IH]; intros tick endTick s Hs Hfuel; [lia |].
  simpl. destruct (Z.leb_spec endTick tick) as [Hle | Hgt].
  - assert (Z.max 0 ((tick - s - endTick) / s + 1) < Z.of_nat fuel) as Hfuel'.
    { replace (tick - s - endTick) with (tick - endTick + (-1) * s) by lia.
      rewrite Z.div_add by lia.
      pose proof (Z.div_pos (tick - endTick) s ltac:(lia) Hs). lia. }
    destruct (IH (tick - s) endTick s Hs Hfuel') as (l & -> & Hsorted & Hin).
    exists (tick :: l). split; [reflexivity |]. split.
    + constructor; [assumption |].
      apply List.Forall_forall. intros t Ht. apply Hin in Ht. lia.
    + intros t. simpl. rewrite Hin. split.
      * intros [<- | [Hrange Hdiv]].
        -- split; [lia |]. rewrite Z.sub_diag. apply Z.divide_0_r.
        -- split; [lia |].
           replace (tick - t) with ((tick - s - t) + s) by lia.
           apply Z.divide_add_r; [assumption | apply Z.divide_refl].
      * intros [Hrange [k Hk]].
        destruct (Z.eq_dec t tick) as [-> | Hne]; [left; reflexivity | right].
        assert (0 < k) by nia.
        split; [nia |]. exists (k - 1). lia.
  - exists []. split; [reflexivity |]. split; [constructor |].
    intros t. simpl. lia.
Qed.

(** *** The filter *)

Lemma StronglySorted_filter {A : Type} (R : A -> A -> Prop) (f : A -> bool) (l : list A) :
  StronglySorted R l -> StronglySorted R (List.filter f l).
Proof.
  induction 1 as [| a l Hs IH Hall]; simpl; [constructor |].
  destruct (f a); [| assumption].
  constructor; [assumption |].
  rewrite List.Forall_forall in *. intros x Hx. apply filter_In in Hx. apply Hall, Hx.
Qed.

Lemma initializedOnly_In (poolId : string) (ctx : Context.t) (l : list Z) (t : Z) :
  In t (initializedOnly poolId ctx l) <-> In t l /\ initialized ctx poolId t.
Proof.
  unfold initializedOnly, initialized. rewrite filter_In.
  destruct (Context.Tick ctx !! tickIdOf poolId t); split; intros [H1 H2];
    (split; [assumption |]); try reflexivity; try (eexists; reflexivity);
    try discriminate.
  destruct H2 as [x Hx]. discriminate.
Qed.

(** *** Rounding of the first candidate *)

Lemma round_up_aligned (start s : Z) :
  0 < s -> 0 <= start \/ (s | start) ->
  let r := Z.rem start s in
  let current := if decide (r ≠ 0) then start + (s - r) else start in
  start <= current < start + s /\ (s | current).
Proof.
  intros Hs Hstart r current. subst r current.
  destruct Hstart as [Hpos | Hdiv].
  - rewrite Z.rem_mod_nonneg by lia.
    pose proof (Z.mod_pos_bound start s Hs) as Hb.
    pose proof (Z.div_mod start s ltac:(lia)) as Hdm.
    destruct (decide (start `mod` s ≠ 0)) as [Hnz | Hz].
    + split; [lia |]. exists (start / s + 1). lia.
    + split; [lia |]. exists (start / s). lia.
  - assert (Z.rem start s = 0) as ->.
    { apply Z.rem_divide; [lia | assumption]. }
    destruct (decide (0 ≠ 0)); [congruence |]. split; [lia | assumption].
Qed.

Lemma round_down_aligned (start s : Z) :
  0 < s -> 0 <= start \/ (s | start) ->
  let r := Z.rem start s in
  let current := if decide (r ≠ 0) then start - r else start in
  start - s < current <= start /\ (s | current).
Proof.
  intros Hs Hstart r current. subst r current.
  destruct Hstart as [Hpos | Hdiv].
  - rewrite Z.rem_mod_nonneg by lia.
    pose proof (Z.mod_pos_bound start s Hs) as Hb.
    pose proof (Z.div_mod start s ltac:(lia)) as Hdm.
    destruct (decide (start `mod` s ≠ 0)) as [Hnz | Hz].
    + split; [lia |]. exists (start / s). lia.
    + split; [lia |]. exists (start / s). lia.
  - assert (Z.rem start s = 0) as ->.
    { apply Z.rem_divide; [lia | assumption]. }
    destruct (decide (0 ≠ 0)); [congruence |]. split; [lia | assumption].
Qed.

Lemma rem_bound (start s : Z) : 0 < s -> - s < Z.rem start s < s.
Proof.
  intros Hs. pose proof (Z.rem_bound_abs start s ltac:(lia)). lia.
Qed.

Lemma aligned_between (current s t : Z) :
  0 < s -> (s | current) -> (s | t) -> current - s < t -> current <= t.
Proof.
  intros Hs [a ->] [b ->] H. assert (a - 1 < b) by nia. nia.
Qed.

Lemma div_le_self (a s : Z) : 0 < s -> a / s <= Z.max 0 a.
Proof.
  intros Hs. destruct (Z.le_gt_cases 0 a).
  - pose proof (Z.div_le_upper_bound a s a Hs ltac:(nia)). lia.
  - pose proof (Z.div_lt_upper_bound a s 0 Hs ltac:(lia)). lia.
Qed.

(** The scan stops, whatever the two ticks, when the spacing is positive. *)
Lemma getInitializedTicksCrossed_returns
    (ctx : Context.t) (poolId : string) (oldTick newTick s : Z) (fuel : nat) :
  0 < s -> (scanFuel oldTick newTick <= fuel)%nat ->
  is_Some (getInitializedTicksCrossed fuel poolId oldTick newTick s ctx).
Proof.
  intros Hs Hfuel. unfold getInitializedTicksCrossed, scanFuel in *.
  destruct (decide (newTick = oldTick)); [eexists; reflexivity |].
  unfold BigInt.rem. destruct (decide (s = 0)); [lia |]. simpl.
  destruct (Z.ltb_spec oldTick newTick) as [Hasc | Hdesc].
  - pose proof (rem_bound (oldTick + 1) s Hs) as Hr.
    set (current := if decide (Z.rem (oldTick + 1) s ≠ 0) then _ else _).
    assert (oldTick + 1 <= current) by (subst current; case_decide; lia).
    destruct (ticksAscending_spec fuel current newTick s Hs) as (l & -> & _).
    { pose proof (div_le_self (newTick - current) s Hs). lia. }
    eexists; reflexivity.
  - pose proof (rem_bound oldTick s Hs) as Hr.
    set (current := if decide (Z.rem oldTick s ≠ 0) then _ else _).
    assert (current < oldTick + s) by (subst current; case_decide; lia).
    destruct (ticksDescending_spec fuel current (newTick + 1) s Hs) as (l & -> & _).
    { assert ((current - (newTick + 1)) / s <= (oldTick - newTick - 1) / s + 1).
      { rewrite <- (Z.div_add _ 1 s) by lia. apply Z.div_le_mono; lia. }
      pose proof (div_le_self (oldTick - newTick - 1) s Hs). lia. }
    eexists; reflexivity.
Qed.

(** A move down from tick 120 to tick 60 with both ticks initialized: the
    scan reports tick 120 and not tick 60, although 60 is the only
    initialized, aligned tick of [[60, 120)]. *)
Lemma crossedTicks_descending_counterexample :
  getInitializedTicksCrossed 10 "1_0xpool" 120 60 60 (storeWithTicks [60; 120]) = Some [120]
  /\ (60 <= 60 < 120 /\ (60 | 60) /\ initialized (storeWithTicks [60; 120]) "1_0xpool" 60)
  /\ ~ In 60 [120]
  /\ ~ (60 <= 120 < 120).
Proof.
  split; [vm_compute; reflexivity |]. split; [| split].
  - split; [lia |]. split; [apply Z.divide_refl |].
    unfold initialized. vm_compute. eexists. reflexivity.
  - intros [H | []]. discriminate.
  - lia.
Qed.

(** C2 (amended).  With [tickSpacing > 0] and enough fuel the scan returns.
    It returns the empty list when the tick did not move.  For a move up
    whose first candidate [oldTick + 1] is not negative (or is aligned) it
    returns exactly the initialized ticks aligned to the spacing in
    [(oldTick, newTick]], in increasing order.  For a move down whose first
    candidate [oldTick] is not negative (or is aligned) it returns exactly
    the initialized aligned ticks in [(newTick, oldTick]], in decreasing
    order. *)
Theorem getInitializedTicksCrossed_spec
    (ctx : Context.t) (poolId : string) (oldTick newTick tickSpacing : Z) (fuel : nat) :
  0 < tickSpacing ->
  (scanFuel oldTick newTick <= fuel)%nat ->
  exists crossed,
    getInitializedTicksCrossed fuel poolId oldTick newTick tickSpacing ctx = Some crossed
    /\ (newTick = oldTick -> crossed = [])
    /\ (oldTick < newTick ->
        0 <= oldTick + 1 \/ (tickSpacing | oldTick + 1) ->
        StronglySorted Z.lt crossed
        /\ forall t, In t crossed <->
             oldTick < t <= newTick /\ (tickSpacing | t) /\ initialized ctx poolId t)
    /\ (newTick < oldTick ->
        0 <= oldTick \/ (tickSpacing | oldTick) ->
        StronglySorted Z.gt crossed
        /\ forall t, In t crossed <->
             newTick < t <= oldTick /\ (tickSpacing | t) /\ initialized ctx poolId t).
Proof.
  intros Hs Hfuel.
  destruct (getInitializedTicksCrossed_returns ctx poolId oldTick newTick tickSpacing fuel
              Hs Hfuel) as [crossed Hrun].
  exists crossed. split; [assumption |].
  unfold getInitializedTicksCrossed, scanFuel in *.
  destruct (decide (newTick = oldTick)) as [Heq | Hne].
  { injection Hrun as <-. repeat split; intros; try reflexivity; lia. }
  split; [intros; contradiction |].
  unfold BigInt.rem in Hrun. destruct (decide (tickSpacing = 0)); [lia |].
  simpl in Hrun.
  destruct (Z.ltb_spec oldTick newTick) as [Hasc | Hdesc].
  - split; [| intros; lia]. intros _ Hstart.
    destruct (round_up_aligned (oldTick + 1) tickSpacing Hs Hstart) as [Hcur Hal].
    set (current := if decide (Z.rem (oldTick + 1) tickSpacing ≠ 0) then _ else _) in *.
    destruct (ticksAscending_spec fuel current newTick tickSpacing Hs)
      as (l & Hl & Hsorted & Hin).
    { pose proof (div_le_self (newTick - current) tickSpacing Hs). lia. }
    rewrite Hl in Hrun. simpl in Hrun. injection Hrun as <-.
    split; [apply StronglySorted_filter; assumption |].
    intros t. rewrite initializedOnly_In, Hin. split.
    + intros [[Hrange Hdiv] Hinit]. split; [lia |]. split; [| assumption].
      replace t with ((t - current) + current) by lia.
      apply Z.divide_add_r; assumption.
    + intros (Hrange & Hdiv & Hinit). split; [| assumption].
      split; [| apply Z.divide_sub_r; assumption].
      split; [| lia]. apply (aligned_between current tickSpacing t); try assumption. lia.
  - split; [intros; lia |]. intros _ Hstart.
    destruct (round_down_aligned oldTick tickSpacing Hs Hstart) as [Hcur Hal].
    set (current := if decide (Z.rem oldTick tickSpacing ≠ 0) then _ else _) in *.
    destruct (ticksDescending_spec fuel current (newTick + 1) tickSpacing Hs)
      as (l & Hl & Hsorted & Hin).
    { pose proof (div_le_self (current - (newTick + 1)) tickSpacing Hs). lia. }
    rewrite Hl in Hrun. simpl in Hrun. injection Hrun as <-.
    split; [apply StronglySorted_filter; assumption |].
    intros t. rewrite initializedOnly_In, Hin. split.
    + intros [[Hrange Hdiv] Hinit]. split; [lia |]. split; [| assumption].
      replace t with (current - (current - t)) by lia.
      apply Z.divide_sub_r; assumption.
    + intros (Hrange & Hdiv & Hinit). split; [| assumption].
      split; [| apply Z.divide_sub_r; assumption].
      split; [lia |].
      assert (t - tickSpacing < current) by lia.
      destruct Hal as [a Ha], Hdiv as [b Hb]. subst. assert (b - 1 < a) by nia. nia.
Qed.

Lemma getInitializedTicksCrossed_spec_witness :
  exists crossed,
    getInitializedTicksCrossed (scanFuel 0 120) "1_0xpool" 0 120 60
      (storeWithTicks [-60; 60]) = Some crossed
    /\ (120 = 0 -> crossed = [])
    /\ (0 < 120 ->
        0 <= 0 + 1 \/ (60 | 0 + 1) ->
        StronglySorted Z.lt crossed
        /\ forall t, In t crossed <->
             0 < t <= 120 /\ (60 | t)
             /\ initialized (storeWithTicks [-60; 60]) "1_0xpool" t)
    /\ (120 < 0 ->
        0 <= 0 \/ (60 | 0) ->
        StronglySorted Z.gt crossed
        /\ forall t, In t crossed <->
             120 < t <= 0 /\ (60 | t)
             /\ initialized (storeWithTicks [-60; 60]) "1_0xpool" t).
Proof.
  apply (getInitializedTicksCrossed_spec
           (storeWithTicks [-60; 60]) "1_0xpool" 0 120 60 (scanFuel 0 120)).
  - lia.
  - reflexivity.
Defined.

(** The scenario of the end-to-end test: ticks -60 and 60 are initialized
    and the price moves from tick 0 to tick 120; tick 60 is crossed. *)
Example crossedTicks_0_to_120 :
  getInitializedTicksCrossed 10 "1_0xpool" 0 120 60 (storeWithTicks [-60; 60]) = Some [60].
Proof. vm_compute. reflexivity. Qed.

(** The first candidate is rounded with the remainder of [%], which has
    the sign of the dividend.  From a negative unaligned start a move up
    skips the first aligned tick, and a move down starts one spacing too
    high. *)
Example crossedTicks_up_from_negative :
  getInitializedTicksCrossed 10 "1_0xpool" (-125) (-10) 60 (storeWithTicks [-120; -60])
  = Some [-60].
Proof. vm_compute. reflexivity. Qed.

Example crossedTicks_down_from_negative :
  getInitializedTicksCrossed 10 "1_0xpool" (-5) (-130) 60 (storeWithTicks [-120; -60; 0])
  = Some [0; -60; -120].
Proof. vm_compute. reflexivity. Qed.

(** ** The Donate handler *)

(** C8.  A Donate event on a pool without active liquidity (the pool and
    its two tokens are in the store): [tvl0] and [tvl1] of the pool grow by
    [amount0] and [amount1]; its fee-growth accumulators and fee totals are
    unchanged. *)
Theorem donate_without_liquidity_pool
    (event : DonateEvent.t) (ctx : Context.t) (pool : Pool.t) (token0 token1 : Token.t) :
  let poolId := poolIdOf (EventMeta.chainId (DonateEvent.meta event)) (DonateEvent.id event) in
  Context.Pool ctx !! poolId = Some pool ->
  Pool.id pool = poolId ->
  Context.Token ctx !! Pool.token0_id pool = Some token0 ->
  Context.Token ctx !! Pool.token1_id pool = Some token1 ->
  Pool.liquidity pool = 0 ->
  exists ctx',
    exec (donateHandler event) ctx = Some ctx'
    /\ exists pool',
      Context.Pool ctx' !! poolId = Some pool'
      /\ Pool.tvl0 pool' = Pool.tvl0 pool + DonateEvent.amount0 event
      /\ Pool.tvl1 pool' = Pool.tvl1 pool + DonateEvent.amount1 event
      /\ Pool.feeGrowthGlobal0X128 pool' = Pool.feeGrowthGlobal0X128 pool
      /\ Pool.feeGrowthGlobal1X128 pool' = Pool.feeGrowthGlobal1X128 pool
      /\ Pool.fees0 pool' = Pool.fees0 pool
      /\ Pool.fees1 pool' = Pool.fees1 pool.
Proof.
  intros poolId Hpool Hid Ht0 Ht1 Hliq.
  apply wp_exec. cbv delta [donateHandler]; cbv beta.
  repeat wp_step. subst_lets. rewrite Hpool.
  repeat wp_step. rewrite Ht0, Ht1.
  repeat wp_step.
  apply wp_bind.
  match goal with
  | |- context [0 <? Pool.liquidity ?p] =>
      replace (Pool.liquidity p) with 0 by (symmetry; exact Hliq)
  end.
  cbn [Z.ltb Z.compare].
  repeat wp_step.
  wp_hooks; repeat wp_auto.
  all: simpl_tables; eexists; (split; [apply lookup_insert_key; exact Hid |]).
  all: repeat split; reflexivity.
Qed.

Lemma donate_without_liquidity_pool_witness :
  exists ctx',
    exec (donateHandler exampleDonate) exampleStore = Some ctx'
    /\ exists pool',
      Context.Pool ctx' !! "1_0xpool" = Some pool'
      /\ Pool.tvl0 pool' = 0 + 100
      /\ Pool.tvl1 pool' = 0 + 0
      /\ Pool.feeGrowthGlobal0X128 pool' = 0
      /\ Pool.feeGrowthGlobal1X128 pool' = 0
      /\ Pool.fees0 pool' = 0
      /\ Pool.fees1 pool' = 0.
Proof.
  apply (donate_without_liquidity_pool exampleDonate exampleStore examplePool
           (exampleToken "1_0xaaa" "AAA") (exampleToken "1_0xbbb" "BBB"));
    vm_compute; reflexivity.
Defined.

(** The test of the specification: a donation of 100 of token0 to a pool
    without liquidity. *)
Example donate_100_without_liquidity :
  (ctx' ← exec (donateHandler exampleDonate) exampleStore;
   pool' ← Context.Pool ctx' !! "1_0xpool";
   Some (Pool.tvl0 pool', Pool.feeGrowthGlobal0X128 pool', Pool.fees0 pool'))
  = Some (100, 0, 0).
Proof. vm_compute. reflexivity. Qed.



(** After that donation the day bucket counts fees of 100 while the pool
    counts none. *)
Example donate_bucket_exceeds_pool :
  (ctx' ← exec (donateHandler exampleDonate) exampleStore;
   pool' ← Context.Pool ctx' !! "1_0xpool";
   day ← Context.PoolDayData ctx' !! bucketIdOf examplePool 1700000012 86400;
   Some (PoolIntervalData.fees0 day, Pool.fees0 pool'))
  = Some (100, 0).
Proof. vm_compute. reflexivity. Qed.

(** ** Events that refer to an unknown pool or token

    The Swap and Donate handlers return before their first write. *)

Lemma swapHandler_drops (fuel : nat) (event : SwapEvent.t) (ctx : Context.t) :
  let poolId := poolIdOf (EventMeta.chainId (SwapEvent.meta event)) (SwapEvent.id event) in
  (forall pool,
     Context.Pool ctx !! poolId = Some pool ->
     Context.Token ctx !! Pool.token0_id pool = None
     \/ Context.Token ctx !! Pool.token1_id pool = None) ->
  exec (swapHandler fuel event) ctx = Some ctx.
Proof.
  intros poolId Hmissing.
  unfold exec, swapHandler, Let_In, mbind, Handler_bind, get. cbv beta.
  fold poolId.
  destruct (Context.Pool ctx !! poolId) as [pool |]; [| reflexivity].
  destruct (Hmissing pool eq_refl) as [-> | ->]; [reflexivity |].
  destruct (Context.Token ctx !! Pool.token0_id pool); reflexivity.
Qed.

Lemma donateHandler_drops (event : DonateEvent.t) (ctx : Context.t) :
  let poolId := poolIdOf (EventMeta.chainId (DonateEvent.meta event)) (DonateEvent.id event) in
  (forall pool,
     Context.Pool ctx !! poolId = Some pool ->
     Context.Token ctx !! Pool.token0_id pool = None
     \/ Context.Token ctx !! Pool.token1_id pool = None) ->
  exec (donateHandler event) ctx = Some ctx.
Proof.
  intros poolId Hmissing.
  unfold exec, donateHandler, Let_In, mbind, Handler_bind, get. cbv beta.
  fold poolId.
  destruct (Context.Pool ctx !! poolId) as [pool |]; [| reflexivity].
  destruct (Hmissing pool eq_refl) as [-> | ->]; [reflexivity |].
  destruct (Context.Token ctx !! Pool.token0_id pool); reflexivity.
Qed.

(** ** The Swap handler *)

Lemma abs_opp (x : Z) : abs (- x) = Z.abs x.
Proof. unfold abs. destruct (Z.ltb_spec (- x) 0); lia. Qed.

Lemma tickIdOf_inj (poolId : string) (t1 t2 : Z) :
  tickIdOf poolId t1 = tickIdOf poolId t2 -> t1 = t2.
Proof.
  unfold tickIdOf. intros H.
  apply String.app_inj in H. apply String.app_inj in H.
  apply (inj pretty) in H. assumption.
Qed.

Lemma StronglySorted_lt_NoDup (l : list Z) : StronglySorted Z.lt l -> List.NoDup l.
Proof.
  induction 1 as [| a l Hs IH Hall]; constructor; [| assumption].
  intros Hin. rewrite List.Forall_forall in Hall. specialize (Hall _ Hin). lia.
Qed.

Lemma StronglySorted_gt_NoDup (l : list Z) : StronglySorted Z.gt l -> List.NoDup l.
Proof.
  induction 1 as [| a l Hs IH Hall]; constructor; [| assumption].
  intros Hin. rewrite List.Forall_forall in Hall. specialize (Hall _ Hin). lia.
Qed.

(** What the scan returns has no repetition and only initialized ticks. *)
Lemma getInitializedTicksCrossed_NoDup
    (ctx : Context.t) (poolId : string) (oldTick newTick s : Z) (fuel : nat)
    (crossed : list Z) :
  0 < s -> (scanFuel oldTick newTick <= fuel)%nat ->
  getInitializedTicksCrossed fuel poolId oldTick newTick s ctx = Some crossed ->
  List.NoDup crossed /\ forall t, In t crossed -> initialized ctx poolId t.
Proof.
  intros Hs Hfuel Hrun. unfold getInitializedTicksCrossed, scanFuel in *.
  destruct (decide (newTick = oldTick)).
  { injection Hrun as <-. split; [constructor | intros t []]. }
  unfold BigInt.rem in Hrun. destruct (decide (s = 0)); [lia |]. simpl in Hrun.
  destruct (Z.ltb_spec oldTick newTick) as [Hasc | Hdesc].
  - pose proof (rem_bound (oldTick + 1) s Hs) as Hr.
    set (current := if decide (Z.rem (oldTick + 1) s ≠ 0) then _ else _) in *.
    assert (oldTick + 1 <= current) by (subst current; case_decide; lia).
    destruct (ticksAscending_spec fuel current newTick s Hs) as (l & Hl & Hsorted & _).
    { pose proof (div_le_self (newTick - current) s Hs). lia. }
    rewrite Hl in Hrun. simpl in Hrun. injection Hrun as <-. split.
    + apply StronglySorted_lt_NoDup, StronglySorted_filter, Hsorted.
    + intros t Ht. apply initializedOnly_In in Ht. apply Ht.
  - pose proof (rem_bound oldTick s Hs) as Hr.
    set (current := if decide (Z.rem oldTick s ≠ 0) then _ else _) in *.
    assert (current < oldTick + s) by (subst current; case_decide; lia).
    destruct (ticksDescending_spec fuel current (newTick + 1) s Hs)
      as (l & Hl & Hsorted & _).
    { assert ((current - (newTick + 1)) / s <= (oldTick - newTick - 1) / s + 1).
      { rewrite <- (Z.div_add _ 1 s) by lia. apply Z.div_le_mono; lia. }
      pose proof (div_le_self (oldTick - newTick - 1) s Hs). lia. }
    rewrite Hl in Hrun. simpl in Hrun. injection Hrun as <-. split.
    + apply StronglySorted_gt_NoDup, StronglySorted_filter, Hsorted.
    + intros t Ht. apply initializedOnly_In in Ht. apply Ht.
Qed.

(** Flipping the ticks of a list without repetition: every listed tick
    that has a record is flipped once, every other record is left alone. *)
Lemma wp_forEach_updateTickCrossed (poolId : string) (g0 g1 : Z) (l : list Z) :
  forall (ctx : Context.t) (Q : unit -> Context.t -> Prop),
  List.NoDup l ->
  keyedById Tick.id (Context.Tick ctx) ->
  (forall ctx',
     keyedById Tick.id (Context.Tick ctx') ->
     (forall t tk, In t l -> Context.Tick ctx !! tickIdOf poolId t = Some tk ->
        exists tk',
          Context.Tick ctx' !! tickIdOf poolId t = Some tk'
          /\ Tick.feeGrowthOutside0X128 tk' = g0 - Tick.feeGrowthOutside0X128 tk
          /\ Tick.feeGrowthOutside1X128 tk' = g1 - Tick.feeGrowthOutside1X128 tk) ->
     (forall k, (forall t, In t l -> k <> tickIdOf poolId t) ->
        Context.Tick ctx' !! k = Context.Tick ctx !! k) ->
     Q tt ctx') ->
  wp (forEach (fun tickIdx => updateTickCrossed (tickIdOf poolId tickIdx) g0 g1) l) ctx Q.
Proof.
  induction l as [| a l IH]; intros ctx Q Hnodup Hkeyed HQ.
  - simpl. apply wp_ret. apply HQ; [assumption | intros t tk [] | reflexivity].
  - inversion Hnodup as [| ? ? Hnotin Hnodup']; subst.
    simpl. apply wp_bind. unfold updateTickCrossed at 1.
    apply wp_bind, wp_get; cbv beta.
    destruct (Context.Tick ctx !! tickIdOf poolId a) as [tka |] eqn:Hka.
    + cbv zeta. apply wp_set. simpl_tables.
      pose proof (Hkeyed _ _ Hka) as Hida.
      set (tka' := Tick.set_feeGrowthOutside1X128 _ _).
      assert (Tick.id tka' = tickIdOf poolId a) as Hida' by exact Hida.
      apply IH; [assumption | simpl_tables; apply keyedById_insert; assumption |].
      simpl_tables. rewrite Hida'.
      intros ctx' Hkeyed' Hflip Hframe. apply HQ; [assumption | |].
      * intros t tk [<- | Hin] Hk.
        -- exists tka'. rewrite Hframe.
           ++ rewrite lookup_insert_eq. rewrite Hka in Hk. injection Hk as <-.
              repeat split; reflexivity.
           ++ intros t Ht Heq. apply tickIdOf_inj in Heq. subst. contradiction.
        -- apply Hflip; [assumption |].
           rewrite lookup_insert_ne; [assumption |].
           intros Heq. apply tickIdOf_inj in Heq. subst. contradiction.
      * intros k Hk. rewrite Hframe.
        -- apply lookup_insert_ne. intros Heq. apply (Hk a); [left; reflexivity | congruence].
        -- intros t Ht. apply Hk. right. assumption.
    + apply wp_ret. apply IH; [assumption | assumption |].
      intros ctx' Hkeyed' Hflip Hframe. apply HQ; [assumption | |].
      * intros t tk [<- | Hin] Hk; [congruence |]. apply Hflip; assumption.
      * intros k Hk. apply Hframe. intros t Ht. apply Hk. right. assumption.
Qed.

Lemma updateFeeGrowth_eq (g fees liquidity : Z) :
  updateFeeGrowth g fees liquidity
    = Some (if decide (liquidity = 0) then g else g + (fees * Q128) ÷ liquidity).
Proof.
  unfold updateFeeGrowth, BigInt.div. destruct (decide (liquidity = 0)); reflexivity.
Qed.

(** What a processed swap books and which ticks it flips. On a pool that
    is in the store with its two tokens and a positive tick spacing: the
    fee of each side is [abs(amount) * feeTier / 1_000_000] (added to the
    pool's fee totals); when the liquidity the pool had before the swap is
    not zero, each global fee-growth accumulator advances by
    [fees * 2^128] divided by that liquidity (and stays as it was when
    that liquidity is zero); every tick that the scan reports gets
    [feeGrowthOutside0/1] replaced by the already updated global value
    minus its old value; no other tick record changes. Whether the scan
    reports every tick that the price has crossed is settled below. *)
Theorem swap_fees_and_crossings
    (fuel : nat) (event : SwapEvent.t) (ctx : Context.t)
    (pool : Pool.t) (token0 token1 : Token.t) :
  let poolId := poolIdOf (EventMeta.chainId (SwapEvent.meta event)) (SwapEvent.id event) in
  let oldTick := tickOrZero (Pool.tick pool) in
  let newTick := SwapEvent.tick event in
  let fees0 := (Z.abs (SwapEvent.amount0 event) * Pool.feeTier pool) ÷ 1000000 in
  let fees1 := (Z.abs (SwapEvent.amount1 event) * Pool.feeTier pool) ÷ 1000000 in
  Context.Pool ctx !! poolId = Some pool ->
  Pool.id pool = poolId ->
  Context.Token ctx !! Pool.token0_id pool = Some token0 ->
  Context.Token ctx !! Pool.token1_id pool = Some token1 ->
  keyedById Tick.id (Context.Tick ctx) ->
  0 < Pool.tickSpacing pool ->
  (scanFuel oldTick newTick <= fuel)%nat ->
  exists ctx',
    exec (swapHandler fuel event) ctx = Some ctx'
    /\ exists pool' crossed,
      Context.Pool ctx' !! poolId = Some pool'
      /\ Pool.fees0 pool' = Pool.fees0 pool + fees0
      /\ Pool.fees1 pool' = Pool.fees1 pool + fees1
      /\ (Pool.liquidity pool <> 0 ->
          Pool.feeGrowthGlobal0X128 pool'
            = Pool.feeGrowthGlobal0X128 pool + (fees0 * 2 ^ 128) ÷ Pool.liquidity pool
          /\ Pool.feeGrowthGlobal1X128 pool'
            = Pool.feeGrowthGlobal1X128 pool + (fees1 * 2 ^ 128) ÷ Pool.liquidity pool)
      /\ (Pool.liquidity pool = 0 ->
          Pool.feeGrowthGlobal0X128 pool' = Pool.feeGrowthGlobal0X128 pool
          /\ Pool.feeGrowthGlobal1X128 pool' = Pool.feeGrowthGlobal1X128 pool)
      /\ getInitializedTicksCrossed
           fuel poolId oldTick newTick (Pool.tickSpacing pool) ctx = Some crossed
      /\ (forall t, In t crossed ->
          exists tick tick',
            Context.Tick ctx !! tickIdOf poolId t = Some tick
            /\ Context.Tick ctx' !! tickIdOf poolId t = Some tick'
            /\ Tick.feeGrowthOutside0X128 tick'
               = Pool.feeGrowthGlobal0X128 pool' - Tick.feeGrowthOutside0X128 tick
            /\ Tick.feeGrowthOutside1X128 tick'
               = Pool.feeGrowthGlobal1X128 pool' - Tick.feeGrowthOutside1X128 tick)
      /\ (forall k, (forall t, In t crossed -> k <> tickIdOf poolId t) ->
          Context.Tick ctx' !! k = Context.Tick ctx !! k).
Proof.
  intros poolId oldTick newTick fees0 fees1 Hpool Hid Ht0 Ht1 Hkeyed Hs Hfuel.
  destruct (getInitializedTicksCrossed_returns
              ctx poolId oldTick newTick (Pool.tickSpacing pool) fuel Hs Hfuel)
    as [crossed Hscan].
  destruct (getInitializedTicksCrossed_NoDup
              ctx poolId oldTick newTick (Pool.tickSpacing pool) fuel crossed Hs Hfuel Hscan)
    as [Hnodup Hinit].
  assert (Hfg : forall pool' (rest : Prop),
    Pool.fees0 pool' = Pool.fees0 pool + calculateFees (abs (- SwapEvent.amount0 event)) (Pool.feeTier pool) ->
    Pool.fees1 pool' = Pool.fees1 pool + calculateFees (abs (- SwapEvent.amount1 event)) (Pool.feeTier pool) ->
    Pool.feeGrowthGlobal0X128 pool'
      = (if decide (Pool.liquidity pool = 0) then Pool.feeGrowthGlobal0X128 pool
         else Pool.feeGrowthGlobal0X128 pool
              + (calculateFees (abs (- SwapEvent.amount0 event)) (Pool.feeTier pool) * Q128)
                  ÷ Pool.liquidity pool) ->
    Pool.feeGrowthGlobal1X128 pool'
      = (if decide (Pool.liquidity pool = 0) then Pool.feeGrowthGlobal1X128 pool
         else Pool.feeGrowthGlobal1X128 pool
              + (calculateFees (abs (- SwapEvent.amount1 event)) (Pool.feeTier pool) * Q128)
                  ÷ Pool.liquidity pool) ->
    rest ->
    Pool.fees0 pool' = Pool.fees0 pool + fees0
    /\ Pool.fees1 pool' = Pool.fees1 pool + fees1
    /\ (Pool.liquidity pool <> 0 ->
        Pool.feeGrowthGlobal0X128 pool'
          = Pool.feeGrowthGlobal0X128 pool + (fees0 * 2 ^ 128) ÷ Pool.liquidity pool
        /\ Pool.feeGrowthGlobal1X128 pool'
          = Pool.feeGrowthGlobal1X128 pool + (fees1 * 2 ^ 128) ÷ Pool.liquidity pool)
    /\ (Pool.liquidity pool = 0 ->
        Pool.feeGrowthGlobal0X128 pool' = Pool.feeGrowthGlobal0X128 pool
        /\ Pool.feeGrowthGlobal1X128 pool' = Pool.feeGrowthGlobal1X128 pool)
    /\ rest).
  { intros pool' rest -> -> -> -> Hrest. unfold calculateFees, Q128. rewrite !abs_opp.
    subst fees0 fees1.
    destruct (decide (Pool.liquidity pool = 0)); repeat split; intros;
      congruence || assumption. }
  apply wp_exec. cbv delta [swapHandler]; cbv beta.
  repeat wp_step. subst_lets. rewrite Hpool.
  repeat wp_step. rewrite Ht0, Ht1.
  repeat wp_step.
  apply wp_bind. eapply wp_throws; [apply updateFeeGrowth_eq |].
  repeat wp_step.
  apply wp_bind. eapply wp_throws; [apply updateFeeGrowth_eq |].
  repeat wp_step.
  apply wp_bind.
  match goal with |- context [decide (?a ≠ ?b)] => destruct (decide (a ≠ b)) as [Hne | Heq] end.
  - apply wp_bind. eapply wp_reads; [exact Hscan |].
    apply wp_forEach_updateTickCrossed; [assumption | assumption |].
    intros ctx1 Hkeyed1 Hflip Hframe.
    repeat wp_step.
    wp_hooks; repeat wp_auto.
    all: simpl_tables; eexists; exists crossed;
      (split; [apply lookup_insert_key; exact Hid |]).
    all: apply Hfg; [reflexivity .. |]; split; [exact Hscan |].
    all: split; [| exact Hframe].
    all: intros idx Hidx; destruct (Hinit idx Hidx) as [tk Htk];
      destruct (Hflip idx tk Hidx Htk) as (tk' & Htk' & Hf0 & Hf1);
      exists tk, tk'; repeat split; assumption.
  - assert (crossed = []) as ->.
    { unfold getInitializedTicksCrossed in Hscan.
      match type of Hscan with
      | context [decide (?a = ?b)] => destruct (decide (a = b)) as [_ | Hne]
      end; [congruence |].
      exfalso. apply Heq. intros E. apply Hne. symmetry. exact E. }
    repeat wp_step.
    wp_hooks; repeat wp_auto.
    all: simpl_tables; eexists; exists [];
      (split; [apply lookup_insert_key; exact Hid |]).
    all: apply Hfg; [reflexivity .. |]; split; [exact Hscan |].
    all: split; [intros idx [] | reflexivity].
Qed.

Lemma swap_fees_and_crossings_witness :
  exists ctx' pool' tick',
    exec (swapHandler (scanFuel 0 120) exampleSwap) swapStore = Some ctx'
    /\ Context.Pool ctx' !! "1_0xpool" = Some pool'
    /\ Pool.fees0 pool' = 15000
    /\ Pool.fees1 pool' = 12000
    /\ Pool.feeGrowthGlobal0X128 pool' = (15000 * 2 ^ 128) ÷ 1000
    /\ Pool.feeGrowthGlobal1X128 pool' = (12000 * 2 ^ 128) ÷ 1000
    /\ Context.Tick ctx' !! "1_0xpool#60" = Some tick'
    /\ Tick.feeGrowthOutside0X128 tick' = Pool.feeGrowthGlobal0X128 pool' - 0
    /\ Tick.feeGrowthOutside1X128 tick' = Pool.feeGrowthGlobal1X128 pool' - 0
    /\ Context.Tick ctx' !! "1_0xpool#-60" = Context.Tick swapStore !! "1_0xpool#-60".
Proof.
  destruct (swap_fees_and_crossings (scanFuel 0 120) exampleSwap swapStore activePool
              (exampleToken "1_0xaaa" "AAA") (exampleToken "1_0xbbb" "BBB"))
    as (ctx' & Hrun & pool' & crossed & Hpool & Hfees0 & Hfees1 & Hgrowth & _
        & Hscan & Hflip & Hframe).
  - vm_compute. reflexivity.
  - reflexivity.
  - vm_compute. reflexivity.
  - vm_compute. reflexivity.
  - unfold swapStore. simpl_tables.
    cbn [Context.empty Context.Tick].
    do 2 apply keyedById_insert. apply keyedById_empty.
  - vm_compute. reflexivity.
  - reflexivity.
  - vm_compute in Hscan. injection Hscan as <-.
    destruct (Hflip 60 (or_introl eq_refl)) as (tick & tick' & Htick & Htick' & Hflip0 & Hflip1).
    vm_compute in Htick. injection Htick as <-.
    destruct (Hgrowth ltac:(vm_compute; discriminate)) as [Hgrowth0 Hgrowth1].
    exists ctx', pool', tick'.
    repeat split; try assumption.
    apply Hframe. intros t [<- | []]. vm_compute. discriminate.
Defined.

(** C3.  A swap that leaves a crossed tick unflipped. The handlers have
    built [storeBelowZero] from the creation of a pool at tick -125 with
    tick spacing 60 and two additions of liquidity, over [-180, 60] and
    over [-120, 60]: the pool has liquidity 1000 and tick -120 is
    initialized. The swap [swapUpBelowZero] moves the price up to tick
    -10. Fees and global fee growth are booked as the claim says, from the
    liquidity of before the swap. Tick -120 lies in [(-125, -10]] on the
    grid of the spacing, so the price has crossed it; the claim wants its
    [feeGrowthOutside0/1] replaced by the updated global value minus the
    old one. But the scan rounds its first candidate -124 with the
    remainder [-124 % 60 = -4] to [-124 + (60 - (-4)) = -60], reports no
    tick, and the record of tick -120 keeps its old values. *)
Theorem swap_misses_crossed_tick :
  exists pool tick ctx' pool' tick',
    exampleIndexer eventsBelowZero Context.empty = Some storeBelowZero
    /\ Context.Pool storeBelowZero !! "1_0xpool" = Some pool
    /\ Pool.tick pool = Some (-125)
    /\ Pool.tickSpacing pool = 60
    /\ Pool.liquidity pool = 1000
    /\ Context.Tick storeBelowZero !! tickIdOf "1_0xpool" (-120) = Some tick
    /\ -125 < -120 <= -10
    /\ (60 | -120)
    /\ exec (swapHandler 400 swapUpBelowZero) storeBelowZero = Some ctx'
    /\ Context.Pool ctx' !! "1_0xpool" = Some pool'
    /\ Pool.tick pool' = Some (-10)
    /\ Pool.fees0 pool' = Pool.fees0 pool + (Z.abs 4000000 * 3000) ÷ 1000000
    /\ Pool.fees1 pool' = Pool.fees1 pool + (Z.abs (-5000000) * 3000) ÷ 1000000
    /\ Pool.feeGrowthGlobal0X128 pool'
       = Pool.feeGrowthGlobal0X128 pool + (12000 * 2 ^ 128) ÷ 1000
    /\ Pool.feeGrowthGlobal1X128 pool'
       = Pool.feeGrowthGlobal1X128 pool + (15000 * 2 ^ 128) ÷ 1000
    /\ getInitializedTicksCrossed 400 "1_0xpool" (-125) (-10) 60 storeBelowZero = Some []
    /\ Context.Tick ctx' !! tickIdOf "1_0xpool" (-120) = Some tick'
    /\ Tick.feeGrowthOutside0X128 tick' = Tick.feeGrowthOutside0X128 tick
    /\ Tick.feeGrowthOutside1X128 tick' = Tick.feeGrowthOutside1X128 tick
    /\ Tick.feeGrowthOutside0X128 tick'
       <> Pool.feeGrowthGlobal0X128 pool' - Tick.feeGrowthOutside0X128 tick
    /\ Tick.feeGrowthOutside1X128 tick'
       <> Pool.feeGrowthGlobal1X128 pool' - Tick.feeGrowthOutside1X128 tick.
Proof.
  pose (ctx' := default Context.empty (exec (swapHandler 400 swapUpBelowZero) storeBelowZero)).
  exists (default examplePool (Context.Pool storeBelowZero !! "1_0xpool")),
    (default (exampleTick 0) (Context.Tick storeBelowZero !! tickIdOf "1_0xpool" (-120))),
    ctx',
    (default examplePool (Context.Pool ctx' !! "1_0xpool")),
    (default (exampleTick 0) (Context.Tick ctx' !! tickIdOf "1_0xpool" (-120))).
  subst ctx'.
  repeat match goal with
         | |- _ /\ _ => split
         end.
  all: try (vm_compute; reflexivity).
  all: try lia.
  - exists (-2). reflexivity.
  - vm_compute. discriminate.
  - vm_compute. discriminate.
Qed.

(** The scan on the same store when its first candidate is on the grid of
    the spacing: from tick -121 up to -10 it reports tick -120, from tick
    -181 the ticks -180 and -120; from tick -125 it reports nothing. *)
Example scan_from_aligned_tick_below_zero :
  getInitializedTicksCrossed 400 "1_0xpool" (-121) (-10) 60 storeBelowZero = Some [-120]
  /\ getInitializedTicksCrossed 400 "1_0xpool" (-181) (-10) 60 storeBelowZero
     = Some [-180; -120]
  /\ getInitializedTicksCrossed 400 "1_0xpool" (-125) (-10) 60 storeBelowZero = Some [].
Proof. vm_compute. repeat split; reflexivity. Qed.

(** The end-to-end scenario of the specification: liquidity 1000 is added
    over [-60, 60] to a fresh pool at tick 0, then a swap moves the tick
    to 120. *)
Example scenario_after_modifyLiquidity :
  (ctx ← storeWithPosition;
   position ← Context.Position ctx !! positionIdOf "1_0xpool" "0xSender" (-60) 60;
   lower ← Context.Tick ctx !! tickIdOf "1_0xpool" (-60);
   upper ← Context.Tick ctx !! tickIdOf "1_0xpool" 60;
   pool ← Context.Pool ctx !! "1_0xpool";
   Some (Position.liquidity position, Tick.liquidityGross lower, Tick.liquidityGross upper,
         Pool.liquidity pool, Pool.activePositionCount pool))
  = Some (1000, 1000, 1000, 1000, 1).
Proof. vm_compute. reflexivity. Qed.

Example scenario_after_swap :
  (ctx ← storeWithPosition;
   crossed ← getInitializedTicksCrossed 10 "1_0xpool" 0 120 60 ctx;
   ctx' ← exec (swapHandler 10 exampleSwap) ctx;
   pool' ← Context.Pool ctx' !! "1_0xpool";
   lower' ← Context.Tick ctx' !! tickIdOf "1_0xpool" (-60);
   upper' ← Context.Tick ctx' !! tickIdOf "1_0xpool" 60;
   Some (crossed,
         Tick.feeGrowthOutside0X128 lower', Tick.feeGrowthOutside1X128 lower',
         Tick.feeGrowthOutside0X128 upper' - Pool.feeGrowthGlobal0X128 pool',
         Tick.feeGrowthOutside1X128 upper' - Pool.feeGrowthGlobal1X128 pool'))
  = Some ([60], 0, 0, 0, 0).
Proof. vm_compute. reflexivity. Qed.


(** ** No fault in the fee-growth updates *)

Lemma wp_forEach_updateTickCrossed_any (poolId : string) (g0 g1 : Z) (l : list Z) :
  forall (ctx : Context.t) (Q : unit -> Context.t -> Prop),
  (forall ctx', Q tt ctx') ->
  wp (forEach (fun tickIdx => updateTickCrossed (tickIdOf poolId tickIdx) g0 g1) l) ctx Q.
Proof.
  induction l as [| a l IH]; intros ctx Q HQ; simpl.
  - apply wp_ret, HQ.
  - apply wp_bind. unfold updateTickCrossed at 1.
    apply wp_bind, wp_get; cbv beta.
    destruct (Context.Tick ctx !! tickIdOf poolId a).
    + cbv zeta. apply wp_set. apply IH, HQ.
    + apply wp_ret. apply IH, HQ.
Qed.

Lemma donateHandler_returns (event : DonateEvent.t) (ctx : Context.t) :
  is_Some (exec (donateHandler event) ctx).
Proof.
  apply wp_is_Some. cbv delta [donateHandler]; cbv beta.
  repeat wp_step.
  match goal with |- context [Context.Pool ctx !! ?k] => destruct (Context.Pool ctx !! k) as [pool |] end;
    [| apply wp_ret; exact I].
  repeat wp_step.
  destruct (Context.Token ctx !! Pool.token0_id pool);
    destruct (Context.Token ctx !! Pool.token1_id pool);
    try (apply wp_ret; exact I).
  repeat wp_step.
  apply wp_bind.
  match goal with |- context [0 <? ?l] => destruct (Z.ltb_spec 0 l) as [Hpos | Hnonpos] end.
  - apply wp_bind. eapply wp_throws; [apply BigInt_div_nonzero; lia |].
    repeat wp_step.
    apply wp_bind. eapply wp_throws; [apply BigInt_div_nonzero; exact (Z.neq_sym _ _ (Z.lt_neq _ _ Hpos)) |].
    repeat wp_step.
    wp_hooks; repeat wp_auto; exact I.
  - repeat wp_step.
    wp_hooks; repeat wp_auto; exact I.
Qed.

Lemma swapHandler_returns (fuel : nat) (event : SwapEvent.t) (ctx : Context.t) :
  let poolId := poolIdOf (EventMeta.chainId (SwapEvent.meta event)) (SwapEvent.id event) in
  (forall pool,
     Context.Pool ctx !! poolId = Some pool ->
     is_Some (getInitializedTicksCrossed fuel poolId
                (tickOrZero (Pool.tick pool)) (SwapEvent.tick event)
                (Pool.tickSpacing pool) ctx)) ->
  is_Some (exec (swapHandler fuel event) ctx).
Proof.
  intros poolId Hscan.
  apply wp_is_Some. cbv delta [swapHandler]; cbv beta.
  repeat wp_step. subst_lets.
  match goal with |- context [Context.Pool ctx !! ?k] =>
    destruct (Context.Pool ctx !! k) as [pool |] eqn:Hpool end;
    [| apply wp_ret; exact I].
  destruct (Hscan pool eq_refl) as [crossed Hcrossed].
  repeat wp_step.
  destruct (Context.Token ctx !! Pool.token0_id pool);
    destruct (Context.Token ctx !! Pool.token1_id pool);
    try (apply wp_ret; exact I).
  repeat wp_step.
  apply wp_bind. eapply wp_throws; [apply updateFeeGrowth_eq |].
  repeat wp_step.
  apply wp_bind. eapply wp_throws; [apply updateFeeGrowth_eq |].
  repeat wp_step.
  apply wp_bind.
  match goal with |- context [decide (?a ≠ ?b)] => destruct (decide (a ≠ b)) end.
  - apply wp_bind. eapply wp_reads; [exact Hcrossed |].
    apply wp_forEach_updateTickCrossed_any. intros ctx1.
    repeat wp_step.
    wp_hooks; repeat wp_auto; exact I.
  - repeat wp_step.
    wp_hooks; repeat wp_auto; exact I.
Qed.

(** C7.  The fee-growth updates never fault.  [updateFeeGrowth] always
    returns, and returns the accumulator unchanged when the liquidity is
    zero; the Donate handler returns on every event and store; the Swap
    handler returns on every event and store on which the scan of the
    crossed ticks returns, whatever the liquidity of the pool. *)
Theorem fee_growth_updates_total :
  (forall g fees liquidity,
     exists r, updateFeeGrowth g fees liquidity = Some r /\ (liquidity = 0 -> r = g))
  /\ (forall event ctx, is_Some (exec (donateHandler event) ctx))
  /\ (forall fuel event ctx,
        let poolId :=
          poolIdOf (EventMeta.chainId (SwapEvent.meta event)) (SwapEvent.id event) in
        (forall pool,
           Context.Pool ctx !! poolId = Some pool ->
           is_Some (getInitializedTicksCrossed fuel poolId
                      (tickOrZero (Pool.tick pool)) (SwapEvent.tick event)
                      (Pool.tickSpacing pool) ctx)) ->
        is_Some (exec (swapHandler fuel event) ctx)).
Proof.
  split; [| split].
  - intros g fees liquidity. eexists. split; [apply updateFeeGrowth_eq |].
    intros ->. reflexivity.
  - apply donateHandler_returns.
  - apply swapHandler_returns.
Qed.

Lemma fee_growth_updates_total_witness :
  is_Some (exec (swapHandler (scanFuel 0 120) exampleSwap) exampleStore).
Proof.
  destruct fee_growth_updates_total as (_ & _ & Hswap).
  apply Hswap. intros pool Hpool.
  vm_compute in Hpool. injection Hpool as <-.
  vm_compute. eexists. reflexivity.
Defined.

(** ** The ModifyLiquidity handler *)

(** Follow a field of a record back through the named values it was
    computed from; the conditions of the [if]s on the way are split. *)
Ltac chase_step :=
  first
    [ progress simpl
    | match goal with |- context [if ?c then _ else _] => destruct c end
    | match goal with
      | x := _ |- _ => lazymatch goal with |- context [x] => unfold x end
      end ].

Ltac chase := repeat chase_step; try (reflexivity || assumption || lia || congruence).

(** Steps for the tuple bindings of the handler. *)
Ltac wp_modify :=
  lazymatch goal with
  | |- wp (mbind _ (throws (calculateTokenAmounts _ _ _ _ _))) _ _ =>
      apply wp_bind; eapply wp_throws;
      [eapply calculateTokenAmounts_eq; eassumption |]
  | |- wp (mbind _ (getOrCreateLiquidityProvider _ _)) _ _ =>
      apply wp_bind; cbv delta [getOrCreateLiquidityProvider]; cbv beta;
      repeat wp_step;
      match goal with
      | |- context [Context.LiquidityProvider ?c !! ?k] =>
          destruct (Context.LiquidityProvider c !! k)
      end
  | |- wp (match (if ?c then _ else _) with _ => _ end) _ _ =>
      destruct c eqn:?; cbv beta iota zeta
  | |- wp (match _ with _ => _ end) _ _ => progress cbv beta iota zeta
  | _ => wp_auto
  end.

Ltac all_steps := repeat wp_modify.

Section ModifyLiquidityProperties.

Variable getSqrtRatioAtTick : Z -> option Z.

(** One ModifyLiquidity event on a pool that exists with both its tokens
    and whose range has boundary prices [0 < a < b]: the handler returns,
    the position's liquidity moves by [liquidityDelta], no other position
    changes, and the pool and its tokens are still there for the next
    event. *)
Lemma modifyLiquidityHandler_step
    (event : ModifyLiquidityEvent.t) (ctx : Context.t) (pool : Pool.t) (a b : Z) :
  let meta := ModifyLiquidityEvent.meta event in
  let poolId := poolIdOf (EventMeta.chainId meta) (ModifyLiquidityEvent.id event) in
  let positionId :=
    positionIdOf poolId (ModifyLiquidityEvent.sender event)
      (ModifyLiquidityEvent.tickLower event) (ModifyLiquidityEvent.tickUpper event) in
  getSqrtRatioAtTick (ModifyLiquidityEvent.tickLower event) = Some a ->
  getSqrtRatioAtTick (ModifyLiquidityEvent.tickUpper event) = Some b ->
  0 < a < b ->
  keyedById Pool.id (Context.Pool ctx) ->
  keyedById Token.id (Context.Token ctx) ->
  keyedById Position.id (Context.Position ctx) ->
  Context.Pool ctx !! poolId = Some pool ->
  is_Some (Context.Token ctx !! Pool.token0_id pool) ->
  is_Some (Context.Token ctx !! Pool.token1_id pool) ->
  exists ctx',
    exec (modifyLiquidityHandler getSqrtRatioAtTick event) ctx = Some ctx'
    /\ keyedById Pool.id (Context.Pool ctx')
    /\ keyedById Token.id (Context.Token ctx')
    /\ keyedById Position.id (Context.Position ctx')
    /\ (exists pool',
          Context.Pool ctx' !! poolId = Some pool'
          /\ Pool.token0_id pool' = Pool.token0_id pool
          /\ Pool.token1_id pool' = Pool.token1_id pool)
    /\ is_Some (Context.Token ctx' !! Pool.token0_id pool)
    /\ is_Some (Context.Token ctx' !! Pool.token1_id pool)
    /\ positionLiquidity (Context.Position ctx' !! positionId)
       = positionLiquidity (Context.Position ctx !! positionId)
         + ModifyLiquidityEvent.liquidityDelta event
    /\ (forall k, k <> positionId ->
          Context.Position ctx' !! k = Context.Position ctx !! k).
Proof.
  intros meta poolId positionId Ha Hb Hab HkPool HkToken HkPos Hpool [token0 Ht0] [token1 Ht1].
  pose proof (HkPool _ _ Hpool) as Hid.
  pose proof (HkToken _ _ Ht0) as Hid0.
  pose proof (HkToken _ _ Ht1) as Hid1.
  apply wp_exec. cbv delta [modifyLiquidityHandler]; cbv beta.
  repeat wp_step. subst_lets. rewrite Hpool.
  repeat wp_step. rewrite Ht0, Ht1.
  match goal with
  | |- context [Context.Position ctx !! ?k] =>
      destruct (Context.Position ctx !! k) as [positionRO |] eqn:Hpos
  end.
  all: all_steps.
  all: simpl_tables.
  all: fold positionId.
  all: match goal with
       | |- context [<[Position.id ?p := ?p]> _] =>
           assert (Position.id p = positionId) as Hposid
             by (chase; apply (HkPos _ _ Hpos));
           assert (Position.liquidity p
                   = positionLiquidity (Context.Position ctx !! positionId)
                     + ModifyLiquidityEvent.liquidityDelta event) as Hposliq
             by (rewrite Hpos; chase)
       end.
  all: match goal with
       | |- context [<[Pool.id ?p := ?p]> _] =>
           assert (Pool.id p = Pool.id pool
                   /\ Pool.token0_id p = Pool.token0_id pool
                   /\ Pool.token1_id p = Pool.token1_id pool) as (Hpid & Hpt0 & Hpt1)
             by (repeat split; chase)
       end.
  all: match goal with
       | |- context [<[Token.id ?t1 := ?t1]> (<[Token.id ?t0 := ?t0]> _)] =>
           assert (Token.id t0 = Pool.token0_id pool) as Htid0 by chase;
           assert (Token.id t1 = Pool.token1_id pool) as Htid1 by chase
       end.
  all: split; [apply keyedById_insert; assumption |].
  all: split; [do 2 apply keyedById_insert; assumption |].
  all: split; [apply keyedById_insert; assumption |].
  all: split; [eexists; split; [apply lookup_insert_key; congruence | split; assumption] |].
  all: split;
    [ match goal with
      | |- is_Some (<[?k1 := _]> _ !! ?k) =>
          destruct (decide (k1 = k)) as [-> | Hne];
          [ rewrite lookup_insert_eq; eexists; reflexivity
          | rewrite lookup_insert_ne by assumption;
            rewrite lookup_insert_key by assumption; eexists; reflexivity ]
      end |].
  all: split; [rewrite lookup_insert_key by assumption; eexists; reflexivity |].
  all: split; [rewrite lookup_insert_key by assumption; exact Hposliq |].
  all: intros k Hk; apply lookup_insert_ne; congruence.
Qed.

(** A sequence of events on one position, from any state of the store. *)
Lemma runModifyLiquidity_sum
    (chainId : Z) (id sender : string) (tickLower tickUpper a b : Z)
    (events : list ModifyLiquidityEvent.t) :
  let poolId := poolIdOf chainId id in
  let positionId := positionIdOf poolId sender tickLower tickUpper in
  getSqrtRatioAtTick tickLower = Some a ->
  getSqrtRatioAtTick tickUpper = Some b ->
  0 < a < b ->
  Forall (targetsPosition chainId id sender tickLower tickUpper) events ->
  forall (ctx : Context.t) (pool : Pool.t),
  keyedById Pool.id (Context.Pool ctx) ->
  keyedById Token.id (Context.Token ctx) ->
  keyedById Position.id (Context.Position ctx) ->
  Context.Pool ctx !! poolId = Some pool ->
  is_Some (Context.Token ctx !! Pool.token0_id pool) ->
  is_Some (Context.Token ctx !! Pool.token1_id pool) ->
  exists ctx',
    runModifyLiquidity getSqrtRatioAtTick events ctx = Some ctx'
    /\ positionLiquidity (Context.Position ctx' !! positionId)
       = positionLiquidity (Context.Position ctx !! positionId)
         + totalLiquidityDelta events.
Proof.
  intros poolId positionId Ha Hb Hab Hevents.
  induction Hevents as [| event events Htarget _ IH];
    intros ctx pool HkPool HkToken HkPos Hpool Ht0 Ht1.
  - exists ctx. split; [reflexivity |]. simpl. lia.
  - destruct Htarget as (Hchain & Hpoolid & Hsender & Hlower & Hupper).
    destruct (modifyLiquidityHandler_step event ctx pool a b) as
      (ctx1 & Hrun & HkPool1 & HkToken1 & HkPos1 & (pool1 & Hpool1 & Hp0 & Hp1)
       & Ht0' & Ht1' & Hliq & _);
      try assumption; try congruence.
    { rewrite Hchain, Hpoolid. exact Hpool. }
    rewrite Hchain, Hpoolid in Hpool1. fold poolId in Hpool1.
    assert (positionIdOf
              (poolIdOf (EventMeta.chainId (ModifyLiquidityEvent.meta event))
                 (ModifyLiquidityEvent.id event))
              (ModifyLiquidityEvent.sender event)
              (ModifyLiquidityEvent.tickLower event)
              (ModifyLiquidityEvent.tickUpper event) = positionId) as Hposid.
    { unfold positionId, positionIdOf, poolId.
      rewrite Hchain, Hpoolid, Hsender, Hlower, Hupper. reflexivity. }
    rewrite Hposid in Hliq.
    destruct (IH ctx1 pool1) as (ctx' & Hrest & Hsum); try assumption.
    { rewrite Hp0. assumption. }
    { rewrite Hp1. assumption. }
    exists ctx'. split.
    + simpl. rewrite Hrun. simpl. exact Hrest.
    + rewrite Hsum, Hliq. simpl. lia.
Qed.

(** C5 (amended).  From the lazy creation of a position on, after each
    event of a sequence of ModifyLiquidity events on that position the
    position's liquidity is the sum of the [liquidityDelta]s applied so
    far; it is [>= 0] exactly when that sum is.  (The pool and its tokens
    are in the store, and the range has boundary prices [0 < a < b].) *)
Theorem position_liquidity_running_sum
    (chainId : Z) (id sender : string) (tickLower tickUpper a b : Z)
    (events : list ModifyLiquidityEvent.t) (ctx : Context.t) (pool : Pool.t) :
  let poolId := poolIdOf chainId id in
  let positionId := positionIdOf poolId sender tickLower tickUpper in
  getSqrtRatioAtTick tickLower = Some a ->
  getSqrtRatioAtTick tickUpper = Some b ->
  0 < a < b ->
  Forall (targetsPosition chainId id sender tickLower tickUpper) events ->
  keyedById Pool.id (Context.Pool ctx) ->
  keyedById Token.id (Context.Token ctx) ->
  keyedById Position.id (Context.Position ctx) ->
  Context.Pool ctx !! poolId = Some pool ->
  is_Some (Context.Token ctx !! Pool.token0_id pool) ->
  is_Some (Context.Token ctx !! Pool.token1_id pool) ->
  Context.Position ctx !! positionId = None ->
  forall n,
  exists ctx',
    runModifyLiquidity getSqrtRatioAtTick (take n events) ctx = Some ctx'
    /\ positionLiquidity (Context.Position ctx' !! positionId)
       = totalLiquidityDelta (take n events)
    /\ (0 <= positionLiquidity (Context.Position ctx' !! positionId)
        <-> 0 <= totalLiquidityDelta (take n events)).
Proof.
  intros poolId positionId Ha Hb Hab Hevents HkPool HkToken HkPos Hpool Ht0 Ht1 Hnew n.
  destruct (runModifyLiquidity_sum chainId id sender tickLower tickUpper a b
              (take n events) Ha Hb Hab (Forall_take _ n _ Hevents)
              ctx pool HkPool HkToken HkPos Hpool Ht0 Ht1) as (ctx' & Hrun & Hsum).
  fold poolId positionId in Hsum. rewrite Hnew in Hsum. simpl in Hsum.
  exists ctx'. split; [exact Hrun |]. split; [exact Hsum |].
  fold poolId positionId. rewrite Hsum. reflexivity.
Qed.

(** The handler returns before its first write when the pool is unknown,
    and when a token is unknown and the sender's LiquidityProvider record
    exists already. *)
Lemma modifyLiquidityHandler_drops (event : ModifyLiquidityEvent.t) (ctx : Context.t) :
  let meta := ModifyLiquidityEvent.meta event in
  let poolId := poolIdOf (EventMeta.chainId meta) (ModifyLiquidityEvent.id event) in
  let lpId :=
    liquidityProviderIdOf (EventMeta.chainId meta) poolId
      (ModifyLiquidityEvent.sender event) in
  (forall pool,
     Context.Pool ctx !! poolId = Some pool ->
     (Context.Token ctx !! Pool.token0_id pool = None
      \/ Context.Token ctx !! Pool.token1_id pool = None)
     /\ is_Some (Context.LiquidityProvider ctx !! lpId)) ->
  exec (modifyLiquidityHandler getSqrtRatioAtTick event) ctx = Some ctx.
Proof.
  intros meta poolId lpId Hmissing.
  apply wp_exec_eq. cbv delta [modifyLiquidityHandler]; cbv beta.
  repeat wp_step.
  match goal with
  | |- context [Context.Pool ctx !! ?k] =>
      change k with poolId; destruct (Context.Pool ctx !! poolId) as [pool |]
  end; [| apply wp_ret; reflexivity].
  destruct (Hmissing pool eq_refl) as [Htoken [lp Hlp]].
  repeat wp_step.
  apply wp_bind; cbv delta [getOrCreateLiquidityProvider]; cbv beta.
  repeat wp_step.
  match goal with
  | |- context [Context.LiquidityProvider ctx !! ?k] => change k with lpId
  end.
  rewrite Hlp. repeat wp_step.
  destruct Htoken as [Ht | Ht]; rewrite Ht;
    [| destruct (Context.Token ctx !! Pool.token0_id pool)];
    apply wp_ret; reflexivity.
Qed.


End ModifyLiquidityProperties.

(** A first event that removes liquidity from a position that does not
    exist yet leaves the new position with negative liquidity. *)
Lemma position_liquidity_negative :
  (ctx' ← exec (modifyLiquidityHandler TickMath.getSqrtRatioAtTick (exampleModify (-1)))
            exampleStore;
   position ← Context.Position ctx' !! positionIdOf "1_0xpool" "0xSender" (-60) 60;
   Some (Position.liquidity position))
  = Some (-1)
  /\ Context.Position exampleStore !! positionIdOf "1_0xpool" "0xSender" (-60) 60 = None
  /\ ~ (0 <= -1).
Proof. split; [vm_compute; reflexivity |]. split; [vm_compute; reflexivity | lia]. Qed.

Lemma position_liquidity_running_sum_witness :
  exists ctx',
    runModifyLiquidity TickMath.getSqrtRatioAtTick
      (take 2 [exampleModify 1000; exampleModify (-400); exampleModify (-600)])
      exampleStore = Some ctx'
    /\ positionLiquidity
         (Context.Position ctx' !! positionIdOf (poolIdOf 1 "0xpool") "0xSender" (-60) 60)
       = totalLiquidityDelta
           (take 2 [exampleModify 1000; exampleModify (-400); exampleModify (-600)])
    /\ (0 <= positionLiquidity
               (Context.Position ctx'
                  !! positionIdOf (poolIdOf 1 "0xpool") "0xSender" (-60) 60)
        <-> 0 <= totalLiquidityDelta
                   (take 2 [exampleModify 1000; exampleModify (-400); exampleModify (-600)])).
Proof.
  apply (position_liquidity_running_sum TickMath.getSqrtRatioAtTick
           1 "0xpool" "0xSender" (-60) 60
           78990846045029531151608375686 79466191966197645195421774833
           [exampleModify 1000; exampleModify (-400); exampleModify (-600)]
           exampleStore examplePool).
  - vm_compute. reflexivity.
  - vm_compute. reflexivity.
  - lia.
  - repeat constructor.
  - unfold exampleStore. simpl_tables. cbn [Context.empty Context.Pool].
    apply keyedById_insert, keyedById_empty.
  - unfold exampleStore. simpl_tables. cbn [Context.empty Context.Token].
    do 2 apply keyedById_insert. apply keyedById_empty.
  - apply keyedById_empty.
  - vm_compute. reflexivity.
  - vm_compute. eexists. reflexivity.
  - vm_compute. eexists. reflexivity.
  - vm_compute. reflexivity.
Defined.

Example position_liquidity_after_three_events :
  (ctx' ← runModifyLiquidity TickMath.getSqrtRatioAtTick
            [exampleModify 1000; exampleModify (-400); exampleModify (-600)] exampleStore;
   position ← Context.Position ctx' !! positionIdOf "1_0xpool" "0xSender" (-60) 60;
   pool ← Context.Pool ctx' !! "1_0xpool";
   Some (Position.liquidity position, Pool.liquidity pool, Pool.activePositionCount pool))
  = Some (0, 0, 0).
Proof. vm_compute. reflexivity. Qed.


Example unknown_token_provider_record :
  (ctx' ← exec (modifyLiquidityHandler TickMath.getSqrtRatioAtTick (exampleModify 1000))
            storeWithoutTokens;
   Some (size (Context.LiquidityProvider storeWithoutTokens),
         size (Context.LiquidityProvider ctx'),
         size (Context.Position ctx'), size (Context.Tick ctx'),
         size (Context.Transaction ctx')))
  = Some (0%nat, 1%nat, 0%nat, 0%nat, 0%nat).
Proof. vm_compute. reflexivity. Qed.

(** ** Partial correctness and failure of handler computations *)

Lemma wp_wlp {A : Type} (h : Handler A) (ctx : Context.t) (Q : A -> Context.t -> Prop) :
  wp h ctx Q -> wlp h ctx Q.
Proof. intros (a & ctx' & Hh & HQ) a0 ctx0 Hh0. congruence. Qed.

Lemma wlp_ret {A : Type} (a : A) (ctx : Context.t) (Q : A -> Context.t -> Prop) :
  Q a ctx -> wlp (mret a) ctx Q.
Proof. intros H a0 ctx0 [= <- <-]. assumption. Qed.

Lemma wlp_bind {A B : Type} (m : Handler A) (k : A -> Handler B) (ctx : Context.t)
    (Q : B -> Context.t -> Prop) :
  wlp m ctx (fun a ctx' => wlp (k a) ctx' Q) -> wlp (m ≫= k) ctx Q.
Proof.
  intros H b ctx2 Hrun. unfold mbind, Handler_bind in Hrun.
  destruct (m ctx) as [[a ctx1] |] eqn:Hm; [| discriminate].
  apply (H a ctx1 Hm b ctx2 Hrun).
Qed.

Lemma wlp_get {V : Type} (table : Context.t -> gmap string V) (k : string)
    (ctx : Context.t) (Q : option V -> Context.t -> Prop) :
  Q (table ctx !! k) ctx -> wlp (get table k) ctx Q.
Proof. intros H a ctx' [= <- <-]. assumption. Qed.

Lemma wlp_set (update : Context.t -> Context.t) (ctx : Context.t)
    (Q : unit -> Context.t -> Prop) :
  Q tt (update ctx) -> wlp (set update) ctx Q.
Proof. intros H a ctx' [= <- <-]. assumption. Qed.

Lemma wlp_throws {A : Type} (o : option A) (ctx : Context.t) (Q : A -> Context.t -> Prop) :
  (forall a, o = Some a -> Q a ctx) -> wlp (throws o) ctx Q.
Proof.
  intros H a ctx' Hrun. unfold throws in Hrun.
  destruct o as [a0 |]; [| discriminate]. injection Hrun as <- <-. apply H. reflexivity.
Qed.

Lemma wlp_reads {A : Type} (f : Context.t -> option A) (ctx : Context.t)
    (Q : A -> Context.t -> Prop) :
  (forall a, f ctx = Some a -> Q a ctx) -> wlp (reads f) ctx Q.
Proof.
  intros H a ctx' Hrun. unfold reads in Hrun.
  destruct (f ctx) as [a0 |]; [| discriminate]. injection Hrun as <- <-. apply H. reflexivity.
Qed.

Lemma wlp_dlet {A B : Type} (v : A) (k : A -> Handler B) (ctx : Context.t)
    (Q : B -> Context.t -> Prop) :
  (let x := v in wlp (k x) ctx Q) -> wlp (Let_In v k) ctx Q.
Proof. exact id. Qed.

Lemma wlp_exec {A : Type} (h : Handler A) (ctx : Context.t) (P : Context.t -> Prop) :
  wlp h ctx (fun _ ctx' => P ctx') -> forall ctx', exec h ctx = Some ctx' -> P ctx'.
Proof.
  intros H ctx' Hrun. unfold exec in Hrun.
  destruct (h ctx) as [[a ctx1] |] eqn:Hh; [| discriminate].
  injection Hrun as <-. apply (H a ctx1 Hh).
Qed.

Lemma fails_exec {A : Type} (h : Handler A) (ctx : Context.t) :
  fails h ctx -> exec h ctx = None.
Proof. unfold fails, exec. intros ->. reflexivity. Qed.

Lemma fails_bind {A B : Type} (m : Handler A) (k : A -> Handler B) (ctx : Context.t) :
  wp m ctx (fun a ctx' => fails (k a) ctx') -> fails (m ≫= k) ctx.
Proof.
  intros (a & ctx' & Hm & Hk). unfold fails, mbind, Handler_bind. rewrite Hm. exact Hk.
Qed.

Lemma fails_now {A B : Type} (m : Handler A) (k : A -> Handler B) (ctx : Context.t) :
  fails m ctx -> fails (m ≫= k) ctx.
Proof. unfold fails, mbind, Handler_bind. intros ->. reflexivity. Qed.

Lemma fails_dlet {A B : Type} (v : A) (k : A -> Handler B) (ctx : Context.t) :
  (let x := v in fails (k x) ctx) -> fails (Let_In v k) ctx.
Proof. exact id. Qed.

Lemma fails_reads {A : Type} (f : Context.t -> option A) (ctx : Context.t) :
  f ctx = None -> fails (reads f) ctx.
Proof. unfold fails, reads. intros ->. reflexivity. Qed.

Lemma fails_throws {A : Type} (o : option A) (ctx : Context.t) :
  o = None -> fails (throws o) ctx.
Proof. intros ->. reflexivity. Qed.

(** Steps through the part of a computation that runs before it throws. *)
Ltac fails_step :=
  lazymatch goal with
  | |- fails (Let_In _ (fun x => _)) _ =>
      let y := fresh x in apply fails_dlet; intro y; cbv beta
  | |- fails (mbind _ (get _ _)) _ => apply fails_bind, wp_get; cbv beta
  | |- fails (mbind _ (set _)) _ => apply fails_bind, wp_set; cbv beta
  end.

Ltac wlp_let :=
  lazymatch goal with
  | |- wlp (Let_In _ (fun x => _)) _ _ =>
      let y := fresh x in
      apply wlp_dlet; intro y; cbv beta
  end.

Ltac wlp_step :=
  lazymatch goal with
  | |- wlp (Let_In _ _) _ _ => wlp_let
  | |- wlp (mbind _ (get _ _)) _ _ => apply wlp_bind, wlp_get; cbv beta
  | |- wlp (mbind _ (set _)) _ _ => apply wlp_bind, wlp_set; cbv beta
  | |- wlp (set _) _ _ => apply wlp_set
  | |- wlp (mret _) _ _ => apply wlp_ret
  end.

Ltac wlp_auto :=
  lazymatch goal with
  | |- wlp (mbind _ (getOrCreateTransaction _)) _ _ =>
      apply wlp_bind, wp_wlp, wp_getOrCreateTransaction; intros ?tx
  | |- wlp (mbind _ (updatePoolDayData _ _)) _ _ =>
      apply wlp_bind, wp_wlp, wp_updatePoolDayData_any; intros ?d
  | |- wlp (mbind _ (updatePoolHourData _ _)) _ _ =>
      apply wlp_bind, wp_wlp, wp_updatePoolHourData_any; intros ?d
  | |- wlp (mbind _ (updatePool5MinuteData _ _)) _ _ =>
      apply wlp_bind, wp_wlp, wp_updatePool5MinuteData_any; intros ?d
  | |- wlp (mbind _ (updateTokenDayData _ _)) _ _ =>
      apply wlp_bind, wp_wlp, wp_updateTokenDayData; intros ?d
  | |- wlp (mbind _ (updateTokenHourData _ _)) _ _ =>
      apply wlp_bind, wp_wlp, wp_updateTokenHourData; intros ?d
  | |- wlp (mbind _ (throws _)) _ _ =>
      apply wlp_bind, wlp_throws; intros ? ?
  | _ => wlp_step
  end.

Ltac wlp_hooks :=
  lazymatch goal with
  | |- wlp (mbind _ (if decide (_ ≠ _) then _ else _)) _ _ =>
      apply wlp_bind;
      match goal with
      | |- context [decide (?h ≠ ?z)] => destruct (decide (h ≠ z))
      end;
      [ apply wlp_bind, wlp_get; cbv beta;
        match goal with
        | |- context [Context.HookStats ?c !! ?k] => destruct (Context.HookStats c !! k)
        end;
        repeat wlp_step
      | wlp_step ]
  end.

Ltac simpl_store :=
  cbn beta iota delta
      [Context.Pool Context.Token Context.Tick Context.Position Context.LiquidityProvider
       Context.Transaction Context.HookStats Context.PoolDayData Context.PoolHourData
       Context.Pool5MinuteData Context.TokenDayData Context.TokenHourData Context.Swap
       Context.ModifyLiquidity
       Context.set_Pool Context.set_Token Context.set_Tick Context.set_Position
       Context.set_LiquidityProvider Context.set_Transaction Context.set_HookStats
       Context.set_PoolDayData Context.set_PoolHourData Context.set_Pool5MinuteData
       Context.set_TokenDayData Context.set_TokenHourData Context.set_Swap
       Context.set_ModifyLiquidity withTicks].

Lemma withTicks_self (ctx : Context.t) : withTicks (Context.Tick ctx) ctx = ctx.
Proof. destruct ctx. reflexivity. Qed.

(** Flipping ticks touches the Tick table only. *)
Lemma wp_forEach_updateTickCrossed_frame (poolId : string) (g0 g1 : Z) (l : list Z) :
  forall (ctx : Context.t) (Q : unit -> Context.t -> Prop),
  (forall ticks, Q tt (withTicks ticks ctx)) ->
  wp (forEach (fun tickIdx => updateTickCrossed (tickIdOf poolId tickIdx) g0 g1) l) ctx Q.
Proof.
  induction l as [| a l IH]; intros ctx Q HQ; simpl.
  - apply wp_ret. rewrite <- (withTicks_self ctx). apply HQ.
  - apply wp_bind. unfold updateTickCrossed at 1.
    apply wp_bind, wp_get; cbv beta.
    destruct (Context.Tick ctx !! tickIdOf poolId a).
    + cbv zeta. apply wp_set. apply IH. intros ticks. apply (HQ ticks).
    + apply wp_ret. apply IH, HQ.
Qed.

(** ** Further properties of the arithmetic helpers *)

(** X1.  Fee growth inside a range does not notice a move of the price,
    provided that exactly the boundary ticks the move passes are flipped:
    computed at the new tick from the flipped values, it is what it was at
    the old tick from the old values (for the same global accumulator). *)
Theorem feeGrowthInside_unchanged_by_crossing
    (feeGrowthGlobal outsideLower outsideUpper tickLower tickUpper oldTick newTick : Z) :
  let flipIfCrossed t outside :=
    if crossedBy oldTick newTick t
    then flipFeeGrowthOutside feeGrowthGlobal outside
    else outside in
  getFeeGrowthInside feeGrowthGlobal
    (flipIfCrossed tickLower outsideLower) (flipIfCrossed tickUpper outsideUpper)
    tickLower tickUpper newTick
  = getFeeGrowthInside feeGrowthGlobal outsideLower outsideUpper
      tickLower tickUpper oldTick.
Proof.
  unfold getFeeGrowthInside, crossedBy, flipFeeGrowthOutside. cbv zeta.
  destruct (Z.leb_spec tickLower newTick), (Z.leb_spec tickLower oldTick),
    (Z.ltb_spec newTick tickUpper), (Z.ltb_spec oldTick tickUpper),
    (Z.ltb_spec (Z.min oldTick newTick) tickLower),
    (Z.leb_spec tickLower (Z.max oldTick newTick)),
    (Z.ltb_spec (Z.min oldTick newTick) tickUpper),
    (Z.leb_spec tickUpper (Z.max oldTick newTick)); simpl; lia.
Qed.

Lemma abs_eq (value : Z) : abs value = Z.abs value.
Proof. unfold abs. destruct (Z.ltb_spec value 0); lia. Qed.

(** X2.  The fee the Swap handler takes on one side of a swap, for a fee
    tier between 0 and 100% (in millionths): it is the product [abs(amount)
    * feeTier / 1_000_000] rounded down, so not negative and at most the
    absolute amount. *)
Theorem calculateFees_of_abs_bounds (amount feeTier : Z) :
  0 <= feeTier <= 1000000 ->
  let fees := calculateFees (abs amount) feeTier in
  0 <= fees <= abs amount
  /\ fees * 1000000 <= abs amount * feeTier < (fees + 1) * 1000000.
Proof.
  intros Htier. cbv zeta. rewrite abs_eq. unfold calculateFees.
  pose proof (Z.abs_nonneg amount) as Habs.
  rewrite Z.quot_div_nonneg by nia.
  pose proof (Z.div_mod (Z.abs amount * feeTier) 1000000 ltac:(lia)) as Hdm.
  pose proof (Z.mod_pos_bound (Z.abs amount * feeTier) 1000000 ltac:(lia)) as Hmod.
  assert (0 <= Z.abs amount * feeTier / 1000000) by (apply Z.div_pos; nia).
  assert (Z.abs amount * feeTier / 1000000 <= Z.abs amount).
  { apply Z.div_le_upper_bound; nia. }
  repeat split; lia.
Qed.

Lemma calculateFees_of_abs_bounds_witness :
  0 <= calculateFees (abs (-5000000)) 3000 <= abs (-5000000)
  /\ calculateFees (abs (-5000000)) 3000 * 1000000
     <= abs (-5000000) * 3000 < (calculateFees (abs (-5000000)) 3000 + 1) * 1000000.
Proof. apply (calculateFees_of_abs_bounds (-5000000) 3000). lia. Defined.

Lemma magnitudes_nonneg (a b p liquidityAbs : Z) :
  0 < a < b -> 0 <= liquidityAbs ->
  0 <= (magnitudes a b p liquidityAbs).1 /\ 0 <= (magnitudes a b p liquidityAbs).2.
Proof.
  intros Hab Hl. unfold magnitudes, SqrtPriceMath.Q96.
  rewrite Z.shiftl_mul_pow2 by lia.
  assert (0 < 2 ^ 96) by lia.
  destruct (Z.leb_spec p a); [| destruct (Z.leb_spec b p)]; simpl; split;
    try lia; repeat (apply Z.quot_pos; try lia); nia.
Qed.

Lemma magnitudes_mono (a b p l1 l2 : Z) :
  0 < a < b -> 0 <= l1 <= l2 ->
  (magnitudes a b p l1).1 <= (magnitudes a b p l2).1
  /\ (magnitudes a b p l1).2 <= (magnitudes a b p l2).2.
Proof.
  intros Hab Hl. unfold magnitudes, SqrtPriceMath.Q96.
  rewrite !Z.shiftl_mul_pow2 by lia.
  assert (0 < 2 ^ 96) by lia.
  destruct (Z.leb_spec p a); [| destruct (Z.leb_spec b p)]; simpl; split;
    try lia; repeat (apply Z.quot_le_mono; try lia); nia.
Qed.

Section TokenAmountsSigns.

Variable getSqrtRatioAtTick : Z -> option Z.

(** X3.  For a range with boundary prices [0 < lower < upper],
    [calculateTokenAmounts] returns magnitudes [amount0Abs], [amount1Abs]
    that are not negative, whatever the price and the sign of
    [liquidityDelta]; [amount0] and [amount1] are these magnitudes when
    liquidity is added and their negations otherwise, and all are 0 for a
    [liquidityDelta] of 0. *)
Theorem calculateTokenAmounts_signs
    (liquidityDelta tickLower tickUpper sqrtPriceX96 lower upper : Z) :
  getSqrtRatioAtTick tickLower = Some lower ->
  getSqrtRatioAtTick tickUpper = Some upper ->
  0 < lower < upper ->
  exists r,
    calculateTokenAmounts getSqrtRatioAtTick
      liquidityDelta tickLower tickUpper sqrtPriceX96 = Some r
    /\ 0 <= TokenAmounts.amount0Abs r
    /\ 0 <= TokenAmounts.amount1Abs r
    /\ (0 < liquidityDelta ->
        TokenAmounts.amount0 r = TokenAmounts.amount0Abs r
        /\ TokenAmounts.amount1 r = TokenAmounts.amount1Abs r)
    /\ (liquidityDelta <= 0 ->
        TokenAmounts.amount0 r = - TokenAmounts.amount0Abs r
        /\ TokenAmounts.amount1 r = - TokenAmounts.amount1Abs r)
    /\ (liquidityDelta = 0 ->
        TokenAmounts.amount0Abs r = 0 /\ TokenAmounts.amount1Abs r = 0).
Proof.
  intros Hlower Hupper Hprices.
  rewrite (calculateTokenAmounts_eq getSqrtRatioAtTick _ _ _ _ _ _ Hlower Hupper Hprices).
  cbv zeta. eexists. split; [reflexivity |]. simpl.
  destruct (magnitudes_nonneg lower upper sqrtPriceX96 (Z.abs liquidityDelta) Hprices
              (Z.abs_nonneg _)) as [H0 H1].
  repeat split; try assumption.
  - destruct (Z.ltb_spec 0 liquidityDelta); [reflexivity | lia].
  - destruct (Z.ltb_spec 0 liquidityDelta); [reflexivity | lia].
  - destruct (Z.ltb_spec 0 liquidityDelta); [lia | reflexivity].
  - destruct (Z.ltb_spec 0 liquidityDelta); [lia | reflexivity].
  - subst. simpl. rewrite magnitudes_zero. reflexivity.
  - subst. simpl. rewrite magnitudes_zero. reflexivity.
Qed.

(** X4.  For a range with boundary prices [0 < lower < upper] and a fixed
    price, a liquidity change of larger magnitude never moves less of either
    token. *)
Theorem calculateTokenAmounts_monotone
    (delta1 delta2 tickLower tickUpper sqrtPriceX96 lower upper : Z) :
  getSqrtRatioAtTick tickLower = Some lower ->
  getSqrtRatioAtTick tickUpper = Some upper ->
  0 < lower < upper ->
  Z.abs delta1 <= Z.abs delta2 ->
  exists r1 r2,
    calculateTokenAmounts getSqrtRatioAtTick
      delta1 tickLower tickUpper sqrtPriceX96 = Some r1
    /\ calculateTokenAmounts getSqrtRatioAtTick
      delta2 tickLower tickUpper sqrtPriceX96 = Some r2
    /\ TokenAmounts.amount0Abs r1 <= TokenAmounts.amount0Abs r2
    /\ TokenAmounts.amount1Abs r1 <= TokenAmounts.amount1Abs r2.
Proof.
  intros Hlower Hupper Hprices Hle.
  rewrite !(calculateTokenAmounts_eq getSqrtRatioAtTick _ _ _ _ _ _ Hlower Hupper Hprices).
  cbv zeta. eexists _, _. split; [reflexivity |]. split; [reflexivity |]. simpl.
  apply magnitudes_mono; [assumption |]. pose proof (Z.abs_nonneg delta1). lia.
Qed.

End TokenAmountsSigns.

Lemma calculateTokenAmounts_signs_witness :
  exists r,
    calculateTokenAmounts TickMath.getSqrtRatioAtTick (-1000) (-60) 60 (2 ^ 96) = Some r
    /\ 0 <= TokenAmounts.amount0Abs r
    /\ 0 <= TokenAmounts.amount1Abs r
    /\ (0 < -1000 ->
        TokenAmounts.amount0 r = TokenAmounts.amount0Abs r
        /\ TokenAmounts.amount1 r = TokenAmounts.amount1Abs r)
    /\ (-1000 <= 0 ->
        TokenAmounts.amount0 r = - TokenAmounts.amount0Abs r
        /\ TokenAmounts.amount1 r = - TokenAmounts.amount1Abs r)
    /\ (-1000 = 0 ->
        TokenAmounts.amount0Abs r = 0 /\ TokenAmounts.amount1Abs r = 0).
Proof.
  apply (calculateTokenAmounts_signs TickMath.getSqrtRatioAtTick (-1000) (-60) 60 (2 ^ 96)
           78990846045029531151608375686 79466191966197645195421774833).
  - vm_compute. reflexivity.
  - vm_compute. reflexivity.
  - lia.
Defined.

Lemma calculateTokenAmounts_monotone_witness :
  exists r1 r2,
    calculateTokenAmounts TickMath.getSqrtRatioAtTick 1000 (-60) 60 (2 ^ 96) = Some r1
    /\ calculateTokenAmounts TickMath.getSqrtRatioAtTick (-2500) (-60) 60 (2 ^ 96) = Some r2
    /\ TokenAmounts.amount0Abs r1 <= TokenAmounts.amount0Abs r2
    /\ TokenAmounts.amount1Abs r1 <= TokenAmounts.amount1Abs r2.
Proof.
  apply (calculateTokenAmounts_monotone TickMath.getSqrtRatioAtTick 1000 (-2500) (-60) 60
           (2 ^ 96) 78990846045029531151608375686 79466191966197645195421774833).
  - vm_compute. reflexivity.
  - vm_compute. reflexivity.
  - lia.
  - lia.
Defined.

(** With liquidity 1000 over [-60, 60] at price 1 the deposit is 2 of each
    token; removing 2500 returns 7 of each. *)
Example tokenAmounts_at_price_one :
  (r1 ← calculateTokenAmounts TickMath.getSqrtRatioAtTick 1000 (-60) 60 (2 ^ 96);
   r2 ← calculateTokenAmounts TickMath.getSqrtRatioAtTick (-2500) (-60) 60 (2 ^ 96);
   Some (TokenAmounts.amount0 r1, TokenAmounts.amount1 r1,
         TokenAmounts.amount0 r2, TokenAmounts.amount1 r2))
  = Some (2, 2, -7, -7).
Proof. vm_compute. reflexivity. Qed.

(** ** Further properties of the tick scan *)

Lemma crossedBy_up (oldTick newTick t : Z) :
  oldTick < newTick -> (crossedBy oldTick newTick t = true <-> oldTick < t <= newTick).
Proof.
  intros H. unfold crossedBy. rewrite andb_true_iff, Z.ltb_lt, Z.leb_le. lia.
Qed.

Lemma crossedBy_down (oldTick newTick t : Z) :
  newTick < oldTick -> (crossedBy oldTick newTick t = true <-> newTick < t <= oldTick).
Proof.
  intros H. unfold crossedBy. rewrite andb_true_iff, Z.ltb_lt, Z.leb_le. lia.
Qed.

Lemma crossedBy_same (tick t : Z) : crossedBy tick tick t = false.
Proof.
  unfold crossedBy. apply andb_false_iff.
  rewrite Z.ltb_ge, Z.leb_gt. lia.
Qed.

(** What the scan returns when its first candidate is rounded in the
    direction of the move: the initialized, aligned ticks the move passes. *)
Lemma getInitializedTicksCrossed_members
    (ctx : Context.t) (poolId : string) (oldTick newTick s : Z) (fuel : nat)
    (crossed : list Z) :
  0 < s -> (scanFuel oldTick newTick <= fuel)%nat ->
  scanStartsAligned oldTick newTick s ->
  getInitializedTicksCrossed fuel poolId oldTick newTick s ctx = Some crossed ->
  (forall t, In t crossed <->
     crossedBy oldTick newTick t = true /\ (s | t) /\ initialized ctx poolId t)
  /\ (oldTick < newTick -> StronglySorted Z.lt crossed)
  /\ (newTick < oldTick -> StronglySorted Z.gt crossed).
Proof.
  intros Hs Hfuel Hstart Hrun.
  unfold getInitializedTicksCrossed, scanFuel, scanStartsAligned in *.
  destruct (decide (newTick = oldTick)) as [-> | Hne].
  { injection Hrun as <-. split; [| split; intros; lia].
    intros t. rewrite crossedBy_same. simpl. split; [tauto | intros [? _]; discriminate]. }
  unfold BigInt.rem in Hrun. destruct (decide (s = 0)); [lia |].
  simpl in Hrun.
  destruct (Z.ltb_spec oldTick newTick) as [Hasc | Hdesc].
  - destruct (round_up_aligned (oldTick + 1) s Hs Hstart) as [Hcur Hal].
    set (current := if decide (Z.rem (oldTick + 1) s ≠ 0) then _ else _) in *.
    destruct (ticksAscending_spec fuel current newTick s Hs) as (l & Hl & Hsorted & Hin).
    { pose proof (div_le_self (newTick - current) s Hs). lia. }
    rewrite Hl in Hrun. simpl in Hrun. injection Hrun as <-.
    split; [| split; [intros _; apply StronglySorted_filter; assumption | intros; lia]].
    intros t. rewrite initializedOnly_In, Hin, crossedBy_up by assumption. split.
    + intros [[Hrange Hdiv] Hinit]. split; [lia |]. split; [| assumption].
      replace t with ((t - current) + current) by lia.
      apply Z.divide_add_r; assumption.
    + intros (Hrange & Hdiv & Hinit). split; [| assumption].
      split; [| apply Z.divide_sub_r; assumption].
      split; [| lia]. apply (aligned_between current s t); try assumption. lia.
  - assert (newTick < oldTick) as Hlt by lia.
    destruct (round_down_aligned oldTick s Hs Hstart) as [Hcur Hal].
    set (current := if decide (Z.rem oldTick s ≠ 0) then _ else _) in *.
    destruct (ticksDescending_spec fuel current (newTick + 1) s Hs)
      as (l & Hl & Hsorted & Hin).
    { pose proof (div_le_self (current - (newTick + 1)) s Hs). lia. }
    rewrite Hl in Hrun. simpl in Hrun. injection Hrun as <-.
    split; [| split; [intros; lia | intros _; apply StronglySorted_filter; assumption]].
    intros t. rewrite initializedOnly_In, Hin, crossedBy_down by assumption. split.
    + intros [[Hrange Hdiv] Hinit]. split; [lia |]. split; [| assumption].
      replace t with (current - (current - t)) by lia.
      apply Z.divide_sub_r; assumption.
    + intros (Hrange & Hdiv & Hinit). split; [| assumption].
      split; [| apply Z.divide_sub_r; assumption].
      split; [lia |].
      assert (t - s < current) by lia.
      destruct Hal as [a Ha], Hdiv as [b Hb]. subst. assert (b - 1 < a) by nia. nia.
Qed.

Lemma StronglySorted_lt_snoc (l : list Z) (a : Z) :
  StronglySorted Z.lt l -> (forall x, In x l -> x < a) -> StronglySorted Z.lt (l ++ [a]).
Proof.
  induction 1 as [| b l Hs IH Hall]; intros Hlt; simpl.
  - constructor; constructor.
  - constructor.
    + apply IH. intros x Hx. apply Hlt. right. assumption.
    + rewrite List.Forall_forall in *. intros x Hx. apply in_app_or in Hx.
      destruct Hx as [Hx | [<- | []]]; [apply Hall; assumption |].
      apply Hlt. left. reflexivity.
Qed.

Lemma StronglySorted_gt_rev (l : list Z) :
  StronglySorted Z.gt l -> StronglySorted Z.lt (rev l).
Proof.
  induction 1 as [| a l Hs IH Hall]; simpl; [constructor |].
  apply StronglySorted_lt_snoc; [assumption |].
  intros x Hx. apply in_rev in Hx. rewrite List.Forall_forall in Hall.
  specialize (Hall _ Hx). lia.
Qed.

Lemma StronglySorted_lt_ext (l1 : list Z) : forall l2,
  StronglySorted Z.lt l1 -> StronglySorted Z.lt l2 ->
  (forall t, In t l1 <-> In t l2) -> l1 = l2.
Proof.
  induction l1 as [| a l1 IH]; intros l2 H1 H2 Hext.
  - destruct l2 as [| b l2]; [reflexivity |].
    exfalso. apply (proj2 (Hext b)). left. reflexivity.
  - destruct l2 as [| b l2].
    { exfalso. apply (proj1 (Hext a)). left. reflexivity. }
    inversion H1 as [| ? ? Hs1 Hall1]; subst. inversion H2 as [| ? ? Hs2 Hall2]; subst.
    rewrite List.Forall_forall in Hall1, Hall2.
    assert (a = b) as ->.
    { destruct (proj1 (Hext a) (or_introl eq_refl)) as [-> | Ha]; [reflexivity |].
      destruct (proj2 (Hext b) (or_introl eq_refl)) as [-> | Hb]; [reflexivity |].
      specialize (Hall1 _ Hb). specialize (Hall2 _ Ha). lia. }
    f_equal. apply IH; try assumption.
    intros t. split; intros Ht.
    + destruct (proj1 (Hext t) (or_intror Ht)) as [<- | H]; [| assumption].
      specialize (Hall1 _ Ht). lia.
    + destruct (proj2 (Hext t) (or_intror Ht)) as [<- | H]; [| assumption].
      specialize (Hall2 _ Ht). lia.
Qed.

Lemma scanFuel_sym (a b : Z) : scanFuel a b = scanFuel b a.
Proof. unfold scanFuel. f_equal. lia. Qed.

(** X5.  A move of the price up from [tickA] to [tickB] and the move back
    down pass the same initialized ticks: the scan of the way back returns
    the ticks of the way up in reverse order. (The first candidate of either
    scan is not negative or is aligned.) *)
Theorem crossedTicks_there_and_back
    (ctx : Context.t) (poolId : string) (tickA tickB tickSpacing : Z) (fuel : nat) :
  0 < tickSpacing ->
  tickA < tickB ->
  (scanFuel tickA tickB <= fuel)%nat ->
  scanStartsAligned tickA tickB tickSpacing ->
  scanStartsAligned tickB tickA tickSpacing ->
  exists up,
    getInitializedTicksCrossed fuel poolId tickA tickB tickSpacing ctx = Some up
    /\ getInitializedTicksCrossed fuel poolId tickB tickA tickSpacing ctx = Some (rev up).
Proof.
  intros Hs Hlt Hfuel Hup Hdown.
  destruct (getInitializedTicksCrossed_returns ctx poolId tickA tickB tickSpacing fuel Hs Hfuel)
    as [up Hrun_up].
  assert (scanFuel tickB tickA <= fuel)%nat as Hfuel' by (rewrite scanFuel_sym; assumption).
  destruct (getInitializedTicksCrossed_returns ctx poolId tickB tickA tickSpacing fuel Hs Hfuel')
    as [down Hrun_down].
  destruct (getInitializedTicksCrossed_members _ _ _ _ _ _ _ Hs Hfuel Hup Hrun_up)
    as (Hin_up & Hsorted_up & _).
  destruct (getInitializedTicksCrossed_members _ _ _ _ _ _ _ Hs Hfuel' Hdown Hrun_down)
    as (Hin_down & _ & Hsorted_down).
  exists up. split; [assumption |]. rewrite Hrun_down. f_equal.
  rewrite <- (rev_involutive down). f_equal.
  apply StronglySorted_lt_ext.
  - apply StronglySorted_gt_rev, Hsorted_down, Hlt.
  - apply Hsorted_up, Hlt.
  - intros t. rewrite <- in_rev, Hin_up, Hin_down.
    rewrite (crossedBy_up tickA tickB t Hlt), (crossedBy_down tickB tickA t Hlt).
    reflexivity.
Qed.

Lemma crossedTicks_there_and_back_witness :
  exists up,
    getInitializedTicksCrossed 400 "1_0xpool" (-121) 125 60
      (storeWithTicks [-120; -60; 60; 120; 180]) = Some up
    /\ getInitializedTicksCrossed 400 "1_0xpool" 125 (-121) 60
      (storeWithTicks [-120; -60; 60; 120; 180]) = Some (rev up).
Proof.
  apply (crossedTicks_there_and_back
           (storeWithTicks [-120; -60; 60; 120; 180]) "1_0xpool" (-121) 125 60 400).
  - lia.
  - lia.
  - vm_compute. lia.
  - right. exists (-2). reflexivity.
  - left. cbn. lia.
Defined.

Example crossedTicks_up_and_down :
  getInitializedTicksCrossed 400 "1_0xpool" (-121) 125 60
    (storeWithTicks [-120; -60; 60; 120; 180]) = Some [-120; -60; 60; 120]
  /\ getInitializedTicksCrossed 400 "1_0xpool" 125 (-121) 60
    (storeWithTicks [-120; -60; 60; 120; 180]) = Some [120; 60; -60; -120].
Proof. split; vm_compute; reflexivity. Qed.

(** The scan takes a remainder by the spacing before anything else: on a
    pool whose tick spacing is 0 it throws as soon as the tick has moved,
    whatever the fuel. *)
Lemma getInitializedTicksCrossed_zero_spacing
    (ctx : Context.t) (poolId : string) (oldTick newTick : Z) (fuel : nat) :
  getInitializedTicksCrossed fuel poolId oldTick newTick 0 ctx
  = if decide (newTick = oldTick) then Some [] else None.
Proof.
  unfold getInitializedTicksCrossed. destruct (decide (newTick = oldTick)); reflexivity.
Qed.

(** ** The transaction record and the interval buckets *)

(** X6.  [getOrCreateTransaction] on a Transaction table keyed by id: it
    returns the record of the event's transaction, filed under
    [`${chainId}_${hash}`], with the block number and timestamp of the event
    and no gas data; the chain id of a record that existed is kept; nothing
    else in the store changes. *)
Theorem getOrCreateTransaction_record (event : EventMeta.t) (ctx : Context.t) :
  let txId := pretty (EventMeta.chainId event) +:+ "_" +:+ EventMeta.transaction_hash event in
  keyedById Transaction.id (Context.Transaction ctx) ->
  exists tx,
    getOrCreateTransaction event ctx = Some (tx, Context.set_Transaction tx ctx)
    /\ Context.Transaction (Context.set_Transaction tx ctx) !! txId = Some tx
    /\ Transaction.id tx = txId
    /\ Transaction.blockNumber tx = EventMeta.block_number event
    /\ Transaction.timestamp tx = EventMeta.block_timestamp event
    /\ Transaction.gasUsed tx = 0
    /\ Transaction.gasPrice tx = 0
    /\ Transaction.chainId tx
       = match Context.Transaction ctx !! txId with
         | Some old => Transaction.chainId old
         | None => EventMeta.chainId event
         end.
Proof.
  intros txId Hkeyed.
  unfold getOrCreateTransaction, Let_In, mbind, Handler_bind, get, set, mret, Handler_ret.
  fold txId. eexists. split; [reflexivity |].
  assert (Transaction.id
            match Context.Transaction ctx !! txId with
            | Some tx => tx
            | None =>
                {| Transaction.id := txId; Transaction.chainId := EventMeta.chainId event;
                   Transaction.blockNumber := 0; Transaction.timestamp := 0;
                   Transaction.gasUsed := 0; Transaction.gasPrice := 0 |}
            end = txId) as Hid.
  { destruct (Context.Transaction ctx !! txId) as [old |] eqn:Hold; [| reflexivity].
    apply (Hkeyed _ _ Hold). }
  split.
  { simpl. apply lookup_insert_key. exact Hid. }
  split; [exact Hid |].
  repeat split. simpl.
  destruct (Context.Transaction ctx !! txId); reflexivity.
Qed.

Lemma getOrCreateTransaction_record_witness :
  exists tx,
    getOrCreateTransaction (exampleMeta 3) exampleStore
      = Some (tx, Context.set_Transaction tx exampleStore)
    /\ Context.Transaction (Context.set_Transaction tx exampleStore) !! "1_0xhash" = Some tx
    /\ Transaction.id tx = "1_0xhash"
    /\ Transaction.blockNumber tx = 101
    /\ Transaction.timestamp tx = 1700000012
    /\ Transaction.gasUsed tx = 0
    /\ Transaction.gasPrice tx = 0
    /\ Transaction.chainId tx
       = match Context.Transaction exampleStore !! "1_0xhash" with
         | Some old => Transaction.chainId old
         | None => 1
         end.
Proof.
  apply (getOrCreateTransaction_record (exampleMeta 3) exampleStore).
  apply keyedById_empty.
Defined.

Lemma set_Transaction_twice (tx : Transaction.t) (ctx : Context.t) :
  Context.set_Transaction tx (Context.set_Transaction tx ctx) = Context.set_Transaction tx ctx.
Proof.
  unfold Context.set_Transaction. simpl_tables. rewrite insert_insert_eq. reflexivity.
Qed.

(** X7.  The events of one transaction share one Transaction record: after
    the first of two events with the same chain, hash and block, the call
    for the second returns the same record and leaves the store as it is. *)
Theorem getOrCreateTransaction_once_per_transaction
    (event1 event2 : EventMeta.t) (ctx : Context.t) :
  EventMeta.chainId event1 = EventMeta.chainId event2 ->
  EventMeta.transaction_hash event1 = EventMeta.transaction_hash event2 ->
  EventMeta.block_number event1 = EventMeta.block_number event2 ->
  EventMeta.block_timestamp event1 = EventMeta.block_timestamp event2 ->
  (_ ← getOrCreateTransaction event1; getOrCreateTransaction event2) ctx
  = getOrCreateTransaction event1 ctx.
Proof.
  intros Hchain Hhash Hnumber Htimestamp.
  unfold getOrCreateTransaction, Let_In, mbind, Handler_bind, get, set, mret, Handler_ret.
  rewrite <- Hchain, <- Hhash, <- Hnumber, <- Htimestamp.
  set (txId := pretty (EventMeta.chainId event1) +:+ "_" +:+ EventMeta.transaction_hash event1).
  destruct (Context.Transaction ctx !! txId) as [old |] eqn:Hold; simpl_tables.
  - set (tx := Transaction.set_gasPrice 0
                  (Transaction.set_gasUsed 0
                     (Transaction.set_timestamp _ (Transaction.set_blockNumber _ old)))).
    destruct (decide (Transaction.id tx = txId)) as [Heq | Hne].
    + rewrite Heq, lookup_insert_eq.
      exact (f_equal (fun c => Some (tx, c)) (set_Transaction_twice tx ctx)).
    + rewrite lookup_insert_ne by assumption. rewrite Hold.
      exact (f_equal (fun c => Some (tx, c)) (set_Transaction_twice tx ctx)).
  - rewrite lookup_insert_eq.
    exact (f_equal (fun c => Some (_, c)) (set_Transaction_twice _ ctx)).
Qed.

Lemma getOrCreateTransaction_once_per_transaction_witness :
  (_ ← getOrCreateTransaction (exampleMeta 1); getOrCreateTransaction (exampleMeta 2))
    exampleStore
  = getOrCreateTransaction (exampleMeta 1) exampleStore.
Proof.
  apply (getOrCreateTransaction_once_per_transaction (exampleMeta 1) (exampleMeta 2) exampleStore);
    reflexivity.
Defined.

(** *** The arithmetic of the bucket start on doubles *)

Lemma roundHalfEven_bounds (n d : Z) :
  0 < d ->
  n / d <= Double.roundHalfEven n d <= n / d + 1
  /\ (Double.roundHalfEven n d = n / d + 1 -> d <= 2 * (n mod d)).
Proof.
  intros Hd. unfold Double.roundHalfEven. cbv zeta.
  destruct (Z.compare_spec (2 * (n mod d)) d); [destruct (Z.even (n / d)) | |]; lia.
Qed.

Lemma roundHalfEven_exact (k d : Z) : 0 < d -> Double.roundHalfEven (k * d) d = k.
Proof.
  intros Hd. unfold Double.roundHalfEven. cbv zeta.
  rewrite Z.mod_mul, Z.div_mul by lia.
  destruct (Z.compare_spec (2 * 0) d); lia.
Qed.

(** The mantissa of the double nearest to [n / d] has its 53 bits. *)
Lemma scaled_exponent (n d : Z) :
  0 < n -> 0 < d ->
  forall n' d', Double.scaled n d (Double.exponent n d) = (n', d') ->
  0 < d' /\ d' * 2 ^ 52 <= n'.
Proof.
  intros Hn Hd n' d'. unfold Double.exponent.
  set (e := Z.log2 n - Z.log2 d - 52).
  destruct (Double.scaled n d e) as [n0 d0] eqn:H0.
  destruct (Z.ltb_spec n0 (d0 * 2 ^ 52)) as [Hlt | Hge].
  - clear H0 Hlt n0 d0.
    pose proof (Z.log2_spec n Hn) as [Hn1 Hn2].
    pose proof (Z.log2_spec d Hd) as [Hd1 Hd2].
    pose proof (Z.log2_nonneg n). pose proof (Z.log2_nonneg d).
    unfold Double.scaled.
    destruct (Z.leb_spec 0 (e - 1)) as [He | He]; intros [= <- <-].
    + assert (0 < 2 ^ (e - 1)) by (apply Z.pow_pos_nonneg; lia).
      split; [lia |].
      rewrite <- Z.mul_assoc, <- Z.pow_add_r by lia.
      replace (e - 1 + 52) with (Z.log2 n - (Z.log2 d + 1)) by lia.
      assert (2 ^ Z.log2 n = 2 ^ (Z.log2 n - (Z.log2 d + 1)) * 2 ^ (Z.log2 d + 1)) as E.
      { rewrite <- Z.pow_add_r by lia. f_equal. lia. }
      assert (0 < 2 ^ (Z.log2 n - (Z.log2 d + 1))) by (apply Z.pow_pos_nonneg; lia).
      nia.
    + split; [lia |].
      replace (- (e - 1)) with (53 + Z.log2 d - Z.log2 n) by lia.
      assert (2 ^ (53 + Z.log2 d) = 2 ^ (53 + Z.log2 d - Z.log2 n) * 2 ^ Z.log2 n) as E.
      { rewrite <- Z.pow_add_r by lia. f_equal. lia. }
      assert (2 ^ (53 + Z.log2 d) = 2 ^ 52 * 2 ^ (Z.log2 d + 1)) as E'.
      { rewrite <- Z.pow_add_r by lia. f_equal. lia. }
      assert (0 < 2 ^ (53 + Z.log2 d - Z.log2 n)) by (apply Z.pow_pos_nonneg; lia).
      nia.
  - rewrite H0. intros [= <- <-]. split; [| assumption].
    unfold Double.scaled in H0.
    destruct (Z.leb_spec 0 e); injection H0 as <- <-; [| lia].
    assert (0 < 2 ^ e) by (apply Z.pow_pos_nonneg; lia). nia.
Qed.

(** [Math.floor(n / d)] on doubles is the floor division of the integers
    as long as [n] is below [2 ^ 53]: the quotient is then too far below
    the next integer to be rounded up to it. *)
Lemma floor_nearest (n d : Z) :
  0 <= n < 2 ^ 53 -> 0 < d -> Double.floor (Double.nearest n d) = n / d.
Proof.
  intros Hn Hd. unfold Double.nearest.
  destruct (Z.eqb_spec n 0) as [-> | Hn0]; [reflexivity |].
  destruct (Double.scaled n d (Double.exponent n d)) as [n' d'] eqn:Hscaled.
  destruct (scaled_exponent n d ltac:(lia) Hd n' d' Hscaled) as [Hd' Hlow].
  unfold Double.floor.
  unfold Double.scaled in Hscaled.
  destruct (Z.leb_spec 0 (Double.exponent n d)) as [He | He]; injection Hscaled as <- <-.
  - assert (0 < 2 ^ Double.exponent n d) by (apply Z.pow_pos_nonneg; lia).
    assert (d * 2 ^ Double.exponent n d = 1) as E by nia.
    assert (d = 1 /\ 2 ^ Double.exponent n d = 1) as [-> E2] by nia.
    rewrite E2, Z.mul_1_r, Z.div_1_r.
    rewrite <- (Z.mul_1_r n) at 1. rewrite roundHalfEven_exact by lia. reflexivity.
  - set (k := - Double.exponent n d) in *.
    assert (0 < 2 ^ k) as Hk by (apply Z.pow_pos_nonneg; lia).
    assert (2 ^ (k + 1) = 2 * 2 ^ k) as Hk1 by (rewrite Z.pow_add_r by lia; lia).
    destruct (roundHalfEven_bounds (n * 2 ^ k) d Hd) as [[Hlo Hhi] Hup].
    set (m := Double.roundHalfEven (n * 2 ^ k) d) in *.
    pose proof (Z.div_mod n d ltac:(lia)) as Hdiv.
    pose proof (Z.mod_pos_bound n d Hd) as Hmod.
    pose proof (Z.div_mod (n * 2 ^ k) d ltac:(lia)) as Hdiv'.
    pose proof (Z.mod_pos_bound (n * 2 ^ k) d Hd) as Hmod'.
    set (q := n / d) in *. set (r := n mod d) in *.
    set (Q := (n * 2 ^ k) / d) in *. set (R := (n * 2 ^ k) mod d) in *.
    assert (q * 2 ^ k <= Q) as HQlo.
    { subst Q. apply Z.div_le_lower_bound; [lia |]. nia. }
    assert (Q < (q + 1) * 2 ^ k) as HQhi.
    { subst Q. apply Z.div_lt_upper_bound; [lia |]. nia. }
    symmetry. apply Z.div_unique with (r := m - q * 2 ^ k); [| lia].
    left. split; [lia |].
    destruct (Z.eq_dec m (Q + 1)) as [Hm | Hm]; [| lia].
    specialize (Hup Hm).
    destruct (Z.eq_dec Q ((q + 1) * 2 ^ k - 1)) as [HQ | HQ]; [| lia].
    exfalso.
    assert (R = d - (d - r) * 2 ^ k) as HR by nia.
    assert (2 ^ (k + 1) <= d) by nia.
    assert (d * 2 ^ 52 < 2 ^ 53 * 2 ^ k) by nia.
    change (2 ^ 53) with (2 * 2 ^ 52) in *. nia.
Qed.

(** For a timestamp that is a safe integer the arithmetic of the bucket
    updates on doubles is the arithmetic on integers. *)
Lemma periodIndex_safe (timestamp period : Z) :
  0 <= timestamp <= MAX_SAFE_INTEGER -> 0 < period ->
  periodIndex timestamp period = timestamp / period.
Proof.
  unfold MAX_SAFE_INTEGER, periodIndex. intros Hsafe Hperiod.
  apply floor_nearest; lia.
Qed.

Lemma periodStart_safe (timestamp period : Z) :
  0 <= timestamp <= MAX_SAFE_INTEGER -> 0 < period ->
  periodStart timestamp period = timestamp / period * period.
Proof.
  intros Hsafe Hperiod. unfold periodStart.
  rewrite periodIndex_safe by assumption. unfold MAX_SAFE_INTEGER in Hsafe.
  rewrite floor_nearest, Z.div_1_r; [reflexivity | | lia].
  pose proof (Z.div_mod timestamp period ltac:(lia)).
  pose proof (Z.mod_pos_bound timestamp period Hperiod).
  assert (0 <= timestamp / period) by (apply Z.div_pos; lia).
  nia.
Qed.

(** [Double.nearest] gives the quotients and products of the Standard
    Library's binary64, here at the bucket periods for a block timestamp,
    for the largest safe integer, beyond it and for quotients that need
    rounding. *)
Example nearest_is_binary64_quotient :
  map (fun '(n, d) => Double.toSpecFloat (Double.nearest n d))
    [(1700000012, 86400); (1700000012, 3600); (1700000012, 300);
     (MAX_SAFE_INTEGER, 86400); (MAX_SAFE_INTEGER, 3600); (MAX_SAFE_INTEGER, 300);
     (2 ^ 60, 3600); (1, 3); (2, 3); (5, 1)]
  = map (fun '(n, d) => Double.divide (Double.ofInteger n) (Double.ofInteger d))
      [(1700000012, 86400); (1700000012, 3600); (1700000012, 300);
       (MAX_SAFE_INTEGER, 86400); (MAX_SAFE_INTEGER, 3600); (MAX_SAFE_INTEGER, 300);
       (2 ^ 60, 3600); (1, 3); (2, 3); (5, 1)].
Proof. vm_compute. reflexivity. Qed.

Example nearest_is_binary64_product :
  map (fun '(n, d) => Double.toSpecFloat (Double.nearest (n * d) 1))
    [(19675, 86400); (472222, 3600); (5666666, 300);
     (104249991374, 86400); (30023997515802, 300);
     (320255973501901, 3600); (2 ^ 53 + 1, 1); (2 ^ 53 + 3, 1); (2 ^ 54 + 2, 1)]
  = map (fun '(n, d) => Double.multiply (Double.ofInteger n) (Double.ofInteger d))
      [(19675, 86400); (472222, 3600); (5666666, 300);
       (104249991374, 86400); (30023997515802, 300);
       (320255973501901, 3600); (2 ^ 53 + 1, 1); (2 ^ 53 + 3, 1); (2 ^ 54 + 2, 1)].
Proof. vm_compute. reflexivity. Qed.

(** The same on a sweep: for block timestamps of the present, for the
    largest safe integers and for timestamps from [2 ^ 60] on, the
    quotient by each bucket period and the product of the period index
    with the period are the numbers that binary64 gives. *)
Example bucket_arithmetic_is_binary64 :
  forallb
    (fun timestamp =>
       forallb
         (fun period =>
            Double.sameAs (Double.nearest timestamp period)
              (Double.divide (Double.ofInteger timestamp) (Double.ofInteger period))
            && Double.sameAs (Double.nearest (periodIndex timestamp period * period) 1)
                 (Double.multiply (Double.ofInteger (periodIndex timestamp period))
                    (Double.ofInteger period)))
         [86400; 3600; 300])
    (map (fun k => 1700000000 + 7919 * Z.of_nat k) (seq 0 500)
     ++ map (fun k => MAX_SAFE_INTEGER - Z.of_nat k) (seq 0 200)
     ++ map (fun k => 2 ^ 60 + 256 * Z.of_nat k) (seq 0 200))
  = true.
Proof. vm_compute. reflexivity. Qed.

(** Beyond the safe integers the start of a bucket is no multiple of the
    period any more: the hour of the timestamp [2 ^ 60] starts 48 seconds
    after a full hour. *)
Example periodStart_beyond_safe_integers :
  periodIndex (2 ^ 60) 3600 = 320255973501901
  /\ periodStart (2 ^ 60) 3600 = 1152921504606843648
  /\ 2 ^ 60 / 3600 * 3600 = 1152921504606843600
  /\ 1152921504606843648 mod 3600 = 48.
Proof. vm_compute. repeat split; reflexivity. Qed.

Lemma period_window (timestamp period : Z) :
  0 < period ->
  (period | timestamp / period * period)
  /\ timestamp / period * period <= timestamp < timestamp / period * period + period.
Proof.
  intros Hp. split; [apply Z.divide_factor_r |].
  pose proof (Z.div_mod timestamp period ltac:(lia)).
  pose proof (Z.mod_pos_bound timestamp period Hp). lia.
Qed.

Ltac bucket_update_steps Hsafe :=
  unfold candlestickUpdate, counterUpdate;
  rewrite periodIndex_safe, periodStart_safe by first [exact Hsafe | lia];
  cbv [updatePoolDayData updatePoolHourData updatePool5MinuteData
       updateTokenDayData updateTokenHourData bucketIdOf tokenBucketIdOf
       Let_In mbind Handler_bind get set mret Handler_ret];
  eexists; split; [reflexivity |]; split; [reflexivity |];
  match goal with
  | |- context [match ?table !! ?k with _ => _ end] => destruct (table !! k) as [old |]
  end.

Ltac split_ltb :=
  repeat match goal with
         | |- context [?a <? ?b] => destruct (Z.ltb_spec a b); simpl
         end.

(** X8.  For a block timestamp that is an integer from 0 to
    [Number.MAX_SAFE_INTEGER], the range in which
    [Math.floor(timestamp / period) * period] is exact on doubles, the
    three pool bucket updates keep a candlestick of the pool's price per
    day, hour and five minutes: the bucket written has [low <= close <=
    high] with [close] the pool's current price; a bucket that existed
    keeps its [open_] and start, its [high] only rises and its [low] only
    falls, and its transaction count grows by one; a new bucket starts at
    the multiple of the period at or before the timestamp, with all four
    prices equal to the pool's price. *)
Theorem pool_buckets_are_candlesticks (timestamp : Z) (pool : Pool.t) (ctx : Context.t) :
  0 <= timestamp <= MAX_SAFE_INTEGER ->
  candlestickUpdate updatePoolDayData Context.PoolDayData Context.set_PoolDayData 86400
    timestamp pool ctx
  /\ candlestickUpdate updatePoolHourData Context.PoolHourData Context.set_PoolHourData 3600
    timestamp pool ctx
  /\ candlestickUpdate updatePool5MinuteData
       Context.Pool5MinuteData Context.set_Pool5MinuteData 300 timestamp pool ctx.
Proof.
  intros Hsafe. split; [| split].
  - bucket_update_steps Hsafe.
    all: split_ltb; simpl in *; destruct (period_window timestamp 86400 ltac:(lia));
      repeat split; try reflexivity; try assumption; lia.
  - bucket_update_steps Hsafe.
    all: split_ltb; simpl in *; destruct (period_window timestamp 3600 ltac:(lia));
      repeat split; try reflexivity; try assumption; lia.
  - bucket_update_steps Hsafe.
    all: split_ltb; simpl in *; destruct (period_window timestamp 300 ltac:(lia));
      repeat split; try reflexivity; try assumption; lia.
Qed.

Lemma pool_buckets_are_candlesticks_witness :
  candlestickUpdate updatePoolDayData Context.PoolDayData Context.set_PoolDayData 86400
    1700000012 examplePool exampleStore
  /\ candlestickUpdate updatePoolHourData Context.PoolHourData Context.set_PoolHourData 3600
    1700000012 examplePool exampleStore
  /\ candlestickUpdate updatePool5MinuteData
       Context.Pool5MinuteData Context.set_Pool5MinuteData 300
       1700000012 examplePool exampleStore.
Proof.
  apply (pool_buckets_are_candlesticks 1700000012 examplePool exampleStore).
  unfold MAX_SAFE_INTEGER. lia.
Defined.

(** The first bucket of a day, as the Swap handler asks for it at the
    block timestamp 1700000012. *)
Example first_day_bucket :
  (result ← updatePoolDayData 1700000012 examplePool exampleStore;
   Some (PoolIntervalData.id result.1, PoolIntervalData.startTimestamp result.1,
         periodStart 1700000012 86400, PoolIntervalData.txCount result.1))
  = Some ("1_0xpool-19675", 1699920000, 1699920000, 1).
Proof. vm_compute. reflexivity. Qed.

(** X9.  For a block timestamp that is an integer from 0 to
    [Number.MAX_SAFE_INTEGER], the two token bucket updates count the
    transactions of a token per day and per hour: a bucket that existed
    gets its count raised by one and is otherwise as it was; a new bucket
    starts at the multiple of the period at or before the timestamp with a
    count of one and no volume. *)
Theorem token_buckets_count_transactions
    (timestamp : Z) (token : Token.t) (ctx : Context.t) :
  0 <= timestamp <= MAX_SAFE_INTEGER ->
  counterUpdate updateTokenDayData Context.TokenDayData Context.set_TokenDayData 86400
    timestamp token ctx
  /\ counterUpdate updateTokenHourData Context.TokenHourData Context.set_TokenHourData 3600
    timestamp token ctx.
Proof.
  intros Hsafe. split.
  - bucket_update_steps Hsafe.
    all: simpl; destruct (period_window timestamp 86400 ltac:(lia));
      repeat split; try reflexivity; try assumption; lia.
  - bucket_update_steps Hsafe.
    all: simpl; destruct (period_window timestamp 3600 ltac:(lia));
      repeat split; try reflexivity; try assumption; lia.
Qed.

Lemma token_buckets_count_transactions_witness :
  counterUpdate updateTokenDayData Context.TokenDayData Context.set_TokenDayData 86400
    1700000012 (exampleToken "1_0xaaa" "AAA") exampleStore
  /\ counterUpdate updateTokenHourData Context.TokenHourData Context.set_TokenHourData 3600
    1700000012 (exampleToken "1_0xaaa" "AAA") exampleStore.
Proof.
  apply (token_buckets_count_transactions 1700000012 (exampleToken "1_0xaaa" "AAA")
           exampleStore).
  unfold MAX_SAFE_INTEGER. lia.
Defined.

(** ** The RPC helpers and the token metadata effect *)

Section EffectProperties.

Variable chains : list Chain.t.
Variable env : gmap string string.
Variable readName : PublicClient.t -> string -> option string.
Variable readSymbol : PublicClient.t -> string -> option string.
Variable readDecimals : PublicClient.t -> string -> option Z.

Lemma getChain_Some (chainId : Z) (chain : Chain.t) :
  getChain chains chainId = Some chain -> In chain chains /\ Chain.id chain = chainId.
Proof.
  unfold getChain. intros H. apply find_some in H. destruct H as [Hin Hid].
  split; [assumption |]. apply bool_decide_eq_true in Hid. assumption.
Qed.

Lemma getChain_None (chainId : Z) :
  getChain chains chainId = None <-> (forall chain, In chain chains -> Chain.id chain <> chainId).
Proof.
  unfold getChain. split.
  - intros H chain Hin Hid. pose proof (find_none _ _ H chain Hin) as Hf.
    apply bool_decide_eq_false in Hf. contradiction.
  - intros H. destruct (List.find _ chains) as [chain |] eqn:Hfind; [| reflexivity].
    apply find_some in Hfind. destruct Hfind as [Hin Hid].
    apply bool_decide_eq_true in Hid. exfalso. apply (H chain Hin Hid).
Qed.

(** X10.  The RPC URL of a chain: a non-empty [RPC_URL_<chainId>] of the
    environment wins; an unset or empty variable falls back to the first
    default HTTP URL of the chain with that id; there is no URL exactly when
    the variable is unset or empty and no chain with that id has a default
    HTTP URL to offer first. *)
Theorem getRpcUrl_precedence (chainId : Z) :
  let variable := env !! ("RPC_URL_" +:+ pretty chainId) in
  (forall url, variable = Some url -> url <> "" -> getRpcUrl chains env chainId = Some url)
  /\ (variable = None \/ variable = Some "" ->
      getRpcUrl chains env chainId
      = match getChain chains chainId with
        | Some chain => head (Chain.rpcUrls_default_http chain)
        | None => None
        end)
  /\ (getRpcUrl chains env chainId = None <->
      (variable = None \/ variable = Some "")
      /\ forall chain, getChain chains chainId = Some chain ->
                       Chain.rpcUrls_default_http chain = []).
Proof.
  cbv zeta. unfold getRpcUrl.
  destruct (env !! ("RPC_URL_" +:+ pretty chainId)) as [[| c url] |].
  - split; [intros url [= <-] H; contradiction |].
    split; [intros _; reflexivity |].
    destruct (getChain chains chainId) as [chain |]; simpl.
    + destruct (Chain.rpcUrls_default_http chain) as [| u us] eqn:Hhttp; simpl.
      * split; [intros _; split; [right; reflexivity | intros ? [= <-]; assumption] |].
        reflexivity.
      * split; [discriminate |]. intros [_ H]. specialize (H chain eq_refl). congruence.
    + split; [intros _; split; [right; reflexivity | discriminate] | reflexivity].
  - split; [intros url' [= <-] _; reflexivity |].
    split; [intros [H | H]; discriminate |].
    split; [discriminate | intros [[H | H] _]; discriminate].
  - split; [discriminate |].
    split; [intros _; reflexivity |].
    destruct (getChain chains chainId) as [chain |]; simpl.
    + destruct (Chain.rpcUrls_default_http chain) as [| u us] eqn:Hhttp; simpl.
      * split; [intros _; split; [left; reflexivity | intros ? [= <-]; assumption] |].
        reflexivity.
      * split; [discriminate |]. intros [_ H]. specialize (H chain eq_refl). congruence.
    + split; [intros _; split; [left; reflexivity | discriminate] | reflexivity].
Qed.

(** X11.  The metadata of a token. For the zero address, in any letter case,
    it is the native currency of the first listed chain with the event's
    chain id, and Ether / ETH / 18 when no listed chain has that id,
    whatever the contract reads would return. For any other address every
    field comes from its own contract read, and a read that fails gives
    ["unknown"], ["UNKNOWN"] and 0 respectively. *)
Theorem getTokenMetadataEffect_cases (address : string) (chainId : Z) :
  let metadata :=
    getTokenMetadataEffect chains env readName readSymbol readDecimals address chainId in
  let client := getPublicClient chains env chainId in
  (toLowerCase address = zeroAddress ->
     (forall chain,
        getChain chains chainId = Some chain ->
        Chain.id chain = chainId
        /\ TokenMetadata.name metadata = NativeCurrency.name (Chain.nativeCurrency chain)
        /\ TokenMetadata.symbol metadata = NativeCurrency.symbol (Chain.nativeCurrency chain)
        /\ TokenMetadata.decimals metadata
           = NativeCurrency.decimals (Chain.nativeCurrency chain))
     /\ ((forall chain, In chain chains -> Chain.id chain <> chainId) ->
         metadata = TokenMetadata.mk "Ether" "ETH" 18))
  /\ (toLowerCase address <> zeroAddress ->
      TokenMetadata.name metadata = default "unknown" (readName client address)
      /\ TokenMetadata.symbol metadata = default "UNKNOWN" (readSymbol client address)
      /\ TokenMetadata.decimals metadata = default 0 (readDecimals client address)).
Proof.
  cbv zeta. unfold getTokenMetadataEffect.
  assert (toLowerCase zeroAddress = zeroAddress) as -> by reflexivity.
  destruct (decide (toLowerCase address = zeroAddress)) as [Hzero | Hother].
  - split; [intros _ | intros H; contradiction].
    unfold getNativeTokenMetadata. split.
    + intros chain Hchain. rewrite Hchain. simpl.
      destruct (getChain_Some _ _ Hchain) as [_ Hid]. repeat split; assumption.
    + intros Hnone. apply getChain_None in Hnone. rewrite Hnone. reflexivity.
  - split; [intros H; contradiction | intros _].
    repeat split.
Qed.

End EffectProperties.

(** A chain table with one chain, and a contract whose [name] read fails. *)
Example metadata_of_native_and_broken_token :
  let mainnet :=
    {| Chain.id := 1;
       Chain.nativeCurrency := NativeCurrency.mk "Ether" "ETH" 18;
       Chain.rpcUrls_default_http := ["https://eth.example"] |} in
  let effect :=
    getTokenMetadataEffect [mainnet] ∅
      (fun _ _ => None) (fun _ _ => Some "TKN") (fun _ _ => Some 6) in
  effect "0x0000000000000000000000000000000000000000" 1 = TokenMetadata.mk "Ether" "ETH" 18
  /\ effect "0x0000000000000000000000000000000000000000" 10
     = TokenMetadata.mk "Ether" "ETH" 18
  /\ effect "0xAbC" 1 = TokenMetadata.mk "unknown" "TKN" 6
  /\ getRpcUrl [mainnet] ∅ 1 = Some "https://eth.example"
  /\ getRpcUrl [mainnet] (<["RPC_URL_1" := ""]> ∅) 1 = Some "https://eth.example"
  /\ getRpcUrl [mainnet] (<["RPC_URL_1" := "http://localhost:8545"]> ∅) 1
     = Some "http://localhost:8545"
  /\ getRpcUrl [mainnet] ∅ 10 = None.
Proof. vm_compute. repeat split. Qed.

(** ** Further properties of the Swap handler *)

(** The steps of the handler up to the scan of the crossed ticks, for a
    pool that is in the store with its two tokens. *)
Ltac swap_prefix Hpool Ht0 Ht1 :=
  cbv delta [swapHandler]; cbv beta;
  repeat wp_step; subst_lets; rewrite Hpool;
  repeat wp_step; rewrite Ht0, Ht1;
  repeat wp_step;
  apply wp_bind; (eapply wp_throws; [apply updateFeeGrowth_eq |]);
  repeat wp_step;
  apply wp_bind; (eapply wp_throws; [apply updateFeeGrowth_eq |]);
  repeat wp_step;
  apply wp_bind.

(** A record of the Tick table after the crossed ticks were flipped: a
    tick the move passes is flipped if it is initialized and aligned, any
    other is as it was. *)
Lemma tick_after_crossing
    (ctx ctx1 : Context.t) (poolId : string) (oldTick newTick s g0 g1 : Z)
    (crossed : list Z) (t : Z) (tick : Tick.t) :
  (forall t, In t crossed <->
     crossedBy oldTick newTick t = true /\ (s | t) /\ initialized ctx poolId t) ->
  (forall t tk, In t crossed -> Context.Tick ctx !! tickIdOf poolId t = Some tk ->
     exists tk',
       Context.Tick ctx1 !! tickIdOf poolId t = Some tk'
       /\ Tick.feeGrowthOutside0X128 tk' = g0 - Tick.feeGrowthOutside0X128 tk
       /\ Tick.feeGrowthOutside1X128 tk' = g1 - Tick.feeGrowthOutside1X128 tk) ->
  (forall k, (forall t, In t crossed -> k <> tickIdOf poolId t) ->
     Context.Tick ctx1 !! k = Context.Tick ctx !! k) ->
  Context.Tick ctx !! tickIdOf poolId t = Some tick ->
  (s | t) ->
  exists tick',
    Context.Tick ctx1 !! tickIdOf poolId t = Some tick'
    /\ Tick.feeGrowthOutside0X128 tick'
       = (if crossedBy oldTick newTick t
          then flipFeeGrowthOutside g0 (Tick.feeGrowthOutside0X128 tick)
          else Tick.feeGrowthOutside0X128 tick)
    /\ Tick.feeGrowthOutside1X128 tick'
       = (if crossedBy oldTick newTick t
          then flipFeeGrowthOutside g1 (Tick.feeGrowthOutside1X128 tick)
          else Tick.feeGrowthOutside1X128 tick).
Proof.
  intros Hmembers Hflip Hframe Htick Haligned.
  destruct (crossedBy oldTick newTick t) eqn:Hcrossed.
  - apply (Hflip t tick); [| assumption].
    apply Hmembers. split; [assumption |]. split; [assumption |]. eexists. exact Htick.
  - exists tick. split; [| split; reflexivity].
    rewrite Hframe; [assumption |].
    intros t' Ht' Heq. apply tickIdOf_inj in Heq. subst t'.
    apply Hmembers in Ht'. destruct Ht' as [Hc _]. congruence.
Qed.

Lemma feeGrowthInside_flip (g oL oU tL tU oldTick newTick : Z) :
  getFeeGrowthInside g
    (if crossedBy oldTick newTick tL then flipFeeGrowthOutside g oL else oL)
    (if crossedBy oldTick newTick tU then flipFeeGrowthOutside g oU else oU)
    tL tU newTick
  = getFeeGrowthInside g oL oU tL tU oldTick.
Proof.
  unfold getFeeGrowthInside, crossedBy, flipFeeGrowthOutside.
  destruct (Z.leb_spec tL newTick), (Z.leb_spec tL oldTick),
    (Z.ltb_spec newTick tU), (Z.ltb_spec oldTick tU),
    (Z.ltb_spec (Z.min oldTick newTick) tL), (Z.leb_spec tL (Z.max oldTick newTick)),
    (Z.ltb_spec (Z.min oldTick newTick) tU), (Z.leb_spec tU (Z.max oldTick newTick));
    simpl; lia.
Qed.

(** X12.  A processed swap whose scan starts on the grid or at a tick that
    is not negative (the first candidate, [oldTick + 1] on the way up and
    [oldTick] on the way down, is a multiple of the pool's spacing or is
    [>= 0]) does not disturb the fee growth inside a range whose two
    boundary ticks are initialized and aligned to the spacing: computed
    after the swap, from the pool's new tick and the boundary records as
    the swap left them, it is what the boundary records and the tick of
    before the swap give for the same (updated) global accumulator. The
    pool and its tokens are in the store, the Tick table is filed by id,
    the spacing is positive and the scan has enough fuel. *)
Theorem swap_preserves_fee_growth_inside
    (fuel : nat) (event : SwapEvent.t) (ctx : Context.t)
    (pool : Pool.t) (token0 token1 : Token.t)
    (tickLower tickUpper : Z) (lower upper : Tick.t) :
  let poolId := poolIdOf (EventMeta.chainId (SwapEvent.meta event)) (SwapEvent.id event) in
  let oldTick := tickOrZero (Pool.tick pool) in
  let newTick := SwapEvent.tick event in
  Context.Pool ctx !! poolId = Some pool ->
  Pool.id pool = poolId ->
  Context.Token ctx !! Pool.token0_id pool = Some token0 ->
  Context.Token ctx !! Pool.token1_id pool = Some token1 ->
  keyedById Tick.id (Context.Tick ctx) ->
  0 < Pool.tickSpacing pool ->
  (scanFuel oldTick newTick <= fuel)%nat ->
  scanStartsAligned oldTick newTick (Pool.tickSpacing pool) ->
  Context.Tick ctx !! tickIdOf poolId tickLower = Some lower ->
  Context.Tick ctx !! tickIdOf poolId tickUpper = Some upper ->
  (Pool.tickSpacing pool | tickLower) ->
  (Pool.tickSpacing pool | tickUpper) ->
  exists ctx' pool' lower' upper',
    exec (swapHandler fuel event) ctx = Some ctx'
    /\ Context.Pool ctx' !! poolId = Some pool'
    /\ Context.Tick ctx' !! tickIdOf poolId tickLower = Some lower'
    /\ Context.Tick ctx' !! tickIdOf poolId tickUpper = Some upper'
    /\ getFeeGrowthInside (Pool.feeGrowthGlobal0X128 pool')
         (Tick.feeGrowthOutside0X128 lower') (Tick.feeGrowthOutside0X128 upper')
         tickLower tickUpper (tickOrZero (Pool.tick pool'))
       = getFeeGrowthInside (Pool.feeGrowthGlobal0X128 pool')
           (Tick.feeGrowthOutside0X128 lower) (Tick.feeGrowthOutside0X128 upper)
           tickLower tickUpper (tickOrZero (Pool.tick pool))
    /\ getFeeGrowthInside (Pool.feeGrowthGlobal1X128 pool')
         (Tick.feeGrowthOutside1X128 lower') (Tick.feeGrowthOutside1X128 upper')
         tickLower tickUpper (tickOrZero (Pool.tick pool'))
       = getFeeGrowthInside (Pool.feeGrowthGlobal1X128 pool')
           (Tick.feeGrowthOutside1X128 lower) (Tick.feeGrowthOutside1X128 upper)
           tickLower tickUpper (tickOrZero (Pool.tick pool)).
Proof.
  intros poolId oldTick newTick Hpool Hid Ht0 Ht1 Hkeyed Hs Hfuel Hstart
    Hlower Hupper Hal_lower Hal_upper.
  destruct (getInitializedTicksCrossed_returns
              ctx poolId oldTick newTick (Pool.tickSpacing pool) fuel Hs Hfuel)
    as [crossed Hscan].
  destruct (getInitializedTicksCrossed_NoDup
              ctx poolId oldTick newTick (Pool.tickSpacing pool) fuel crossed Hs Hfuel Hscan)
    as [Hnodup _].
  destruct (getInitializedTicksCrossed_members
              ctx poolId oldTick newTick (Pool.tickSpacing pool) fuel crossed
              Hs Hfuel Hstart Hscan) as [Hmembers _].
  assert (exists ctx',
            exec (swapHandler fuel event) ctx = Some ctx'
            /\ exists pool' lower' upper',
              Context.Pool ctx' !! poolId = Some pool'
              /\ Context.Tick ctx' !! tickIdOf poolId tickLower = Some lower'
              /\ Context.Tick ctx' !! tickIdOf poolId tickUpper = Some upper'
              /\ Pool.tick pool' = Some newTick
              /\ Tick.feeGrowthOutside0X128 lower'
                 = (if crossedBy oldTick newTick tickLower
                    then flipFeeGrowthOutside (Pool.feeGrowthGlobal0X128 pool')
                           (Tick.feeGrowthOutside0X128 lower)
                    else Tick.feeGrowthOutside0X128 lower)
              /\ Tick.feeGrowthOutside1X128 lower'
                 = (if crossedBy oldTick newTick tickLower
                    then flipFeeGrowthOutside (Pool.feeGrowthGlobal1X128 pool')
                           (Tick.feeGrowthOutside1X128 lower)
                    else Tick.feeGrowthOutside1X128 lower)
              /\ Tick.feeGrowthOutside0X128 upper'
                 = (if crossedBy oldTick newTick tickUpper
                    then flipFeeGrowthOutside (Pool.feeGrowthGlobal0X128 pool')
                           (Tick.feeGrowthOutside0X128 upper)
                    else Tick.feeGrowthOutside0X128 upper)
              /\ Tick.feeGrowthOutside1X128 upper'
                 = (if crossedBy oldTick newTick tickUpper
                    then flipFeeGrowthOutside (Pool.feeGrowthGlobal1X128 pool')
                           (Tick.feeGrowthOutside1X128 upper)
                    else Tick.feeGrowthOutside1X128 upper)) as Hrun.
  { apply wp_exec. swap_prefix Hpool Ht0 Ht1.
    match goal with
    | |- context [decide (?a ≠ ?b)] => destruct (decide (a ≠ b)) as [Hne | Heq]
    end.
    - apply wp_bind. eapply wp_reads; [exact Hscan |].
      apply wp_forEach_updateTickCrossed; [assumption | assumption |].
      intros ctx1 Hkeyed1 Hflip Hframe.
      destruct (tick_after_crossing ctx ctx1 _ _ _ _ _ _ crossed
                  tickLower lower Hmembers Hflip Hframe Hlower Hal_lower)
        as (lower' & Hlower' & Hl0 & Hl1).
      destruct (tick_after_crossing ctx ctx1 _ _ _ _ _ _ crossed
                  tickUpper upper Hmembers Hflip Hframe Hupper Hal_upper)
        as (upper' & Hupper' & Hu0 & Hu1).
      repeat wp_step.
      wp_hooks; repeat wp_auto.
      all: simpl_tables; eexists; exists lower', upper';
        (split; [apply lookup_insert_key; exact Hid |]);
        (split; [exact Hlower' |]); (split; [exact Hupper' |]);
        (split; [reflexivity |]);
        (split; [exact Hl0 |]); (split; [exact Hl1 |]); (split; [exact Hu0 | exact Hu1]).
    - subst_lets.
      match type of Heq with
      | ¬ (?a ≠ ?b) =>
          assert (a = b) as Hsame
            by (destruct (Z.eq_dec a b); [assumption | contradiction])
      end.
      repeat wp_step.
      wp_hooks; repeat wp_auto.
      all: simpl_tables; eexists; exists lower, upper;
        (split; [apply lookup_insert_key; exact Hid |]);
        (split; [exact Hlower |]); (split; [exact Hupper |]);
        (split; [reflexivity |]);
        rewrite Hsame, !crossedBy_same; repeat split; reflexivity. }
  destruct Hrun as (ctx' & Hexec & pool' & lower' & upper' & Hpool' & Hlower' & Hupper'
                    & Htick' & Hl0 & Hl1 & Hu0 & Hu1).
  exists ctx', pool', lower', upper'.
  split; [assumption |]. split; [assumption |]. split; [assumption |].
  split; [assumption |].
  rewrite Htick', Hl0, Hl1, Hu0, Hu1. cbn [tickOrZero].
  split; apply feeGrowthInside_flip.
Qed.

Lemma swap_preserves_fee_growth_inside_witness :
  exists ctx' pool' lower' upper',
    exec (swapHandler (scanFuel 0 120) exampleSwap) swapStore = Some ctx'
    /\ Context.Pool ctx' !! "1_0xpool" = Some pool'
    /\ Context.Tick ctx' !! tickIdOf "1_0xpool" (-60) = Some lower'
    /\ Context.Tick ctx' !! tickIdOf "1_0xpool" 60 = Some upper'
    /\ getFeeGrowthInside (Pool.feeGrowthGlobal0X128 pool')
         (Tick.feeGrowthOutside0X128 lower') (Tick.feeGrowthOutside0X128 upper')
         (-60) 60 (tickOrZero (Pool.tick pool'))
       = getFeeGrowthInside (Pool.feeGrowthGlobal0X128 pool')
           (Tick.feeGrowthOutside0X128 (exampleTick (-60)))
           (Tick.feeGrowthOutside0X128 (exampleTick 60))
           (-60) 60 (tickOrZero (Pool.tick activePool))
    /\ getFeeGrowthInside (Pool.feeGrowthGlobal1X128 pool')
         (Tick.feeGrowthOutside1X128 lower') (Tick.feeGrowthOutside1X128 upper')
         (-60) 60 (tickOrZero (Pool.tick pool'))
       = getFeeGrowthInside (Pool.feeGrowthGlobal1X128 pool')
           (Tick.feeGrowthOutside1X128 (exampleTick (-60)))
           (Tick.feeGrowthOutside1X128 (exampleTick 60))
           (-60) 60 (tickOrZero (Pool.tick activePool)).
Proof.
  apply (swap_preserves_fee_growth_inside (scanFuel 0 120) exampleSwap swapStore activePool
           (exampleToken "1_0xaaa" "AAA") (exampleToken "1_0xbbb" "BBB")
           (-60) 60 (exampleTick (-60)) (exampleTick 60)).
  - vm_compute. reflexivity.
  - reflexivity.
  - vm_compute. reflexivity.
  - vm_compute. reflexivity.
  - unfold swapStore. simpl_tables. cbn [Context.empty Context.Tick].
    do 2 apply keyedById_insert. apply keyedById_empty.
  - vm_compute. reflexivity.
  - reflexivity.
  - left. vm_compute. discriminate.
  - vm_compute. reflexivity.
  - vm_compute. reflexivity.
  - exists (-1). reflexivity.
  - exists 1. reflexivity.
Defined.

(** In the scenario of the specification the position over [-60, 60] has
    earned, per unit of liquidity, the whole growth of the global
    accumulators: the swap started inside the range and the upper tick was
    flipped when the price left it. *)
Example fee_growth_inside_after_swap :
  (ctx' ← exec (swapHandler (scanFuel 0 120) exampleSwap) swapStore;
   pool' ← Context.Pool ctx' !! "1_0xpool";
   lower' ← Context.Tick ctx' !! tickIdOf "1_0xpool" (-60);
   upper' ← Context.Tick ctx' !! tickIdOf "1_0xpool" 60;
   Some (getFeeGrowthInside (Pool.feeGrowthGlobal0X128 pool')
           (Tick.feeGrowthOutside0X128 lower') (Tick.feeGrowthOutside0X128 upper')
           (-60) 60 (tickOrZero (Pool.tick pool'))
         - Pool.feeGrowthGlobal0X128 pool'))
  = Some 0.
Proof. vm_compute. reflexivity. Qed.

(** The condition on the first candidate of the scan is needed: the swap
    of [swapUpBelowZero] moves the price from tick -125 up to tick -10
    past the initialized tick -120, which the scan misses. The range
    [-120, 60] had earned nothing while the price was below it; after the
    swap it is credited with the whole growth of the global accumulator. *)
Example swap_disturbs_fee_growth_inside_below_zero :
  (pool ← Context.Pool storeBelowZero !! "1_0xpool";
   lower ← Context.Tick storeBelowZero !! tickIdOf "1_0xpool" (-120);
   upper ← Context.Tick storeBelowZero !! tickIdOf "1_0xpool" 60;
   ctx' ← exec (swapHandler 400 swapUpBelowZero) storeBelowZero;
   pool' ← Context.Pool ctx' !! "1_0xpool";
   lower' ← Context.Tick ctx' !! tickIdOf "1_0xpool" (-120);
   upper' ← Context.Tick ctx' !! tickIdOf "1_0xpool" 60;
   Some (getFeeGrowthInside (Pool.feeGrowthGlobal0X128 pool')
           (Tick.feeGrowthOutside0X128 lower) (Tick.feeGrowthOutside0X128 upper)
           (-120) 60 (tickOrZero (Pool.tick pool)),
         getFeeGrowthInside (Pool.feeGrowthGlobal0X128 pool')
           (Tick.feeGrowthOutside0X128 lower') (Tick.feeGrowthOutside0X128 upper')
           (-120) 60 (tickOrZero (Pool.tick pool'))
         - Pool.feeGrowthGlobal0X128 pool',
         Pool.feeGrowthGlobal0X128 pool'))
  = Some (0, 0, (12000 * 2 ^ 128) ÷ 1000).
Proof. vm_compute. reflexivity. Qed.

(** Which ticks a swap flips when the first candidate of its scan is not
    negative or is aligned: of the initialized ticks on the grid of the
    pool's spacing, those that the move of the price passes, each with the
    global fee growth as the swap has updated it; the others are as they
    were. *)
Lemma swapHandler_flips_crossed_ticks
    (fuel : nat) (event : SwapEvent.t) (ctx : Context.t)
    (pool : Pool.t) (token0 token1 : Token.t) :
  let poolId := poolIdOf (EventMeta.chainId (SwapEvent.meta event)) (SwapEvent.id event) in
  let oldTick := tickOrZero (Pool.tick pool) in
  let newTick := SwapEvent.tick event in
  Context.Pool ctx !! poolId = Some pool ->
  Pool.id pool = poolId ->
  Context.Token ctx !! Pool.token0_id pool = Some token0 ->
  Context.Token ctx !! Pool.token1_id pool = Some token1 ->
  keyedById Tick.id (Context.Tick ctx) ->
  0 < Pool.tickSpacing pool ->
  (scanFuel oldTick newTick <= fuel)%nat ->
  scanStartsAligned oldTick newTick (Pool.tickSpacing pool) ->
  exists ctx',
    exec (swapHandler fuel event) ctx = Some ctx'
    /\ exists pool',
      Context.Pool ctx' !! poolId = Some pool'
      /\ forall t tick,
          Context.Tick ctx !! tickIdOf poolId t = Some tick ->
          (Pool.tickSpacing pool | t) ->
          exists tick',
            Context.Tick ctx' !! tickIdOf poolId t = Some tick'
            /\ Tick.feeGrowthOutside0X128 tick'
               = (if crossedBy oldTick newTick t
                  then Pool.feeGrowthGlobal0X128 pool' - Tick.feeGrowthOutside0X128 tick
                  else Tick.feeGrowthOutside0X128 tick)
            /\ Tick.feeGrowthOutside1X128 tick'
               = (if crossedBy oldTick newTick t
                  then Pool.feeGrowthGlobal1X128 pool' - Tick.feeGrowthOutside1X128 tick
                  else Tick.feeGrowthOutside1X128 tick).
Proof.
  intros poolId oldTick newTick Hpool Hid Ht0 Ht1 Hkeyed Hs Hfuel Hstart.
  destruct (getInitializedTicksCrossed_returns
              ctx poolId oldTick newTick (Pool.tickSpacing pool) fuel Hs Hfuel)
    as [crossed Hscan].
  destruct (getInitializedTicksCrossed_NoDup
              ctx poolId oldTick newTick (Pool.tickSpacing pool) fuel crossed Hs Hfuel Hscan)
    as [Hnodup _].
  destruct (getInitializedTicksCrossed_members
              ctx poolId oldTick newTick (Pool.tickSpacing pool) fuel crossed
              Hs Hfuel Hstart Hscan) as [Hmembers _].
  apply wp_exec. swap_prefix Hpool Ht0 Ht1.
  match goal with
  | |- context [decide (?a ≠ ?b)] => destruct (decide (a ≠ b)) as [Hne | Heq]
  end.
  - apply wp_bind. eapply wp_reads; [exact Hscan |].
    apply wp_forEach_updateTickCrossed; [assumption | assumption |].
    intros ctx1 Hkeyed1 Hflip Hframe.
    pose proof (fun idx tk => tick_after_crossing ctx ctx1 _ _ _ _ _ _ crossed
                  idx tk Hmembers Hflip Hframe) as Hticks.
    repeat wp_step.
    wp_hooks; repeat wp_auto.
    all: simpl_tables; eexists;
      (split; [apply lookup_insert_key; exact Hid |]);
      exact Hticks.
  - subst_lets.
    match type of Heq with
    | ¬ (?a ≠ ?b) =>
        assert (a = b) as Hsame
          by (destruct (Z.eq_dec a b); [assumption | contradiction])
    end.
    repeat wp_step.
    wp_hooks; repeat wp_auto.
    all: simpl_tables; eexists;
      (split; [apply lookup_insert_key; exact Hid |]);
      intros idx tk Htk _; exists tk;
      rewrite Hsame, crossedBy_same; repeat split; try reflexivity; exact Htk.
Qed.

(** The Pool and Token tables after a swap that is processed. *)
Lemma swapHandler_pool_and_tokens
    (fuel : nat) (event : SwapEvent.t) (ctx : Context.t)
    (pool : Pool.t) (token0 token1 : Token.t) :
  let poolId := poolIdOf (EventMeta.chainId (SwapEvent.meta event)) (SwapEvent.id event) in
  let amount0Abs := Z.abs (SwapEvent.amount0 event) in
  let amount1Abs := Z.abs (SwapEvent.amount1 event) in
  let fees0 := calculateFees amount0Abs (Pool.feeTier pool) in
  let fees1 := calculateFees amount1Abs (Pool.feeTier pool) in
  Context.Pool ctx !! poolId = Some pool ->
  Context.Token ctx !! Pool.token0_id pool = Some token0 ->
  Context.Token ctx !! Pool.token1_id pool = Some token1 ->
  is_Some (getInitializedTicksCrossed fuel poolId (tickOrZero (Pool.tick pool))
             (SwapEvent.tick event) (Pool.tickSpacing pool) ctx) ->
  exists ctx',
    exec (swapHandler fuel event) ctx = Some ctx'
    /\ exists pool' token0' token1',
    Context.Pool ctx' = <[Pool.id pool := pool']> (Context.Pool ctx)
    /\ Context.Token ctx'
       = <[Token.id token1 := token1']> (<[Token.id token0 := token0']> (Context.Token ctx))
    /\ pool'
       = {| Pool.id := Pool.id pool; Pool.chainId := Pool.chainId pool;
            Pool.poolId := Pool.poolId pool; Pool.name := Pool.name pool;
            Pool.createdAtTimestamp := Pool.createdAtTimestamp pool;
            Pool.createdAtBlockNumber := Pool.createdAtBlockNumber pool;
            Pool.token0_id := Pool.token0_id pool; Pool.token1_id := Pool.token1_id pool;
            Pool.feeTier := Pool.feeTier pool; Pool.tickSpacing := Pool.tickSpacing pool;
            Pool.hooks := Pool.hooks pool;
            Pool.liquidity := SwapEvent.liquidity event;
            Pool.sqrtPrice := SwapEvent.sqrtPriceX96 event;
            Pool.sqrtPriceX96 := SwapEvent.sqrtPriceX96 event;
            Pool.tick := Some (SwapEvent.tick event);
            Pool.observationIndex := Pool.observationIndex pool;
            Pool.feeGrowthGlobal0X128 :=
              (if decide (Pool.liquidity pool = 0) then Pool.feeGrowthGlobal0X128 pool
               else Pool.feeGrowthGlobal0X128 pool + (fees0 * Q128) ÷ Pool.liquidity pool);
            Pool.feeGrowthGlobal1X128 :=
              (if decide (Pool.liquidity pool = 0) then Pool.feeGrowthGlobal1X128 pool
               else Pool.feeGrowthGlobal1X128 pool + (fees1 * Q128) ÷ Pool.liquidity pool);
            Pool.volume0 := Pool.volume0 pool + amount0Abs;
            Pool.volume1 := Pool.volume1 pool + amount1Abs;
            Pool.fees0 := Pool.fees0 pool + fees0;
            Pool.fees1 := Pool.fees1 pool + fees1;
            Pool.tvl0 := Pool.tvl0 pool + - SwapEvent.amount0 event;
            Pool.tvl1 := Pool.tvl1 pool + - SwapEvent.amount1 event;
            Pool.txCount := Pool.txCount pool + 1;
            Pool.swapCount := Pool.swapCount pool + 1;
            Pool.modifyLiquidityCount := Pool.modifyLiquidityCount pool;
            Pool.positionCount := Pool.positionCount pool;
            Pool.activePositionCount := Pool.activePositionCount pool;
            Pool.lpCount := Pool.lpCount pool |}
    /\ token0'
       = {| Token.id := Token.id token0; Token.chainId := Token.chainId token0;
            Token.symbol := Token.symbol token0; Token.name := Token.name token0;
            Token.decimals := Token.decimals token0;
            Token.totalSupply := Token.totalSupply token0;
            Token.volume := Token.volume token0 + amount0Abs;
            Token.txCount := Token.txCount token0 + 1;
            Token.poolCount := Token.poolCount token0;
            Token.swapCount := Token.swapCount token0 + 1;
            Token.modifyLiquidityCount := Token.modifyLiquidityCount token0;
            Token.positionCount := Token.positionCount token0;
            Token.lpCount := Token.lpCount token0;
            Token.tvl := Token.tvl token0 + - SwapEvent.amount0 event;
            Token.whitelistPools := Token.whitelistPools token0 |}
    /\ token1'
       = {| Token.id := Token.id token1; Token.chainId := Token.chainId token1;
            Token.symbol := Token.symbol token1; Token.name := Token.name token1;
            Token.decimals := Token.decimals token1;
            Token.totalSupply := Token.totalSupply token1;
            Token.volume := Token.volume token1 + amount1Abs;
            Token.txCount := Token.txCount token1 + 1;
            Token.poolCount := Token.poolCount token1;
            Token.swapCount := Token.swapCount token1 + 1;
            Token.modifyLiquidityCount := Token.modifyLiquidityCount token1;
            Token.positionCount := Token.positionCount token1;
            Token.lpCount := Token.lpCount token1;
            Token.tvl := Token.tvl token1 + - SwapEvent.amount1 event;
            Token.whitelistPools := Token.whitelistPools token1 |}.
Proof.
  intros poolId amount0Abs amount1Abs fees0 fees1 Hpool Ht0 Ht1 [crossed Hscan].
  subst amount0Abs amount1Abs fees0 fees1. rewrite <- !abs_opp.
  apply wp_exec. swap_prefix Hpool Ht0 Ht1.
  match goal with
  | |- context [decide (?a ≠ ?b)] => destruct (decide (a ≠ b)) as [Hne | Heq]
  end.
  - apply wp_bind. eapply wp_reads; [exact Hscan |].
    apply wp_forEach_updateTickCrossed_frame. intros ticks.
    repeat wp_step.
    wp_hooks; repeat wp_auto.
    all: simpl_store; eexists _, _, _; repeat split; reflexivity.
  - repeat wp_step.
    wp_hooks; repeat wp_auto.
    all: simpl_store; eexists _, _, _; repeat split; reflexivity.
Qed.

(** X13.  A swap that is processed moves the pool and its two tokens
    together: the TVL of the pool and of the token on each side change by
    the negated event amount, their volumes grow by its absolute value, the
    transaction and swap counts of all three grow by one, and the pool takes
    its liquidity, tick and price from the event. (The two tokens of the
    pool are different records filed under their ids.) *)
Theorem swap_moves_pool_and_tokens_together
    (fuel : nat) (event : SwapEvent.t) (ctx : Context.t)
    (pool : Pool.t) (token0 token1 : Token.t) :
  let poolId := poolIdOf (EventMeta.chainId (SwapEvent.meta event)) (SwapEvent.id event) in
  let amount0 := SwapEvent.amount0 event in
  let amount1 := SwapEvent.amount1 event in
  Context.Pool ctx !! poolId = Some pool ->
  Pool.id pool = poolId ->
  Context.Token ctx !! Pool.token0_id pool = Some token0 ->
  Context.Token ctx !! Pool.token1_id pool = Some token1 ->
  Token.id token0 = Pool.token0_id pool ->
  Token.id token1 = Pool.token1_id pool ->
  Pool.token0_id pool <> Pool.token1_id pool ->
  0 < Pool.tickSpacing pool ->
  (scanFuel (tickOrZero (Pool.tick pool)) (SwapEvent.tick event) <= fuel)%nat ->
  exists ctx' pool' token0' token1',
    exec (swapHandler fuel event) ctx = Some ctx'
    /\ Context.Pool ctx' !! poolId = Some pool'
    /\ Context.Token ctx' !! Pool.token0_id pool = Some token0'
    /\ Context.Token ctx' !! Pool.token1_id pool = Some token1'
    /\ Pool.tvl0 pool' - Pool.tvl0 pool = - amount0
    /\ Token.tvl token0' - Token.tvl token0 = - amount0
    /\ Pool.tvl1 pool' - Pool.tvl1 pool = - amount1
    /\ Token.tvl token1' - Token.tvl token1 = - amount1
    /\ Pool.volume0 pool' - Pool.volume0 pool = Z.abs amount0
    /\ Token.volume token0' - Token.volume token0 = Z.abs amount0
    /\ Pool.volume1 pool' - Pool.volume1 pool = Z.abs amount1
    /\ Token.volume token1' - Token.volume token1 = Z.abs amount1
    /\ Pool.txCount pool' = Pool.txCount pool + 1
    /\ Token.txCount token0' = Token.txCount token0 + 1
    /\ Token.txCount token1' = Token.txCount token1 + 1
    /\ Pool.swapCount pool' = Pool.swapCount pool + 1
    /\ Token.swapCount token0' = Token.swapCount token0 + 1
    /\ Token.swapCount token1' = Token.swapCount token1 + 1
    /\ Pool.liquidity pool' = SwapEvent.liquidity event
    /\ Pool.tick pool' = Some (SwapEvent.tick event)
    /\ Pool.sqrtPriceX96 pool' = SwapEvent.sqrtPriceX96 event
    /\ Pool.sqrtPrice pool' = SwapEvent.sqrtPriceX96 event.
Proof.
  intros poolId amount0 amount1 Hpool Hid Ht0 Ht1 Hid0 Hid1 Hdistinct Hs Hfuel.
  destruct (swapHandler_pool_and_tokens fuel event ctx pool token0 token1 Hpool Ht0 Ht1)
    as (ctx' & Hexec & pool' & token0' & token1' & Hpools & Htokens & -> & -> & ->).
  { apply getInitializedTicksCrossed_returns; assumption. }
  exists ctx'. eexists _, _, _.
  split; [exact Hexec |].
  split; [rewrite Hpools; apply lookup_insert_key; exact Hid |].
  split.
  { rewrite Htokens, lookup_insert_ne by congruence. apply lookup_insert_key. exact Hid0. }
  split; [rewrite Htokens; apply lookup_insert_key; exact Hid1 |].
  cbn [Pool.tvl0 Pool.tvl1 Pool.volume0 Pool.volume1 Pool.txCount Pool.swapCount
       Pool.liquidity Pool.tick Pool.sqrtPriceX96 Pool.sqrtPrice
       Token.tvl Token.volume Token.txCount Token.swapCount].
  subst amount0 amount1. repeat split; lia.
Qed.

Lemma swap_moves_pool_and_tokens_together_witness :
  exists ctx' pool' token0' token1',
    exec (swapHandler (scanFuel 0 120) exampleSwap) swapStore = Some ctx'
    /\ Context.Pool ctx' !! "1_0xpool" = Some pool'
    /\ Context.Token ctx' !! "1_0xaaa" = Some token0'
    /\ Context.Token ctx' !! "1_0xbbb" = Some token1'
    /\ Pool.tvl0 pool' - 0 = - 5000000
    /\ Token.tvl token0' - 0 = - 5000000
    /\ Pool.tvl1 pool' - 0 = - - 4000000
    /\ Token.tvl token1' - 0 = - - 4000000
    /\ Pool.volume0 pool' - 0 = Z.abs 5000000
    /\ Token.volume token0' - 0 = Z.abs 5000000
    /\ Pool.volume1 pool' - 0 = Z.abs (- 4000000)
    /\ Token.volume token1' - 0 = Z.abs (- 4000000)
    /\ Pool.txCount pool' = 0 + 1
    /\ Token.txCount token0' = 0 + 1
    /\ Token.txCount token1' = 0 + 1
    /\ Pool.swapCount pool' = 0 + 1
    /\ Token.swapCount token0' = 0 + 1
    /\ Token.swapCount token1' = 0 + 1
    /\ Pool.liquidity pool' = 0
    /\ Pool.tick pool' = Some 120
    /\ Pool.sqrtPriceX96 pool' = 79704936542881920863903188246
    /\ Pool.sqrtPrice pool' = 79704936542881920863903188246.
Proof.
  apply (swap_moves_pool_and_tokens_together (scanFuel 0 120) exampleSwap swapStore activePool
           (exampleToken "1_0xaaa" "AAA") (exampleToken "1_0xbbb" "BBB")).
  - vm_compute. reflexivity.
  - reflexivity.
  - vm_compute. reflexivity.
  - vm_compute. reflexivity.
  - reflexivity.
  - reflexivity.
  - vm_compute. discriminate.
  - vm_compute. reflexivity.
  - reflexivity.
Defined.

(** X14.  A swap never lowers what the pool accumulates, when the fee tier
    and the liquidity the pool had before the swap are not negative: the two
    global fee-growth accumulators, the fee totals and the volumes of the
    pool after the swap are at least what they were. *)
Theorem swap_accumulators_never_decrease
    (fuel : nat) (event : SwapEvent.t) (ctx : Context.t)
    (pool : Pool.t) (token0 token1 : Token.t) :
  let poolId := poolIdOf (EventMeta.chainId (SwapEvent.meta event)) (SwapEvent.id event) in
  Context.Pool ctx !! poolId = Some pool ->
  Pool.id pool = poolId ->
  Context.Token ctx !! Pool.token0_id pool = Some token0 ->
  Context.Token ctx !! Pool.token1_id pool = Some token1 ->
  0 < Pool.tickSpacing pool ->
  (scanFuel (tickOrZero (Pool.tick pool)) (SwapEvent.tick event) <= fuel)%nat ->
  0 <= Pool.feeTier pool ->
  0 <= Pool.liquidity pool ->
  exists ctx' pool',
    exec (swapHandler fuel event) ctx = Some ctx'
    /\ Context.Pool ctx' !! poolId = Some pool'
    /\ Pool.feeGrowthGlobal0X128 pool <= Pool.feeGrowthGlobal0X128 pool'
    /\ Pool.feeGrowthGlobal1X128 pool <= Pool.feeGrowthGlobal1X128 pool'
    /\ Pool.fees0 pool <= Pool.fees0 pool'
    /\ Pool.fees1 pool <= Pool.fees1 pool'
    /\ Pool.volume0 pool <= Pool.volume0 pool'
    /\ Pool.volume1 pool <= Pool.volume1 pool'.
Proof.
  intros poolId Hpool Hid Ht0 Ht1 Hs Hfuel Htier Hliquidity.
  destruct (swapHandler_pool_and_tokens fuel event ctx pool token0 token1 Hpool Ht0 Ht1)
    as (ctx' & Hexec & pool' & token0' & token1' & Hpools & _ & -> & _).
  { apply getInitializedTicksCrossed_returns; assumption. }
  exists ctx'. eexists.
  split; [exact Hexec |].
  split; [rewrite Hpools; apply lookup_insert_key; exact Hid |].
  cbn [Pool.feeGrowthGlobal0X128 Pool.feeGrowthGlobal1X128 Pool.fees0 Pool.fees1
       Pool.volume0 Pool.volume1].
  assert (forall amount, 0 <= calculateFees (Z.abs amount) (Pool.feeTier pool)) as Hfees.
  { intros amount. unfold calculateFees. apply Z.quot_pos; [| lia].
    pose proof (Z.abs_nonneg amount). nia. }
  assert (forall amount,
            Pool.liquidity pool <> 0 ->
            0 <= (calculateFees (Z.abs amount) (Pool.feeTier pool) * Q128) ÷ Pool.liquidity pool)
    as Hgrowth.
  { intros amount Hnz. apply Z.quot_pos; [| lia].
    specialize (Hfees amount). unfold Q128. nia. }
  pose proof (Hfees (SwapEvent.amount0 event)). pose proof (Hfees (SwapEvent.amount1 event)).
  pose proof (Z.abs_nonneg (SwapEvent.amount0 event)).
  pose proof (Z.abs_nonneg (SwapEvent.amount1 event)).
  destruct (decide (Pool.liquidity pool = 0)) as [Hz | Hnz].
  - repeat split; lia.
  - pose proof (Hgrowth (SwapEvent.amount0 event) Hnz).
    pose proof (Hgrowth (SwapEvent.amount1 event) Hnz).
    repeat split; lia.
Qed.

Lemma swap_accumulators_never_decrease_witness :
  exists ctx' pool',
    exec (swapHandler (scanFuel 0 120) exampleSwap) swapStore = Some ctx'
    /\ Context.Pool ctx' !! "1_0xpool" = Some pool'
    /\ 0 <= Pool.feeGrowthGlobal0X128 pool'
    /\ 0 <= Pool.feeGrowthGlobal1X128 pool'
    /\ 0 <= Pool.fees0 pool'
    /\ 0 <= Pool.fees1 pool'
    /\ 0 <= Pool.volume0 pool'
    /\ 0 <= Pool.volume1 pool'.
Proof.
  apply (swap_accumulators_never_decrease (scanFuel 0 120) exampleSwap swapStore activePool
           (exampleToken "1_0xaaa" "AAA") (exampleToken "1_0xbbb" "BBB")).
  - vm_compute. reflexivity.
  - reflexivity.
  - vm_compute. reflexivity.
  - vm_compute. reflexivity.
  - vm_compute. reflexivity.
  - reflexivity.
  - vm_compute. discriminate.
  - vm_compute. discriminate.
Defined.

(** With a negative liquidity in the pool record a swap lowers the
    fee-growth accumulator. *)
Example swap_with_negative_liquidity :
  (ctx' ← exec (swapHandler (scanFuel 0 120) exampleSwap)
            (Context.set_Pool (Pool.set_liquidity (-1000) examplePool) exampleStore);
   pool' ← Context.Pool ctx' !! "1_0xpool";
   Some (bool_decide (Pool.feeGrowthGlobal0X128 pool' < 0)))
  = Some true.
Proof. vm_compute. reflexivity. Qed.

(** X15.  A pool record with tick spacing 0 stops the indexer at the first
    swap that moves its tick: the scan of the crossed ticks takes a
    remainder by the spacing, which throws, and the handler does not catch
    it. *)
Theorem swap_throws_on_zero_spacing
    (fuel : nat) (event : SwapEvent.t) (ctx : Context.t)
    (pool : Pool.t) (token0 token1 : Token.t) :
  let poolId := poolIdOf (EventMeta.chainId (SwapEvent.meta event)) (SwapEvent.id event) in
  Context.Pool ctx !! poolId = Some pool ->
  Context.Token ctx !! Pool.token0_id pool = Some token0 ->
  Context.Token ctx !! Pool.token1_id pool = Some token1 ->
  Pool.tickSpacing pool = 0 ->
  tickOrZero (Pool.tick pool) <> SwapEvent.tick event ->
  exec (swapHandler fuel event) ctx = None.
Proof.
  intros poolId Hpool Ht0 Ht1 Hspacing Hmoved.
  apply fails_exec. cbv delta [swapHandler]; cbv beta.
  repeat fails_step. subst_lets. rewrite Hpool.
  repeat fails_step. rewrite Ht0, Ht1.
  repeat fails_step.
  apply fails_bind. eapply wp_throws; [apply updateFeeGrowth_eq |].
  repeat fails_step.
  apply fails_bind. eapply wp_throws; [apply updateFeeGrowth_eq |].
  repeat fails_step. subst_lets.
  apply fails_now.
  match goal with
  | |- context [decide (?a ≠ ?b)] => destruct (decide (a ≠ b)) as [_ | Heq]
  end; [| contradiction].
  apply fails_now, fails_reads.
  cbn [Pool.tickSpacing Pool.set_feeGrowthGlobal1X128 Pool.set_feeGrowthGlobal0X128].
  rewrite Hspacing, getInitializedTicksCrossed_zero_spacing.
  destruct (decide (SwapEvent.tick event = tickOrZero (Pool.tick pool))); congruence.
Qed.

Lemma swap_throws_on_zero_spacing_witness :
  exec (swapHandler (scanFuel 0 120) exampleSwap) zeroSpacingStore = None.
Proof.
  apply (swap_throws_on_zero_spacing (scanFuel 0 120) exampleSwap zeroSpacingStore
           zeroSpacingPool (exampleToken "1_0xaaa" "AAA") (exampleToken "1_0xbbb" "BBB")).
  - vm_compute. reflexivity.
  - vm_compute. reflexivity.
  - vm_compute. reflexivity.
  - reflexivity.
  - vm_compute. discriminate.
Defined.

(** ** Further properties of the Donate handler *)

(** The Pool and Token tables after a donation that is processed. *)
Lemma donateHandler_pool_and_tokens
    (event : DonateEvent.t) (ctx : Context.t) (pool : Pool.t) (token0 token1 : Token.t) :
  let poolId := poolIdOf (EventMeta.chainId (DonateEvent.meta event)) (DonateEvent.id event) in
  let amount0 := DonateEvent.amount0 event in
  let amount1 := DonateEvent.amount1 event in
  let active := 0 <? Pool.liquidity pool in
  Context.Pool ctx !! poolId = Some pool ->
  Context.Token ctx !! Pool.token0_id pool = Some token0 ->
  Context.Token ctx !! Pool.token1_id pool = Some token1 ->
  exists ctx',
    exec (donateHandler event) ctx = Some ctx'
    /\ exists pool' token0' token1',
    Context.Pool ctx' = <[Pool.id pool := pool']> (Context.Pool ctx)
    /\ Context.Token ctx'
       = <[Token.id token1 := token1']> (<[Token.id token0 := token0']> (Context.Token ctx))
    /\ pool'
       = {| Pool.id := Pool.id pool; Pool.chainId := Pool.chainId pool;
            Pool.poolId := Pool.poolId pool; Pool.name := Pool.name pool;
            Pool.createdAtTimestamp := Pool.createdAtTimestamp pool;
            Pool.createdAtBlockNumber := Pool.createdAtBlockNumber pool;
            Pool.token0_id := Pool.token0_id pool; Pool.token1_id := Pool.token1_id pool;
            Pool.feeTier := Pool.feeTier pool; Pool.tickSpacing := Pool.tickSpacing pool;
            Pool.hooks := Pool.hooks pool;
            Pool.liquidity := Pool.liquidity pool;
            Pool.sqrtPrice := Pool.sqrtPrice pool;
            Pool.sqrtPriceX96 := Pool.sqrtPriceX96 pool;
            Pool.tick := Pool.tick pool;
            Pool.observationIndex := Pool.observationIndex pool;
            Pool.feeGrowthGlobal0X128 :=
              (if active
               then Pool.feeGrowthGlobal0X128 pool + (amount0 * 2 ^ 128) ÷ Pool.liquidity pool
               else Pool.feeGrowthGlobal0X128 pool);
            Pool.feeGrowthGlobal1X128 :=
              (if active
               then Pool.feeGrowthGlobal1X128 pool + (amount1 * 2 ^ 128) ÷ Pool.liquidity pool
               else Pool.feeGrowthGlobal1X128 pool);
            Pool.volume0 := Pool.volume0 pool;
            Pool.volume1 := Pool.volume1 pool;
            Pool.fees0 := (if active then Pool.fees0 pool + amount0 else Pool.fees0 pool);
            Pool.fees1 := (if active then Pool.fees1 pool + amount1 else Pool.fees1 pool);
            Pool.tvl0 := Pool.tvl0 pool + amount0;
            Pool.tvl1 := Pool.tvl1 pool + amount1;
            Pool.txCount := Pool.txCount pool + 1;
            Pool.swapCount := Pool.swapCount pool;
            Pool.modifyLiquidityCount := Pool.modifyLiquidityCount pool;
            Pool.positionCount := Pool.positionCount pool;
            Pool.activePositionCount := Pool.activePositionCount pool;
            Pool.lpCount := Pool.lpCount pool |}
    /\ token0' = Token.set_txCount (Token.txCount token0 + 1)
                   (Token.set_tvl (Token.tvl token0 + amount0) token0)
    /\ token1' = Token.set_txCount (Token.txCount token1 + 1)
                   (Token.set_tvl (Token.tvl token1 + amount1) token1).
Proof.
  intros poolId amount0 amount1 active Hpool Ht0 Ht1. subst amount0 amount1 active.
  apply wp_exec. cbv delta [donateHandler]; cbv beta.
  repeat wp_step. subst_lets. rewrite Hpool.
  repeat wp_step. rewrite Ht0, Ht1.
  repeat wp_step.
  apply wp_bind. subst_lets.
  cbn [Pool.liquidity Pool.set_txCount Pool.set_tvl1 Pool.set_tvl0].
  destruct (Z.ltb_spec 0 (Pool.liquidity pool)) as [Hpos | Hnonpos].
  - apply wp_bind. eapply wp_throws; [apply BigInt_div_nonzero; lia |].
    repeat wp_step.
    apply wp_bind.
    eapply wp_throws;
      [apply BigInt_div_nonzero; subst_lets;
       cbn [Pool.liquidity Pool.set_feeGrowthGlobal0X128 Pool.set_txCount Pool.set_tvl1
            Pool.set_tvl0]; lia |].
    repeat wp_step.
    wp_hooks; repeat wp_auto.
    all: simpl_store; eexists _, _, _; repeat split; reflexivity.
  - repeat wp_step.
    wp_hooks; repeat wp_auto.
    all: simpl_store; eexists _, _, _; repeat split; reflexivity.
Qed.

(** X16.  A donation to a pool with active liquidity is booked like a fee of
    the donated amounts: the two global fee-growth accumulators advance as
    [updateFeeGrowth] advances them for fees [amount0] and [amount1], and
    the fee totals and the TVL of the pool grow by the amounts. The price,
    tick, liquidity, volumes and swap count of the pool stay as they were. *)
Theorem donate_with_liquidity_is_a_fee
    (event : DonateEvent.t) (ctx : Context.t) (pool : Pool.t) (token0 token1 : Token.t) :
  let poolId := poolIdOf (EventMeta.chainId (DonateEvent.meta event)) (DonateEvent.id event) in
  let amount0 := DonateEvent.amount0 event in
  let amount1 := DonateEvent.amount1 event in
  Context.Pool ctx !! poolId = Some pool ->
  Pool.id pool = poolId ->
  Context.Token ctx !! Pool.token0_id pool = Some token0 ->
  Context.Token ctx !! Pool.token1_id pool = Some token1 ->
  0 < Pool.liquidity pool ->
  exists ctx' pool',
    exec (donateHandler event) ctx = Some ctx'
    /\ Context.Pool ctx' !! poolId = Some pool'
    /\ updateFeeGrowth (Pool.feeGrowthGlobal0X128 pool) amount0 (Pool.liquidity pool)
       = Some (Pool.feeGrowthGlobal0X128 pool')
    /\ updateFeeGrowth (Pool.feeGrowthGlobal1X128 pool) amount1 (Pool.liquidity pool)
       = Some (Pool.feeGrowthGlobal1X128 pool')
    /\ Pool.fees0 pool' = Pool.fees0 pool + amount0
    /\ Pool.fees1 pool' = Pool.fees1 pool + amount1
    /\ Pool.tvl0 pool' = Pool.tvl0 pool + amount0
    /\ Pool.tvl1 pool' = Pool.tvl1 pool + amount1
    /\ Pool.txCount pool' = Pool.txCount pool + 1
    /\ Pool.liquidity pool' = Pool.liquidity pool
    /\ Pool.tick pool' = Pool.tick pool
    /\ Pool.sqrtPriceX96 pool' = Pool.sqrtPriceX96 pool
    /\ Pool.volume0 pool' = Pool.volume0 pool
    /\ Pool.volume1 pool' = Pool.volume1 pool
    /\ Pool.swapCount pool' = Pool.swapCount pool.
Proof.
  intros poolId amount0 amount1 Hpool Hid Ht0 Ht1 Hpos.
  destruct (donateHandler_pool_and_tokens event ctx pool token0 token1 Hpool Ht0 Ht1)
    as (ctx' & Hexec & pool' & token0' & token1' & Hpools & _ & -> & _).
  exists ctx'. eexists.
  split; [exact Hexec |].
  split; [rewrite Hpools; apply lookup_insert_key; exact Hid |].
  cbn [Pool.feeGrowthGlobal0X128 Pool.feeGrowthGlobal1X128 Pool.fees0 Pool.fees1
       Pool.tvl0 Pool.tvl1 Pool.txCount Pool.liquidity Pool.tick Pool.sqrtPriceX96
       Pool.volume0 Pool.volume1 Pool.swapCount].
  rewrite (proj2 (Z.ltb_lt 0 (Pool.liquidity pool)) Hpos).
  rewrite !updateFeeGrowth_nonzero by lia.
  repeat split; reflexivity.
Qed.

Lemma donate_with_liquidity_is_a_fee_witness :
  exists ctx' pool',
    exec (donateHandler exampleDonate) swapStore = Some ctx'
    /\ Context.Pool ctx' !! "1_0xpool" = Some pool'
    /\ updateFeeGrowth 0 100 1000 = Some (Pool.feeGrowthGlobal0X128 pool')
    /\ updateFeeGrowth 0 0 1000 = Some (Pool.feeGrowthGlobal1X128 pool')
    /\ Pool.fees0 pool' = 0 + 100
    /\ Pool.fees1 pool' = 0 + 0
    /\ Pool.tvl0 pool' = 0 + 100
    /\ Pool.tvl1 pool' = 0 + 0
    /\ Pool.txCount pool' = 0 + 1
    /\ Pool.liquidity pool' = 1000
    /\ Pool.tick pool' = Some 0
    /\ Pool.sqrtPriceX96 pool' = 2 ^ 96
    /\ Pool.volume0 pool' = 0
    /\ Pool.volume1 pool' = 0
    /\ Pool.swapCount pool' = 0.
Proof.
  apply (donate_with_liquidity_is_a_fee exampleDonate swapStore activePool
           (exampleToken "1_0xaaa" "AAA") (exampleToken "1_0xbbb" "BBB")).
  - vm_compute. reflexivity.
  - reflexivity.
  - vm_compute. reflexivity.
  - vm_compute. reflexivity.
  - vm_compute. reflexivity.
Defined.

(** On a pool record with negative liquidity a donation leaves the
    accumulator alone where [updateFeeGrowth] would move it. *)
Example donate_with_negative_liquidity :
  (ctx' ← exec (donateHandler exampleDonate)
            (Context.set_Pool (Pool.set_liquidity (-1000) examplePool) exampleStore);
   pool' ← Context.Pool ctx' !! "1_0xpool";
   g ← updateFeeGrowth 0 100 (-1000);
   Some (Pool.feeGrowthGlobal0X128 pool', bool_decide (g < 0)))
  = Some (0, true).
Proof. vm_compute. reflexivity. Qed.

(** X17.  A processed donation moves the pool and its two tokens together:
    the TVL of the pool and of the token on each side grow by the donated
    amount and the transaction counts of all three by one, with or without
    liquidity in the pool; the volumes and swap counts of the tokens stay as
    they were. (The two tokens of the pool are different records filed under
    their ids.) *)
Theorem donate_moves_pool_and_tokens_together
    (event : DonateEvent.t) (ctx : Context.t) (pool : Pool.t) (token0 token1 : Token.t) :
  let poolId := poolIdOf (EventMeta.chainId (DonateEvent.meta event)) (DonateEvent.id event) in
  let amount0 := DonateEvent.amount0 event in
  let amount1 := DonateEvent.amount1 event in
  Context.Pool ctx !! poolId = Some pool ->
  Pool.id pool = poolId ->
  Context.Token ctx !! Pool.token0_id pool = Some token0 ->
  Context.Token ctx !! Pool.token1_id pool = Some token1 ->
  Token.id token0 = Pool.token0_id pool ->
  Token.id token1 = Pool.token1_id pool ->
  Pool.token0_id pool <> Pool.token1_id pool ->
  exists ctx' pool' token0' token1',
    exec (donateHandler event) ctx = Some ctx'
    /\ Context.Pool ctx' !! poolId = Some pool'
    /\ Context.Token ctx' !! Pool.token0_id pool = Some token0'
    /\ Context.Token ctx' !! Pool.token1_id pool = Some token1'
    /\ Pool.tvl0 pool' - Pool.tvl0 pool = amount0
    /\ Token.tvl token0' - Token.tvl token0 = amount0
    /\ Pool.tvl1 pool' - Pool.tvl1 pool = amount1
    /\ Token.tvl token1' - Token.tvl token1 = amount1
    /\ Pool.txCount pool' = Pool.txCount pool + 1
    /\ Token.txCount token0' = Token.txCount token0 + 1
    /\ Token.txCount token1' = Token.txCount token1 + 1
    /\ Token.volume token0' = Token.volume token0
    /\ Token.volume token1' = Token.volume token1
    /\ Token.swapCount token0' = Token.swapCount token0
    /\ Token.swapCount token1' = Token.swapCount token1.
Proof.
  intros poolId amount0 amount1 Hpool Hid Ht0 Ht1 Hid0 Hid1 Hdistinct.
  destruct (donateHandler_pool_and_tokens event ctx pool token0 token1 Hpool Ht0 Ht1)
    as (ctx' & Hexec & pool' & token0' & token1' & Hpools & Htokens & -> & -> & ->).
  exists ctx'. eexists _, _, _.
  split; [exact Hexec |].
  split; [rewrite Hpools; apply lookup_insert_key; exact Hid |].
  split.
  { rewrite Htokens, lookup_insert_ne by congruence. apply lookup_insert_key. exact Hid0. }
  split; [rewrite Htokens; apply lookup_insert_key; exact Hid1 |].
  cbn [Pool.tvl0 Pool.tvl1 Pool.txCount
       Token.tvl Token.volume Token.txCount Token.swapCount
       Token.set_txCount Token.set_tvl].
  subst amount0 amount1. repeat split; lia.
Qed.

Lemma donate_moves_pool_and_tokens_together_witness :
  exists ctx' pool' token0' token1',
    exec (donateHandler exampleDonate) exampleStore = Some ctx'
    /\ Context.Pool ctx' !! "1_0xpool" = Some pool'
    /\ Context.Token ctx' !! "1_0xaaa" = Some token0'
    /\ Context.Token ctx' !! "1_0xbbb" = Some token1'
    /\ Pool.tvl0 pool' - 0 = 100
    /\ Token.tvl token0' - 0 = 100
    /\ Pool.tvl1 pool' - 0 = 0
    /\ Token.tvl token1' - 0 = 0
    /\ Pool.txCount pool' = 0 + 1
    /\ Token.txCount token0' = 0 + 1
    /\ Token.txCount token1' = 0 + 1
    /\ Token.volume token0' = 0
    /\ Token.volume token1' = 0
    /\ Token.swapCount token0' = 0
    /\ Token.swapCount token1' = 0.
Proof.
  apply (donate_moves_pool_and_tokens_together exampleDonate exampleStore examplePool
           (exampleToken "1_0xaaa" "AAA") (exampleToken "1_0xbbb" "BBB")).
  - vm_compute. reflexivity.
  - reflexivity.
  - vm_compute. reflexivity.
  - vm_compute. reflexivity.
  - reflexivity.
  - reflexivity.
  - vm_compute. discriminate.
Defined.

(** Case analysis on the hook of the pool and on its statistics record,
    remembering what was found. *)
Ltac wp_hooks_cases stats Hhook Hstats :=
  apply wp_bind;
  match goal with
  | |- context [decide (?h ≠ ?z)] => destruct (decide (h ≠ z)) as [Hhook | Hhook]
  end;
  [ apply wp_bind, wp_get; cbv beta; simpl_store;
    match goal with
    | |- context [Context.HookStats ?c !! ?k] =>
        destruct (Context.HookStats c !! k) as [stats |] eqn:Hstats
    end;
    repeat wp_step
  | wp_step ].

Lemma hookStatsOf_Some (ctx : Context.t) (chainId : Z) (pool : Pool.t) (stats : HookStats.t) :
  Pool.hooks pool <> ADDRESS_ZERO ->
  Context.HookStats ctx !! (pretty chainId +:+ "_" +:+ Pool.hooks pool) = Some stats ->
  hookStatsOf ctx chainId pool = Some stats.
Proof.
  intros Hhook Hstats. unfold hookStatsOf.
  destruct (decide (Pool.hooks pool = ADDRESS_ZERO)); [contradiction | assumption].
Qed.

Lemma hookStatsOf_None (ctx : Context.t) (chainId : Z) (pool : Pool.t) :
  Pool.hooks pool = ADDRESS_ZERO
  \/ Context.HookStats ctx !! (pretty chainId +:+ "_" +:+ Pool.hooks pool) = None ->
  hookStatsOf ctx chainId pool = None.
Proof.
  intros H. unfold hookStatsOf.
  destruct (decide (Pool.hooks pool = ADDRESS_ZERO)); [reflexivity |].
  destruct H; [contradiction | assumption].
Qed.

(** X18.  The Donate handler keeps the statistics of the pool's hook but
    never creates them. For a pool without hook, or with a hook that has no
    HookStats record on the event's chain, a processed donation leaves the
    HookStats table alone. Otherwise it adds the donated amounts to the fees
    and to the locked totals of that record, whether or not the pool has
    liquidity, and changes nothing else in the table. *)
Theorem donate_updates_hook_statistics
    (event : DonateEvent.t) (ctx : Context.t) (pool : Pool.t) (token0 token1 : Token.t) :
  let chainId := EventMeta.chainId (DonateEvent.meta event) in
  let poolId := poolIdOf chainId (DonateEvent.id event) in
  let amount0 := DonateEvent.amount0 event in
  let amount1 := DonateEvent.amount1 event in
  Context.Pool ctx !! poolId = Some pool ->
  Context.Token ctx !! Pool.token0_id pool = Some token0 ->
  Context.Token ctx !! Pool.token1_id pool = Some token1 ->
  exists ctx',
    exec (donateHandler event) ctx = Some ctx'
    /\ match hookStatsOf ctx chainId pool with
       | None => Context.HookStats ctx' = Context.HookStats ctx
       | Some stats =>
           Context.HookStats ctx'
           = <[HookStats.id stats :=
                 {| HookStats.id := HookStats.id stats;
                    HookStats.chainId := HookStats.chainId stats;
                    HookStats.poolCount := HookStats.poolCount stats;
                    HookStats.swapCount := HookStats.swapCount stats;
                    HookStats.firstPoolCreatedAt := HookStats.firstPoolCreatedAt stats;
                    HookStats.volume0 := HookStats.volume0 stats;
                    HookStats.volume1 := HookStats.volume1 stats;
                    HookStats.fees0 := HookStats.fees0 stats + amount0;
                    HookStats.fees1 := HookStats.fees1 stats + amount1;
                    HookStats.tvl0 := HookStats.tvl0 stats + amount0;
                    HookStats.tvl1 := HookStats.tvl1 stats + amount1 |}]>
               (Context.HookStats ctx)
       end.
Proof.
  intros chainId poolId amount0 amount1 Hpool Ht0 Ht1. subst amount0 amount1.
  apply wp_exec. cbv delta [donateHandler]; cbv beta.
  repeat wp_step. subst_lets. rewrite Hpool.
  repeat wp_step. rewrite Ht0, Ht1.
  repeat wp_step.
  apply wp_bind. subst_lets.
  cbn [Pool.liquidity Pool.set_txCount Pool.set_tvl1 Pool.set_tvl0].
  destruct (Z.ltb_spec 0 (Pool.liquidity pool)) as [Hpos | Hnonpos].
  - apply wp_bind. eapply wp_throws; [apply BigInt_div_nonzero; lia |].
    repeat wp_step.
    apply wp_bind.
    eapply wp_throws;
      [apply BigInt_div_nonzero; subst_lets;
       cbn [Pool.liquidity Pool.set_feeGrowthGlobal0X128 Pool.set_txCount Pool.set_tvl1
            Pool.set_tvl0]; lia |].
    repeat wp_step.
    wp_hooks_cases stats Hhook Hstats; repeat wp_auto.
    + rewrite (hookStatsOf_Some ctx _ pool stats Hhook Hstats). reflexivity.
    + rewrite (hookStatsOf_None ctx _ pool (or_intror Hstats)). reflexivity.
    + rewrite (hookStatsOf_None ctx _ pool); [reflexivity |].
      left. destruct (decide (Pool.hooks pool = ADDRESS_ZERO)); [assumption |].
      contradiction.
  - repeat wp_step.
    wp_hooks_cases stats Hhook Hstats; repeat wp_auto.
    + rewrite (hookStatsOf_Some ctx _ pool stats Hhook Hstats). reflexivity.
    + rewrite (hookStatsOf_None ctx _ pool (or_intror Hstats)). reflexivity.
    + rewrite (hookStatsOf_None ctx _ pool); [reflexivity |].
      left. destruct (decide (Pool.hooks pool = ADDRESS_ZERO)); [assumption |].
      contradiction.
Qed.

(** X19.  The Swap handler keeps the statistics of the pool's hook but never
    creates them. For a pool without hook, or with a hook that has no
    HookStats record on the event's chain, a processed swap leaves the
    HookStats table alone. Otherwise it counts the swap in that record, adds
    the absolute amounts to its volumes, the fees of both sides to its fees
    and the negated event amounts to its locked totals, and changes nothing
    else in the table. *)
Theorem swap_updates_hook_statistics
    (fuel : nat) (event : SwapEvent.t) (ctx : Context.t)
    (pool : Pool.t) (token0 token1 : Token.t) :
  let chainId := EventMeta.chainId (SwapEvent.meta event) in
  let poolId := poolIdOf chainId (SwapEvent.id event) in
  let amount0Abs := Z.abs (SwapEvent.amount0 event) in
  let amount1Abs := Z.abs (SwapEvent.amount1 event) in
  let fees0 := calculateFees amount0Abs (Pool.feeTier pool) in
  let fees1 := calculateFees amount1Abs (Pool.feeTier pool) in
  Context.Pool ctx !! poolId = Some pool ->
  Context.Token ctx !! Pool.token0_id pool = Some token0 ->
  Context.Token ctx !! Pool.token1_id pool = Some token1 ->
  is_Some (getInitializedTicksCrossed fuel poolId (tickOrZero (Pool.tick pool))
             (SwapEvent.tick event) (Pool.tickSpacing pool) ctx) ->
  exists ctx',
    exec (swapHandler fuel event) ctx = Some ctx'
    /\ match hookStatsOf ctx chainId pool with
       | None => Context.HookStats ctx' = Context.HookStats ctx
       | Some stats =>
           Context.HookStats ctx'
           = <[HookStats.id stats :=
                 {| HookStats.id := HookStats.id stats;
                    HookStats.chainId := HookStats.chainId stats;
                    HookStats.poolCount := HookStats.poolCount stats;
                    HookStats.swapCount := HookStats.swapCount stats + 1;
                    HookStats.firstPoolCreatedAt := HookStats.firstPoolCreatedAt stats;
                    HookStats.volume0 := HookStats.volume0 stats + amount0Abs;
                    HookStats.volume1 := HookStats.volume1 stats + amount1Abs;
                    HookStats.fees0 := HookStats.fees0 stats + fees0;
                    HookStats.fees1 := HookStats.fees1 stats + fees1;
                    HookStats.tvl0 := HookStats.tvl0 stats + - SwapEvent.amount0 event;
                    HookStats.tvl1 := HookStats.tvl1 stats + - SwapEvent.amount1 event |}]>
               (Context.HookStats ctx)
       end.
Proof.
  intros chainId poolId amount0Abs amount1Abs fees0 fees1 Hpool Ht0 Ht1 [crossed Hscan].
  subst amount0Abs amount1Abs fees0 fees1. rewrite <- !abs_opp.
  apply wp_exec. swap_prefix Hpool Ht0 Ht1.
  assert (forall h : string, ¬ h ≠ zeroAddress -> h = ADDRESS_ZERO) as Hzero.
  { intros h Hh. destruct (decide (h = ADDRESS_ZERO)); [assumption | contradiction]. }
  match goal with
  | |- context [decide (?a ≠ ?b)] => destruct (decide (a ≠ b)) as [Hne | Heq]
  end.
  - apply wp_bind. eapply wp_reads; [exact Hscan |].
    apply wp_forEach_updateTickCrossed_frame. intros ticks.
    repeat wp_step.
    wp_hooks_cases stats Hhook Hstats; repeat wp_auto.
    + rewrite (hookStatsOf_Some ctx _ pool stats Hhook Hstats). reflexivity.
    + rewrite (hookStatsOf_None ctx _ pool (or_intror Hstats)). reflexivity.
    + rewrite (hookStatsOf_None ctx _ pool (or_introl (Hzero _ Hhook))). reflexivity.
  - repeat wp_step.
    wp_hooks_cases stats Hhook Hstats; repeat wp_auto.
    + rewrite (hookStatsOf_Some ctx _ pool stats Hhook Hstats). reflexivity.
    + rewrite (hookStatsOf_None ctx _ pool (or_intror Hstats)). reflexivity.
    + rewrite (hookStatsOf_None ctx _ pool (or_introl (Hzero _ Hhook))). reflexivity.
Qed.

Lemma donate_updates_hook_statistics_witness :
  exists ctx',
    exec (donateHandler exampleDonate) hookedStore = Some ctx'
    /\ match hookStatsOf hookedStore 1 hookedPool with
       | None => Context.HookStats ctx' = Context.HookStats hookedStore
       | Some stats =>
           Context.HookStats ctx'
           = <[HookStats.id stats :=
                 {| HookStats.id := HookStats.id stats;
                    HookStats.chainId := HookStats.chainId stats;
                    HookStats.poolCount := HookStats.poolCount stats;
                    HookStats.swapCount := HookStats.swapCount stats;
                    HookStats.firstPoolCreatedAt := HookStats.firstPoolCreatedAt stats;
                    HookStats.volume0 := HookStats.volume0 stats;
                    HookStats.volume1 := HookStats.volume1 stats;
                    HookStats.fees0 := HookStats.fees0 stats + 100;
                    HookStats.fees1 := HookStats.fees1 stats + 0;
                    HookStats.tvl0 := HookStats.tvl0 stats + 100;
                    HookStats.tvl1 := HookStats.tvl1 stats + 0 |}]>
               (Context.HookStats hookedStore)
       end.
Proof.
  apply (donate_updates_hook_statistics exampleDonate hookedStore hookedPool
           (exampleToken "1_0xaaa" "AAA") (exampleToken "1_0xbbb" "BBB")).
  - vm_compute. reflexivity.
  - vm_compute. reflexivity.
  - vm_compute. reflexivity.
Defined.

Lemma swap_updates_hook_statistics_witness :
  exists ctx',
    exec (swapHandler (scanFuel 0 120) exampleSwap) hookedStore = Some ctx'
    /\ match hookStatsOf hookedStore 1 hookedPool with
       | None => Context.HookStats ctx' = Context.HookStats hookedStore
       | Some stats =>
           Context.HookStats ctx'
           = <[HookStats.id stats :=
                 {| HookStats.id := HookStats.id stats;
                    HookStats.chainId := HookStats.chainId stats;
                    HookStats.poolCount := HookStats.poolCount stats;
                    HookStats.swapCount := HookStats.swapCount stats + 1;
                    HookStats.firstPoolCreatedAt := HookStats.firstPoolCreatedAt stats;
                    HookStats.volume0 := HookStats.volume0 stats + Z.abs 5000000;
                    HookStats.volume1 := HookStats.volume1 stats + Z.abs (-4000000);
                    HookStats.fees0 :=
                      HookStats.fees0 stats + calculateFees (Z.abs 5000000) 3000;
                    HookStats.fees1 :=
                      HookStats.fees1 stats + calculateFees (Z.abs (-4000000)) 3000;
                    HookStats.tvl0 := HookStats.tvl0 stats + - 5000000;
                    HookStats.tvl1 := HookStats.tvl1 stats + - -4000000 |}]>
               (Context.HookStats hookedStore)
       end.
Proof.
  apply (swap_updates_hook_statistics (scanFuel 0 120) exampleSwap hookedStore hookedPool
           (exampleToken "1_0xaaa" "AAA") (exampleToken "1_0xbbb" "BBB")).
  - vm_compute. reflexivity.
  - vm_compute. reflexivity.
  - vm_compute. reflexivity.
  - vm_compute. eexists. reflexivity.
Defined.

(** The statistics of the example hook after the example swap and the
    example donation, and the empty table when the hook has no record. *)
Example hook_statistics_after_swap_and_donation :
  (ctx1 ← exec (swapHandler (scanFuel 0 120) exampleSwap) hookedStore;
   ctx2 ← exec (donateHandler exampleDonate) ctx1;
   stats ← Context.HookStats ctx2 !! "1_0x00000000000000000000000000000000000000C0";
   ctx3 ← exec (swapHandler (scanFuel 0 120) exampleSwap)
            (Context.set_Pool hookedPool exampleStore);
   Some (HookStats.swapCount stats, HookStats.volume0 stats, HookStats.fees0 stats,
         HookStats.tvl0 stats, size (Context.HookStats ctx3)))
  = Some (1, 5000000, 15100, -4999900, 0%nat).
Proof. vm_compute. reflexivity. Qed.

(** ** The period buckets of a swap *)









(** The day bucket of the example pool after the example swap, and after
    the same swap was indexed once more in the same period. *)
Example day_bucket_after_two_swaps :
  (ctx1 ← exec (swapHandler (scanFuel 0 120) exampleSwap) swapStore;
   ctx2 ← exec (swapHandler (scanFuel 0 120) exampleSwap) ctx1;
   day1 ← Context.PoolDayData ctx1 !! bucketIdOf activePool 1700000012 86400;
   day2 ← Context.PoolDayData ctx2 !! bucketIdOf activePool 1700000012 86400;
   Some (PoolIntervalData.volume0 day1, PoolIntervalData.fees0 day1,
         PoolIntervalData.swapCount day1,
         PoolIntervalData.volume0 day2, PoolIntervalData.fees0 day2,
         PoolIntervalData.swapCount day2, PoolIntervalData.txCount day2))
  = Some (5000000, 15000, 1, 10000000, 30000, 2, 2).
Proof. vm_compute. reflexivity. Qed.

(** ** Further properties of the ModifyLiquidity handler *)

(** Steps through the handler; a condition is decided where it is bound,
    so that the records bound after it are plain chains of assignments. *)
Ltac wp_modify_steps :=
  repeat
    lazymatch goal with
    | |- wp (mbind _ (throws (calculateTokenAmounts _ _ _ _ _))) _ _ =>
        apply wp_bind; eapply wp_throws; [eassumption |]
    | |- wp (Let_In true _) _ _ => unfold Let_In at 1; cbv beta iota
    | |- wp (Let_In false _) _ _ => unfold Let_In at 1; cbv beta iota
    | |- wp (Let_In (0 <? ?x) _) _ _ => destruct (0 <? x) eqn:?
    | |- wp (Let_In (if rangeContainsTick ?a ?b ?c then _ else _) _) _ _ =>
        destruct (rangeContainsTick a b c) eqn:?
    | |- wp (match (if ?c then _ else _) with _ => _ end) _ _ =>
        destruct c eqn:?; cbv beta iota zeta
    | |- wp (match _ with _ => _ end) _ _ => progress cbv beta iota zeta
    | _ => wp_auto
    end.

(** Settle an equation between fields of records: follow the named values
    back, decide the conditions met on the way, and leave the arithmetic
    to [lia]. *)
Ltac settle_step :=
  first
    [ progress simpl
    | match goal with
      | |- context [if ?c then _ else _] =>
          match goal with
          | x := _ |- _ => lazymatch c with context [x] => unfold x end
          end
      end
    | match goal with
      | |- context [if ?c then _ else _] => destruct c eqn:?
      end
    | match goal with
      | |- context [match ?o with Some _ => _ | None => _ end] => destruct o eqn:?
      end
    | match goal with
      | x := _ |- _ => lazymatch goal with |- context [x] => unfold x end
      end ].

Ltac bool_facts :=
  repeat match goal with
         | H : (_ && _) = true |- _ => apply andb_true_iff in H; destruct H
         | H : (_ <? _) = true |- _ => apply Z.ltb_lt in H
         | H : (_ <? _) = false |- _ => apply Z.ltb_ge in H
         | H : bool_decide _ = true |- _ => apply bool_decide_eq_true in H
         | H : bool_decide _ = false |- _ => apply bool_decide_eq_false in H
         end;
  repeat match goal with
         | H : (_ && _) = false |- _ => apply andb_false_iff in H; destruct H
         | H : (_ <? _) = true |- _ => apply Z.ltb_lt in H
         | H : (_ <? _) = false |- _ => apply Z.ltb_ge in H
         | H : bool_decide _ = true |- _ => apply bool_decide_eq_true in H
         | H : bool_decide _ = false |- _ => apply bool_decide_eq_false in H
         end.

(** The conditions decided on the way mention the named values; follow
    those back as well. *)
Ltac unfold_in_facts :=
  repeat match goal with
         | x := _ |- _ =>
             match goal with
             | H : context [x] |- _ =>
                 lazymatch type of H with
                 | _ = _ => unfold x in H; simpl in H
                 end
             end
         end.

Ltac settle :=
  repeat settle_step;
  first
    [ reflexivity
    | assumption
    | match goal with
      | H : forall t, _ = Some t -> _ |- _ => apply H; first [assumption | reflexivity]
      end
    | unfold_in_facts; bool_facts; simpl in *; first [lia | congruence] ].

Lemma insert_insert_key {V : Type} (m : gmap string V) (k k' : string) (x y : V) :
  k = k' -> <[k := x]> (<[k' := y]> m) = <[k := x]> m.
Proof. intros ->. apply insert_insert_eq. Qed.

Section ModifyLiquidityEffect.

Variable getSqrtRatioAtTick : Z -> option Z.

(** What a ModifyLiquidity event that is processed does to the pool, the
    two boundary ticks, the position and the liquidity provider. *)
Lemma modifyLiquidityHandler_effect
    (event : ModifyLiquidityEvent.t) (ctx : Context.t) (pool : Pool.t)
    (token0 token1 : Token.t) (amounts : TokenAmounts.t) :
  let meta := ModifyLiquidityEvent.meta event in
  let tickLower := ModifyLiquidityEvent.tickLower event in
  let tickUpper := ModifyLiquidityEvent.tickUpper event in
  let delta := ModifyLiquidityEvent.liquidityDelta event in
  let poolId := poolIdOf (EventMeta.chainId meta) (ModifyLiquidityEvent.id event) in
  let oldLower := Context.Tick ctx !! tickIdOf poolId tickLower in
  let oldUpper := Context.Tick ctx !! tickIdOf poolId tickUpper in
  let oldPosition :=
    Context.Position ctx
      !! positionIdOf poolId (ModifyLiquidityEvent.sender event) tickLower tickUpper in
  let oldProvider :=
    Context.LiquidityProvider ctx
      !! liquidityProviderIdOf (EventMeta.chainId meta) poolId
           (ModifyLiquidityEvent.sender event) in
  let inside0 :=
    getFeeGrowthInside (Pool.feeGrowthGlobal0X128 pool)
      (fieldOrZero Tick.feeGrowthOutside0X128 oldLower)
      (fieldOrZero Tick.feeGrowthOutside0X128 oldUpper)
      tickLower tickUpper (tickOrZero (Pool.tick pool)) in
  let inside1 :=
    getFeeGrowthInside (Pool.feeGrowthGlobal1X128 pool)
      (fieldOrZero Tick.feeGrowthOutside1X128 oldLower)
      (fieldOrZero Tick.feeGrowthOutside1X128 oldUpper)
      tickLower tickUpper (tickOrZero (Pool.tick pool)) in
  let accrued0 :=
    if 0 <? fieldOrZero Position.liquidity oldPosition
    then calculateAccruedFees (fieldOrZero Position.liquidity oldPosition) inside0
           (fieldOrZero Position.feeGrowthInside0LastX128 oldPosition)
    else 0 in
  let accrued1 :=
    if 0 <? fieldOrZero Position.liquidity oldPosition
    then calculateAccruedFees (fieldOrZero Position.liquidity oldPosition) inside1
           (fieldOrZero Position.feeGrowthInside1LastX128 oldPosition)
    else 0 in
  calculateTokenAmounts getSqrtRatioAtTick delta tickLower tickUpper (Pool.sqrtPriceX96 pool)
    = Some amounts ->
  Context.Pool ctx !! poolId = Some pool ->
  Pool.id pool = poolId ->
  Context.Token ctx !! Pool.token0_id pool = Some token0 ->
  Context.Token ctx !! Pool.token1_id pool = Some token1 ->
  exists ctx',
    exec (modifyLiquidityHandler getSqrtRatioAtTick event) ctx = Some ctx'
    /\ exists pool' token0' token1' lower' upper' position' provider',
    (Context.Pool ctx' = <[Pool.id pool' := pool']> (Context.Pool ctx)
     /\ Context.Token ctx'
        = <[Token.id token1' := token1']> (<[Token.id token0' := token0']> (Context.Token ctx))
     /\ Context.Tick ctx'
        = <[Tick.id upper' := upper']> (<[Tick.id lower' := lower']> (Context.Tick ctx))
     /\ Context.Position ctx' = <[Position.id position' := position']> (Context.Position ctx)
     /\ Context.LiquidityProvider ctx'
        = <[LiquidityProvider.id provider' := provider']> (Context.LiquidityProvider ctx))
    /\ (Pool.id pool' = poolId
        /\ Pool.token0_id pool' = Pool.token0_id pool
        /\ Pool.token1_id pool' = Pool.token1_id pool
        /\ Pool.tick pool' = Pool.tick pool
        /\ Pool.sqrtPriceX96 pool' = Pool.sqrtPriceX96 pool
        /\ Pool.feeGrowthGlobal0X128 pool' = Pool.feeGrowthGlobal0X128 pool
        /\ Pool.feeGrowthGlobal1X128 pool' = Pool.feeGrowthGlobal1X128 pool
        /\ Pool.liquidity pool'
           = (if rangeContainsTick tickLower tickUpper (Pool.tick pool)
              then Pool.liquidity pool + delta else Pool.liquidity pool)
        /\ Pool.tvl0 pool' = Pool.tvl0 pool + TokenAmounts.amount0 amounts
        /\ Pool.tvl1 pool' = Pool.tvl1 pool + TokenAmounts.amount1 amounts
        /\ Pool.txCount pool' = Pool.txCount pool + 1
        /\ Pool.modifyLiquidityCount pool' = Pool.modifyLiquidityCount pool + 1
        /\ Pool.swapCount pool' = Pool.swapCount pool
        /\ Pool.positionCount pool' = Pool.positionCount pool + oneIfNew oldPosition
        /\ Pool.activePositionCount pool'
           = (if (0 <? fieldOrZero Position.liquidity oldPosition + delta)
                 && bool_decide (fieldOrZero Position.liquidity oldPosition = 0)
              then Pool.activePositionCount pool + 1
              else if bool_decide (fieldOrZero Position.liquidity oldPosition + delta = 0)
                      && (0 <? fieldOrZero Position.liquidity oldPosition)
              then Pool.activePositionCount pool - 1
              else Pool.activePositionCount pool))
    /\ (Token.id token0' = Token.id token0 /\ Token.id token1' = Token.id token1)
    /\ ((keyedById Tick.id (Context.Tick ctx) -> Tick.id lower' = tickIdOf poolId tickLower)
        /\ Tick.liquidityGross lower' = fieldOrZero Tick.liquidityGross oldLower + delta
        /\ Tick.liquidityNet lower' = fieldOrZero Tick.liquidityNet oldLower + delta
        /\ Tick.feeGrowthOutside0X128 lower' = fieldOrZero Tick.feeGrowthOutside0X128 oldLower
        /\ Tick.feeGrowthOutside1X128 lower' = fieldOrZero Tick.feeGrowthOutside1X128 oldLower
        /\ Tick.positionCount lower'
           = fieldOrZero Tick.positionCount oldLower
             + (if 0 <? delta then oneIfNew oldPosition else 0))
    /\ ((keyedById Tick.id (Context.Tick ctx) -> Tick.id upper' = tickIdOf poolId tickUpper)
        /\ Tick.liquidityGross upper' = fieldOrZero Tick.liquidityGross oldUpper + delta
        /\ Tick.liquidityNet upper' = fieldOrZero Tick.liquidityNet oldUpper - delta
        /\ Tick.feeGrowthOutside0X128 upper' = fieldOrZero Tick.feeGrowthOutside0X128 oldUpper
        /\ Tick.feeGrowthOutside1X128 upper' = fieldOrZero Tick.feeGrowthOutside1X128 oldUpper
        /\ Tick.positionCount upper'
           = fieldOrZero Tick.positionCount oldUpper
             + (if 0 <? delta then oneIfNew oldPosition else 0))
    /\ ((keyedById Position.id (Context.Position ctx) ->
         Position.id position'
         = positionIdOf poolId (ModifyLiquidityEvent.sender event) tickLower tickUpper)
        /\ Position.liquidity position' = fieldOrZero Position.liquidity oldPosition + delta
        /\ Position.feeGrowthInside0LastX128 position' = inside0
        /\ Position.feeGrowthInside1LastX128 position' = inside1
        /\ Position.fees0 position' = fieldOrZero Position.fees0 oldPosition + accrued0
        /\ Position.fees1 position' = fieldOrZero Position.fees1 oldPosition + accrued1
        /\ Position.deposited0 position'
           = fieldOrZero Position.deposited0 oldPosition
             + (if 0 <? delta then TokenAmounts.amount0Abs amounts else 0)
        /\ Position.deposited1 position'
           = fieldOrZero Position.deposited1 oldPosition
             + (if 0 <? delta then TokenAmounts.amount1Abs amounts else 0)
        /\ Position.withdrawn0 position'
           = fieldOrZero Position.withdrawn0 oldPosition
             + (if 0 <? delta then 0 else TokenAmounts.amount0Abs amounts)
        /\ Position.withdrawn1 position'
           = fieldOrZero Position.withdrawn1 oldPosition
             + (if 0 <? delta then 0 else TokenAmounts.amount1Abs amounts)
        /\ Position.modifyLiquidityCount position'
           = fieldOrZero Position.modifyLiquidityCount oldPosition + 1)
    /\ ((keyedById LiquidityProvider.id (Context.LiquidityProvider ctx) ->
         LiquidityProvider.id provider'
         = liquidityProviderIdOf (EventMeta.chainId meta) poolId
             (ModifyLiquidityEvent.sender event))
        /\ LiquidityProvider.fees0 provider'
           = fieldOrZero LiquidityProvider.fees0 oldProvider + accrued0
        /\ LiquidityProvider.fees1 provider'
           = fieldOrZero LiquidityProvider.fees1 oldProvider + accrued1
        /\ LiquidityProvider.deposited0 provider'
           = fieldOrZero LiquidityProvider.deposited0 oldProvider
             + (if 0 <? delta then TokenAmounts.amount0Abs amounts else 0)
        /\ LiquidityProvider.deposited1 provider'
           = fieldOrZero LiquidityProvider.deposited1 oldProvider
             + (if 0 <? delta then TokenAmounts.amount1Abs amounts else 0)
        /\ LiquidityProvider.withdrawn0 provider'
           = fieldOrZero LiquidityProvider.withdrawn0 oldProvider
             + (if 0 <? delta then 0 else TokenAmounts.amount0Abs amounts)
        /\ LiquidityProvider.withdrawn1 provider'
           = fieldOrZero LiquidityProvider.withdrawn1 oldProvider
             + (if 0 <? delta then 0 else TokenAmounts.amount1Abs amounts)
        /\ LiquidityProvider.positionCount provider'
           = fieldOrZero LiquidityProvider.positionCount oldProvider + oneIfNew oldPosition
        /\ LiquidityProvider.modifyLiquidityCount provider'
           = fieldOrZero LiquidityProvider.modifyLiquidityCount oldProvider + 1)
    /\ Pool.lpCount pool' = Pool.lpCount pool.
Proof.
  intros meta tickLower tickUpper delta poolId oldLower oldUpper oldPosition oldProvider
    inside0 inside1 accrued0 accrued1 Hamounts Hpool Hid Ht0 Ht1.
  subst accrued0 accrued1 inside0 inside1.
  assert (keyedById Tick.id (Context.Tick ctx) ->
          forall t, oldLower = Some t -> Tick.id t = tickIdOf poolId tickLower) as HidL
    by (intros Hk t Ht; apply (Hk _ _ Ht)).
  assert (keyedById Tick.id (Context.Tick ctx) ->
          forall t, oldUpper = Some t -> Tick.id t = tickIdOf poolId tickUpper) as HidU
    by (intros Hk t Ht; apply (Hk _ _ Ht)).
  assert (keyedById Position.id (Context.Position ctx) ->
          forall p, oldPosition = Some p ->
            Position.id p
            = positionIdOf poolId (ModifyLiquidityEvent.sender event) tickLower tickUpper)
    as HidP by (intros Hk p Hp; apply (Hk _ _ Hp)).
  assert (keyedById LiquidityProvider.id (Context.LiquidityProvider ctx) ->
          forall p, oldProvider = Some p ->
            LiquidityProvider.id p
            = liquidityProviderIdOf (EventMeta.chainId meta) poolId
                (ModifyLiquidityEvent.sender event))
    as HidLP by (intros Hk p Hp; apply (Hk _ _ Hp)).
  unfold liquidityProviderIdOf in *.
  apply wp_exec. cbv delta [modifyLiquidityHandler]; cbv beta.
  repeat wp_step. subst_lets. rewrite Hpool.
  repeat wp_step. rewrite Ht0, Ht1.
  apply wp_bind; cbv delta [getOrCreateLiquidityProvider]; cbv beta.
  repeat wp_step. subst_lets.
  destruct (Context.Position ctx !! positionIdOf _ _ _ _) as [position |] eqn:Hposition.
  all: destruct (Context.LiquidityProvider ctx !! _) as [provider |] eqn:Hprovider.
  all: wp_modify_steps.
  all: simpl_tables.
  all: eexists _, _, _, _, _, _, _.
  all: (split;
        [ split; [reflexivity |]; split; [reflexivity |]; split; [reflexivity |];
          split; [reflexivity |];
          first [ reflexivity
                | etransitivity; [apply insert_insert_key; settle | reflexivity] ]
        |]).
  all: cbn [fieldOrZero oneIfNew].
  all: repeat split.
  all: try (intros Hk;
            repeat match goal with
                   | H : keyedById _ _ -> _ |- _ => first [specialize (H Hk) | clear H]
                   end).
  all: settle.
Qed.

End ModifyLiquidityEffect.

(** ** What a processed ModifyLiquidity event does *)

Lemma calculateAccruedFees_same (liquidity feeGrowthInside : Z) :
  calculateAccruedFees liquidity feeGrowthInside feeGrowthInside = 0.
Proof.
  unfold calculateAccruedFees. rewrite Z.sub_diag, Z.mul_0_r. reflexivity.
Qed.

Lemma calculateTokenAmounts_signed (getSqrtRatioAtTick : Z -> option Z)
    (liquidityDelta tickLower tickUpper sqrtPriceX96 : Z) (r : TokenAmounts.t) :
  calculateTokenAmounts getSqrtRatioAtTick liquidityDelta tickLower tickUpper sqrtPriceX96
    = Some r ->
  TokenAmounts.amount0 r
    = (if 0 <? liquidityDelta then TokenAmounts.amount0Abs r else - TokenAmounts.amount0Abs r)
  /\ TokenAmounts.amount1 r
    = (if 0 <? liquidityDelta then TokenAmounts.amount1Abs r else - TokenAmounts.amount1Abs r).
Proof.
  unfold calculateTokenAmounts. cbv zeta. intros H.
  destruct (getSqrtRatioAtTick tickLower) as [lower |]; [| discriminate].
  destruct (getSqrtRatioAtTick tickUpper) as [upper |]; [| discriminate].
  cbn [mbind option_bind] in H.
  match type of H with
  | ?m ≫= _ = _ => destruct m as [[a0 a1] |]; [| discriminate]
  end.
  injection H as <-. split; reflexivity.
Qed.

Lemma lookup_insert_present {V : Type} (m : gmap string V) (k k' : string) (v : V) :
  is_Some (m !! k) -> is_Some (<[k' := v]> m !! k).
Proof.
  intros H. destruct (decide (k' = k)) as [-> | Hne].
  - rewrite lookup_insert_eq. eexists. reflexivity.
  - rewrite lookup_insert_ne by assumption. exact H.
Qed.

(** The steps of the handler up to the computation of the token amounts,
    when that computation throws. *)
Ltac modify_throws Hamounts Hpool Ht0 Ht1 :=
  apply fails_exec; cbv delta [modifyLiquidityHandler]; cbv beta;
  repeat fails_step; subst_lets; rewrite Hpool;
  repeat fails_step; rewrite Ht0, Ht1;
  apply fails_bind; cbv delta [getOrCreateLiquidityProvider]; cbv beta;
  repeat wp_step;
  match goal with
  | |- context [Context.LiquidityProvider ?c !! ?k] =>
      destruct (Context.LiquidityProvider c !! k)
  end;
  repeat wp_step;
  repeat fails_step;
  apply fails_now, fails_throws; subst_lets; exact Hamounts.

Section ModifyLiquidityProcessed.

Variable getSqrtRatioAtTick : Z -> option Z.

(** X21.  A processed ModifyLiquidity event over a range with two different
    boundary ticks adds [liquidityDelta] to [liquidityGross] of both
    boundary ticks, adds it to [liquidityNet] of the lower one and subtracts
    it from [liquidityNet] of the upper one (a tick that did not exist
    starts from zero), leaves their fee growth outside as it was, and leaves
    every other tick of the store untouched. *)
Theorem modify_updates_boundary_ticks
    (event : ModifyLiquidityEvent.t) (ctx : Context.t) (pool : Pool.t)
    (token0 token1 : Token.t) (amounts : TokenAmounts.t) :
  let meta := ModifyLiquidityEvent.meta event in
  let tickLower := ModifyLiquidityEvent.tickLower event in
  let tickUpper := ModifyLiquidityEvent.tickUpper event in
  let delta := ModifyLiquidityEvent.liquidityDelta event in
  let poolId := poolIdOf (EventMeta.chainId meta) (ModifyLiquidityEvent.id event) in
  let lowerId := tickIdOf poolId tickLower in
  let upperId := tickIdOf poolId tickUpper in
  let oldLower := Context.Tick ctx !! lowerId in
  let oldUpper := Context.Tick ctx !! upperId in
  calculateTokenAmounts getSqrtRatioAtTick delta tickLower tickUpper (Pool.sqrtPriceX96 pool)
    = Some amounts ->
  Context.Pool ctx !! poolId = Some pool ->
  Pool.id pool = poolId ->
  Context.Token ctx !! Pool.token0_id pool = Some token0 ->
  Context.Token ctx !! Pool.token1_id pool = Some token1 ->
  keyedById Tick.id (Context.Tick ctx) ->
  tickLower <> tickUpper ->
  exists ctx' lower' upper',
    exec (modifyLiquidityHandler getSqrtRatioAtTick event) ctx = Some ctx'
    /\ Context.Tick ctx' !! lowerId = Some lower'
    /\ Context.Tick ctx' !! upperId = Some upper'
    /\ Tick.liquidityGross lower' = fieldOrZero Tick.liquidityGross oldLower + delta
    /\ Tick.liquidityNet lower' = fieldOrZero Tick.liquidityNet oldLower + delta
    /\ Tick.liquidityGross upper' = fieldOrZero Tick.liquidityGross oldUpper + delta
    /\ Tick.liquidityNet upper' = fieldOrZero Tick.liquidityNet oldUpper - delta
    /\ Tick.feeGrowthOutside0X128 lower' = fieldOrZero Tick.feeGrowthOutside0X128 oldLower
    /\ Tick.feeGrowthOutside1X128 lower' = fieldOrZero Tick.feeGrowthOutside1X128 oldLower
    /\ Tick.feeGrowthOutside0X128 upper' = fieldOrZero Tick.feeGrowthOutside0X128 oldUpper
    /\ Tick.feeGrowthOutside1X128 upper' = fieldOrZero Tick.feeGrowthOutside1X128 oldUpper
    /\ (forall k, k <> lowerId -> k <> upperId ->
        Context.Tick ctx' !! k = Context.Tick ctx !! k).
Proof.
  intros meta tickLower tickUpper delta poolId lowerId upperId oldLower oldUpper
    Hamounts Hpool Hid Ht0 Ht1 Hkeyed Hne.
  subst meta tickLower tickUpper delta poolId lowerId upperId oldLower oldUpper.
  destruct (modifyLiquidityHandler_effect getSqrtRatioAtTick event ctx pool token0 token1
              amounts Hamounts Hpool Hid Ht0 Ht1)
    as (ctx' & Hexec & pool' & token0' & token1' & lower' & upper' & position' & provider'
        & (_ & _ & Hticks & _) & _ & _ & Hl & Hu & _).
  destruct Hl as (HlId & HlGross & HlNet & HlOut0 & HlOut1 & _).
  destruct Hu as (HuId & HuGross & HuNet & HuOut0 & HuOut1 & _).
  specialize (HlId Hkeyed). specialize (HuId Hkeyed).
  assert (Tick.id lower' <> Tick.id upper') as Hids
    by (rewrite HlId, HuId; intros E; apply Hne, (tickIdOf_inj _ _ _ E)).
  exists ctx', lower', upper'. rewrite Hticks, HlId, HuId.
  split; [exact Hexec |].
  split; [rewrite lookup_insert_ne by congruence; apply lookup_insert_eq |].
  split; [apply lookup_insert_eq |].
  repeat (split; [assumption |]).
  intros k Hk1 Hk2. rewrite !lookup_insert_ne by congruence. reflexivity.
Qed.

(** X22.  A processed ModifyLiquidity event changes the pool's active
    liquidity by [liquidityDelta] exactly when the pool's current tick lies
    in [[tickLower, tickUpper)]; out of range, or for a pool without a tick,
    it leaves it alone. In all cases the pool's two locked totals move by
    the signed token amounts, and price, tick and fee growth accumulators
    keep their values. *)
Theorem modify_changes_liquidity_in_range
    (event : ModifyLiquidityEvent.t) (ctx : Context.t) (pool : Pool.t)
    (token0 token1 : Token.t) (amounts : TokenAmounts.t) :
  let meta := ModifyLiquidityEvent.meta event in
  let tickLower := ModifyLiquidityEvent.tickLower event in
  let tickUpper := ModifyLiquidityEvent.tickUpper event in
  let delta := ModifyLiquidityEvent.liquidityDelta event in
  let poolId := poolIdOf (EventMeta.chainId meta) (ModifyLiquidityEvent.id event) in
  calculateTokenAmounts getSqrtRatioAtTick delta tickLower tickUpper (Pool.sqrtPriceX96 pool)
    = Some amounts ->
  Context.Pool ctx !! poolId = Some pool ->
  Pool.id pool = poolId ->
  Context.Token ctx !! Pool.token0_id pool = Some token0 ->
  Context.Token ctx !! Pool.token1_id pool = Some token1 ->
  exists ctx' pool',
    exec (modifyLiquidityHandler getSqrtRatioAtTick event) ctx = Some ctx'
    /\ Context.Pool ctx' !! poolId = Some pool'
    /\ (forall tick, Pool.tick pool = Some tick -> tickLower <= tick < tickUpper ->
        Pool.liquidity pool' = Pool.liquidity pool + delta)
    /\ (forall tick, Pool.tick pool = Some tick -> ~ (tickLower <= tick < tickUpper) ->
        Pool.liquidity pool' = Pool.liquidity pool)
    /\ (Pool.tick pool = None -> Pool.liquidity pool' = Pool.liquidity pool)
    /\ Pool.tvl0 pool' = Pool.tvl0 pool + TokenAmounts.amount0 amounts
    /\ Pool.tvl1 pool' = Pool.tvl1 pool + TokenAmounts.amount1 amounts
    /\ Pool.sqrtPriceX96 pool' = Pool.sqrtPriceX96 pool
    /\ Pool.tick pool' = Pool.tick pool
    /\ Pool.feeGrowthGlobal0X128 pool' = Pool.feeGrowthGlobal0X128 pool
    /\ Pool.feeGrowthGlobal1X128 pool' = Pool.feeGrowthGlobal1X128 pool.
Proof.
  intros meta tickLower tickUpper delta poolId Hamounts Hpool Hid Ht0 Ht1.
  subst meta tickLower tickUpper delta poolId.
  destruct (modifyLiquidityHandler_effect getSqrtRatioAtTick event ctx pool token0 token1
              amounts Hamounts Hpool Hid Ht0 Ht1)
    as (ctx' & Hexec & pool' & token0' & token1' & lower' & upper' & position' & provider'
        & (Hpools & _) & Hp & _).
  destruct Hp as (HpId & _ & _ & Htick & Hprice & Hg0 & Hg1 & Hliq & Htvl0 & Htvl1 & _).
  exists ctx', pool'. rewrite Hpools, HpId.
  split; [exact Hexec |]. split; [apply lookup_insert_eq |].
  split; [| split; [| split]].
  - intros tick Htk Hin. rewrite Hliq, Htk. unfold rangeContainsTick.
    destruct (Z.leb_spec (ModifyLiquidityEvent.tickLower event) tick); [| lia].
    destruct (Z.ltb_spec tick (ModifyLiquidityEvent.tickUpper event)); [reflexivity | lia].
  - intros tick Htk Hout. rewrite Hliq, Htk. unfold rangeContainsTick.
    destruct (Z.leb_spec (ModifyLiquidityEvent.tickLower event) tick); [| reflexivity].
    destruct (Z.ltb_spec tick (ModifyLiquidityEvent.tickUpper event)); [lia | reflexivity].
  - intros Htk. rewrite Hliq, Htk. reflexivity.
  - repeat split; assumption.
Qed.

(** X23.  While the liquidity of a position is not negative before and after
    a processed ModifyLiquidity event, the pool's [activePositionCount]
    moves with the position: plus one when the position gets its first
    liquidity, minus one when it loses its last, unchanged otherwise; and
    [positionCount] goes up by one exactly for a position that did not
    exist. *)
Theorem modify_counts_active_positions
    (event : ModifyLiquidityEvent.t) (ctx : Context.t) (pool : Pool.t)
    (token0 token1 : Token.t) (amounts : TokenAmounts.t) :
  let meta := ModifyLiquidityEvent.meta event in
  let tickLower := ModifyLiquidityEvent.tickLower event in
  let tickUpper := ModifyLiquidityEvent.tickUpper event in
  let delta := ModifyLiquidityEvent.liquidityDelta event in
  let poolId := poolIdOf (EventMeta.chainId meta) (ModifyLiquidityEvent.id event) in
  let oldPosition :=
    Context.Position ctx
      !! positionIdOf poolId (ModifyLiquidityEvent.sender event) tickLower tickUpper in
  let oldLiquidity := fieldOrZero Position.liquidity oldPosition in
  calculateTokenAmounts getSqrtRatioAtTick delta tickLower tickUpper (Pool.sqrtPriceX96 pool)
    = Some amounts ->
  Context.Pool ctx !! poolId = Some pool ->
  Pool.id pool = poolId ->
  Context.Token ctx !! Pool.token0_id pool = Some token0 ->
  Context.Token ctx !! Pool.token1_id pool = Some token1 ->
  0 <= oldLiquidity ->
  0 <= oldLiquidity + delta ->
  exists ctx' pool',
    exec (modifyLiquidityHandler getSqrtRatioAtTick event) ctx = Some ctx'
    /\ Context.Pool ctx' !! poolId = Some pool'
    /\ Pool.activePositionCount pool'
       = Pool.activePositionCount pool
         + (if 0 <? oldLiquidity + delta then 1 else 0)
         - (if 0 <? oldLiquidity then 1 else 0)
    /\ Pool.positionCount pool' = Pool.positionCount pool + oneIfNew oldPosition.
Proof.
  intros meta tickLower tickUpper delta poolId oldPosition oldLiquidity
    Hamounts Hpool Hid Ht0 Ht1 Hold Hnew.
  subst meta tickLower tickUpper delta poolId oldPosition oldLiquidity.
  destruct (modifyLiquidityHandler_effect getSqrtRatioAtTick event ctx pool token0 token1
              amounts Hamounts Hpool Hid Ht0 Ht1)
    as (ctx' & Hexec & pool' & token0' & token1' & lower' & upper' & position' & provider'
        & (Hpools & _) & Hp & _).
  destruct Hp as (HpId & _ & _ & _ & _ & _ & _ & _ & _ & _ & _ & _ & _ & Hcount & Hactive).
  exists ctx', pool'. rewrite Hpools, HpId.
  split; [exact Hexec |]. split; [apply lookup_insert_eq |].
  split; [| exact Hcount].
  rewrite Hactive.
  repeat match goal with
         | |- context [0 <? ?x] => destruct (Z.ltb_spec 0 x)
         end;
    repeat case_bool_decide; simpl; lia.
Qed.

(** X24.  The three books a processed ModifyLiquidity event keeps agree: the
    pool's locked total, the position's deposits minus withdrawals and the
    liquidity provider's deposits minus withdrawals all move by the same
    signed token amount, for either token. *)
Theorem modify_net_deposits_agree
    (event : ModifyLiquidityEvent.t) (ctx : Context.t) (pool : Pool.t)
    (token0 token1 : Token.t) (amounts : TokenAmounts.t) :
  let meta := ModifyLiquidityEvent.meta event in
  let tickLower := ModifyLiquidityEvent.tickLower event in
  let tickUpper := ModifyLiquidityEvent.tickUpper event in
  let delta := ModifyLiquidityEvent.liquidityDelta event in
  let poolId := poolIdOf (EventMeta.chainId meta) (ModifyLiquidityEvent.id event) in
  let positionId :=
    positionIdOf poolId (ModifyLiquidityEvent.sender event) tickLower tickUpper in
  let providerId :=
    liquidityProviderIdOf (EventMeta.chainId meta) poolId (ModifyLiquidityEvent.sender event) in
  let oldPosition := Context.Position ctx !! positionId in
  let oldProvider := Context.LiquidityProvider ctx !! providerId in
  calculateTokenAmounts getSqrtRatioAtTick delta tickLower tickUpper (Pool.sqrtPriceX96 pool)
    = Some amounts ->
  Context.Pool ctx !! poolId = Some pool ->
  Pool.id pool = poolId ->
  Context.Token ctx !! Pool.token0_id pool = Some token0 ->
  Context.Token ctx !! Pool.token1_id pool = Some token1 ->
  keyedById Position.id (Context.Position ctx) ->
  keyedById LiquidityProvider.id (Context.LiquidityProvider ctx) ->
  exists ctx' pool' position' provider',
    exec (modifyLiquidityHandler getSqrtRatioAtTick event) ctx = Some ctx'
    /\ Context.Pool ctx' !! poolId = Some pool'
    /\ Context.Position ctx' !! positionId = Some position'
    /\ Context.LiquidityProvider ctx' !! providerId = Some provider'
    /\ Pool.tvl0 pool' - Pool.tvl0 pool = TokenAmounts.amount0 amounts
    /\ Pool.tvl1 pool' - Pool.tvl1 pool = TokenAmounts.amount1 amounts
    /\ (Position.deposited0 position' - Position.withdrawn0 position')
       - (fieldOrZero Position.deposited0 oldPosition
          - fieldOrZero Position.withdrawn0 oldPosition)
       = TokenAmounts.amount0 amounts
    /\ (Position.deposited1 position' - Position.withdrawn1 position')
       - (fieldOrZero Position.deposited1 oldPosition
          - fieldOrZero Position.withdrawn1 oldPosition)
       = TokenAmounts.amount1 amounts
    /\ (LiquidityProvider.deposited0 provider' - LiquidityProvider.withdrawn0 provider')
       - (fieldOrZero LiquidityProvider.deposited0 oldProvider
          - fieldOrZero LiquidityProvider.withdrawn0 oldProvider)
       = TokenAmounts.amount0 amounts
    /\ (LiquidityProvider.deposited1 provider' - LiquidityProvider.withdrawn1 provider')
       - (fieldOrZero LiquidityProvider.deposited1 oldProvider
          - fieldOrZero LiquidityProvider.withdrawn1 oldProvider)
       = TokenAmounts.amount1 amounts.
Proof.
  intros meta tickLower tickUpper delta poolId positionId providerId oldPosition oldProvider
    Hamounts Hpool Hid Ht0 Ht1 HkPos HkLP.
  subst meta tickLower tickUpper delta poolId positionId providerId oldPosition oldProvider.
  destruct (modifyLiquidityHandler_effect getSqrtRatioAtTick event ctx pool token0 token1
              amounts Hamounts Hpool Hid Ht0 Ht1)
    as (ctx' & Hexec & pool' & token0' & token1' & lower' & upper' & position' & provider'
        & (Hpools & _ & _ & Hpositions & Hproviders) & Hp & _ & _ & _ & Hpos & Hlp & _).
  destruct Hp as (HpId & _ & _ & _ & _ & _ & _ & _ & Htvl0 & Htvl1 & _).
  destruct Hpos as (HposId & _ & _ & _ & _ & _ & Hd0 & Hd1 & Hw0 & Hw1 & _).
  destruct Hlp as (HlpId & _ & _ & Hld0 & Hld1 & Hlw0 & Hlw1 & _).
  specialize (HposId HkPos). specialize (HlpId HkLP).
  destruct (calculateTokenAmounts_signed _ _ _ _ _ _ Hamounts) as [Hs0 Hs1].
  exists ctx', pool', position', provider'.
  rewrite Hpools, Hpositions, Hproviders, HpId, HposId, HlpId.
  split; [exact Hexec |].
  do 3 (split; [apply lookup_insert_eq |]).
  rewrite Htvl0, Htvl1, Hd0, Hd1, Hw0, Hw1, Hld0, Hld1, Hlw0, Hlw1, Hs0, Hs1.
  destruct (0 <? _); repeat split; lia.
Qed.

(** X25.  The handler throws when the SDK's tick to price function rejects a
    boundary of the range (or the amount computation throws for another
    reason), for an event whose pool and tokens are in the store. *)
Theorem modify_throws_without_price
    (event : ModifyLiquidityEvent.t) (ctx : Context.t) (pool : Pool.t)
    (token0 token1 : Token.t) :
  let meta := ModifyLiquidityEvent.meta event in
  let poolId := poolIdOf (EventMeta.chainId meta) (ModifyLiquidityEvent.id event) in
  calculateTokenAmounts getSqrtRatioAtTick
    (ModifyLiquidityEvent.liquidityDelta event)
    (ModifyLiquidityEvent.tickLower event) (ModifyLiquidityEvent.tickUpper event)
    (Pool.sqrtPriceX96 pool) = None ->
  Context.Pool ctx !! poolId = Some pool ->
  Context.Token ctx !! Pool.token0_id pool = Some token0 ->
  Context.Token ctx !! Pool.token1_id pool = Some token1 ->
  exec (modifyLiquidityHandler getSqrtRatioAtTick event) ctx = None.
Proof.
  intros meta poolId Hamounts Hpool Ht0 Ht1.
  modify_throws Hamounts Hpool Ht0 Ht1.
Qed.

(** X26.  Fees are not counted twice: when two ModifyLiquidity events on the
    same position are processed one after the other, with nothing else in
    between, the second one finds the fee growth inside the range where the
    first one recorded it and adds nothing to the fees of the position and
    of its liquidity provider. *)
Theorem modify_twice_accrues_fees_once
    (event1 event2 : ModifyLiquidityEvent.t) (ctx : Context.t) (pool : Pool.t)
    (token0 token1 : Token.t) (amounts1 amounts2 : TokenAmounts.t) :
  let chainId := EventMeta.chainId (ModifyLiquidityEvent.meta event1) in
  let tickLower := ModifyLiquidityEvent.tickLower event1 in
  let tickUpper := ModifyLiquidityEvent.tickUpper event1 in
  let sender := ModifyLiquidityEvent.sender event1 in
  let poolId := poolIdOf chainId (ModifyLiquidityEvent.id event1) in
  let positionId := positionIdOf poolId sender tickLower tickUpper in
  let providerId := liquidityProviderIdOf chainId poolId sender in
  EventMeta.chainId (ModifyLiquidityEvent.meta event2) = chainId ->
  ModifyLiquidityEvent.id event2 = ModifyLiquidityEvent.id event1 ->
  ModifyLiquidityEvent.sender event2 = sender ->
  ModifyLiquidityEvent.tickLower event2 = tickLower ->
  ModifyLiquidityEvent.tickUpper event2 = tickUpper ->
  calculateTokenAmounts getSqrtRatioAtTick (ModifyLiquidityEvent.liquidityDelta event1)
    tickLower tickUpper (Pool.sqrtPriceX96 pool) = Some amounts1 ->
  calculateTokenAmounts getSqrtRatioAtTick (ModifyLiquidityEvent.liquidityDelta event2)
    tickLower tickUpper (Pool.sqrtPriceX96 pool) = Some amounts2 ->
  Context.Pool ctx !! poolId = Some pool ->
  Pool.id pool = poolId ->
  Context.Token ctx !! Pool.token0_id pool = Some token0 ->
  Context.Token ctx !! Pool.token1_id pool = Some token1 ->
  keyedById Tick.id (Context.Tick ctx) ->
  keyedById Position.id (Context.Position ctx) ->
  keyedById LiquidityProvider.id (Context.LiquidityProvider ctx) ->
  exists ctx1 ctx2 position1 position2 provider1 provider2,
    exec (modifyLiquidityHandler getSqrtRatioAtTick event1) ctx = Some ctx1
    /\ exec (modifyLiquidityHandler getSqrtRatioAtTick event2) ctx1 = Some ctx2
    /\ Context.Position ctx1 !! positionId = Some position1
    /\ Context.Position ctx2 !! positionId = Some position2
    /\ Context.LiquidityProvider ctx1 !! providerId = Some provider1
    /\ Context.LiquidityProvider ctx2 !! providerId = Some provider2
    /\ Position.fees0 position2 = Position.fees0 position1
    /\ Position.fees1 position2 = Position.fees1 position1
    /\ LiquidityProvider.fees0 provider2 = LiquidityProvider.fees0 provider1
    /\ LiquidityProvider.fees1 provider2 = LiquidityProvider.fees1 provider1.
Proof.
  intros chainId tickLower tickUpper sender poolId positionId providerId
    Hchain Hpid Hsender Hlow Hup Ham1 Ham2 Hpool Hid Ht0 Ht1 HkT HkP HkL.
  subst chainId tickLower tickUpper sender poolId positionId providerId.
  destruct (modifyLiquidityHandler_effect getSqrtRatioAtTick event1 ctx pool token0 token1
              amounts1 Ham1 Hpool Hid Ht0 Ht1)
    as (ctx1 & Hexec1 & pool1 & tokenA & tokenB & lower1 & upper1 & position1 & provider1
        & (Hpools & Htokens & Hticks & Hpositions & Hproviders)
        & Hp & _ & Hl & Hu & Hpos & Hlp & _).
  destruct Hp as (HpId & Hpt0 & Hpt1 & Hptick & Hpprice & Hpg0 & Hpg1 & _).
  destruct Hl as (HlId & _ & _ & HlO0 & HlO1 & _).
  destruct Hu as (HuId & _ & _ & HuO0 & HuO1 & _).
  destruct Hpos as (HposId & _ & HposI0 & HposI1 & _).
  destruct Hlp as (HlpId & _).
  specialize (HlId HkT). specialize (HuId HkT).
  specialize (HposId HkP). specialize (HlpId HkL).
  assert (Context.Pool ctx1
            !! poolIdOf (EventMeta.chainId (ModifyLiquidityEvent.meta event2))
                 (ModifyLiquidityEvent.id event2) = Some pool1) as Hpool2
    by (rewrite Hchain, Hpid, Hpools, HpId; apply lookup_insert_eq).
  assert (Pool.id pool1
          = poolIdOf (EventMeta.chainId (ModifyLiquidityEvent.meta event2))
              (ModifyLiquidityEvent.id event2)) as Hid2
    by (rewrite Hchain, Hpid; exact HpId).
  assert (is_Some (Context.Token ctx1 !! Pool.token0_id pool1)) as [tokenC HtC]
    by (rewrite Hpt0, Htokens; do 2 apply lookup_insert_present; eexists; exact Ht0).
  assert (is_Some (Context.Token ctx1 !! Pool.token1_id pool1)) as [tokenD HtD]
    by (rewrite Hpt1, Htokens; do 2 apply lookup_insert_present; eexists; exact Ht1).
  assert (calculateTokenAmounts getSqrtRatioAtTick
            (ModifyLiquidityEvent.liquidityDelta event2)
            (ModifyLiquidityEvent.tickLower event2) (ModifyLiquidityEvent.tickUpper event2)
            (Pool.sqrtPriceX96 pool1) = Some amounts2) as Ham2'
    by (rewrite Hlow, Hup, Hpprice; exact Ham2).
  assert (keyedById Position.id (Context.Position ctx1)) as HkP1
    by (rewrite Hpositions; apply keyedById_insert; exact HkP).
  assert (keyedById LiquidityProvider.id (Context.LiquidityProvider ctx1)) as HkL1
    by (rewrite Hproviders; apply keyedById_insert; exact HkL).
  destruct (modifyLiquidityHandler_effect getSqrtRatioAtTick event2 ctx1 pool1 tokenC tokenD
              amounts2 Ham2' Hpool2 Hid2 HtC HtD)
    as (ctx2 & Hexec2 & pool2 & tokenE & tokenF & lower2 & upper2 & position2 & provider2
        & (_ & _ & _ & Hpositions2 & Hproviders2)
        & _ & _ & _ & _ & Hpos2 & Hlp2 & _).
  rewrite Hchain, Hpid, Hsender, Hlow, Hup in Hpos2, Hlp2.
  destruct Hpos2 as (HposId2 & _ & _ & _ & Hf0 & Hf1 & _).
  destruct Hlp2 as (HlpId2 & Hlf0 & Hlf1 & _).
  specialize (HposId2 HkP1). specialize (HlpId2 HkL1).
  assert (Context.Position ctx1
            !! positionIdOf
                 (poolIdOf (EventMeta.chainId (ModifyLiquidityEvent.meta event1))
                    (ModifyLiquidityEvent.id event1))
                 (ModifyLiquidityEvent.sender event1)
                 (ModifyLiquidityEvent.tickLower event1)
                 (ModifyLiquidityEvent.tickUpper event1) = Some position1) as HP1
    by (rewrite Hpositions, HposId; apply lookup_insert_eq).
  assert (Context.LiquidityProvider ctx1
            !! liquidityProviderIdOf (EventMeta.chainId (ModifyLiquidityEvent.meta event1))
                 (poolIdOf (EventMeta.chainId (ModifyLiquidityEvent.meta event1))
                    (ModifyLiquidityEvent.id event1))
                 (ModifyLiquidityEvent.sender event1) = Some provider1) as HL1
    by (rewrite Hproviders, HlpId; apply lookup_insert_eq).
  assert (forall field : Tick.t -> Z,
            field lower1
            = fieldOrZero field
                (Context.Tick ctx
                   !! tickIdOf
                        (poolIdOf (EventMeta.chainId (ModifyLiquidityEvent.meta event1))
                           (ModifyLiquidityEvent.id event1))
                        (ModifyLiquidityEvent.tickLower event1)) ->
            field upper1
            = fieldOrZero field
                (Context.Tick ctx
                   !! tickIdOf
                        (poolIdOf (EventMeta.chainId (ModifyLiquidityEvent.meta event1))
                           (ModifyLiquidityEvent.id event1))
                        (ModifyLiquidityEvent.tickUpper event1)) ->
            fieldOrZero field
              (Context.Tick ctx1
                 !! tickIdOf
                      (poolIdOf (EventMeta.chainId (ModifyLiquidityEvent.meta event1))
                         (ModifyLiquidityEvent.id event1))
                      (ModifyLiquidityEvent.tickLower event1))
            = field lower1
            /\ fieldOrZero field
                 (Context.Tick ctx1
                    !! tickIdOf
                         (poolIdOf (EventMeta.chainId (ModifyLiquidityEvent.meta event1))
                            (ModifyLiquidityEvent.id event1))
                         (ModifyLiquidityEvent.tickUpper event1))
               = field upper1) as Hsame.
  { intros field Hfl Hfu. rewrite Hticks, HlId, HuId.
    rewrite lookup_insert_eq.
    destruct (decide (ModifyLiquidityEvent.tickLower event1
                      = ModifyLiquidityEvent.tickUpper event1)) as [E | E].
    - rewrite E, lookup_insert_eq. cbn [fieldOrZero].
      split; [| reflexivity]. rewrite Hfl, Hfu, E. reflexivity.
    - rewrite lookup_insert_ne by (intros E'; apply E; symmetry; exact (tickIdOf_inj _ _ _ E')).
      rewrite lookup_insert_eq. split; reflexivity. }
  destruct (Hsame _ HlO0 HuO0) as [Hl0 Hu0].
  destruct (Hsame _ HlO1 HuO1) as [Hl1 Hu1].
  unfold liquidityProviderIdOf in *.
  rewrite HP1 in Hf0, Hf1, Hlf0, Hlf1. rewrite HL1 in Hlf0, Hlf1.
  cbn [fieldOrZero] in Hf0, Hf1, Hlf0, Hlf1.
  rewrite Hpg0, Hptick, Hl0, Hu0, HlO0, HuO0, <- HposI0, calculateAccruedFees_same
    in Hf0, Hlf0.
  rewrite Hpg1, Hptick, Hl1, Hu1, HlO1, HuO1, <- HposI1, calculateAccruedFees_same
    in Hf1, Hlf1.
  exists ctx1, ctx2, position1, position2, provider1, provider2.
  split; [exact Hexec1 |]. split; [exact Hexec2 |].
  split; [exact HP1 |].
  split; [rewrite Hpositions2, HposId2; apply lookup_insert_eq |].
  split; [exact HL1 |].
  split; [rewrite Hproviders2, HlpId2; apply lookup_insert_eq |].
  destruct (0 <? Position.liquidity position1); repeat split; lia.
Qed.

End ModifyLiquidityProcessed.

Lemma modify_updates_boundary_ticks_witness :
  exists ctx' lower' upper',
    exec (modifyLiquidityHandler TickMath.getSqrtRatioAtTick (exampleModify 1000)) swapStore
      = Some ctx'
    /\ Context.Tick ctx' !! tickIdOf (poolIdOf 1 "0xpool") (-60) = Some lower'
    /\ Context.Tick ctx' !! tickIdOf (poolIdOf 1 "0xpool") 60 = Some upper'
    /\ Tick.liquidityGross lower'
       = fieldOrZero Tick.liquidityGross
           (Context.Tick swapStore !! tickIdOf (poolIdOf 1 "0xpool") (-60)) + 1000
    /\ Tick.liquidityNet lower'
       = fieldOrZero Tick.liquidityNet
           (Context.Tick swapStore !! tickIdOf (poolIdOf 1 "0xpool") (-60)) + 1000
    /\ Tick.liquidityGross upper'
       = fieldOrZero Tick.liquidityGross
           (Context.Tick swapStore !! tickIdOf (poolIdOf 1 "0xpool") 60) + 1000
    /\ Tick.liquidityNet upper'
       = fieldOrZero Tick.liquidityNet
           (Context.Tick swapStore !! tickIdOf (poolIdOf 1 "0xpool") 60) - 1000
    /\ Tick.feeGrowthOutside0X128 lower'
       = fieldOrZero Tick.feeGrowthOutside0X128
           (Context.Tick swapStore !! tickIdOf (poolIdOf 1 "0xpool") (-60))
    /\ Tick.feeGrowthOutside1X128 lower'
       = fieldOrZero Tick.feeGrowthOutside1X128
           (Context.Tick swapStore !! tickIdOf (poolIdOf 1 "0xpool") (-60))
    /\ Tick.feeGrowthOutside0X128 upper'
       = fieldOrZero Tick.feeGrowthOutside0X128
           (Context.Tick swapStore !! tickIdOf (poolIdOf 1 "0xpool") 60)
    /\ Tick.feeGrowthOutside1X128 upper'
       = fieldOrZero Tick.feeGrowthOutside1X128
           (Context.Tick swapStore !! tickIdOf (poolIdOf 1 "0xpool") 60)
    /\ (forall k,
        k <> tickIdOf (poolIdOf 1 "0xpool") (-60) ->
        k <> tickIdOf (poolIdOf 1 "0xpool") 60 ->
        Context.Tick ctx' !! k = Context.Tick swapStore !! k).
Proof.
  apply (modify_updates_boundary_ticks TickMath.getSqrtRatioAtTick (exampleModify 1000)
           swapStore activePool (exampleToken "1_0xaaa" "AAA") (exampleToken "1_0xbbb" "BBB")
           (TokenAmounts.mk 2 2 2 2)).
  - vm_compute. reflexivity.
  - vm_compute. reflexivity.
  - reflexivity.
  - vm_compute. reflexivity.
  - vm_compute. reflexivity.
  - unfold swapStore. simpl_tables. cbn [Context.empty Context.Tick].
    do 2 apply keyedById_insert. apply keyedById_empty.
  - simpl. lia.
Defined.

(** Liquidity 1000 added over [-60, 60] to the example pool, whose tick is
    0, and the same over [60, 120], which does not contain the tick. *)
Example modify_in_and_out_of_range :
  (ctx1 ← exec (modifyLiquidityHandler TickMath.getSqrtRatioAtTick (exampleModify 1000))
            exampleStore;
   ctx2 ← exec (modifyLiquidityHandler TickMath.getSqrtRatioAtTick
                  {| ModifyLiquidityEvent.meta := exampleMeta 1;
                     ModifyLiquidityEvent.id := "0xpool";
                     ModifyLiquidityEvent.sender := "0xSender";
                     ModifyLiquidityEvent.tickLower := 60;
                     ModifyLiquidityEvent.tickUpper := 120;
                     ModifyLiquidityEvent.liquidityDelta := 1000 |}) ctx1;
   pool1 ← Context.Pool ctx1 !! "1_0xpool";
   pool2 ← Context.Pool ctx2 !! "1_0xpool";
   tick60 ← Context.Tick ctx2 !! "1_0xpool#60";
   Some (Pool.liquidity pool1, Pool.liquidity pool2, Pool.activePositionCount pool2,
         Tick.liquidityGross tick60, Tick.liquidityNet tick60))
  = Some (1000, 1000, 2, 2000, 0).
Proof. vm_compute. reflexivity. Qed.

Lemma modify_changes_liquidity_in_range_witness :
  exists ctx' pool',
    exec (modifyLiquidityHandler TickMath.getSqrtRatioAtTick (exampleModify 1000)) exampleStore
      = Some ctx'
    /\ Context.Pool ctx' !! poolIdOf 1 "0xpool" = Some pool'
    /\ (forall tick, Pool.tick examplePool = Some tick -> -60 <= tick < 60 ->
        Pool.liquidity pool' = Pool.liquidity examplePool + 1000)
    /\ (forall tick, Pool.tick examplePool = Some tick -> ~ (-60 <= tick < 60) ->
        Pool.liquidity pool' = Pool.liquidity examplePool)
    /\ (Pool.tick examplePool = None -> Pool.liquidity pool' = Pool.liquidity examplePool)
    /\ Pool.tvl0 pool' = Pool.tvl0 examplePool + 2
    /\ Pool.tvl1 pool' = Pool.tvl1 examplePool + 2
    /\ Pool.sqrtPriceX96 pool' = Pool.sqrtPriceX96 examplePool
    /\ Pool.tick pool' = Pool.tick examplePool
    /\ Pool.feeGrowthGlobal0X128 pool' = Pool.feeGrowthGlobal0X128 examplePool
    /\ Pool.feeGrowthGlobal1X128 pool' = Pool.feeGrowthGlobal1X128 examplePool.
Proof.
  apply (modify_changes_liquidity_in_range TickMath.getSqrtRatioAtTick (exampleModify 1000)
           exampleStore examplePool (exampleToken "1_0xaaa" "AAA")
           (exampleToken "1_0xbbb" "BBB") (TokenAmounts.mk 2 2 2 2)).
  - vm_compute. reflexivity.
  - vm_compute. reflexivity.
  - reflexivity.
  - vm_compute. reflexivity.
  - vm_compute. reflexivity.
Defined.

Lemma modify_counts_active_positions_witness :
  exists ctx' pool',
    exec (modifyLiquidityHandler TickMath.getSqrtRatioAtTick (exampleModify 1000)) exampleStore
      = Some ctx'
    /\ Context.Pool ctx' !! poolIdOf 1 "0xpool" = Some pool'
    /\ Pool.activePositionCount pool'
       = Pool.activePositionCount examplePool
         + (if 0 <? fieldOrZero Position.liquidity
                      (Context.Position exampleStore
                         !! positionIdOf (poolIdOf 1 "0xpool") "0xSender" (-60) 60) + 1000
            then 1 else 0)
         - (if 0 <? fieldOrZero Position.liquidity
                      (Context.Position exampleStore
                         !! positionIdOf (poolIdOf 1 "0xpool") "0xSender" (-60) 60)
            then 1 else 0)
    /\ Pool.positionCount pool'
       = Pool.positionCount examplePool
         + oneIfNew (Context.Position exampleStore
                       !! positionIdOf (poolIdOf 1 "0xpool") "0xSender" (-60) 60).
Proof.
  apply (modify_counts_active_positions TickMath.getSqrtRatioAtTick (exampleModify 1000)
           exampleStore examplePool (exampleToken "1_0xaaa" "AAA")
           (exampleToken "1_0xbbb" "BBB") (TokenAmounts.mk 2 2 2 2)).
  - vm_compute. reflexivity.
  - vm_compute. reflexivity.
  - reflexivity.
  - vm_compute. reflexivity.
  - vm_compute. reflexivity.
  - vm_compute. discriminate.
  - vm_compute. discriminate.
Defined.

Lemma modify_net_deposits_agree_witness :
  exists ctx' pool' position' provider',
    exec (modifyLiquidityHandler TickMath.getSqrtRatioAtTick (exampleModify 1000)) exampleStore
      = Some ctx'
    /\ Context.Pool ctx' !! poolIdOf 1 "0xpool" = Some pool'
    /\ Context.Position ctx' !! positionIdOf (poolIdOf 1 "0xpool") "0xSender" (-60) 60
       = Some position'
    /\ Context.LiquidityProvider ctx'
         !! liquidityProviderIdOf 1 (poolIdOf 1 "0xpool") "0xSender" = Some provider'
    /\ Pool.tvl0 pool' - Pool.tvl0 examplePool = 2
    /\ Pool.tvl1 pool' - Pool.tvl1 examplePool = 2
    /\ (Position.deposited0 position' - Position.withdrawn0 position')
       - (fieldOrZero Position.deposited0
            (Context.Position exampleStore
               !! positionIdOf (poolIdOf 1 "0xpool") "0xSender" (-60) 60)
          - fieldOrZero Position.withdrawn0
              (Context.Position exampleStore
                 !! positionIdOf (poolIdOf 1 "0xpool") "0xSender" (-60) 60))
       = 2
    /\ (Position.deposited1 position' - Position.withdrawn1 position')
       - (fieldOrZero Position.deposited1
            (Context.Position exampleStore
               !! positionIdOf (poolIdOf 1 "0xpool") "0xSender" (-60) 60)
          - fieldOrZero Position.withdrawn1
              (Context.Position exampleStore
                 !! positionIdOf (poolIdOf 1 "0xpool") "0xSender" (-60) 60))
       = 2
    /\ (LiquidityProvider.deposited0 provider' - LiquidityProvider.withdrawn0 provider')
       - (fieldOrZero LiquidityProvider.deposited0
            (Context.LiquidityProvider exampleStore
               !! liquidityProviderIdOf 1 (poolIdOf 1 "0xpool") "0xSender")
          - fieldOrZero LiquidityProvider.withdrawn0
              (Context.LiquidityProvider exampleStore
                 !! liquidityProviderIdOf 1 (poolIdOf 1 "0xpool") "0xSender"))
       = 2
    /\ (LiquidityProvider.deposited1 provider' - LiquidityProvider.withdrawn1 provider')
       - (fieldOrZero LiquidityProvider.deposited1
            (Context.LiquidityProvider exampleStore
               !! liquidityProviderIdOf 1 (poolIdOf 1 "0xpool") "0xSender")
          - fieldOrZero LiquidityProvider.withdrawn1
              (Context.LiquidityProvider exampleStore
                 !! liquidityProviderIdOf 1 (poolIdOf 1 "0xpool") "0xSender"))
       = 2.
Proof.
  apply (modify_net_deposits_agree TickMath.getSqrtRatioAtTick (exampleModify 1000)
           exampleStore examplePool (exampleToken "1_0xaaa" "AAA")
           (exampleToken "1_0xbbb" "BBB") (TokenAmounts.mk 2 2 2 2)).
  - vm_compute. reflexivity.
  - vm_compute. reflexivity.
  - reflexivity.
  - vm_compute. reflexivity.
  - vm_compute. reflexivity.
  - apply keyedById_empty.
  - apply keyedById_empty.
Defined.

Lemma modify_throws_without_price_witness :
  exec (modifyLiquidityHandler TickMath.getSqrtRatioAtTick exampleModifyOutOfRange)
    exampleStore = None.
Proof.
  apply (modify_throws_without_price TickMath.getSqrtRatioAtTick exampleModifyOutOfRange
           exampleStore examplePool (exampleToken "1_0xaaa" "AAA")
           (exampleToken "1_0xbbb" "BBB")).
  - vm_compute. reflexivity.
  - vm_compute. reflexivity.
  - vm_compute. reflexivity.
  - vm_compute. reflexivity.
Defined.

Lemma modify_twice_accrues_fees_once_witness :
  exists ctx1 ctx2 position1 position2 provider1 provider2,
    exec (modifyLiquidityHandler TickMath.getSqrtRatioAtTick (exampleModify 1000)) exampleStore
      = Some ctx1
    /\ exec (modifyLiquidityHandler TickMath.getSqrtRatioAtTick (exampleModify (-400))) ctx1
       = Some ctx2
    /\ Context.Position ctx1 !! positionIdOf (poolIdOf 1 "0xpool") "0xSender" (-60) 60
       = Some position1
    /\ Context.Position ctx2 !! positionIdOf (poolIdOf 1 "0xpool") "0xSender" (-60) 60
       = Some position2
    /\ Context.LiquidityProvider ctx1
         !! liquidityProviderIdOf 1 (poolIdOf 1 "0xpool") "0xSender" = Some provider1
    /\ Context.LiquidityProvider ctx2
         !! liquidityProviderIdOf 1 (poolIdOf 1 "0xpool") "0xSender" = Some provider2
    /\ Position.fees0 position2 = Position.fees0 position1
    /\ Position.fees1 position2 = Position.fees1 position1
    /\ LiquidityProvider.fees0 provider2 = LiquidityProvider.fees0 provider1
    /\ LiquidityProvider.fees1 provider2 = LiquidityProvider.fees1 provider1.
Proof.
  apply (modify_twice_accrues_fees_once TickMath.getSqrtRatioAtTick
           (exampleModify 1000) (exampleModify (-400))
           exampleStore examplePool (exampleToken "1_0xaaa" "AAA")
           (exampleToken "1_0xbbb" "BBB")
           (TokenAmounts.mk 2 2 2 2) (TokenAmounts.mk (-1) (-1) 1 1)).
  - reflexivity.
  - reflexivity.
  - reflexivity.
  - reflexivity.
  - reflexivity.
  - vm_compute. reflexivity.
  - vm_compute. reflexivity.
  - vm_compute. reflexivity.
  - reflexivity.
  - vm_compute. reflexivity.
  - vm_compute. reflexivity.
  - apply keyedById_empty.
  - apply keyedById_empty.
  - apply keyedById_empty.
Defined.

(** ** The Initialize handler *)

Section InitializeProperties.

Variable chains : list Chain.t.
Variable env : gmap string string.
Variable readName : PublicClient.t -> string -> option string.
Variable readSymbol : PublicClient.t -> string -> option string.
Variable readDecimals : PublicClient.t -> string -> option Z.

Lemma wp_getOrCreateToken (tokenId tokenAddress : string) (chainId : Z) (ctx : Context.t)
    (Q : Token.t -> Context.t -> Prop) :
  match Context.Token ctx !! tokenId with
  | Some token => Q token ctx
  | None =>
      Q (newToken (getTokenMetadataEffect chains env readName readSymbol readDecimals tokenAddress chainId) tokenId chainId)
        (Context.set_Token (newToken (getTokenMetadataEffect chains env readName readSymbol readDecimals tokenAddress chainId) tokenId chainId) ctx)
  end ->
  wp (getOrCreateToken chains env readName readSymbol readDecimals tokenId tokenAddress chainId) ctx Q.
Proof.
  intros H. cbv delta [getOrCreateToken]; cbv beta.
  apply wp_bind, wp_get; cbv beta.
  destruct (Context.Token ctx !! tokenId) as [token |]; repeat wp_step; exact H.
Qed.

(** The tables after an Initialize event. *)
Lemma initializeHandler_effect (event : InitializeEvent.t) (ctx : Context.t) :
  let meta := InitializeEvent.meta event in
  let chainId := EventMeta.chainId meta in
  let hooks := InitializeEvent.hooks event in
  let poolId := poolIdOf chainId (InitializeEvent.id event) in
  let token0Id := tokenIdOf chainId (InitializeEvent.currency0 event) in
  let token1Id := tokenIdOf chainId (InitializeEvent.currency1 event) in
  let token0 :=
    default (newToken (getTokenMetadataEffect chains env readName readSymbol readDecimals (InitializeEvent.currency0 event) chainId) token0Id chainId)
      (Context.Token ctx !! token0Id) in
  let tokens1 :=
    match Context.Token ctx !! token0Id with
    | Some _ => Context.Token ctx
    | None => <[token0Id := token0]> (Context.Token ctx)
    end in
  let token1 :=
    default (newToken (getTokenMetadataEffect chains env readName readSymbol readDecimals (InitializeEvent.currency1 event) chainId) token1Id chainId)
      (tokens1 !! token1Id) in
  let tokens2 :=
    match tokens1 !! token1Id with
    | Some _ => tokens1
    | None => <[token1Id := token1]> tokens1
    end in
  let oldStats := Context.HookStats ctx !! hookStatsIdOf chainId hooks in
  exists ctx',
    exec (initializeHandler chains env readName readSymbol readDecimals event) ctx = Some ctx'
    /\ exists pool',
    Context.Pool ctx' = <[poolId := pool']> (Context.Pool ctx)
    /\ Context.Token ctx'
       = <[Token.id token1 := withPoolCount (Token.poolCount token1 + 1) token1]>
           (<[Token.id token0 := withPoolCount (Token.poolCount token0 + 1) token0]> tokens2)
    /\ (if decide (hooks = ADDRESS_ZERO)
        then Context.HookStats ctx' = Context.HookStats ctx
        else exists stats',
            Context.HookStats ctx' = <[HookStats.id stats' := stats']> (Context.HookStats ctx)
            /\ HookStats.id stats'
               = match oldStats with
                 | Some stats => HookStats.id stats
                 | None => hookStatsIdOf chainId hooks
                 end
            /\ HookStats.poolCount stats' = fieldOrZero HookStats.poolCount oldStats + 1
            /\ HookStats.firstPoolCreatedAt stats'
               = match oldStats with
                 | Some stats => HookStats.firstPoolCreatedAt stats
                 | None => EventMeta.block_timestamp meta
                 end
            /\ HookStats.chainId stats'
               = match oldStats with
                 | Some stats => HookStats.chainId stats
                 | None => chainId
                 end
            /\ HookStats.swapCount stats' = fieldOrZero HookStats.swapCount oldStats
            /\ HookStats.volume0 stats' = fieldOrZero HookStats.volume0 oldStats
            /\ HookStats.volume1 stats' = fieldOrZero HookStats.volume1 oldStats
            /\ HookStats.fees0 stats' = fieldOrZero HookStats.fees0 oldStats
            /\ HookStats.fees1 stats' = fieldOrZero HookStats.fees1 oldStats
            /\ HookStats.tvl0 stats' = fieldOrZero HookStats.tvl0 oldStats
            /\ HookStats.tvl1 stats' = fieldOrZero HookStats.tvl1 oldStats)
    /\ (Context.Tick ctx' = Context.Tick ctx
        /\ Context.Position ctx' = Context.Position ctx
        /\ Context.LiquidityProvider ctx' = Context.LiquidityProvider ctx
        /\ Context.Transaction ctx' = Context.Transaction ctx
        /\ Context.Swap ctx' = Context.Swap ctx
        /\ Context.ModifyLiquidity ctx' = Context.ModifyLiquidity ctx
        /\ Context.TokenDayData ctx' = Context.TokenDayData ctx
        /\ Context.TokenHourData ctx' = Context.TokenHourData ctx)
    /\ pool'
       = {| Pool.id := poolId;
            Pool.chainId := chainId;
            Pool.poolId := InitializeEvent.id event;
            Pool.name := Token.symbol token0 +:+ "/" +:+ Token.symbol token1;
            Pool.createdAtTimestamp := EventMeta.block_timestamp meta;
            Pool.createdAtBlockNumber := EventMeta.block_number meta;
            Pool.token0_id := token0Id;
            Pool.token1_id := token1Id;
            Pool.feeTier := InitializeEvent.fee event;
            Pool.tickSpacing := InitializeEvent.tickSpacing event;
            Pool.hooks := hooks;
            Pool.liquidity := 0;
            Pool.sqrtPrice := InitializeEvent.sqrtPriceX96 event;
            Pool.sqrtPriceX96 := InitializeEvent.sqrtPriceX96 event;
            Pool.tick := Some (InitializeEvent.tick event);
            Pool.observationIndex := 0;
            Pool.feeGrowthGlobal0X128 := 0;
            Pool.feeGrowthGlobal1X128 := 0;
            Pool.volume0 := 0;
            Pool.volume1 := 0;
            Pool.fees0 := 0;
            Pool.fees1 := 0;
            Pool.tvl0 := 0;
            Pool.tvl1 := 0;
            Pool.txCount := 0;
            Pool.swapCount := 0;
            Pool.modifyLiquidityCount := 0;
            Pool.positionCount := 0;
            Pool.activePositionCount := 0;
            Pool.lpCount := 0 |}.
Proof.
  intros meta chainId hooks poolId token0Id token1Id token0 tokens1 token1 tokens2 oldStats.
  subst token0 tokens1 token1 tokens2 oldStats.
  unfold tokenIdOf, hookStatsIdOf in *.
  apply wp_exec. cbv delta [initializeHandler]; cbv beta.
  repeat wp_step. subst_lets.
  apply wp_bind, wp_getOrCreateToken.
  destruct (Context.Token ctx !! _) as [token0 |] eqn:Htoken0.
  all: cbn [from_option id].
  all: apply wp_bind, wp_getOrCreateToken; simpl_store; cbn [Token.id newToken].
  all: match goal with
       | |- match ?o with _ => _ end => destruct o as [token1 |] eqn:Htoken1
       end.
  all: cbn [from_option id].
  all: repeat wp_step.
  all: apply wp_bind.
  all: match goal with
       | |- context [decide (?h ≠ ?z)] => destruct (decide (h ≠ z)) as [Hhook | Hhook]
       end.
  all: try (apply wp_bind, wp_get; cbv beta; simpl_store;
            match goal with
            | |- context [Context.HookStats ?c !! ?k] =>
                destruct (Context.HookStats c !! k) as [stats |] eqn:Hstats
            end).
  all: repeat wp_auto.
  all: simpl_store; cbn [Token.id newToken].
  all: eexists.
  all: split; [reflexivity |].
  all: split; [reflexivity |].
  all: (split;
        [ destruct (decide (InitializeEvent.hooks event = ADDRESS_ZERO)) as [Hz | Hz];
          [ first [ reflexivity | contradiction ]
          | first [ eexists; split; [reflexivity |]; cbn [fieldOrZero]; repeat split
                  | exfalso; apply Hhook; exact Hz ] ]
        |]).
  all: split; [repeat split |].
  all: reflexivity.
Qed.

Lemma default_newToken_id (m : gmap string Token.t) (metadata : TokenMetadata.t)
    (tokenId : string) (chainId : Z) :
  keyedById Token.id m ->
  Token.id (default (newToken metadata tokenId chainId) (m !! tokenId)) = tokenId.
Proof.
  intros Hk. destruct (m !! tokenId) as [t |] eqn:E; [apply (Hk _ _ E) | reflexivity].
Qed.

Lemma keyedById_get_or_new (m : gmap string Token.t) (metadata : TokenMetadata.t)
    (tokenId : string) (chainId : Z) :
  keyedById Token.id m ->
  keyedById Token.id
    (match m !! tokenId with
     | Some _ => m
     | None => <[tokenId := newToken metadata tokenId chainId]> m
     end).
Proof.
  intros Hk. destruct (m !! tokenId); [exact Hk |].
  apply (keyedById_insert Token.id m (newToken metadata tokenId chainId)). exact Hk.
Qed.

Lemma withPoolCount_id (poolCount : Z) (token : Token.t) :
  Token.id (withPoolCount poolCount token) = Token.id token.
Proof. reflexivity. Qed.

(** X27.  For a Token table filed by id, the Initialize handler returns for
    every event and leaves the new pool in the store together with both of
    its tokens, so that the pool and token guards of the other handlers pass
    for it. The pool starts at the price and tick of the event with no
    liquidity and all its totals and counters at zero, also when a pool of
    that id was already in the store; no other pool and no tick, position or
    liquidity provider is touched. *)
Theorem initialize_registers_pool_with_tokens (event : InitializeEvent.t) (ctx : Context.t) :
  let chainId := EventMeta.chainId (InitializeEvent.meta event) in
  let poolId := poolIdOf chainId (InitializeEvent.id event) in
  keyedById Token.id (Context.Token ctx) ->
  exists ctx' pool' token0' token1',
    exec (initializeHandler chains env readName readSymbol readDecimals event) ctx = Some ctx'
    /\ Context.Pool ctx' !! poolId = Some pool'
    /\ Context.Token ctx' !! Pool.token0_id pool' = Some token0'
    /\ Context.Token ctx' !! Pool.token1_id pool' = Some token1'
    /\ Pool.id pool' = poolId
    /\ Pool.token0_id pool' = tokenIdOf chainId (InitializeEvent.currency0 event)
    /\ Pool.token1_id pool' = tokenIdOf chainId (InitializeEvent.currency1 event)
    /\ Pool.name pool' = Token.symbol token0' +:+ "/" +:+ Token.symbol token1'
    /\ Pool.sqrtPriceX96 pool' = InitializeEvent.sqrtPriceX96 event
    /\ Pool.tick pool' = Some (InitializeEvent.tick event)
    /\ Pool.feeTier pool' = InitializeEvent.fee event
    /\ Pool.tickSpacing pool' = InitializeEvent.tickSpacing event
    /\ Pool.hooks pool' = InitializeEvent.hooks event
    /\ Pool.liquidity pool' = 0
    /\ Pool.feeGrowthGlobal0X128 pool' = 0 /\ Pool.feeGrowthGlobal1X128 pool' = 0
    /\ Pool.volume0 pool' = 0 /\ Pool.volume1 pool' = 0
    /\ Pool.fees0 pool' = 0 /\ Pool.fees1 pool' = 0
    /\ Pool.tvl0 pool' = 0 /\ Pool.tvl1 pool' = 0
    /\ Pool.txCount pool' = 0 /\ Pool.swapCount pool' = 0
    /\ Pool.modifyLiquidityCount pool' = 0
    /\ Pool.positionCount pool' = 0 /\ Pool.activePositionCount pool' = 0
    /\ (forall k, k <> poolId -> Context.Pool ctx' !! k = Context.Pool ctx !! k)
    /\ Context.Tick ctx' = Context.Tick ctx
    /\ Context.Position ctx' = Context.Position ctx
    /\ Context.LiquidityProvider ctx' = Context.LiquidityProvider ctx.
Proof.
  intros chainId poolId Hkeyed. subst chainId poolId.
  destruct (initializeHandler_effect event ctx)
    as (ctx' & Hexec & pool' & Hpools & Htokens & _ & Hrest & ->).
  destruct Hrest as (Hticks & Hpositions & Hproviders & _).
  set (chainId := EventMeta.chainId (InitializeEvent.meta event)) in *.
  set (token0Id := tokenIdOf chainId (InitializeEvent.currency0 event)) in *.
  set (token1Id := tokenIdOf chainId (InitializeEvent.currency1 event)) in *.
  set (new0 := newToken _ token0Id chainId) in *.
  set (tokens1 := match Context.Token ctx !! token0Id with
                  | Some _ => Context.Token ctx
                  | None => <[token0Id := default new0 (Context.Token ctx !! token0Id)]>
                              (Context.Token ctx)
                  end) in *.
  set (new1 := newToken _ token1Id chainId) in *.
  set (token0 := default new0 (Context.Token ctx !! token0Id)) in *.
  set (token1 := default new1 (tokens1 !! token1Id)) in *.
  assert (Token.id token0 = token0Id) as Hid0 by (apply default_newToken_id; exact Hkeyed).
  assert (keyedById Token.id tokens1) as Hkeyed1.
  { subst tokens1 token0. destruct (Context.Token ctx !! token0Id) eqn:E; [exact Hkeyed |].
    apply (keyedById_insert Token.id (Context.Token ctx) new0). exact Hkeyed. }
  assert (Token.id token1 = token1Id) as Hid1 by (apply default_newToken_id; exact Hkeyed1).
  assert (token0Id = token1Id -> Token.symbol token1 = Token.symbol token0) as Hsame.
  { intros E. subst token1 tokens1 token0. rewrite <- E.
    destruct (Context.Token ctx !! token0Id) as [t |] eqn:E0.
    - rewrite E0. reflexivity.
    - rewrite lookup_insert_eq. reflexivity. }
  rewrite Hid0, Hid1 in Htokens.
  destruct (decide (token0Id = token1Id)) as [E | E].
  all: eexists ctx', _, _, _.
  all: (split; [exact Hexec |]).
  all: (split; [rewrite Hpools; apply lookup_insert_eq |]).
  all: cbn [Pool.id Pool.token0_id Pool.token1_id Pool.name Pool.sqrtPriceX96 Pool.tick
            Pool.feeTier Pool.tickSpacing Pool.hooks Pool.liquidity Pool.feeGrowthGlobal0X128
            Pool.feeGrowthGlobal1X128 Pool.volume0 Pool.volume1 Pool.fees0 Pool.fees1
            Pool.tvl0 Pool.tvl1 Pool.txCount Pool.swapCount Pool.modifyLiquidityCount
            Pool.positionCount Pool.activePositionCount].
  - split; [rewrite Htokens, E; apply lookup_insert_eq |].
    split; [rewrite Htokens; apply lookup_insert_eq |].
    do 3 (split; [reflexivity |]).
    split; [cbn [withPoolCount Token.symbol]; rewrite (Hsame E); reflexivity |].
    repeat (split; [reflexivity |]).
    split; [intros k Hk; rewrite Hpools; apply lookup_insert_ne; congruence |].
    repeat split; assumption.
  - split; [rewrite Htokens, lookup_insert_ne by congruence; apply lookup_insert_eq |].
    split; [rewrite Htokens; apply lookup_insert_eq |].
    repeat (split; [reflexivity |]).
    split; [intros k Hk; rewrite Hpools; apply lookup_insert_ne; congruence |].
    repeat split; assumption.
Qed.

(** X28.  For a Token table filed by id and two different currencies, an
    Initialize event leaves each of the two tokens with one pool more than
    before: a token that was in the store keeps every other field, whatever
    the chain says about it now; a token that was not is created from the
    metadata effect with all counters at zero and a pool count of one. Every
    other token is untouched. *)
Theorem initialize_counts_pools_per_token (event : InitializeEvent.t) (ctx : Context.t) :
  let chainId := EventMeta.chainId (InitializeEvent.meta event) in
  let token0Id := tokenIdOf chainId (InitializeEvent.currency0 event) in
  let token1Id := tokenIdOf chainId (InitializeEvent.currency1 event) in
  let metadata address :=
    getTokenMetadataEffect chains env readName readSymbol readDecimals address chainId in
  let result tokenId address :=
    match Context.Token ctx !! tokenId with
    | Some token => withPoolCount (Token.poolCount token + 1) token
    | None => withPoolCount 1 (newToken (metadata address) tokenId chainId)
    end in
  keyedById Token.id (Context.Token ctx) ->
  token0Id <> token1Id ->
  exists ctx',
    exec (initializeHandler chains env readName readSymbol readDecimals event) ctx = Some ctx'
    /\ Context.Token ctx' !! token0Id
       = Some (result token0Id (InitializeEvent.currency0 event))
    /\ Context.Token ctx' !! token1Id
       = Some (result token1Id (InitializeEvent.currency1 event))
    /\ (forall k, k <> token0Id -> k <> token1Id ->
        Context.Token ctx' !! k = Context.Token ctx !! k).
Proof.
  intros chainId token0Id token1Id metadata result Hkeyed Hne.
  subst metadata result.
  destruct (initializeHandler_effect event ctx)
    as (ctx' & Hexec & pool' & _ & Htokens & _).
  fold chainId in Htokens. fold token0Id token1Id in Htokens.
  exists ctx'. split; [exact Hexec |]. rewrite Htokens. clear Htokens Hexec.
  assert (forall t, Context.Token ctx !! token0Id = Some t -> Token.id t = token0Id) as Hid0
    by (intros t Ht; apply (Hkeyed _ _ Ht)).
  assert (forall t, Context.Token ctx !! token1Id = Some t -> Token.id t = token1Id) as Hid1
    by (intros t Ht; apply (Hkeyed _ _ Ht)).
  destruct (Context.Token ctx !! token0Id) as [t0 |] eqn:E0; cbn [from_option id].
  2: rewrite (lookup_insert_ne (Context.Token ctx) token0Id token1Id) by assumption.
  all: destruct (Context.Token ctx !! token1Id) as [t1 |] eqn:E1; cbn [from_option id].
  all: try rewrite (Hid0 _ eq_refl); try rewrite (Hid1 _ eq_refl).
  all: cbn [Token.id newToken Token.poolCount]; rewrite ?Z.add_0_l.
  all: (split; [| split; [| intros k H0 H1]]).
  all: repeat first [rewrite lookup_insert_eq | rewrite lookup_insert_ne by congruence].
  all: reflexivity.
Qed.

(** X29.  The statistics of a hook count its pools. An Initialize event
    without hook leaves the HookStats table alone. With a hook, and a table
    filed by id, the record of the hook on the event's chain has one pool
    more than before; it is created with the event's timestamp as
    [firstPoolCreatedAt] when the hook is new, and keeps that field and its
    swap statistics otherwise. No other record changes. *)
Theorem initialize_counts_pools_per_hook (event : InitializeEvent.t) (ctx : Context.t) :
  let meta := InitializeEvent.meta event in
  let chainId := EventMeta.chainId meta in
  let hooks := InitializeEvent.hooks event in
  let statsId := hookStatsIdOf chainId hooks in
  let oldStats := Context.HookStats ctx !! statsId in
  keyedById HookStats.id (Context.HookStats ctx) ->
  exists ctx',
    exec (initializeHandler chains env readName readSymbol readDecimals event) ctx = Some ctx'
    /\ (hooks = ADDRESS_ZERO -> Context.HookStats ctx' = Context.HookStats ctx)
    /\ (hooks <> ADDRESS_ZERO ->
        exists stats',
          Context.HookStats ctx' !! statsId = Some stats'
          /\ HookStats.id stats' = statsId
          /\ HookStats.poolCount stats' = fieldOrZero HookStats.poolCount oldStats + 1
          /\ HookStats.firstPoolCreatedAt stats'
             = match oldStats with
               | Some stats => HookStats.firstPoolCreatedAt stats
               | None => EventMeta.block_timestamp meta
               end
          /\ HookStats.swapCount stats' = fieldOrZero HookStats.swapCount oldStats
          /\ HookStats.volume0 stats' = fieldOrZero HookStats.volume0 oldStats
          /\ HookStats.volume1 stats' = fieldOrZero HookStats.volume1 oldStats
          /\ HookStats.fees0 stats' = fieldOrZero HookStats.fees0 oldStats
          /\ HookStats.fees1 stats' = fieldOrZero HookStats.fees1 oldStats
          /\ HookStats.tvl0 stats' = fieldOrZero HookStats.tvl0 oldStats
          /\ HookStats.tvl1 stats' = fieldOrZero HookStats.tvl1 oldStats
          /\ (forall k, k <> statsId ->
              Context.HookStats ctx' !! k = Context.HookStats ctx !! k)).
Proof.
  intros meta chainId hooks statsId oldStats Hkeyed.
  destruct (initializeHandler_effect event ctx)
    as (ctx' & Hexec & pool' & _ & _ & Hstats & _).
  fold meta chainId hooks statsId oldStats in Hstats.
  exists ctx'. split; [exact Hexec |].
  destruct (decide (hooks = ADDRESS_ZERO)) as [Hz | Hz].
  - split; [intros _; exact Hstats | intros H; contradiction].
  - split; [intros H; contradiction | intros _].
    destruct Hstats as (stats' & Htable & Hid & Hcount & Hfirst & _ & Hrest).
    assert (HookStats.id stats' = statsId) as Hid'.
    { rewrite Hid. subst oldStats.
      destruct (Context.HookStats ctx !! statsId) as [stats |] eqn:E; [| reflexivity].
      apply (Hkeyed _ _ E). }
    exists stats'. rewrite Htable, Hid'.
    split; [apply lookup_insert_eq |].
    split; [reflexivity |].
    split; [exact Hcount |].
    split; [exact Hfirst |].
    destruct Hrest as (H1 & H2 & H3 & H4 & H5 & H6 & H7).
    repeat (split; [assumption |]).
    intros k Hk. apply lookup_insert_ne. congruence.
Qed.

End InitializeProperties.

Lemma initialize_registers_pool_with_tokens_witness :
  exists ctx' pool' token0' token1',
    exec (initializeHandler exampleChains ∅ exampleReadName exampleReadSymbol
            exampleReadDecimals exampleInitialize) exampleStore = Some ctx'
    /\ Context.Pool ctx' !! poolIdOf 1 "0xpool" = Some pool'
    /\ Context.Token ctx' !! Pool.token0_id pool' = Some token0'
    /\ Context.Token ctx' !! Pool.token1_id pool' = Some token1'
    /\ Pool.id pool' = poolIdOf 1 "0xpool"
    /\ Pool.token0_id pool' = tokenIdOf 1 "0x0000000000000000000000000000000000000000"
    /\ Pool.token1_id pool' = tokenIdOf 1 "0xBBB"
    /\ Pool.name pool' = Token.symbol token0' +:+ "/" +:+ Token.symbol token1'
    /\ Pool.sqrtPriceX96 pool' = 2 ^ 96
    /\ Pool.tick pool' = Some 0
    /\ Pool.feeTier pool' = 3000
    /\ Pool.tickSpacing pool' = 60
    /\ Pool.hooks pool' = exampleHook
    /\ Pool.liquidity pool' = 0
    /\ Pool.feeGrowthGlobal0X128 pool' = 0 /\ Pool.feeGrowthGlobal1X128 pool' = 0
    /\ Pool.volume0 pool' = 0 /\ Pool.volume1 pool' = 0
    /\ Pool.fees0 pool' = 0 /\ Pool.fees1 pool' = 0
    /\ Pool.tvl0 pool' = 0 /\ Pool.tvl1 pool' = 0
    /\ Pool.txCount pool' = 0 /\ Pool.swapCount pool' = 0
    /\ Pool.modifyLiquidityCount pool' = 0
    /\ Pool.positionCount pool' = 0 /\ Pool.activePositionCount pool' = 0
    /\ (forall k, k <> poolIdOf 1 "0xpool" ->
        Context.Pool ctx' !! k = Context.Pool exampleStore !! k)
    /\ Context.Tick ctx' = Context.Tick exampleStore
    /\ Context.Position ctx' = Context.Position exampleStore
    /\ Context.LiquidityProvider ctx' = Context.LiquidityProvider exampleStore.
Proof.
  apply (initialize_registers_pool_with_tokens exampleChains ∅ exampleReadName
           exampleReadSymbol exampleReadDecimals exampleInitialize exampleStore).
  unfold exampleStore. simpl_tables. cbn [Context.empty Context.Token].
  do 2 apply keyedById_insert. apply keyedById_empty.
Defined.

Lemma initialize_counts_pools_per_token_witness :
  exists ctx',
    exec (initializeHandler exampleChains ∅ exampleReadName exampleReadSymbol
            exampleReadDecimals exampleInitialize) exampleStore = Some ctx'
    /\ Context.Token ctx' !! tokenIdOf 1 "0x0000000000000000000000000000000000000000"
       = Some
           match Context.Token exampleStore
                   !! tokenIdOf 1 "0x0000000000000000000000000000000000000000" with
           | Some token => withPoolCount (Token.poolCount token + 1) token
           | None =>
               withPoolCount 1
                 (newToken
                    (getTokenMetadataEffect exampleChains ∅ exampleReadName exampleReadSymbol
                       exampleReadDecimals "0x0000000000000000000000000000000000000000" 1)
                    (tokenIdOf 1 "0x0000000000000000000000000000000000000000") 1)
           end
    /\ Context.Token ctx' !! tokenIdOf 1 "0xBBB"
       = Some
           match Context.Token exampleStore !! tokenIdOf 1 "0xBBB" with
           | Some token => withPoolCount (Token.poolCount token + 1) token
           | None =>
               withPoolCount 1
                 (newToken
                    (getTokenMetadataEffect exampleChains ∅ exampleReadName exampleReadSymbol
                       exampleReadDecimals "0xBBB" 1)
                    (tokenIdOf 1 "0xBBB") 1)
           end
    /\ (forall k,
        k <> tokenIdOf 1 "0x0000000000000000000000000000000000000000" ->
        k <> tokenIdOf 1 "0xBBB" ->
        Context.Token ctx' !! k = Context.Token exampleStore !! k).
Proof.
  apply (initialize_counts_pools_per_token exampleChains ∅ exampleReadName
           exampleReadSymbol exampleReadDecimals exampleInitialize exampleStore).
  - unfold exampleStore. simpl_tables. cbn [Context.empty Context.Token].
    do 2 apply keyedById_insert. apply keyedById_empty.
  - vm_compute. discriminate.
Defined.

(** The example store after the example pool was created again: the
    native currency is a new token with one pool, the token BBB keeps its
    symbol and now has two pools, and the pool is named after both. *)
Example tokens_after_initialize :
  (ctx' ← exec (initializeHandler exampleChains ∅ exampleReadName exampleReadSymbol
                  exampleReadDecimals exampleInitialize) exampleStore;
   native ← Context.Token ctx' !! "1_0x0000000000000000000000000000000000000000";
   bbb ← Context.Token ctx' !! "1_0xbbb";
   pool ← Context.Pool ctx' !! "1_0xpool";
   Some (Token.symbol native, Token.decimals native, Token.poolCount native,
         Token.symbol bbb, Token.decimals bbb, Token.poolCount bbb,
         Pool.name pool, size (Context.Token ctx')))
  = Some ("ETH", 18, 1, "BBB", 18, 2, "ETH/BBB", 3%nat).
Proof. vm_compute. reflexivity. Qed.

Lemma initialize_counts_pools_per_hook_witness :
  exists ctx',
    exec (initializeHandler exampleChains ∅ exampleReadName exampleReadSymbol
            exampleReadDecimals exampleInitialize) hookedStore = Some ctx'
    /\ (exampleHook = ADDRESS_ZERO -> Context.HookStats ctx' = Context.HookStats hookedStore)
    /\ (exampleHook <> ADDRESS_ZERO ->
        exists stats',
          Context.HookStats ctx' !! hookStatsIdOf 1 exampleHook = Some stats'
          /\ HookStats.id stats' = hookStatsIdOf 1 exampleHook
          /\ HookStats.poolCount stats'
             = fieldOrZero HookStats.poolCount
                 (Context.HookStats hookedStore !! hookStatsIdOf 1 exampleHook) + 1
          /\ HookStats.firstPoolCreatedAt stats'
             = match Context.HookStats hookedStore !! hookStatsIdOf 1 exampleHook with
               | Some stats => HookStats.firstPoolCreatedAt stats
               | None => 1700000012
               end
          /\ HookStats.swapCount stats'
             = fieldOrZero HookStats.swapCount
                 (Context.HookStats hookedStore !! hookStatsIdOf 1 exampleHook)
          /\ HookStats.volume0 stats'
             = fieldOrZero HookStats.volume0
                 (Context.HookStats hookedStore !! hookStatsIdOf 1 exampleHook)
          /\ HookStats.volume1 stats'
             = fieldOrZero HookStats.volume1
                 (Context.HookStats hookedStore !! hookStatsIdOf 1 exampleHook)
          /\ HookStats.fees0 stats'
             = fieldOrZero HookStats.fees0
                 (Context.HookStats hookedStore !! hookStatsIdOf 1 exampleHook)
          /\ HookStats.fees1 stats'
             = fieldOrZero HookStats.fees1
                 (Context.HookStats hookedStore !! hookStatsIdOf 1 exampleHook)
          /\ HookStats.tvl0 stats'
             = fieldOrZero HookStats.tvl0
                 (Context.HookStats hookedStore !! hookStatsIdOf 1 exampleHook)
          /\ HookStats.tvl1 stats'
             = fieldOrZero HookStats.tvl1
                 (Context.HookStats hookedStore !! hookStatsIdOf 1 exampleHook)
          /\ (forall k, k <> hookStatsIdOf 1 exampleHook ->
              Context.HookStats ctx' !! k = Context.HookStats hookedStore !! k)).
Proof.
  apply (initialize_counts_pools_per_hook exampleChains ∅ exampleReadName
           exampleReadSymbol exampleReadDecimals exampleInitialize hookedStore).
  unfold hookedStore. simpl_tables. cbn [Context.HookStats exampleStore].
  simpl_tables. cbn [Context.empty Context.HookStats].
  apply keyedById_insert, keyedById_empty.
Defined.

(** ** The stores the indexer builds *)

Lemma poolConsistent_mono (tokens tokens' : gmap string Token.t) (key : string)
    (pool : Pool.t) :
  (forall k, is_Some (tokens !! k) -> is_Some (tokens' !! k)) ->
  poolConsistent tokens key pool -> poolConsistent tokens' key pool.
Proof.
  intros Hmono (Hid & H0 & H1 & Hcounts).
  split; [exact Hid |]. split; [apply Hmono, H0 |]. split; [apply Hmono, H1 |].
  exact Hcounts.
Qed.

(** A handler that rewrites one pool and its two tokens, keeping their ids
    and counting the event, keeps the store consistent. *)
Lemma storeConsistent_update (ctx ctx' : Context.t) (key : string) (pool pool' : Pool.t)
    (token0 token1 token0' token1' : Token.t) :
  storeConsistent ctx ->
  Context.Pool ctx !! key = Some pool ->
  Context.Pool ctx' = <[key := pool']> (Context.Pool ctx) ->
  Context.Token ctx'
  = <[Token.id token1' := token1']> (<[Token.id token0' := token0']> (Context.Token ctx)) ->
  Pool.id pool' = Pool.id pool ->
  Pool.token0_id pool' = Pool.token0_id pool ->
  Pool.token1_id pool' = Pool.token1_id pool ->
  Pool.swapCount pool <= Pool.swapCount pool' ->
  Pool.modifyLiquidityCount pool <= Pool.modifyLiquidityCount pool' ->
  Pool.swapCount pool' + Pool.modifyLiquidityCount pool' - Pool.txCount pool'
  <= Pool.swapCount pool + Pool.modifyLiquidityCount pool - Pool.txCount pool ->
  Pool.lpCount pool' = Pool.lpCount pool ->
  storeConsistent ctx'.
Proof.
  intros [Hkeyed Hpools] Hpool HP HT Hid Ht0 Ht1 Hs Hm Htx Hlp.
  assert (forall k, is_Some (Context.Token ctx !! k) -> is_Some (Context.Token ctx' !! k))
    as Hmono by (intros k Hk; rewrite HT; do 2 apply lookup_insert_present; exact Hk).
  split.
  - rewrite HT. do 2 apply keyedById_insert. exact Hkeyed.
  - rewrite HP. apply map_Forall_insert_2.
    + destruct (Hpools _ _ Hpool) as (Hid0 & H0 & H1 & Hs0 & Hm0 & Htx0 & Hlp0).
      split; [congruence |].
      split; [rewrite Ht0; apply Hmono, H0 |].
      split; [rewrite Ht1; apply Hmono, H1 |].
      repeat split; lia.
    + intros k p Hk. apply (poolConsistent_mono _ _ _ _ Hmono), (Hpools _ _ Hk).
Qed.

Lemma swapHandler_throws_with_scan
    (fuel : nat) (event : SwapEvent.t) (ctx : Context.t)
    (pool : Pool.t) (token0 token1 : Token.t) :
  let poolId := poolIdOf (EventMeta.chainId (SwapEvent.meta event)) (SwapEvent.id event) in
  Context.Pool ctx !! poolId = Some pool ->
  Context.Token ctx !! Pool.token0_id pool = Some token0 ->
  Context.Token ctx !! Pool.token1_id pool = Some token1 ->
  getInitializedTicksCrossed fuel poolId (tickOrZero (Pool.tick pool))
    (SwapEvent.tick event) (Pool.tickSpacing pool) ctx = None ->
  exec (swapHandler fuel event) ctx = None.
Proof.
  intros poolId Hpool Ht0 Ht1 Hscan.
  apply fails_exec. cbv delta [swapHandler]; cbv beta.
  repeat fails_step. subst_lets. rewrite Hpool.
  repeat fails_step. rewrite Ht0, Ht1.
  repeat fails_step.
  apply fails_bind. eapply wp_throws; [apply updateFeeGrowth_eq |].
  repeat fails_step.
  apply fails_bind. eapply wp_throws; [apply updateFeeGrowth_eq |].
  repeat fails_step. subst_lets.
  apply fails_now.
  match goal with
  | |- context [decide (?a ≠ ?b)] => destruct (decide (a ≠ b)) as [Hne | Heq]
  end.
  - apply fails_now, fails_reads.
    cbn [Pool.tickSpacing Pool.set_feeGrowthGlobal1X128 Pool.set_feeGrowthGlobal0X128].
    exact Hscan.
  - exfalso. unfold getInitializedTicksCrossed in Hscan.
    destruct (decide (SwapEvent.tick event = tickOrZero (Pool.tick pool))) as [E | E];
      [discriminate |].
    apply Heq. congruence.
Qed.

Lemma swapHandler_keeps_consistent (fuel : nat) (event : SwapEvent.t) (ctx ctx' : Context.t) :
  storeConsistent ctx ->
  exec (swapHandler fuel event) ctx = Some ctx' ->
  storeConsistent ctx'.
Proof.
  intros Hc Hexec.
  destruct (Context.Pool ctx
              !! poolIdOf (EventMeta.chainId (SwapEvent.meta event)) (SwapEvent.id event))
    as [pool |] eqn:Hpool.
  - destruct (proj2 Hc _ _ Hpool) as (Hid & [token0 Ht0] & [token1 Ht1] & Hcounts).
    destruct (getInitializedTicksCrossed fuel
                (poolIdOf (EventMeta.chainId (SwapEvent.meta event)) (SwapEvent.id event))
                (tickOrZero (Pool.tick pool)) (SwapEvent.tick event) (Pool.tickSpacing pool)
                ctx) as [crossed |] eqn:Hscan.
    + destruct (swapHandler_pool_and_tokens fuel event ctx pool token0 token1 Hpool Ht0 Ht1
                  (ex_intro _ crossed Hscan))
        as (ctx'' & Hexec' & pool' & token0' & token1' & HP & HT & -> & -> & ->).
      assert (ctx'' = ctx') as -> by congruence.
      rewrite Hid in HP.
      eapply (storeConsistent_update ctx ctx' _ pool _ token0 token1 _ _ Hc Hpool HP HT);
        cbn [Pool.id Pool.token0_id Pool.token1_id Pool.swapCount Pool.modifyLiquidityCount
             Pool.txCount Pool.lpCount]; first [reflexivity | lia | congruence].
    + rewrite (swapHandler_throws_with_scan fuel event ctx pool token0 token1
                 Hpool Ht0 Ht1 Hscan) in Hexec.
      discriminate.
  - rewrite swapHandler_drops in Hexec by (intros pool Hp; congruence).
    injection Hexec as <-. exact Hc.
Qed.

Lemma donateHandler_keeps_consistent (event : DonateEvent.t) (ctx ctx' : Context.t) :
  storeConsistent ctx ->
  exec (donateHandler event) ctx = Some ctx' ->
  storeConsistent ctx'.
Proof.
  intros Hc Hexec.
  destruct (Context.Pool ctx
              !! poolIdOf (EventMeta.chainId (DonateEvent.meta event)) (DonateEvent.id event))
    as [pool |] eqn:Hpool.
  - destruct (proj2 Hc _ _ Hpool) as (Hid & [token0 Ht0] & [token1 Ht1] & Hcounts).
    destruct (donateHandler_pool_and_tokens event ctx pool token0 token1 Hpool Ht0 Ht1)
      as (ctx'' & Hexec' & pool' & token0' & token1' & HP & HT & -> & -> & ->).
    assert (ctx'' = ctx') as -> by congruence.
    rewrite Hid in HP.
    eapply (storeConsistent_update ctx ctx' _ pool _ token0 token1 _ _ Hc Hpool HP HT);
      cbn [Pool.id Pool.token0_id Pool.token1_id Pool.swapCount Pool.modifyLiquidityCount
           Pool.txCount Pool.lpCount]; first [reflexivity | lia | congruence].
  - rewrite donateHandler_drops in Hexec by (intros pool Hp; congruence).
    injection Hexec as <-. exact Hc.
Qed.

Lemma modifyLiquidityHandler_keeps_consistent (getSqrtRatioAtTick : Z -> option Z)
    (event : ModifyLiquidityEvent.t) (ctx ctx' : Context.t) :
  storeConsistent ctx ->
  exec (modifyLiquidityHandler getSqrtRatioAtTick event) ctx = Some ctx' ->
  storeConsistent ctx'.
Proof.
  intros Hc Hexec.
  destruct (Context.Pool ctx
              !! poolIdOf (EventMeta.chainId (ModifyLiquidityEvent.meta event))
                   (ModifyLiquidityEvent.id event))
    as [pool |] eqn:Hpool.
  - destruct (proj2 Hc _ _ Hpool) as (Hid & [token0 Ht0] & [token1 Ht1] & Hcounts).
    destruct (calculateTokenAmounts getSqrtRatioAtTick
                (ModifyLiquidityEvent.liquidityDelta event)
                (ModifyLiquidityEvent.tickLower event) (ModifyLiquidityEvent.tickUpper event)
                (Pool.sqrtPriceX96 pool)) as [amounts |] eqn:Hamounts.
    + destruct (modifyLiquidityHandler_effect getSqrtRatioAtTick event ctx pool token0 token1
                  amounts Hamounts Hpool Hid Ht0 Ht1)
        as (ctx'' & Hexec' & pool' & token0' & token1' & lower' & upper' & position'
            & provider' & (HP & HT & _) & Hp & (HtA & HtB) & _ & _ & _ & _ & Hlp).
      assert (ctx'' = ctx') as -> by congruence.
      destruct Hp as (HpId & Hp0 & Hp1 & _ & _ & _ & _ & _ & _ & _ & Htx & Hm & Hs & _).
      rewrite HpId in HP.
      eapply (storeConsistent_update ctx ctx' _ pool pool' token0 token1 token0' token1'
                Hc Hpool HP HT); first [congruence | lia].
    + assert (exec (modifyLiquidityHandler getSqrtRatioAtTick event) ctx = None) as Hnone
        by (modify_throws Hamounts Hpool Ht0 Ht1).
      congruence.
  - rewrite modifyLiquidityHandler_drops in Hexec by (intros pool Hp; congruence).
    injection Hexec as <-. exact Hc.
Qed.

Lemma initializeHandler_keeps_consistent
    (chains : list Chain.t) (env : gmap string string)
    (readName readSymbol : PublicClient.t -> string -> option string)
    (readDecimals : PublicClient.t -> string -> option Z)
    (event : InitializeEvent.t) (ctx ctx' : Context.t) :
  storeConsistent ctx ->
  exec (initializeHandler chains env readName readSymbol readDecimals event) ctx = Some ctx' ->
  storeConsistent ctx'.
Proof.
  intros [Hkeyed Hpools] Hexec.
  destruct (initializeHandler_effect chains env readName readSymbol readDecimals event ctx)
    as (ctx'' & Hexec' & pool' & HP & HT & _ & _ & ->).
  assert (ctx'' = ctx') as -> by congruence. clear Hexec Hexec'.
  set (chainId := EventMeta.chainId (InitializeEvent.meta event)) in *.
  set (token0Id := tokenIdOf chainId (InitializeEvent.currency0 event)) in *.
  set (token1Id := tokenIdOf chainId (InitializeEvent.currency1 event)) in *.
  set (new0 := newToken _ token0Id chainId) in *.
  set (tokens1 := match Context.Token ctx !! token0Id with
                  | Some _ => Context.Token ctx
                  | None => <[token0Id := default new0 (Context.Token ctx !! token0Id)]>
                              (Context.Token ctx)
                  end) in *.
  set (new1 := newToken _ token1Id chainId) in *.
  set (token0 := default new0 (Context.Token ctx !! token0Id)) in *.
  set (token1 := default new1 (tokens1 !! token1Id)) in *.
  set (tokens2 := match tokens1 !! token1Id with
                  | Some _ => tokens1
                  | None => <[token1Id := token1]> tokens1
                  end) in *.
  assert (Token.id token0 = token0Id) as Hid0 by (apply default_newToken_id; exact Hkeyed).
  assert (keyedById Token.id tokens1) as Hkeyed1.
  { subst tokens1 token0. destruct (Context.Token ctx !! token0Id) eqn:E; [exact Hkeyed |].
    apply (keyedById_insert Token.id (Context.Token ctx) new0). exact Hkeyed. }
  assert (Token.id token1 = token1Id) as Hid1 by (apply default_newToken_id; exact Hkeyed1).
  assert (keyedById Token.id tokens2) as Hkeyed2.
  { subst tokens2 token1. destruct (tokens1 !! token1Id) eqn:E; [exact Hkeyed1 |].
    apply (keyedById_insert Token.id tokens1 new1). exact Hkeyed1. }
  assert (forall k, is_Some (Context.Token ctx !! k) -> is_Some (Context.Token ctx' !! k))
    as Hmono.
  { intros k Hk. rewrite HT. do 2 apply lookup_insert_present.
    subst tokens2. destruct (tokens1 !! token1Id); [| apply lookup_insert_present].
    all: subst tokens1; destruct (Context.Token ctx !! token0Id);
      [| apply lookup_insert_present]; exact Hk. }
  split.
  - rewrite HT.
    apply (keyedById_insert Token.id _ (withPoolCount (Token.poolCount token1 + 1) token1)).
    apply (keyedById_insert Token.id _ (withPoolCount (Token.poolCount token0 + 1) token0)).
    exact Hkeyed2.
  - rewrite HP. apply map_Forall_insert_2.
    + split; [reflexivity |].
      cbn [Pool.token0_id Pool.token1_id Pool.swapCount Pool.modifyLiquidityCount
           Pool.txCount Pool.lpCount].
      rewrite HT, Hid0, Hid1.
      split; [| split; [| repeat split; lia]].
      * destruct (decide (token1Id = token0Id)) as [-> | Hne].
        -- rewrite lookup_insert_eq. eexists. reflexivity.
        -- rewrite lookup_insert_ne, lookup_insert_eq by assumption. eexists. reflexivity.
      * rewrite lookup_insert_eq. eexists. reflexivity.
    + intros k p Hk. apply (poolConsistent_mono _ _ _ _ Hmono), (Hpools _ _ Hk).
Qed.

Section IndexerRuns.

Variable chains : list Chain.t.
Variable env : gmap string string.
Variable readName : PublicClient.t -> string -> option string.
Variable readSymbol : PublicClient.t -> string -> option string.
Variable readDecimals : PublicClient.t -> string -> option Z.
Variable getSqrtRatioAtTick : Z -> option Z.
Variable fuel : nat.

Lemma runIndexer_keeps_consistent (events : list Event) :
  forall ctx ctx',
  storeConsistent ctx ->
  runIndexer chains env readName readSymbol readDecimals getSqrtRatioAtTick fuel events ctx
    = Some ctx' ->
  storeConsistent ctx'.
Proof.
  induction events as [| event events IH]; intros ctx ctx' Hc Hrun; simpl in Hrun.
  - injection Hrun as <-. exact Hc.
  - destruct (handleEvent chains env readName readSymbol readDecimals getSqrtRatioAtTick
                fuel event ctx) as [ctx1 |] eqn:Hstep; [| discriminate].
    simpl in Hrun. apply (IH ctx1 ctx'); [| exact Hrun].
    destruct event as [e | e | e | e]; simpl in Hstep.
    + exact (initializeHandler_keeps_consistent _ _ _ _ _ _ _ _ Hc Hstep).
    + exact (modifyLiquidityHandler_keeps_consistent _ _ _ _ Hc Hstep).
    + exact (swapHandler_keeps_consistent _ _ _ _ Hc Hstep).
    + exact (donateHandler_keeps_consistent _ _ _ Hc Hstep).
Qed.

(** X30.  In every store the indexer builds from the empty store, whatever
    the events were: tokens are filed under their ids, and every pool is
    filed under its id, has both of its tokens in the store, and has a
    transaction counter that covers its swaps and liquidity changes. So the
    check for an unknown token in the Swap, ModifyLiquidity and Donate
    handlers never fires on such a store. The pool's counter of liquidity
    providers, which no handler raises, is still zero. *)
Theorem indexed_pools_are_consistent (events : list Event) (ctx : Context.t) :
  runIndexer chains env readName readSymbol readDecimals getSqrtRatioAtTick fuel
    events Context.empty = Some ctx ->
  keyedById Token.id (Context.Token ctx)
  /\ forall key pool,
      Context.Pool ctx !! key = Some pool ->
      Pool.id pool = key
      /\ is_Some (Context.Token ctx !! Pool.token0_id pool)
      /\ is_Some (Context.Token ctx !! Pool.token1_id pool)
      /\ 0 <= Pool.swapCount pool
      /\ 0 <= Pool.modifyLiquidityCount pool
      /\ Pool.swapCount pool + Pool.modifyLiquidityCount pool <= Pool.txCount pool
      /\ Pool.lpCount pool = 0.
Proof.
  intros Hrun.
  assert (storeConsistent Context.empty) as Hempty.
  { split; [apply keyedById_empty |]. intros k p Hk.
    cbn [Context.empty Context.Pool] in Hk. rewrite lookup_empty in Hk. discriminate. }
  destruct (runIndexer_keeps_consistent events _ _ Hempty Hrun) as [Hkeyed Hpools].
  split; [exact Hkeyed |]. intros key pool Hpool. exact (Hpools _ _ Hpool).
Qed.

End IndexerRuns.

Lemma indexed_pools_are_consistent_witness :
  keyedById Token.id (Context.Token exampleIndexed)
  /\ forall key pool,
      Context.Pool exampleIndexed !! key = Some pool ->
      Pool.id pool = key
      /\ is_Some (Context.Token exampleIndexed !! Pool.token0_id pool)
      /\ is_Some (Context.Token exampleIndexed !! Pool.token1_id pool)
      /\ 0 <= Pool.swapCount pool
      /\ 0 <= Pool.modifyLiquidityCount pool
      /\ Pool.swapCount pool + Pool.modifyLiquidityCount pool <= Pool.txCount pool
      /\ Pool.lpCount pool = 0.
Proof.
  apply (indexed_pools_are_consistent exampleChains ∅ exampleReadName exampleReadSymbol
           exampleReadDecimals TickMath.getSqrtRatioAtTick 400 exampleEvents exampleIndexed).
  vm_compute. reflexivity.
Defined.

(** The example pool after the four example events. *)
Example indexed_example_pool :
  (pool ← Context.Pool exampleIndexed !! "1_0xpool";
   Some (Pool.name pool, Pool.txCount pool, Pool.swapCount pool,
         Pool.modifyLiquidityCount pool, Pool.liquidity pool, Pool.tick pool,
         size (Context.Token exampleIndexed), size (Context.Position exampleIndexed),
         size (Context.HookStats exampleIndexed)))
  = Some ("ETH/BBB", 3, 1, 1, 0, Some 120, 2%nat, 1%nat, 1%nat).
Proof. vm_compute. reflexivity. Qed.

